(** * Shadowing file system (sfs_api.c): shallow embedding and properties

    The C program keeps one in-memory image of the file system
    ([file_system]), an open-file table ([open_file_table]) and an
    enumeration cursor ([gnfni]) as process globals, and talks to a block
    device.  The embedding threads them explicitly through every function.

    Conventions of the embedding:
    - C [int], [int32_t] and [uint32_t] values are integers of [Z].  The
      program does no arithmetic on block pointers; the only arithmetic on
      a stored value is [size += 1], whose signed overflow is undefined in C.
      [/] and [%] are C's truncating [Z.quot] and [Z.rem].
    - A fixed-size C array is a list of the declared length; [at_Z] and
      [upd_Z] are the indexing and the indexed store.  An index outside the
      array is undefined behaviour in C: the store is then a no-op and the
      load yields the default, except in [seek_block], where the load
      decides the result and is reported as [None].
    - A C string is the [string] of its characters before the terminator.
      A [name[MAX_NAME_LENGTH+1]] field is the string it holds.
    - A block of the device is a list of byte values. *)

From stdpp Require Import base numbers list gmap strings.
From Stdlib Require Import ZArith Lia Ascii.

Open Scope Z_scope.

(** ** Geometry (the #define block) *)

Definition MAGIC_NUMBER : Z := 0xACBD0005.
Definition NUMBER_OF_BYTES_BLOCK : Z := 1024.
Definition NUMBER_OF_BLOCKS : Z := 1024.
Definition NUMBER_OF_POINTERS : Z := 14.
Definition NODE_SIZE : Z := (NUMBER_OF_POINTERS + 2) * 4.
Definition NUMBER_OF_I_NODES : Z := 200.
Definition MAX_NODE_IN_BLOCK : Z := NUMBER_OF_BYTES_BLOCK ÷ NODE_SIZE.
Definition BLOCKS_I_NODE_FILE : Z :=
  (NUMBER_OF_I_NODES ÷ MAX_NODE_IN_BLOCK)
  + (if Z.rem NUMBER_OF_I_NODES MAX_NODE_IN_BLOCK =? 0 then 0 else 1).
(** [sizeof(struct s_node)]: sixteen 4-byte fields, no padding. *)
Definition sizeof_s_node : Z := NODE_SIZE.
Definition NUMBER_OF_J_NODES : Z := (NUMBER_OF_BYTES_BLOCK - 4 * 4) ÷ sizeof_s_node.
Definition MAX_NAME_LENGTH : Z := 20.
(** [sizeof(struct s_dir_entry)]: 21 name bytes, 3 bytes of padding that
    align the [uint32_t], and the 4-byte i-node number. *)
Definition sizeof_s_dir_entry : Z := 28.
Definition MAX_FILES : Z := NUMBER_OF_BYTES_BLOCK ÷ sizeof_s_dir_entry.
Definition MAX_DIRS_INCL_SHAD : Z := 5.
Definition MAX_FD : Z := 32.
Definition FIRST_DATA_BLOCK : Z := 1 + BLOCKS_I_NODE_FILE.
Definition LAST_DATA_BLOCK : Z := NUMBER_OF_BLOCKS - 1 - 2 - MAX_DIRS_INCL_SHAD.
(** [sizeof(ptr_t)] is 4. *)
Definition POINTERS_IND_BLOCK : Z := NUMBER_OF_BYTES_BLOCK ÷ 4.

(** ** Arrays *)

Definition at_Z {A} (d : A) (l : list A) (i : Z) : A :=
  if i <? 0 then d else default d (l !! Z.to_nat i).

Definition upd_Z {A} (l : list A) (i : Z) (x : A) : list A :=
  if i <? 0 then l else <[Z.to_nat i := x]> l.

(** ** File system structures *)

Record s_node := mk_node {
  size : Z;
  pointer : list Z;
  ind_pointer : Z
}.

Record s_super_block := mk_super_block {
  magic : Z;
  block_size : Z;
  num_blocks : Z;
  num_i_nodes : Z;
  j_node : list s_node
}.

Record s_dir_entry := mk_dir_entry {
  name : string;
  i_node_number : Z
}.

Record s_file_system := mk_file_system {
  super_block : s_super_block;
  i_node_file : list (list s_node);
  directory : list (list s_dir_entry);
  free_bit_map : list Z;
  write_mask : list Z
}.

Record s_file_pointer := mk_file_pointer {
  block : Z;
  c_ptr : Z
}.

Record s_fd := mk_fd {
  entry : s_dir_entry;
  read_pointer : s_file_pointer;
  write_pointer : s_file_pointer
}.

(** The globals of the program and the device: [file_system],
    [open_file_table], the blocks of the emulated disk, and [gnfni], the
    cursor of [ssfs_get_next_file_name]. *)
Record sfs_state := mk_state {
  file_system : s_file_system;
  open_file_table : list s_fd;
  disk : gmap Z (list Z);
  gnfni : Z
}.

Definition with_fs (st : sfs_state) (fs : s_file_system) : sfs_state :=
  mk_state fs (open_file_table st) (disk st) (gnfni st).
Definition with_table (st : sfs_state) (t : list s_fd) : sfs_state :=
  mk_state (file_system st) t (disk st) (gnfni st).
Definition with_disk (st : sfs_state) (d : gmap Z (list Z)) : sfs_state :=
  mk_state (file_system st) (open_file_table st) d (gnfni st).
Definition with_gnfni (st : sfs_state) (g : Z) : sfs_state :=
  mk_state (file_system st) (open_file_table st) (disk st) g.

Definition with_i_node_file (fs : s_file_system) (f : list (list s_node)) : s_file_system :=
  mk_file_system (super_block fs) f (directory fs) (free_bit_map fs) (write_mask fs).
Definition with_directory (fs : s_file_system) (d : list (list s_dir_entry)) : s_file_system :=
  mk_file_system (super_block fs) (i_node_file fs) d (free_bit_map fs) (write_mask fs).
Definition with_free_bit_map (fs : s_file_system) (m : list Z) : s_file_system :=
  mk_file_system (super_block fs) (i_node_file fs) (directory fs) m (write_mask fs).
Definition with_write_mask (fs : s_file_system) (m : list Z) : s_file_system :=
  mk_file_system (super_block fs) (i_node_file fs) (directory fs) (free_bit_map fs) m.

(** ** Bit maps *)

(** The stores go through a [uint8_t]: the result is cut to 8 bits. *)
Definition set_bit (block_group index : Z) : Z :=
  Z.land (Z.lor block_group (Z.shiftl 1 index)) 255.

Definition clr_bit (block_group index : Z) : Z :=
  Z.land (Z.land block_group (Z.lnot (Z.shiftl 1 index))) 255.

Definition get_bit (block_group index : Z) : Z :=
  Z.land (Z.shiftr block_group index) 1.

Definition set_bit_map (map : list Z) (blk : Z) : list Z :=
  upd_Z map (blk ÷ 8) (set_bit (at_Z 0 map (blk ÷ 8)) (Z.rem blk 8)).

Definition clr_bit_map (map : list Z) (blk : Z) : list Z :=
  upd_Z map (blk ÷ 8) (clr_bit (at_Z 0 map (blk ÷ 8)) (Z.rem blk 8)).

Definition get_bit_map (map : list Z) (blk : Z) : Z :=
  get_bit (at_Z 0 map (blk ÷ 8)) (Z.rem blk 8).

(** ** Loops with an early exit *)

(** [for (i = i0; i < i0 + n; i++) if (p i) ...return...;]: the first index
    at which the test succeeds, [None] when the loop runs to its end. *)
Fixpoint first_index (p : Z -> bool) (i : Z) (n : nat) : option Z :=
  match n with
  | O => None
  | S n' => if p i then Some i else first_index p (i + 1) n'
  end.

(** ** Allocation of a data block *)

Definition get_free_block (fs : s_file_system) : Z * s_file_system :=
  match first_index (fun i => negb (get_bit_map (free_bit_map fs) i =? 0))
          FIRST_DATA_BLOCK (Z.to_nat (LAST_DATA_BLOCK + 1 - FIRST_DATA_BLOCK)) with
  | Some i => (i, with_free_bit_map fs (clr_bit_map (free_bit_map fs) i))
  | None => (-1, fs)
  end.

(** ** C strings *)

Definition char_code (ch : ascii) : Z := Z.of_N (Ascii.N_of_ascii ch).

(** [strncmp]: the C standard fixes only the sign of the result. *)
Fixpoint strncmp (s1 s2 : string) (n : nat) : Z :=
  match n with
  | O => 0
  | S n' =>
      match s1, s2 with
      | EmptyString, EmptyString => 0
      | EmptyString, String _ _ => -1
      | String _ _, EmptyString => 1
      | String c1 r1, String c2 r2 =>
          if decide (c1 = c2) then strncmp r1 r2 n'
          else if char_code c1 <? char_code c2 then -1 else 1
      end
  end.

(** [strncpy(dst, src, n)] into a field of [n+1] characters whose last one
    is the terminator: the field then holds the first [n] characters of
    [src] (all of it when it is shorter; the rest is filled with
    terminators). *)
Fixpoint strncpy (src : string) (n : nat) : string :=
  match n with
  | O => EmptyString
  | S n' =>
      match src with
      | EmptyString => EmptyString
      | String ch r => String ch (strncpy r n')
      end
  end.

Definition strlen (s : string) : Z := Z.of_nat (String.length s).

(** [name[0] == '\0'] *)
Definition name_empty (s : string) : bool :=
  match s with EmptyString => true | String _ _ => false end.

(** [!strncmp(a, b, MAX_NAME_LENGTH)] *)
Definition same_name (a b : string) : bool :=
  strncmp a b (Z.to_nat MAX_NAME_LENGTH) =? 0.

(** ** Init functions *)

Definition init_node : s_node :=
  mk_node (-1) (replicate (Z.to_nat NUMBER_OF_POINTERS) 0) 0.

Definition init_node_block : list s_node :=
  replicate (Z.to_nat MAX_NODE_IN_BLOCK) init_node.

Definition init_node_file : list (list s_node) :=
  replicate (Z.to_nat BLOCKS_I_NODE_FILE) init_node_block.

(** [block_size] is never assigned; the global starts zeroed. *)
Definition init_super_block : s_super_block :=
  let root :=
    mk_node (sizeof_s_node * NUMBER_OF_I_NODES)
      (foldl (fun p j => upd_Z p j (j + 1)) (pointer init_node)
         (seqZ 0 BLOCKS_I_NODE_FILE))
      (ind_pointer init_node) in
  mk_super_block MAGIC_NUMBER 0 NUMBER_OF_BLOCKS NUMBER_OF_I_NODES
    (foldl (fun js i => upd_Z js i root)
       (replicate (Z.to_nat NUMBER_OF_J_NODES) init_node)
       (seqZ 0 MAX_DIRS_INCL_SHAD)).

(** [sizeof(bit_map->block_group)] *)
Definition sizeof_block_group : Z :=
  NUMBER_OF_BLOCKS ÷ 8 + (if Z.rem NUMBER_OF_BLOCKS 8 =? 0 then 0 else 1).

Definition init_map : list Z := replicate (Z.to_nat sizeof_block_group) 0xff.

Definition init_ind_node_block : list Z :=
  replicate (Z.to_nat POINTERS_IND_BLOCK) 0.

Definition init_data_block : list Z :=
  replicate (Z.to_nat NUMBER_OF_BYTES_BLOCK) 0.

Definition init_dir_entry : s_dir_entry := mk_dir_entry EmptyString 0.

Definition init_dir : list s_dir_entry :=
  replicate (Z.to_nat MAX_FILES) init_dir_entry.

Definition get_i_node (fs : s_file_system) (i_block i_node : Z) : s_node :=
  at_Z init_node (at_Z [] (i_node_file fs) i_block) i_node.

Definition set_i_node (fs : s_file_system) (i_block i_node : Z) (nd : s_node) : s_file_system :=
  with_i_node_file fs
    (upd_Z (i_node_file fs) i_block
       (upd_Z (at_Z [] (i_node_file fs) i_block) i_node nd)).

Definition clr_both (fs : s_file_system) (i : Z) : s_file_system :=
  with_write_mask (with_free_bit_map fs (clr_bit_map (free_bit_map fs) i))
    (clr_bit_map (write_mask fs) i).

Definition init_file_system : s_file_system :=
  let fs0 :=
    mk_file_system init_super_block init_node_file
      (replicate (Z.to_nat MAX_DIRS_INCL_SHAD) init_dir) init_map init_map in
  let fs1 :=
    foldl (fun fs i =>
             set_i_node fs 0 i
               (mk_node 0
                  (upd_Z (pointer (get_i_node fs 0 i)) 0 (NUMBER_OF_BLOCKS - 2 - (i + 1)))
                  (ind_pointer (get_i_node fs 0 i))))
      fs0 (seqZ 0 MAX_DIRS_INCL_SHAD) in
  let fs2 := foldl clr_both fs1 (seqZ 0 (BLOCKS_I_NODE_FILE + 1)) in
  foldl clr_both fs2
    (reverse (seqZ (NUMBER_OF_BLOCKS - 2 - (MAX_DIRS_INCL_SHAD + 1))
                (MAX_DIRS_INCL_SHAD + 3))).

Definition init_file_pointer : s_file_pointer := mk_file_pointer 0 0.

Definition init_fd : s_fd := mk_fd init_dir_entry init_file_pointer init_file_pointer.

Definition init_open_file_table : list s_fd := replicate (Z.to_nat MAX_FD) init_fd.

(** ** Miscellaneous functions *)

Definition node_number_to_block (i_node_number : Z) : Z :=
  i_node_number ÷ MAX_NODE_IN_BLOCK.

Definition node_number_to_node_in_block (i_node_number : Z) : Z :=
  Z.rem i_node_number MAX_NODE_IN_BLOCK.

Definition node_of (fs : s_file_system) (i_node_number : Z) : s_node :=
  get_i_node fs (node_number_to_block i_node_number)
    (node_number_to_node_in_block i_node_number).

Definition set_node_of (fs : s_file_system) (i_node_number : Z) (nd : s_node) : s_file_system :=
  set_i_node fs (node_number_to_block i_node_number)
    (node_number_to_node_in_block i_node_number) nd.

Definition dir_entry (fs : s_file_system) (shadow i : Z) : s_dir_entry :=
  at_Z init_dir_entry (at_Z [] (directory fs) shadow) i.

Definition set_dir_entry (fs : s_file_system) (shadow i : Z) (e : s_dir_entry) : s_file_system :=
  with_directory fs
    (upd_Z (directory fs) shadow (upd_Z (at_Z [] (directory fs) shadow) i e)).

Definition fd_at (t : list s_fd) (i : Z) : s_fd := at_Z init_fd t i.

(** ** Block device *)

(** Modelled from the spec: the block device emulator behind [disk_emu.h]
    ([init_fresh_disk], [read_blocks], [write_blocks]), of which the program
    has only the declarations.  It is an array of [NUMBER_OF_BLOCKS] blocks
    of [NUMBER_OF_BYTES_BLOCK] bytes, zero-filled when fresh; a request that
    leaves the device fails with -1 and transfers nothing. *)
Definition init_fresh_disk : gmap Z (list Z) := ∅.

Definition read_blocks (d : gmap Z (list Z)) (start_address : Z) (buffer : list Z) : Z * list Z :=
  if (0 <=? start_address) && (start_address + 1 <=? NUMBER_OF_BLOCKS)
  then (0, default init_data_block (d !! start_address))
  else (-1, buffer).

(** The [i]-th block of a buffer of several blocks. *)
Definition block_of (buffer : list Z) (i : Z) : list Z :=
  take (Z.to_nat NUMBER_OF_BYTES_BLOCK) (drop (Z.to_nat (NUMBER_OF_BYTES_BLOCK * i)) buffer).

Definition write_blocks (d : gmap Z (list Z)) (start_address nblocks : Z) (buffer : list Z) : Z * gmap Z (list Z) :=
  if (0 <=? start_address) && (start_address + nblocks <=? NUMBER_OF_BLOCKS)
  then (0, foldl (fun d' i => <[start_address + i := block_of buffer i]> d') d (seqZ 0 nblocks))
  else (-1, d).

(** A local buffer that is handed to [read_blocks] without having been
    written: its bytes are indeterminate in C when the read fails; the
    model starts it zeroed. *)
Definition local_buffer : list Z := init_data_block.

(** ** Byte images of the structures (little-endian, 4-byte fields) *)

Definition encode_u32 (x : Z) : list Z :=
  [x `mod` 256; (x / 256) `mod` 256; (x / 65536) `mod` 256; (x / 16777216) `mod` 256].

Definition decode_u32 (b : list Z) : Z :=
  at_Z 0 b 0 + 256 * at_Z 0 b 1 + 65536 * at_Z 0 b 2 + 16777216 * at_Z 0 b 3.

Fixpoint decode_pointers (n : nat) (b : list Z) : list Z :=
  match n with
  | O => []
  | S n' => decode_u32 (take 4 b) :: decode_pointers n' (drop 4 b)
  end.

(** [struct s_ind_node_block] as it lies in a block, and back. *)
Definition encode_ind_node_block (p : list Z) : list Z := flat_map encode_u32 p.

Definition decode_ind_node_block (b : list Z) : list Z :=
  decode_pointers (Z.to_nat POINTERS_IND_BLOCK) b.

(** The bytes of a block-sized union member: the structure, then zeros. *)
Definition pad_block (l : list Z) : list Z :=
  take (Z.to_nat NUMBER_OF_BYTES_BLOCK) (l ++ init_data_block).

Definition encode_node (nd : s_node) : list Z :=
  encode_u32 (size nd) ++ flat_map encode_u32 (pointer nd) ++ encode_u32 (ind_pointer nd).

Definition encode_super_block (sb : s_super_block) : list Z :=
  pad_block (encode_u32 (magic sb) ++ encode_u32 (block_size sb)
             ++ encode_u32 (num_blocks sb) ++ encode_u32 (num_i_nodes sb)
             ++ flat_map encode_node (j_node sb)).

Definition encode_node_block (b : list s_node) : list Z :=
  pad_block (flat_map encode_node b).

Definition encode_node_file (f : list (list s_node)) : list Z :=
  flat_map encode_node_block f.

Definition encode_name (s : string) : list Z :=
  take (Z.to_nat (MAX_NAME_LENGTH + 1))
    ((char_code <$> String.list_ascii_of_string s)
     ++ replicate (Z.to_nat (MAX_NAME_LENGTH + 1)) 0).

Definition encode_dir_entry (e : s_dir_entry) : list Z :=
  encode_name (name e) ++ [0; 0; 0] ++ encode_u32 (i_node_number e).

Definition encode_dir (d : list s_dir_entry) : list Z :=
  pad_block (flat_map encode_dir_entry d).

Definition encode_bit_map (m : list Z) : list Z := pad_block m.

(** ** Functions for disk synchronization *)

Definition put_blocks (st : sfs_state) (start_address nblocks : Z) (buffer : list Z) : sfs_state :=
  with_disk st (snd (write_blocks (disk st) start_address nblocks buffer)).

Definition dump_file_system_to_disk (st : sfs_state) : sfs_state :=
  let fs := file_system st in
  let st := put_blocks st 0 1 (encode_super_block (super_block fs)) in
  let st := put_blocks st (NUMBER_OF_BLOCKS - 1) 1 (encode_bit_map (write_mask fs)) in
  let st := put_blocks st (NUMBER_OF_BLOCKS - 2) 1 (encode_bit_map (free_bit_map fs)) in
  let st := put_blocks st 1 BLOCKS_I_NODE_FILE (encode_node_file (i_node_file fs)) in
  foldl (fun st' i =>
           put_blocks st' (NUMBER_OF_BLOCKS - 2 - (i + 1)) 1
             (encode_dir (at_Z [] (directory fs) i)))
    st (seqZ 0 MAX_DIRS_INCL_SHAD).

(** [read_blocks(ptr, 1, &ind_node_block)] into a local indirect block. *)
Definition read_ind_node_block (st : sfs_state) (ptr : Z) : list Z :=
  decode_ind_node_block (snd (read_blocks (disk st) ptr local_buffer)).

(** ** Walking the blocks of a file *)

(** [for (...) { if (!p[i]) return last; last = p[i]; }] over an array of
    pointers: [inl] is the value returned from inside the loop, [inr] the
    value of [last] when the loop runs to its end. *)
Fixpoint scan_last (p : list Z) (last : Z) : Z + Z :=
  match p with
  | [] => inr last
  | x :: r => if x =? 0 then inl last else scan_last r x
  end.

(** [for (...) { if (!p[i]) return num; num++; }] *)
Fixpoint scan_num (p : list Z) (num : Z) : Z + Z :=
  match p with
  | [] => inr num
  | x :: r => if x =? 0 then inl num else scan_num r (num + 1)
  end.

Definition get_last_file_block (st : sfs_state) (i_node_number : Z) : Z :=
  let node := node_of (file_system st) i_node_number in
  match scan_last (pointer node) (-1) with
  | inl last => last
  | inr last =>
      if ind_pointer node =? 0 then last
      else match scan_last (read_ind_node_block st (ind_pointer node)) last with
           | inl last' => last'
           | inr last' => last'
           end
  end.

Definition get_num_file_blocks (st : sfs_state) (i_node_number : Z) : Z :=
  let node := node_of (file_system st) i_node_number in
  match scan_num (pointer node) 0 with
  | inl num => num
  | inr num =>
      if ind_pointer node =? 0 then num
      else match scan_num (read_ind_node_block st (ind_pointer node)) num with
           | inl num' => num'
           | inr num' => num'
           end
  end.

Definition get_file_size (st : sfs_state) (i_node_number : Z) : Z :=
  size (node_of (file_system st) i_node_number).

Definition get_end_char (st : sfs_state) (i_node_number : Z) : Z :=
  let sz := get_file_size st i_node_number in
  let end_ := Z.rem sz NUMBER_OF_BYTES_BLOCK in
  if end_ =? 0 then
    if sz =? get_num_file_blocks st i_node_number * NUMBER_OF_BYTES_BLOCK
    then NUMBER_OF_BYTES_BLOCK else end_
  else end_.

Definition inc_file_size (st : sfs_state) (i_node_number delta : Z) : sfs_state :=
  let node := node_of (file_system st) i_node_number in
  with_fs st
    (set_node_of (file_system st) i_node_number
       (mk_node (size node + delta) (pointer node) (ind_pointer node))).

(** [p ? p : -1] *)
Definition or_minus_one (p : Z) : Z := if p =? 0 then -1 else p.

(** [None] is the failed [assert(0)] ("block not in file"). *)
Definition get_next_file_block (st : sfs_state) (i_node_number blk : Z) : option Z :=
  let node := node_of (file_system st) i_node_number in
  match first_index (fun i => at_Z 0 (pointer node) i =? blk) 0 (Z.to_nat NUMBER_OF_POINTERS) with
  | Some i =>
      if i + 1 <? NUMBER_OF_POINTERS then Some (or_minus_one (at_Z 0 (pointer node) (i + 1)))
      else if ind_pointer node =? 0 then Some (-1)
      else Some (or_minus_one (at_Z 0 (read_ind_node_block st (ind_pointer node)) 0))
  | None =>
      let ind_node_block := read_ind_node_block st (ind_pointer node) in
      match first_index (fun i => at_Z 0 ind_node_block i =? blk) 0 (Z.to_nat POINTERS_IND_BLOCK) with
      | Some i =>
          if i + 1 <? POINTERS_IND_BLOCK then Some (or_minus_one (at_Z 0 ind_node_block (i + 1)))
          else Some (-1)
      | None => None
      end
  end.

Definition set_both (fs : s_file_system) (blk : Z) : s_file_system :=
  with_write_mask (with_free_bit_map fs (set_bit_map (free_bit_map fs) blk))
    (set_bit_map (write_mask fs) blk).

Definition add_block (st : sfs_state) (i_node_number : Z) : Z * sfs_state :=
  let '(block_ptr, fs) := get_free_block (file_system st) in
  if block_ptr <? 0 then (-1, with_fs st fs)
  else
    let st := with_fs st fs in
    let node := node_of fs i_node_number in
    match first_index (fun i => at_Z 0 (pointer node) i =? 0) 0 (Z.to_nat NUMBER_OF_POINTERS) with
    | Some i =>
        (block_ptr,
         with_fs st (set_node_of fs i_node_number
                       (mk_node (size node) (upd_Z (pointer node) i block_ptr) (ind_pointer node))))
    | None =>
        if ind_pointer node =? 0 then
          let '(ind_block_ptr, fs') := get_free_block fs in
          if ind_block_ptr <? 0 then (-1, with_fs st (set_both fs' block_ptr))
          else
            let fs'' := set_node_of fs' i_node_number
                          (mk_node (size node) (pointer node) ind_block_ptr) in
            let ind_node_block := upd_Z init_ind_node_block 0 block_ptr in
            (block_ptr,
             put_blocks (with_fs st fs'') ind_block_ptr 1 (encode_ind_node_block ind_node_block))
        else
          let ind_node_block := read_ind_node_block st (ind_pointer node) in
          match first_index (fun i => at_Z 0 ind_node_block i =? 0) 0 (Z.to_nat POINTERS_IND_BLOCK) with
          | Some i =>
              (block_ptr,
               put_blocks st (ind_pointer node) 1
                 (encode_ind_node_block (upd_Z ind_node_block i block_ptr)))
          | None => (-1, st)
          end
    end.

(** ** File manipulation functions: fopen *)

Definition is_some {A} (o : option A) : bool :=
  match o with Some _ => true | None => false end.

(** The inner loop of [get_free_i_node] on block [i]. *)
Definition free_i_node_in_block (fs : s_file_system) (i : Z) : option Z :=
  first_index (fun j => at_Z 0 (pointer (get_i_node fs i j)) 0 =? 0)
    0 (Z.to_nat MAX_NODE_IN_BLOCK).

(** Returns the value of the function and of [*i_block]. *)
Definition get_free_i_node (fs : s_file_system) (i_block : Z) : Z * Z :=
  match first_index (fun i => is_some (free_i_node_in_block fs i))
          0 (Z.to_nat BLOCKS_I_NODE_FILE) with
  | Some i => (default (-1) (free_i_node_in_block fs i), i)
  | None => (-1, i_block)
  end.

(** Returns the value of the function, of [*i_block] and of [*i_node]. *)
Definition add_file_to_dir (st : sfs_state) (name_ : string) (i_block i_node : Z)
  : Z * Z * Z * sfs_state :=
  let fs := file_system st in
  match first_index (fun i => name_empty (name (dir_entry fs 0 i))) 0 (Z.to_nat MAX_FILES) with
  | None => (-1, i_block, i_node, st)
  | Some i =>
      let '(i_node, i_block) := get_free_i_node fs (-1) in
      if i_node =? -1 then (-1, i_block, i_node, st)
      else
        let '(blk, fs) := get_free_block fs in
        if blk =? -1 then (-1, i_block, i_node, with_fs st fs)
        else
          let nd := get_i_node fs i_block i_node in
          let fs := set_i_node fs i_block i_node (mk_node 0 (pointer nd) (ind_pointer nd)) in
          let fs := set_dir_entry fs 0 i
                      (mk_dir_entry (strncpy name_ (Z.to_nat MAX_NAME_LENGTH))
                         (i_node_number (dir_entry fs 0 i))) in
          let fs := set_dir_entry fs 0 i
                      (mk_dir_entry (name (dir_entry fs 0 i))
                         (i_node + i_block * MAX_NODE_IN_BLOCK)) in
          let nd := get_i_node fs i_block i_node in
          let fs := set_i_node fs i_block i_node
                      (mk_node (size nd) (upd_Z (pointer nd) 0 blk) (ind_pointer nd)) in
          let st := with_fs st fs in
          let st := put_blocks st (NUMBER_OF_BLOCKS - 2 - 1) 1
                      (encode_dir (at_Z [] (directory fs) 0)) in
          let st := put_blocks st (1 + i_block) 1
                      (encode_node_block (at_Z [] (i_node_file fs) i_block)) in
          (i, i_block, i_node, st)
  end.

Definition set_fd (st : sfs_state) (i : Z) (f : s_fd) : sfs_state :=
  with_table st (upd_Z (open_file_table st) i f).

Definition set_fopen_name (st : sfs_state) (name_ : string) (index_table : Z) : sfs_state :=
  let f := fd_at (open_file_table st) index_table in
  set_fd st index_table
    (mk_fd (mk_dir_entry (strncpy name_ (Z.to_nat MAX_NAME_LENGTH)) (i_node_number (entry f)))
       (read_pointer f) (write_pointer f)).

Definition set_read_ptr (st : sfs_state) (i_node_number_ index_table : Z) : sfs_state :=
  let i_block := node_number_to_block i_node_number_ in
  let i_node := node_number_to_node_in_block i_node_number_ in
  let f := fd_at (open_file_table st) index_table in
  set_fd st index_table
    (mk_fd (entry f)
       (mk_file_pointer (at_Z 0 (pointer (get_i_node (file_system st) i_block i_node)) 0) 0)
       (write_pointer f)).

Definition set_write_ptr (st : sfs_state) (i_node_number_ index_table : Z) : Z * sfs_state :=
  let f := fd_at (open_file_table st) index_table in
  (0, set_fd st index_table
        (mk_fd (entry f) (read_pointer f)
           (mk_file_pointer (get_last_file_block st i_node_number_)
              (get_end_char st i_node_number_)))).

Definition set_fopen_ptrs (st : sfs_state) (index_sys index_table : Z) : Z * sfs_state :=
  let i_node_number_ := i_node_number (dir_entry (file_system st) 0 index_sys) in
  let '(err, st) := set_write_ptr st i_node_number_ index_table in
  if negb (err =? 0) then (-1, st)
  else
    let f := fd_at (open_file_table st) index_table in
    let st := set_fd st index_table
                (mk_fd (mk_dir_entry (name (entry f)) i_node_number_)
                   (read_pointer f) (write_pointer f)) in
    (0, set_read_ptr st i_node_number_ index_table).

(** The first slot of the open-file table whose name is empty. *)
Definition first_free_fd (t : list s_fd) : option Z :=
  first_index (fun i => name_empty (name (entry (fd_at t i)))) 0 (Z.to_nat MAX_FD).

(** The first slot of the open-file table that holds the name. *)
Definition first_fd_named (t : list s_fd) (name_ : string) : option Z :=
  first_index (fun i => same_name (name (entry (fd_at t i))) name_) 0 (Z.to_nat MAX_FD).

Definition create_open_file_entry (st : sfs_state) (name_ : string) (index : Z) : Z * sfs_state :=
  match first_free_fd (open_file_table st) with
  | None => (-1, st)
  | Some i =>
      let '(err, st) := set_fopen_ptrs st index i in
      if negb (err =? 0) then (-1, st)
      else (i, set_fopen_name st name_ i)
  end.

Definition fopen_existing (st : sfs_state) (name_ : string) (index : Z) : Z * sfs_state :=
  match first_index (fun i => same_name name_ (name (entry (fd_at (open_file_table st) i))))
          0 (Z.to_nat MAX_FD) with
  | Some _ => (-1, st)
  | None => create_open_file_entry st name_ index
  end.

(** [None] is the failed [assert(i < MAX_FD)]. *)
Definition fopen_new (st : sfs_state) (name_ : string) : option (Z * sfs_state) :=
  match first_fd_named (open_file_table st) name_ with
  | Some i => Some (i, st)
  | None =>
      match first_free_fd (open_file_table st) with
      | None => None
      | Some i =>
          let '(entry_, i_block, i_node, st) := add_file_to_dir st name_ (-1) (-1) in
          if entry_ <? 0 then Some (-1, st)
          else
            let fs := file_system st in
            let p0 := at_Z 0 (pointer (get_i_node fs i_block i_node)) 0 in
            Some (i, set_fd st i
                       (mk_fd (mk_dir_entry (strncpy name_ (Z.to_nat MAX_NAME_LENGTH))
                                 (i_node_number (dir_entry fs 0 entry_)))
                          (mk_file_pointer p0 0) (mk_file_pointer p0 0)))
      end
  end.

Definition check_fd_full (st : sfs_state) : Z :=
  match first_free_fd (open_file_table st) with
  | Some _ => 0
  | None => -1
  end.

(** ** File manipulation functions: remove *)

Definition rm_fd (st : sfs_state) (file : string) : sfs_state :=
  foldl (fun st' i =>
           if same_name (name (entry (fd_at (open_file_table st') i))) file
           then set_fd st' i init_fd else st')
    st (seqZ 0 MAX_FD).

(** [for (...) { if (!p[i]) break; set both bits of p[i]; }] *)
Fixpoint free_pointers (p : list Z) (fs : s_file_system) : s_file_system :=
  match p with
  | [] => fs
  | rm_block :: r => if rm_block =? 0 then fs else free_pointers r (set_both fs rm_block)
  end.

Definition rm_file_from_disk (shadow_number entry_index : Z) (st : sfs_state) : Z * sfs_state :=
  let fs := file_system st in
  let i_node_number_ := i_node_number (dir_entry fs shadow_number entry_index) in
  let node := node_of fs i_node_number_ in
  let fs := free_pointers (pointer node) fs in
  let fs :=
    if ind_pointer node =? 0 then fs
    else
      let '(err, buf) := read_blocks (disk st) (ind_pointer node) local_buffer in
      if negb (err =? 0) then fs
      else set_both (free_pointers (decode_ind_node_block buf) fs) (ind_pointer node) in
  (0, with_fs st (set_node_of fs i_node_number_ init_node)).

Definition rm_file_from_dir (name_ : string) (st : sfs_state) : Z * sfs_state :=
  match first_index (fun i => same_name (name (dir_entry (file_system st) 0 i)) name_)
          0 (Z.to_nat MAX_FILES) with
  | Some i =>
      let st := snd (rm_file_from_disk 0 i st) in
      let st := with_fs st (set_dir_entry (file_system st) 0 i init_dir_entry) in
      (0, dump_file_system_to_disk st)
  | None => (-1, st)
  end.

(** ** Seek functions *)

(** [None] is the load [ind_node_block.pointer[block_in_ind_block]] beyond
    the [POINTERS_IND_BLOCK] entries of the local indirect block. *)
Definition seek_block (st : sfs_state) (fileID loc : Z) : option Z :=
  if loc <? 0 then Some (-1)
  else
    let block_in_file := loc ÷ NUMBER_OF_BYTES_BLOCK in
    let i_node_number_ := i_node_number (entry (fd_at (open_file_table st) fileID)) in
    let node := node_of (file_system st) i_node_number_ in
    if block_in_file <? NUMBER_OF_POINTERS
    then Some (or_minus_one (at_Z 0 (pointer node) block_in_file))
    else
      let ind_block_ptr := ind_pointer node in
      if ind_block_ptr =? 0 then Some (-1)
      else
        let ind_node_block := read_ind_node_block st ind_block_ptr in
        let block_in_ind_block := block_in_file - NUMBER_OF_POINTERS in
        if block_in_ind_block <? POINTERS_IND_BLOCK
        then Some (or_minus_one (at_Z 0 ind_node_block block_in_ind_block))
        else None.

Definition seek_char (st : sfs_state) (fileID loc : Z) : option Z :=
  if loc <? 0 then Some (-1)
  else
    let char_in_block := Z.rem loc NUMBER_OF_BYTES_BLOCK in
    let i_node_number_ := i_node_number (entry (fd_at (open_file_table st) fileID)) in
    match seek_block st fileID loc with
    | None => None
    | Some blk =>
        if blk =? get_last_file_block st i_node_number_ then
          if char_in_block <=? get_end_char st i_node_number_
          then Some char_in_block else Some (-1)
        else Some char_in_block
    end.

(** ** Shadowing functions *)

Definition copy_block (st : sfs_state) (blk_src blk_dst : Z) : sfs_state :=
  put_blocks st blk_dst 1 (snd (read_blocks (disk st) blk_src local_buffer)).

(** The loop of [copy_file] over the direct pointers, from index [i] with
    [n] iterations left: [Some r] is [return r] from inside the loop. *)
Fixpoint copy_file_direct (n : nat) (i inn_orig inn_copy : Z) (st : sfs_state)
  : option Z * sfs_state :=
  match n with
  | O => (None, st)
  | S n' =>
      let n_orig := node_of (file_system st) inn_orig in
      let n_copy := node_of (file_system st) inn_copy in
      if at_Z 0 (pointer n_orig) i =? 0 then (Some 0, st)
      else
        let '(blk, fs) := get_free_block (file_system st) in
        let st := with_fs st fs in
        if blk <? 0 then (Some (-1), st)
        else copy_file_direct n' (i + 1) inn_orig inn_copy
               (copy_block st (at_Z 0 (pointer n_orig) i) (at_Z 0 (pointer n_copy) i))
  end.

(** The loop of [copy_file] over the indirect block. *)
Fixpoint copy_file_indirect (n : nat) (i : Z) (ind_node_block_orig ind_node_block_copy : list Z)
  (st : sfs_state) : option Z * sfs_state :=
  match n with
  | O => (None, st)
  | S n' =>
      if at_Z 0 ind_node_block_orig i =? 0 then (Some 0, st)
      else
        let '(blk, fs) := get_free_block (file_system st) in
        let st := with_fs st fs in
        if blk <? 0 then (Some (-1), st)
        else copy_file_indirect n' (i + 1) ind_node_block_orig ind_node_block_copy
               (copy_block st (at_Z 0 ind_node_block_orig i) (at_Z 0 ind_node_block_copy i))
  end.

Definition copy_file (st : sfs_state) (inn_orig inn_copy : Z) : Z * sfs_state :=
  let fs := file_system st in
  let n_copy := node_of fs inn_copy in
  let fs := set_node_of fs inn_copy
              (mk_node (size (node_of fs inn_orig)) (pointer n_copy) (ind_pointer n_copy)) in
  let st := with_fs st fs in
  let st := copy_block st (at_Z 0 (pointer (node_of fs inn_orig)) 0)
              (at_Z 0 (pointer (node_of fs inn_copy)) 0) in
  match copy_file_direct (Z.to_nat (NUMBER_OF_POINTERS - 1)) 1 inn_orig inn_copy st with
  | (Some r, st) => (r, st)
  | (None, st) =>
      let fs := file_system st in
      if ind_pointer (node_of fs inn_orig) =? 0 then (0, st)
      else
        let ind_node_block_orig := read_ind_node_block st (ind_pointer (node_of fs inn_orig)) in
        let '(blk, fs) := get_free_block fs in
        let st := with_fs st fs in
        if blk <? 0 then (-1, st)
        else
          let n_copy := node_of fs inn_copy in
          let st := with_fs st (set_node_of fs inn_copy
                                  (mk_node (size n_copy) (pointer n_copy) blk)) in
          match copy_file_indirect (Z.to_nat POINTERS_IND_BLOCK) 0
                  ind_node_block_orig init_ind_node_block st with
          | (Some r, st) => (r, st)
          | (None, st) => (0, st)
          end
  end.

Definition free_shadow_directory (st : sfs_state) (shadow : Z) : sfs_state :=
  dump_file_system_to_disk
    (foldl (fun st' i =>
              if name_empty (name (dir_entry (file_system st') shadow i)) then st'
              else
                let st'' := snd (rm_file_from_disk shadow i st') in
                with_fs st'' (set_dir_entry (file_system st'') shadow i init_dir_entry))
       st (seqZ 0 MAX_FILES)).

(** The loop of [restore_shadow_directory]: [Some r] is [return r] from
    inside the loop (both paths through the label [FAILED]). *)
Fixpoint restore_entries (n : nat) (i shadow : Z) (st : sfs_state) : option Z * sfs_state :=
  match n with
  | O => (None, st)
  | S n' =>
      let name_ := name (dir_entry (file_system st) shadow i) in
      if name_empty name_ then restore_entries n' (i + 1) shadow st
      else
        let '(e, _, _, st) := add_file_to_dir st name_ 0 0 in
        if e <? 0 then (Some (-1), snd (rm_file_from_dir name_ st))
        else
          let inn_orig := i_node_number (dir_entry (file_system st) shadow i) in
          let inn_copy := i_node_number (dir_entry (file_system st) 0 e) in
          let '(err, st) := copy_file st inn_orig inn_copy in
          if err <? 0 then (Some (-1), snd (rm_file_from_dir name_ st))
          else restore_entries n' (i + 1) shadow st
  end.

(** The function ends without a [return] after the loop: its value is then
    unspecified, [None]. *)
Definition restore_shadow_directory (st : sfs_state) (shadow : Z) : option Z * sfs_state :=
  if (shadow <=? 0) || (MAX_DIRS_INCL_SHAD <=? shadow) then (Some (-1), st)
  else
    match restore_entries (Z.to_nat MAX_FILES) 0 shadow st with
    | (Some r, st) => (Some r, st)
    | (None, st) => (None, dump_file_system_to_disk st)
    end.

(** ** Simple Shadow File System API *)

(** [mkssfs(1)] in a process that starts ([gnfni] is 0), when
    [init_fresh_disk] succeeds. *)
Definition mkssfs_fresh : sfs_state :=
  with_table
    (dump_file_system_to_disk
       (mk_state init_file_system init_open_file_table init_fresh_disk 0))
    init_open_file_table.

(** [name] is a string, never [NULL]. [None] is a failed [assert]. *)
Definition ssfs_fopen (st : sfs_state) (name_ : string) : option (Z * sfs_state) :=
  if negb (check_fd_full st =? 0) then Some (-1, st)
  else if strlen name_ =? 0 then Some (-1, st)
  else
    match first_index (fun i => same_name (name (dir_entry (file_system st) 0 i)) name_)
            0 (Z.to_nat MAX_FILES) with
    | Some i => Some (fopen_existing st name_ i)
    | None => fopen_new st name_
    end.

Definition ssfs_fclose (st : sfs_state) (fileID : Z) : Z * sfs_state :=
  if (fileID <? 0) || (MAX_FD <=? fileID) then (-1, st)
  else if name_empty (name (entry (fd_at (open_file_table st) fileID))) then (-1, st)
  else
    let fs := file_system st in
    let st := put_blocks st 0 1 (encode_super_block (super_block fs)) in
    let st := put_blocks st 1 BLOCKS_I_NODE_FILE (encode_node_file (i_node_file fs)) in
    let st := put_blocks st (NUMBER_OF_BLOCKS - 2 - 1) 1 (encode_dir (at_Z [] (directory fs) 0)) in
    let st := put_blocks st (NUMBER_OF_BLOCKS - 2) 1 (encode_bit_map (free_bit_map fs)) in
    let st := put_blocks st (NUMBER_OF_BLOCKS - 1) 1 (encode_bit_map (write_mask fs)) in
    (0, set_fd st fileID init_fd).

Definition ssfs_frseek (st : sfs_state) (fileID loc : Z) : option (Z * sfs_state) :=
  match seek_block st fileID loc, seek_char st fileID loc with
  | Some blk, Some char_in_block =>
      if (blk <? 0) || (char_in_block <? 0) then Some (-1, st)
      else
        let f := fd_at (open_file_table st) fileID in
        Some (0, set_fd st fileID
                   (mk_fd (entry f) (mk_file_pointer blk char_in_block) (write_pointer f)))
  | _, _ => None
  end.

Definition ssfs_fwseek (st : sfs_state) (fileID loc : Z) : option (Z * sfs_state) :=
  match seek_block st fileID loc, seek_char st fileID loc with
  | Some blk, Some char_in_block =>
      if (blk <? 0) || (char_in_block <? 0) then Some (-1, st)
      else
        let f := fd_at (open_file_table st) fileID in
        Some (0, set_fd st fileID
                   (mk_fd (entry f) (read_pointer f) (mk_file_pointer blk char_in_block)))
  | _, _ => None
  end.

(** The inner loop of [ssfs_fwrite]: [buf] is what is left of the caller's
    buffer, so [buf_pos < length] is "[buf] is not empty". *)
Fixpoint fwrite_chars (buf : list Z) (st : sfs_state) (i_node_number_ nb cb lb lc : Z)
  (data_block : list Z) (cc buf_pos : Z) : list Z * sfs_state * list Z * Z * Z :=
  match buf with
  | [] => (buf, st, data_block, cc, buf_pos)
  | x :: r =>
      if cc <? NUMBER_OF_BYTES_BLOCK then
        let data_block := upd_Z data_block cc x in
        let cc := cc + 1 in
        let buf_pos := buf_pos + 1 in
        let st := if negb (nb =? 0) || ((cb =? lb) && (lc <? cc))
                  then inc_file_size st i_node_number_ 1 else st in
        fwrite_chars r st i_node_number_ nb cb lb lc data_block cc buf_pos
      else (buf, st, data_block, cc, buf_pos)
  end.

(** The code of [ssfs_fwrite] from the label [FILL_BLOCK] to the label
    [EXIT], entered at most [fuel] times.  The result is the state and the
    values of [cb], [cc] and [buf_pos] at [EXIT]; [None] is a failed
    [assert] of [get_next_file_block] (or the end of [fuel]). *)
Fixpoint fwrite_fill (fuel : nat) (st : sfs_state) (fileID : Z) (buf : list Z)
  (lb lc nb cb cc buf_pos : Z) : option (sfs_state * Z * Z * Z) :=
  match fuel with
  | O => None
  | S fuel' =>
      let i_node_number_ := i_node_number (entry (fd_at (open_file_table st) fileID)) in
      let fill (st : sfs_state) (nb cb cc : Z) :=
        let data_block := snd (read_blocks (disk st) cb local_buffer) in
        let '(buf', st, data_block, cc, buf_pos) :=
          fwrite_chars buf st i_node_number_ nb cb lb lc data_block cc buf_pos in
        let st := put_blocks st cb 1 data_block in
        match buf' with
        | [] => Some (st, cb, cc, buf_pos)
        | _ :: _ => fwrite_fill fuel' st fileID buf' lb lc nb cb cc buf_pos
        end in
      if NUMBER_OF_BYTES_BLOCK <=? cc then
        match get_next_file_block st i_node_number_ cb with
        | None => None
        | Some tb =>
            let '(nb, st) := if tb <? 0 then add_block st i_node_number_ else (nb, st) in
            if nb <? 0 then Some (st, cb, cc, buf_pos)
            else fill st nb (if nb =? 0 then tb else nb) 0
        end
      else fill st nb cb cc
  end.

(** [buf] holds the [length] bytes to write; [buf == NULL || !length] is
    the empty buffer. *)
Definition ssfs_fwrite (st : sfs_state) (fileID : Z) (buf : list Z) : option (Z * sfs_state) :=
  match buf with
  | [] => Some (0, st)
  | _ :: _ =>
      let f := fd_at (open_file_table st) fileID in
      let lb := get_last_file_block st (i_node_number (entry f)) in
      let lc := get_end_char st (i_node_number (entry f)) in
      match fwrite_fill (S (length buf)) st fileID buf lb lc 0
              (block (write_pointer f)) (c_ptr (write_pointer f)) 0 with
      | None => None
      | Some (st, cb, cc, buf_pos) =>
          let st := put_blocks st 1 BLOCKS_I_NODE_FILE
                      (encode_node_file (i_node_file (file_system st))) in
          let f := fd_at (open_file_table st) fileID in
          Some (buf_pos,
                set_fd st fileID (mk_fd (entry f) (read_pointer f) (mk_file_pointer cb cc)))
      end
  end.

(** The inner loop of [ssfs_fread], with [n] iterations left: the
    characters stored into [buf], and the values of [cc] and [buf_pos]. *)
Fixpoint fread_chars (n : nat) (data_block : list Z) (cb lb lc len cc buf_pos : Z)
  : list Z * Z * Z :=
  match n with
  | O => ([], cc, buf_pos)
  | S n' =>
      if (cc <? NUMBER_OF_BYTES_BLOCK) && (buf_pos <? len)
         && negb ((cb =? lb) && (lc <=? cc))
      then
        let '(r, cc', buf_pos') :=
          fread_chars n' data_block cb lb lc len (cc + 1) (buf_pos + 1) in
        (at_Z 0 data_block cc :: r, cc', buf_pos')
      else ([], cc, buf_pos)
  end.

(** The code of [ssfs_fread] from the label [FILL_BLOCK] to the label
    [EXIT], entered at most [fuel] times: the characters stored into [buf]
    and the values of [cb], [cc] and [buf_pos] at [EXIT]. *)
Fixpoint fread_fill (fuel : nat) (st : sfs_state) (fileID lb lc len cb cc buf_pos : Z)
  : option (list Z * Z * Z * Z) :=
  match fuel with
  | O => None
  | S fuel' =>
      let i_node_number_ := i_node_number (entry (fd_at (open_file_table st) fileID)) in
      let fill (cb cc : Z) :=
        let data_block := snd (read_blocks (disk st) cb local_buffer) in
        let '(r, cc, buf_pos) :=
          fread_chars (Z.to_nat NUMBER_OF_BYTES_BLOCK) data_block cb lb lc len cc buf_pos in
        if (buf_pos <? len) && negb ((cb =? lb) && (lc <=? cc)) then
          match fread_fill fuel' st fileID lb lc len cb cc buf_pos with
          | None => None
          | Some (r', cb', cc', buf_pos') => Some (r ++ r', cb', cc', buf_pos')
          end
        else Some (r, cb, cc, buf_pos) in
      if NUMBER_OF_BYTES_BLOCK <=? cc then
        match get_next_file_block st i_node_number_ cb with
        | None => None
        | Some tb => if tb <? 0 then Some ([], cb, cc, buf_pos) else fill tb 0
        end
      else fill cb cc
  end.

(** Returns the value of the function and the characters stored into
    [buf], which is never [NULL]. *)
Definition ssfs_fread (st : sfs_state) (fileID len : Z) : option (Z * list Z * sfs_state) :=
  let f := fd_at (open_file_table st) fileID in
  if name_empty (name (entry f)) then Some (-1, [], st)
  else if len =? 0 then Some (0, [], st)
  else
    let lb := get_last_file_block st (i_node_number (entry f)) in
    let lc := get_end_char st (i_node_number (entry f)) in
    match fread_fill (S (Z.to_nat len)) st fileID lb lc len
            (block (read_pointer f)) (c_ptr (read_pointer f)) 0 with
    | None => None
    | Some (r, cb, cc, buf_pos) =>
        Some (buf_pos, r,
              set_fd st fileID (mk_fd (entry f) (mk_file_pointer cb cc) (write_pointer f)))
    end.

Definition ssfs_remove (st : sfs_state) (file : string) : Z * sfs_state :=
  rm_file_from_dir file (rm_fd st file).

Definition ssfs_commit (st : sfs_state) : Z * sfs_state :=
  let st := free_shadow_directory st (MAX_DIRS_INCL_SHAD - 1) in
  let dirs :=
    foldl (fun d i => upd_Z d i (at_Z [] d (i - 1))) (directory (file_system st))
      (reverse (seqZ 1 (MAX_DIRS_INCL_SHAD - 1))) in
  let st := with_fs st (with_directory (file_system st) (upd_Z dirs 0 init_dir)) in
  let st := snd (restore_shadow_directory st 1) in
  (0, dump_file_system_to_disk st).

(** The function ends without a [return] when it has restored: its value
    is then unspecified, [None]. *)
Definition ssfs_restore (st : sfs_state) (cnum : Z) : option Z * sfs_state :=
  if cnum =? 0 then (Some 0, st)
  else if (cnum <? 0) || (MAX_DIRS_INCL_SHAD <=? cnum) then (Some (-1), st)
  else
    let st := free_shadow_directory st 0 in
    let st := with_fs st (with_directory (file_system st)
                            (upd_Z (directory (file_system st)) 0 init_dir)) in
    let st := snd (restore_shadow_directory st cnum) in
    (None, dump_file_system_to_disk st).

(** The [while(1)] loop of [ssfs_get_next_file_name], with [n] iterations
    left: the value returned, the name copied to [fname] if any, and the
    state.  [None]: the loop has not ended, which needs a cursor outside
    the directory. *)
Fixpoint next_file_name_loop (n : nat) (st : sfs_state) : option (Z * option string * sfs_state) :=
  match n with
  | O => None
  | S n' =>
      let e := dir_entry (file_system st) 0 (gnfni st) in
      if negb (name_empty (name e))
      then Some (0, Some (name e), with_gnfni st (gnfni st + 1))
      else if gnfni st + 1 =? MAX_FILES then Some (0, None, with_gnfni st 0)
      else next_file_name_loop n' (with_gnfni st (gnfni st + 1))
  end.

Definition ssfs_get_next_file_name (st : sfs_state) : option (Z * option string * sfs_state) :=
  if gnfni st =? MAX_FILES then Some (0, None, with_gnfni st 0)
  else next_file_name_loop (Z.to_nat MAX_FILES) st.

Definition ssfs_get_file_size (st : sfs_state) (path : string) : Z :=
  match first_index (fun i => same_name (name (dir_entry (file_system st) 0 i)) path)
          0 (Z.to_nat MAX_FILES) with
  | Some i => size (node_of (file_system st) (i_node_number (dir_entry (file_system st) 0 i)))
  | None => -1
  end.

(** * Specification vocabulary *)

(** ** The block allocator *)

(** What is said of [get_free_block] for a data region that ends at block
    [last]: it fails exactly when no block of [FIRST_DATA_BLOCK..last] is
    free, and otherwise returns the first free block of that range and
    clears its bit (and nothing else of the file system). *)
Definition allocates_first_free (last : Z) (fs : s_file_system) : Prop :=
  let fbm := free_bit_map fs in
  let r := fst (get_free_block fs) in
  let fs' := snd (get_free_block fs) in
  (r = -1 <-> forall i, FIRST_DATA_BLOCK <= i <= last -> get_bit_map fbm i = 0)
  /\ (r <> -1 ->
      FIRST_DATA_BLOCK <= r <= last
      /\ get_bit_map fbm r = 1
      /\ (forall i, FIRST_DATA_BLOCK <= i < r -> get_bit_map fbm i = 0)
      /\ fs' = with_free_bit_map fs (clr_bit_map fbm r)
      /\ get_bit_map (free_bit_map fs') r = 0).

(** The end of the data region as the layout table of the specification
    gives it. *)
Definition LAST_DATA_of_layout_table : Z := NUMBER_OF_BLOCKS - 2 - MAX_DIRS_INCL_SHAD.

(** A file system whose only free bit is that of block 1017, the block of
    the oldest shadow directory. *)
Definition fs_only_1017_free : s_file_system :=
  with_free_bit_map init_file_system
    (set_bit_map (replicate (Z.to_nat sizeof_block_group) 0) 1017).

(** ** Names *)

(** The first [MAX_NAME_LENGTH] characters of a name. *)
Definition first_20 (s : string) : string :=
  String.substring 0 (Z.to_nat MAX_NAME_LENGTH) s.

(** A file named [f] is in the live directory: one of its entries holds a
    (non-empty) name that [strncmp] equates with [f]. *)
Definition in_directory (fs : s_file_system) (f : string) : Prop :=
  exists i, 0 <= i < MAX_FILES
            /\ name (dir_entry fs 0 i) <> EmptyString
            /\ same_name (name (dir_entry fs 0 i)) f = true.

(** A slot of the open-file table holds the name [f]. *)
Definition in_open_file_table (t : list s_fd) (f : string) : Prop :=
  exists i, 0 <= i < MAX_FD
            /\ name (entry (fd_at t i)) <> EmptyString
            /\ same_name (name (entry (fd_at t i))) f = true.

(** No two entries of the live directory hold the same name. *)
Definition unique_names (fs : s_file_system) : Prop :=
  forall i j, 0 <= i < MAX_FILES -> 0 <= j < MAX_FILES ->
    name (dir_entry fs 0 i) <> EmptyString ->
    same_name (name (dir_entry fs 0 i)) (name (dir_entry fs 0 j)) = true ->
    i = j.

(** C4 as stated: opening a name that the open-file table holds fails. *)
Definition duplicate_open_fails (st : sfs_state) (f : string) : Prop :=
  in_open_file_table (open_file_table st) f ->
  exists st', ssfs_fopen st f = Some (-1, st').

(** [mkssfs(1); ssfs_commit(); ssfs_fopen("a"); ssfs_restore(1)]: the
    restore empties the live directory and leaves the descriptor of "a" in
    the open-file table. *)
Definition st_open_but_not_in_directory : sfs_state :=
  let st := snd (ssfs_commit mkssfs_fresh) in
  let st := match ssfs_fopen st "a" with Some (_, st') => st' | None => st end in
  snd (ssfs_restore st 1).

(** ** Arrays of the declared length *)

Definition node_ok (nd : s_node) : Prop :=
  length (pointer nd) = Z.to_nat NUMBER_OF_POINTERS.

(** The arrays of [file_system] and [open_file_table] have the lengths
    that their C declarations give them. *)
Record arrays_ok (st : sfs_state) : Prop := mk_arrays_ok {
  ok_directory : length (directory (file_system st)) = Z.to_nat MAX_DIRS_INCL_SHAD;
  ok_dir : Forall (fun d => length d = Z.to_nat MAX_FILES) (directory (file_system st));
  ok_i_node_file : length (i_node_file (file_system st)) = Z.to_nat BLOCKS_I_NODE_FILE;
  ok_node_block :
    Forall (fun b => length b = Z.to_nat MAX_NODE_IN_BLOCK /\ Forall node_ok b)
      (i_node_file (file_system st));
  ok_free_bit_map : length (free_bit_map (file_system st)) = Z.to_nat sizeof_block_group;
  ok_write_mask : length (write_mask (file_system st)) = Z.to_nat sizeof_block_group;
  ok_table : length (open_file_table st) = Z.to_nat MAX_FD
}.

(** [k] successive calls of [ssfs_get_next_file_name]: the names they
    copy out, in order. *)
Fixpoint enumerate (k : nat) (st : sfs_state) : option (list string) :=
  match k with
  | O => Some []
  | S k' =>
      match ssfs_get_next_file_name st with
      | None => None
      | Some (_, out, st') =>
          match enumerate k' st' with
          | None => None
          | Some l => Some (match out with Some n => n :: l | None => l end)
          end
      end
  end.

(** ** Scenarios *)

(** The state and descriptor after [ssfs_fopen(name)], and the state after
    [ssfs_fwrite(fd, buf, length)], when they return. *)
Definition opened (st : sfs_state) (f : string) : Z * sfs_state :=
  match ssfs_fopen st f with Some r => r | None => (-1, st) end.

Definition written (st : sfs_state) (fd : Z) (buf : list Z) : sfs_state :=
  match ssfs_fwrite st fd buf with Some (_, st') => st' | None => st end.

(** [ssfs_fopen(f)] then [ssfs_fread] of up to [len] characters: what a
    reader of the file gets. *)
Definition contents (st : sfs_state) (f : string) (len : Z) : option (list Z) :=
  match ssfs_fopen st f with
  | Some (fd, st') =>
      match ssfs_fread st' fd len with
      | Some (_, r, _) => Some r
      | None => None
      end
  | None => None
  end.

(** [n] bytes 0, 1, 2, ... (modulo 251). *)
Definition pattern (n : Z) : list Z := (fun i => i `mod` 251) <$> seqZ 0 n.

(** [mkssfs(1); fd = ssfs_fopen("a"); ssfs_fwrite(fd, pattern, 1030);
    ssfs_fclose(fd)]: a file of two blocks. *)
Definition st_two_blocks : sfs_state :=
  let '(fd, st) := opened mkssfs_fresh "a" in
  snd (ssfs_fclose (written st fd (pattern 1030)) fd).

(** [mkssfs(1); fd = ssfs_fopen("a"); ssfs_fwrite(fd, buf, n)] with a
    buffer of [n] ones; the descriptor is 0 and the i-node is 5. *)
Definition st_file_of (n : Z) : sfs_state :=
  let '(fd, st) := opened mkssfs_fresh "a" in
  written st fd (replicate (Z.to_nat n) 1).

(** The largest file: all of the direct pointers and of the indirect
    block are in use. *)
Definition st_full : sfs_state :=
  st_file_of ((NUMBER_OF_POINTERS + POINTERS_IND_BLOCK) * NUMBER_OF_BYTES_BLOCK).

(** A file of fifteen blocks: the first that has an indirect block. *)
Definition st_indirect : sfs_state :=
  st_file_of ((NUMBER_OF_POINTERS + 1) * NUMBER_OF_BYTES_BLOCK).

(** [unique_names], decided by comparing every pair of entries. *)
Definition unique_names_b (fs : s_file_system) : bool :=
  forallb (fun i =>
    forallb (fun j =>
      implb (negb (name_empty (name (dir_entry fs 0 i)))
             && same_name (name (dir_entry fs 0 i)) (name (dir_entry fs 0 j)))
        (i =? j))
      (seqZ 0 MAX_FILES))
    (seqZ 0 MAX_FILES).

(** ** The blocks of a file *)

(** The pointers of an array up to its first zero. *)
Fixpoint nonzero_prefix (p : list Z) : list Z :=
  match p with
  | [] => []
  | x :: r => if x =? 0 then [] else x :: nonzero_prefix r
  end.

(** The blocks of the file of i-node [n], in order: the direct pointers up
    to the first zero and, when none of them is zero and there is an
    indirect block, the pointers of the indirect block up to the first
    zero. *)
Definition file_blocks (st : sfs_state) (n : Z) : list Z :=
  let node := node_of (file_system st) n in
  let d := nonzero_prefix (pointer node) in
  if (length d =? length (pointer node))%nat && negb (ind_pointer node =? 0)
  then d ++ nonzero_prefix (read_ind_node_block st (ind_pointer node))
  else d.

(** The offset in the file of the end-of-file position
    [(get_last_file_block, get_end_char)]. *)
Definition end_of_file (st : sfs_state) (n : Z) : Z :=
  NUMBER_OF_BYTES_BLOCK * (Z.of_nat (length (file_blocks st n)) - 1) + get_end_char st n.

(** The offset in the file of the cursor [(blk, cc)], where [blk] is the
    [i]-th block of the file. *)
Definition offset_of (i : nat) (cc : Z) : Z := NUMBER_OF_BYTES_BLOCK * Z.of_nat i + cc.

(** The file of i-node [n] can be walked: its i-node has the declared
    number of pointers, its blocks are blocks of the device, no block
    occurs twice, and its size is not negative. *)
Record file_chain_ok (st : sfs_state) (n : Z) : Prop := mk_file_chain_ok {
  chain_node_ok : node_ok (node_of (file_system st) n);
  chain_NoDup : NoDup (file_blocks st n);
  chain_blocks : Forall (fun b => 0 < b < NUMBER_OF_BLOCKS) (file_blocks st n);
  chain_size : 0 <= size (node_of (file_system st) n)
}.

(** The bound of [cc] in the inner loop of [ssfs_fread] on block [cb]:
    the end of the block, or the end of the file on the last block. *)
Definition read_limit (cb lb lc : Z) : Z :=
  if cb =? lb then Z.min NUMBER_OF_BYTES_BLOCK lc else NUMBER_OF_BYTES_BLOCK.

(** The i-node [n] lies in the i-node file. *)
Definition inode_in_range (fs : s_file_system) (n : Z) : Prop :=
  (0 <= node_number_to_block n < Z.of_nat (length (i_node_file fs)))
  /\ 0 <= node_number_to_node_in_block n
     < Z.of_nat (length (at_Z [] (i_node_file fs) (node_number_to_block n))).

(** The file of i-node [n] can be written: it can be walked, its i-node is
    in the i-node file, and its indirect block, if any, is a block of the
    device that is not one of its data blocks and is not free. *)
Record file_write_ok (st : sfs_state) (n : Z) : Prop := mk_file_write_ok {
  write_chain_ok : file_chain_ok st n;
  write_inode : inode_in_range (file_system st) n;
  write_bit_map : length (free_bit_map (file_system st)) = Z.to_nat sizeof_block_group;
  write_ind_block : 0 <= ind_pointer (node_of (file_system st) n) < NUMBER_OF_BLOCKS;
  write_ind_apart : ind_pointer (node_of (file_system st) n) ∉ file_blocks st n;
  write_ind_used :
    ind_pointer (node_of (file_system st) n) <> 0 ->
    get_bit_map (free_bit_map (file_system st)) (ind_pointer (node_of (file_system st) n)) = 0
}.

(** Of the bytes of a write that started at offset [pos] and has reached
    offset [cur], the number that lie past the end of file [eof]. *)
Definition bytes_past (pos eof cur : Z) : Z := Z.max 0 (cur - Z.max pos eof).

(** The state of the loop of [ssfs_fwrite] at the label [FILL_BLOCK], for a
    write to the file of i-node [n] that started in state [st0] at offset
    [pos0] and has consumed [bp] bytes.  Until a block is appended
    ([nb = 0]) the cursor walks the blocks that the file had, and nothing
    but the size of the i-node and those blocks has changed; afterwards the
    cursor is on the appended block. *)
Record write_progress (st0 : sfs_state) (n pos0 : Z)
    (st : sfs_state) (nb cb cc bp : Z) : Prop := mk_write_progress {
  wp_table : open_file_table st = open_file_table st0;
  wp_inode : inode_in_range (file_system st) n;
  wp_node : node_ok (node_of (file_system st) n);
  wp_bit_map : length (free_bit_map (file_system st)) = Z.to_nat sizeof_block_group;
  wp_cc : 0 <= cc <= NUMBER_OF_BYTES_BLOCK;
  wp_bp : 0 <= bp;
  wp_size :
    size (node_of (file_system st) n)
    = size (node_of (file_system st0) n) + bytes_past pos0 (end_of_file st0 n) (pos0 + bp);
  wp_ind : 0 <= ind_pointer (node_of (file_system st) n) < NUMBER_OF_BLOCKS;
  wp_ind_used :
    ind_pointer (node_of (file_system st) n) <> 0 ->
    get_bit_map (free_bit_map (file_system st)) (ind_pointer (node_of (file_system st) n)) = 0;
  wp_phase :
    (nb = 0
     /\ file_system st
        = file_system (inc_file_size st0 n (bytes_past pos0 (end_of_file st0 n) (pos0 + bp)))
     /\ (forall b, b ∉ file_blocks st0 n -> disk st !! b = disk st0 !! b)
     /\ exists i : nat, file_blocks st0 n !! i = Some cb /\ offset_of i cc = pos0 + bp)
    \/ (0 < nb /\ cb = nb
        /\ NUMBER_OF_BYTES_BLOCK * Z.of_nat (length (file_blocks st0 n)) <= pos0 + bp
        /\ cb <> ind_pointer (node_of (file_system st) n)
        /\ is_Some (get_next_file_block st n cb))
}.

(** [st_two_blocks], then [ssfs_fopen("a")] (descriptor 0, i-node 5), and
    then [ssfs_fwseek(0, 1000)]. *)
Definition st_reopened : sfs_state := snd (opened st_two_blocks "a").

Definition st_reopened_at_1000 : sfs_state :=
  match ssfs_fwseek st_reopened 0 1000 with
  | Some (_, st) => st
  | None => st_reopened
  end.

(** ** Vocabulary of the further properties *)

(** The i-node [j] of block [i] of the i-node file is free for
    [get_free_i_node]: its first pointer is zero. *)
Definition i_node_free (fs : s_file_system) (i j : Z) : Prop :=
  at_Z 0 (pointer (get_i_node fs i j)) 0 = 0.

(** [mkssfs(1); fd = ssfs_fopen("a"); ssfs_fwrite(fd, buf, 14336)], and
    then a free bit map in which block 500 alone is free: the file uses its
    fourteen direct pointers and has no indirect block, and one block is
    left on the device. *)
Definition st_one_block_left : sfs_state :=
  let st := st_file_of (NUMBER_OF_POINTERS * NUMBER_OF_BYTES_BLOCK) in
  with_fs st
    (with_free_bit_map (file_system st)
       (set_bit_map (replicate (Z.to_nat sizeof_block_group) 0) 500)).

(** The pointers after the first zero of an array are zero. *)
Definition pointers_dense (p : list Z) : Prop :=
  Forall (fun x => x = 0) (drop (length (nonzero_prefix p)) p).

(** The i-node [n] and its indirect block point to nothing but the blocks of
    the file: no pointer follows a zero, and there is an indirect block
    only when the direct pointers are all in use. *)
Record file_dense (st : sfs_state) (n : Z) : Prop := mk_file_dense {
  dense_direct : pointers_dense (pointer (node_of (file_system st) n));
  dense_ind_pointer :
    ind_pointer (node_of (file_system st) n) <> 0 ->
    Forall (fun x => x <> 0) (pointer (node_of (file_system st) n));
  dense_indirect :
    ind_pointer (node_of (file_system st) n) <> 0 ->
    pointers_dense (read_ind_node_block st (ind_pointer (node_of (file_system st) n)))
}.

(** The blocks of the file of i-node [n] are marked as used in the free
    bit map. *)
Definition file_blocks_used (st : sfs_state) (n : Z) : Prop :=
  Forall (fun b => get_bit_map (free_bit_map (file_system st)) b = 0) (file_blocks st n).



(** From [st] to [st'] the snapshots (the directories other than the live
    one), the open-file table and the cursor of the enumeration are
    unchanged. *)
Definition keeps_snapshots (st st' : sfs_state) : Prop :=
  (forall k, k <> 0 ->
     at_Z [] (directory (file_system st')) k = at_Z [] (directory (file_system st)) k)
  /\ length (directory (file_system st')) = length (directory (file_system st))
  /\ open_file_table st' = open_file_table st
  /\ gnfni st' = gnfni st.

(** ** The bytes of a file *)

(** The bytes of block [b] of the device, as [read_blocks] gives them. *)
Definition block_data (st : sfs_state) (b : Z) : list Z :=
  snd (read_blocks (disk st) b local_buffer).

(** The byte at offset [off] of the file of i-node [n]: the byte
    [off % NUMBER_OF_BYTES_BLOCK] of its block [off / NUMBER_OF_BYTES_BLOCK]. *)
Definition file_byte (st : sfs_state) (n off : Z) : Z :=
  match file_blocks st n !! Z.to_nat (off / NUMBER_OF_BYTES_BLOCK) with
  | Some b => at_Z 0 (block_data st b) (off `mod` NUMBER_OF_BYTES_BLOCK)
  | None => 0
  end.

(** The [k] bytes of the file from offset [pos] on. *)
Definition file_bytes (st : sfs_state) (n pos k : Z) : list Z :=
  (fun j => file_byte st n (pos + j)) <$> seqZ 0 k.

(** The device holds [NUMBER_OF_BYTES_BLOCK] bytes for each block of the
    file. *)
Definition file_blocks_sized (st : sfs_state) (n : Z) : Prop :=
  Forall (fun b => length (block_data st b) = Z.to_nat NUMBER_OF_BYTES_BLOCK)
    (file_blocks st n).

(** The blocks that the file of i-node [n] had in [st0] hold in [st] the
    bytes that they held in [st0], but for the first [bp] bytes of [buf],
    which are at the offsets from [pos] on; each block has its
    [NUMBER_OF_BYTES_BLOCK] bytes. *)
Definition bytes_written (st0 : sfs_state) (n pos : Z) (buf : list Z)
    (st : sfs_state) (bp : Z) : Prop :=
  forall (j : nat) b c,
    file_blocks st0 n !! j = Some b -> 0 <= c < NUMBER_OF_BYTES_BLOCK ->
    length (block_data st b) = Z.to_nat NUMBER_OF_BYTES_BLOCK
    /\ at_Z 0 (block_data st b) c
       = if decide (pos <= offset_of j c < pos + bp)
         then at_Z 0 buf (offset_of j c - pos)
         else at_Z 0 (block_data st0 b) c.

(** The blocks of the file of i-node [n], and its indirect block if it has
    one, are blocks of the data region. *)
Record file_in_data_region (st : sfs_state) (n : Z) : Prop := mk_file_in_data_region {
  region_blocks :
    Forall (fun b => FIRST_DATA_BLOCK <= b <= LAST_DATA_BLOCK) (file_blocks st n);
  region_ind :
    ind_pointer (node_of (file_system st) n) <> 0 ->
    FIRST_DATA_BLOCK <= ind_pointer (node_of (file_system st) n) <= LAST_DATA_BLOCK
}.

(** [mkssfs(1); ssfs_fopen("a")]: an empty file, open on descriptor 0,
    with i-node 5 and both cursors at the start of block 14. *)
Definition st_created : sfs_state := snd (opened mkssfs_fresh "a").

(** ** Writes that make the file grow *)

(** The device holds [NUMBER_OF_BYTES_BLOCK] bytes for each block of the
    data region. *)
Definition disk_sized (st : sfs_state) : Prop :=
  forall b, FIRST_DATA_BLOCK <= b <= LAST_DATA_BLOCK ->
    length (block_data st b) = Z.to_nat NUMBER_OF_BYTES_BLOCK.

(** The file of i-node [n] can grow: it can be written, it has no holes,
    its blocks are marked in use and lie, like its indirect block, in the
    data region, and the blocks of the data region have their size. *)
Record file_grow_ok (st : sfs_state) (n : Z) : Prop := mk_file_grow_ok {
  grow_write_ok : file_write_ok st n;
  grow_dense : file_dense st n;
  grow_used : file_blocks_used st n;
  grow_region : file_in_data_region st n;
  grow_sized : disk_sized st
}.

(** The state of the loop of [ssfs_fwrite] at the label [FILL_BLOCK], for a
    write of [buf0] to the file of i-node [n] that started in state [st0]
    at offset [pos0] and has consumed [bp] bytes: the blocks of the file
    are those it had, followed by blocks that were free; the cursor
    [(cb, cc)] is at offset [pos0 + bp], on the last block once a block
    has been appended ([nb <> 0]); the first [bp] bytes of [buf0] are at
    the offsets from [pos0] on, and the other bytes of the blocks that the
    file had are as they were. *)
Record grow_progress (st0 : sfs_state) (n pos0 : Z) (buf0 : list Z)
    (st : sfs_state) (nb cb cc bp : Z) : Prop := mk_grow_progress {
  gp_table : open_file_table st = open_file_table st0;
  gp_ok : file_grow_ok st n;
  gp_cc : 0 <= cc <= NUMBER_OF_BYTES_BLOCK;
  gp_bp : 0 <= bp;
  gp_size :
    size (node_of (file_system st) n)
    = size (node_of (file_system st0) n) + bytes_past pos0 (end_of_file st0 n) (pos0 + bp);
  gp_free :
    forall x, 0 <= x < NUMBER_OF_BLOCKS ->
      get_bit_map (free_bit_map (file_system st)) x = 1 ->
      get_bit_map (free_bit_map (file_system st0)) x = 1;
  gp_blocks :
    exists news,
      file_blocks st n = file_blocks st0 n ++ news
      /\ Forall (fun b => get_bit_map (free_bit_map (file_system st0)) b = 1) news;
  gp_cursor :
    exists i : nat, file_blocks st n !! i = Some cb /\ offset_of i cc = pos0 + bp;
  gp_phase :
    (nb = 0 /\ file_blocks st n = file_blocks st0 n)
    \/ (0 < nb /\ cb = nb
        /\ file_blocks st n !! (length (file_blocks st n) - 1)%nat = Some cb
        /\ NUMBER_OF_BYTES_BLOCK * Z.of_nat (length (file_blocks st0 n)) <= pos0 + bp);
  gp_written :
    forall (j : nat) b c,
      file_blocks st n !! j = Some b -> 0 <= c < NUMBER_OF_BYTES_BLOCK ->
      pos0 <= offset_of j c < pos0 + bp ->
      at_Z 0 (block_data st b) c = at_Z 0 buf0 (offset_of j c - pos0);
  gp_kept :
    forall (j : nat) b c,
      file_blocks st0 n !! j = Some b -> 0 <= c < NUMBER_OF_BYTES_BLOCK ->
      ~ (pos0 <= offset_of j c < pos0 + bp) ->
      at_Z 0 (block_data st b) c = at_Z 0 (block_data st0 b) c
}.

(** The loop of [ssfs_fwrite], from a point where [bp] bytes were
    consumed, comes to the label [EXIT] with the result [res]: at least
    [bp] bytes are consumed, and if some are left the cursor is at the end
    of the last block of the file. *)
Definition grow_exit (st0 : sfs_state) (n pos0 : Z) (buf0 : list Z) (bp : Z)
    (res : option (sfs_state * Z * Z * Z)) : Prop :=
  exists st' nb' cb' cc' bp',
    res = Some (st', cb', cc', bp')
    /\ grow_progress st0 n pos0 buf0 st' nb' cb' cc' bp'
    /\ bp <= bp' <= Z.of_nat (length buf0)
    /\ (bp' < Z.of_nat (length buf0) ->
        cc' = NUMBER_OF_BYTES_BLOCK
        /\ file_blocks st' n !! (length (file_blocks st' n) - 1)%nat = Some cb').

(** ** Walking a file *)

(** The blocks that [get_next_file_block] leads through from block [b]
    until it returns -1 (or fails), at most [fuel] of them. *)
Fixpoint walk (fuel : nat) (st : sfs_state) (n b : Z) : list Z :=
  match fuel with
  | O => []
  | S fuel' =>
      b :: match get_next_file_block st n b with
           | Some nb => if nb <? 0 then [] else walk fuel' st n nb
           | None => []
           end
  end.

(** ** Loading the file system from the device *)

(** Modelled from the spec: [read_blocks] of several blocks of the block
    device emulator behind [disk_emu.h]: the blocks one after the other in
    the buffer; a request that leaves the device fails with -1 and
    transfers nothing. *)
Definition read_blocks_n (d : gmap Z (list Z)) (start_address nblocks : Z) (buffer : list Z)
  : Z * list Z :=
  if (0 <=? start_address) && (start_address + nblocks <=? NUMBER_OF_BLOCKS)
  then (0, flat_map (fun i => default init_data_block (d !! (start_address + i)))
             (seqZ 0 nblocks))
  else (-1, buffer).

(** The structures from their byte images: an [int32_t], a
    [struct s_node], several of them, and the structures of a block. *)
Definition decode_i32 (b : list Z) : Z :=
  let u := decode_u32 b in
  if u <? 2147483648 then u else u - 4294967296.

Definition decode_node (b : list Z) : s_node :=
  mk_node (decode_i32 (take 4 b))
    (decode_pointers (Z.to_nat NUMBER_OF_POINTERS) (drop 4 b))
    (decode_u32 (take 4 (drop (4 + 4 * Z.to_nat NUMBER_OF_POINTERS) b))).

Fixpoint decode_nodes (n : nat) (b : list Z) : list s_node :=
  match n with
  | O => []
  | S n' =>
      decode_node (take (Z.to_nat sizeof_s_node) b)
      :: decode_nodes n' (drop (Z.to_nat sizeof_s_node) b)
  end.

Definition decode_super_block (b : list Z) : s_super_block :=
  mk_super_block (decode_u32 (take 4 b)) (decode_u32 (take 4 (drop 4 b)))
    (decode_u32 (take 4 (drop 8 b))) (decode_u32 (take 4 (drop 12 b)))
    (decode_nodes (Z.to_nat NUMBER_OF_J_NODES) (drop 16 b)).

Definition decode_node_block (b : list Z) : list s_node :=
  decode_nodes (Z.to_nat MAX_NODE_IN_BLOCK) b.

Definition decode_node_file (b : list Z) : list (list s_node) :=
  (fun i => decode_node_block (block_of b i)) <$> seqZ 0 BLOCKS_I_NODE_FILE.

(** The string that a [char] array holds: its characters up to the first
    terminator. *)
Fixpoint decode_chars (b : list Z) : string :=
  match b with
  | [] => EmptyString
  | x :: r =>
      if x =? 0 then EmptyString
      else String (Ascii.ascii_of_N (Z.to_N x)) (decode_chars r)
  end.

Definition decode_name (b : list Z) : string :=
  decode_chars (take (Z.to_nat (MAX_NAME_LENGTH + 1)) b).

Definition decode_dir_entry (b : list Z) : s_dir_entry :=
  mk_dir_entry (decode_name b)
    (decode_u32 (take 4 (drop (Z.to_nat (MAX_NAME_LENGTH + 1) + 3) b))).

Fixpoint decode_dir_entries (n : nat) (b : list Z) : list s_dir_entry :=
  match n with
  | O => []
  | S n' =>
      decode_dir_entry (take (Z.to_nat sizeof_s_dir_entry) b)
      :: decode_dir_entries n' (drop (Z.to_nat sizeof_s_dir_entry) b)
  end.

Definition decode_dir (b : list Z) : list s_dir_entry :=
  decode_dir_entries (Z.to_nat MAX_FILES) b.

Definition decode_bit_map (b : list Z) : list Z := take (Z.to_nat sizeof_block_group) b.

(** Each [read_blocks] is given the structure that it fills; a read that
    fails leaves it as it is. *)
Definition load_file_system_from_disk (st : sfs_state) : sfs_state :=
  let d := disk st in
  let fs := file_system st in
  let sb :=
    decode_super_block (snd (read_blocks d 0 (encode_super_block (super_block fs)))) in
  let wm :=
    decode_bit_map (snd (read_blocks d (NUMBER_OF_BLOCKS - 1) (encode_bit_map (write_mask fs)))) in
  let fbm :=
    decode_bit_map (snd (read_blocks d (NUMBER_OF_BLOCKS - 2) (encode_bit_map (free_bit_map fs)))) in
  let inf :=
    decode_node_file
      (snd (read_blocks_n d 1 BLOCKS_I_NODE_FILE (encode_node_file (i_node_file fs)))) in
  let dirs :=
    (fun i => decode_dir (snd (read_blocks d (NUMBER_OF_BLOCKS - 2 - (i + 1))
                                 (encode_dir (at_Z [] (directory fs) i)))))
    <$> seqZ 0 MAX_DIRS_INCL_SHAD in
  with_fs st (mk_file_system sb inf dirs fbm wm).

(** [mkssfs(0)], when [init_disk] succeeds: the device has the blocks that
    it had. *)
Definition mkssfs_existing (st : sfs_state) : sfs_state :=
  with_table (load_file_system_from_disk st) init_open_file_table.

(** The values of the structures fit their C types: a [uint32_t], a
    [struct s_node], a [struct s_dir_entry] whose name has a terminator,
    and the arrays of [file_system]. *)
Definition u32_ok (x : Z) : Prop := 0 <= x < 4294967296.

Record node_on_disk (nd : s_node) : Prop := mk_node_on_disk {
  nd_size : -2147483648 <= size nd < 2147483648;
  nd_pointers : length (pointer nd) = Z.to_nat NUMBER_OF_POINTERS;
  nd_pointer : Forall u32_ok (pointer nd);
  nd_ind_pointer : u32_ok (ind_pointer nd)
}.

Record entry_on_disk (e : s_dir_entry) : Prop := mk_entry_on_disk {
  en_length : (String.length (name e) <= Z.to_nat MAX_NAME_LENGTH)%nat;
  en_chars : Forall (fun ch => ch <> Ascii.zero) (String.list_ascii_of_string (name e));
  en_i_node_number : u32_ok (i_node_number e)
}.

Record fs_on_disk (fs : s_file_system) : Prop := mk_fs_on_disk {
  od_magic : u32_ok (magic (super_block fs));
  od_block_size : u32_ok (block_size (super_block fs));
  od_num_blocks : u32_ok (num_blocks (super_block fs));
  od_num_i_nodes : u32_ok (num_i_nodes (super_block fs));
  od_j_nodes : length (j_node (super_block fs)) = Z.to_nat NUMBER_OF_J_NODES;
  od_j_node : Forall node_on_disk (j_node (super_block fs));
  od_i_node_file : length (i_node_file fs) = Z.to_nat BLOCKS_I_NODE_FILE;
  od_node_block :
    Forall (fun b => length b = Z.to_nat MAX_NODE_IN_BLOCK /\ Forall node_on_disk b)
      (i_node_file fs);
  od_directory : length (directory fs) = Z.to_nat MAX_DIRS_INCL_SHAD;
  od_dir :
    Forall (fun d => length d = Z.to_nat MAX_FILES /\ Forall entry_on_disk d) (directory fs);
  od_free_bit_map : length (free_bit_map fs) = Z.to_nat sizeof_block_group;
  od_write_mask : length (write_mask fs) = Z.to_nat sizeof_block_group
}.

(** The blocks of the device that hold the image of [file_system]. *)
Definition meta_block (b : Z) : Prop :=
  b = 0 \/ 1 <= b <= BLOCKS_I_NODE_FILE
  \/ NUMBER_OF_BLOCKS - 2 - MAX_DIRS_INCL_SHAD <= b < NUMBER_OF_BLOCKS.

(** [fs_on_disk], decided by running through the arrays. *)
Definition u32_ok_b (x : Z) : bool := (0 <=? x) && (x <? 4294967296).

Definition node_on_disk_b (nd : s_node) : bool :=
  (-2147483648 <=? size nd) && (size nd <? 2147483648)
  && (length (pointer nd) =? Z.to_nat NUMBER_OF_POINTERS)%nat
  && forallb u32_ok_b (pointer nd) && u32_ok_b (ind_pointer nd).

Definition entry_on_disk_b (e : s_dir_entry) : bool :=
  (String.length (name e) <=? Z.to_nat MAX_NAME_LENGTH)%nat
  && forallb (fun ch => negb (Ascii.eqb ch Ascii.zero)) (String.list_ascii_of_string (name e))
  && u32_ok_b (i_node_number e).

Definition fs_on_disk_b (fs : s_file_system) : bool :=
  u32_ok_b (magic (super_block fs)) && u32_ok_b (block_size (super_block fs))
  && u32_ok_b (num_blocks (super_block fs)) && u32_ok_b (num_i_nodes (super_block fs))
  && (length (j_node (super_block fs)) =? Z.to_nat NUMBER_OF_J_NODES)%nat
  && forallb node_on_disk_b (j_node (super_block fs))
  && (length (i_node_file fs) =? Z.to_nat BLOCKS_I_NODE_FILE)%nat
  && forallb (fun b => (length b =? Z.to_nat MAX_NODE_IN_BLOCK)%nat && forallb node_on_disk_b b)
       (i_node_file fs)
  && (length (directory fs) =? Z.to_nat MAX_DIRS_INCL_SHAD)%nat
  && forallb (fun d => (length d =? Z.to_nat MAX_FILES)%nat && forallb entry_on_disk_b d)
       (directory fs)
  && (length (free_bit_map fs) =? Z.to_nat sizeof_block_group)%nat
  && (length (write_mask fs) =? Z.to_nat sizeof_block_group)%nat.

(** A process that starts on the device that [st] leaves: the globals are
    zeroed (no name, no pointer, empty arrays in the model). *)
Definition restarted (st : sfs_state) : sfs_state :=
  mk_state (mk_file_system (mk_super_block 0 0 0 0 []) [] [] [] []) [] (disk st) 0.

(** * Properties *)

(** ** Geometry *)

(** The values of the constants, for arithmetic goals. *)
Ltac geometry :=
  change FIRST_DATA_BLOCK with 14 in *;
  change LAST_DATA_BLOCK with 1016 in *;
  change BLOCKS_I_NODE_FILE with 13 in *;
  change MAX_NODE_IN_BLOCK with 16 in *;
  change POINTERS_IND_BLOCK with 256 in *;
  change NUMBER_OF_POINTERS with 14 in *;
  change NUMBER_OF_BYTES_BLOCK with 1024 in *;
  change NUMBER_OF_BLOCKS with 1024 in *;
  change MAX_DIRS_INCL_SHAD with 5 in *;
  change MAX_FILES with 36 in *;
  change MAX_FD with 32 in *;
  change MAX_NAME_LENGTH with 20 in *;
  change sizeof_block_group with 128 in *.

(** Keep [simpl] from unfolding the block codecs and the device. *)
Arguments decode_ind_node_block : simpl never.
Arguments encode_ind_node_block : simpl never.
Arguments read_ind_node_block : simpl never.
Arguments read_blocks : simpl never.
Arguments write_blocks : simpl never.
Arguments put_blocks : simpl never.
Arguments dump_file_system_to_disk : simpl never.
Arguments get_free_block : simpl never.
Arguments node_of : simpl never.
Arguments set_node_of : simpl never.
Arguments get_i_node : simpl never.
Arguments set_i_node : simpl never.
Arguments dir_entry : simpl never.
Arguments set_dir_entry : simpl never.
Arguments fd_at : simpl never.
Arguments same_name : simpl never.
Arguments init_dir : simpl never.
Arguments init_data_block : simpl never.
Arguments init_ind_node_block : simpl never.
Arguments local_buffer : simpl never.
Arguments get_bit_map : simpl never.
Arguments set_bit_map : simpl never.
Arguments clr_bit_map : simpl never.
Arguments rm_file_from_disk : simpl never.
Arguments rm_file_from_dir : simpl never.
Arguments rm_fd : simpl never.
Arguments add_block : simpl never.
Arguments add_file_to_dir : simpl never.
Arguments copy_file : simpl never.
Arguments get_next_file_block : simpl never.
Arguments get_last_file_block : simpl never.
Arguments get_num_file_blocks : simpl never.
Arguments get_end_char : simpl never.
Arguments inc_file_size : simpl never.
Arguments free_shadow_directory : simpl never.
Arguments restore_shadow_directory : simpl never.
Arguments Z.quot : simpl never.
Arguments Z.rem : simpl never.
Arguments Z.to_nat : simpl never.

(** ** Arrays and loops *)

Lemma at_Z_lookup {A} (d : A) l i x :
  0 <= i -> l !! Z.to_nat i = Some x -> at_Z d l i = x.
Proof.
  intros Hi Hl. unfold at_Z. destruct (Z.ltb_spec i 0); [lia|]. by rewrite Hl.
Qed.

Lemma at_Z_upd_same {A} (d : A) l i x :
  0 <= i < Z.of_nat (length l) -> at_Z d (upd_Z l i x) i = x.
Proof.
  intros Hi. unfold at_Z, upd_Z. destruct (Z.ltb_spec i 0); [lia|].
  rewrite list_lookup_insert_eq; [done|lia].
Qed.

Lemma at_Z_upd_other {A} (d : A) l i j x :
  i <> j -> at_Z d (upd_Z l i x) j = at_Z d l j.
Proof.
  intros Hij. unfold at_Z, upd_Z.
  destruct (Z.ltb_spec i 0), (Z.ltb_spec j 0); try done.
  rewrite list_lookup_insert_ne; [done|lia].
Qed.

Lemma length_upd_Z {A} (l : list A) i x : length (upd_Z l i x) = length l.
Proof. unfold upd_Z. destruct (i <? 0); [done|apply length_insert]. Qed.

Lemma get_bit_testbit b i : 0 <= i -> get_bit b i = Z.b2z (Z.testbit b i).
Proof.
  intros Hi. unfold get_bit.
  change 1 with (Z.ones 1) at 1. rewrite Z.land_ones by lia.
  rewrite Z.testbit_spec' by lia. by rewrite Z.shiftr_div_pow2 by lia.
Qed.

Lemma testbit_clr_bit b i j :
  0 <= i -> 0 <= j < 8 ->
  Z.testbit (clr_bit b i) j = Z.testbit b j && negb (i =? j).
Proof.
  intros Hi Hj. unfold clr_bit.
  rewrite !Z.land_spec, Z.lnot_spec, Z.shiftl_1_l, Z.pow2_bits_eqb by lia.
  change 255 with (Z.ones 8). rewrite Z.ones_spec_low by lia.
  by rewrite andb_true_r.
Qed.

Lemma testbit_set_bit b i j :
  0 <= i -> 0 <= j < 8 ->
  Z.testbit (set_bit b i) j = Z.testbit b j || (i =? j).
Proof.
  intros Hi Hj. unfold set_bit.
  rewrite !Z.land_spec, Z.lor_spec, Z.shiftl_1_l, Z.pow2_bits_eqb by lia.
  change 255 with (Z.ones 8). rewrite Z.ones_spec_low by lia.
  by rewrite andb_true_r.
Qed.

Lemma quot8 b : 0 <= b -> b ÷ 8 = b / 8.
Proof. intros. apply Z.quot_div_nonneg; lia. Qed.
Lemma rem8 b : 0 <= b -> Z.rem b 8 = b mod 8.
Proof. intros. apply Z.rem_mod_nonneg; lia. Qed.

Lemma get_bit_map_01 m b : 0 <= b -> get_bit_map m b = 0 \/ get_bit_map m b = 1.
Proof.
  intros Hb. unfold get_bit_map. rewrite get_bit_testbit.
  - destruct (Z.testbit _ _); auto.
  - rewrite rem8 by done. apply Z.mod_pos_bound. lia.
Qed.

Lemma get_clr_bit_map m b b' :
  0 <= b -> 0 <= b' -> b / 8 < Z.of_nat (length m) ->
  get_bit_map (clr_bit_map m b) b' = if b =? b' then 0 else get_bit_map m b'.
Proof.
  intros Hb Hb' Hlen. unfold get_bit_map, clr_bit_map.
  rewrite !quot8, !rem8 by done.
  assert (0 <= b / 8) by (apply Z.div_pos; lia).
  assert (0 <= b mod 8 < 8) by (apply Z.mod_pos_bound; lia).
  assert (0 <= b' mod 8 < 8) by (apply Z.mod_pos_bound; lia).
  rewrite !get_bit_testbit by lia.
  destruct (Z.eq_dec (b / 8) (b' / 8)) as [He|Hne].
  - rewrite <- He, at_Z_upd_same by lia.
    rewrite testbit_clr_bit by lia.
    destruct (Z.eqb_spec b b') as [->|Hbb].
    + rewrite Z.eqb_refl, andb_false_r. done.
    + destruct (Z.eqb_spec (b mod 8) (b' mod 8)) as [Hm|Hm].
      * exfalso. apply Hbb.
        rewrite (Z.div_mod b 8), (Z.div_mod b' 8) by lia. lia.
      * by rewrite andb_true_r.
  - rewrite at_Z_upd_other by done.
    destruct (Z.eqb_spec b b') as [->|Hbb]; [done|done].
Qed.

Lemma get_set_bit_map m b b' :
  0 <= b -> 0 <= b' -> b / 8 < Z.of_nat (length m) ->
  get_bit_map (set_bit_map m b) b' = if b =? b' then 1 else get_bit_map m b'.
Proof.
  intros Hb Hb' Hlen. unfold get_bit_map, set_bit_map.
  rewrite !quot8, !rem8 by done.
  assert (0 <= b / 8) by (apply Z.div_pos; lia).
  assert (0 <= b mod 8 < 8) by (apply Z.mod_pos_bound; lia).
  assert (0 <= b' mod 8 < 8) by (apply Z.mod_pos_bound; lia).
  rewrite !get_bit_testbit by lia.
  destruct (Z.eq_dec (b / 8) (b' / 8)) as [He|Hne].
  - rewrite <- He, at_Z_upd_same by lia.
    rewrite testbit_set_bit by lia.
    destruct (Z.eqb_spec b b') as [->|Hbb].
    + rewrite Z.eqb_refl, orb_true_r. done.
    + destruct (Z.eqb_spec (b mod 8) (b' mod 8)) as [Hm|Hm].
      * exfalso. apply Hbb.
        rewrite (Z.div_mod b 8), (Z.div_mod b' 8) by lia. lia.
      * by rewrite orb_false_r.
  - rewrite at_Z_upd_other by done.
    destruct (Z.eqb_spec b b') as [->|Hbb]; [done|done].
Qed.

Lemma length_clr_bit_map m b : length (clr_bit_map m b) = length m.
Proof. apply length_upd_Z. Qed.
Lemma length_set_bit_map m b : length (set_bit_map m b) = length m.
Proof. apply length_upd_Z. Qed.

(** first_index *)
Lemma first_index_Some p i n k :
  first_index p i n = Some k ->
  i <= k < i + Z.of_nat n /\ p k = true /\ forall j, i <= j < k -> p j = false.
Proof.
  revert i. induction n as [|n IH]; intros i; simpl; [done|].
  destruct (p i) eqn:Hp.
  - intros [= <-]. split; [lia|]. split; [done|]. intros; lia.
  - intros Hk. apply IH in Hk as (Hr & Hpk & Hlt).
    split; [lia|]. split; [done|]. intros j Hj.
    destruct (Z.eq_dec j i) as [->|Hne]; [done|]. apply Hlt. lia.
Qed.

Lemma first_index_None p i n :
  first_index p i n = None <-> forall j, i <= j < i + Z.of_nat n -> p j = false.
Proof.
  revert i. induction n as [|n IH]; intros i; simpl.
  - split; [intros _ j Hj; lia|done].
  - destruct (p i) eqn:Hp.
    + split; [done|]. intros H. rewrite H in Hp by lia. done.
    + rewrite IH. split.
      * intros H j Hj. destruct (Z.eq_dec j i) as [->|Hne]; [done|]. apply H. lia.
      * intros H j Hj. apply H. lia.
Qed.

Lemma first_index_ext p q i n :
  (forall j, i <= j < i + Z.of_nat n -> p j = q j) ->
  first_index p i n = first_index q i n.
Proof.
  revert i. induction n as [|n IH]; intros i H; simpl; [done|].
  rewrite <- H by lia. destruct (p i); [done|]. apply IH. intros; apply H; lia.
Qed.

(** ** Access to the arrays of a well-formed state *)

Lemma at_Z_in_range {A} (d : A) l i :
  0 <= i < Z.of_nat (length l) -> l !! Z.to_nat i = Some (at_Z d l i).
Proof.
  intros Hi. unfold at_Z. destruct (Z.ltb_spec i 0); [lia|].
  destruct (lookup_lt_is_Some_2 l (Z.to_nat i)) as [x Hx]; [lia|]. by rewrite Hx.
Qed.

Lemma at_Z_out_of_range {A} (d : A) l i :
  ~ (0 <= i < Z.of_nat (length l)) -> at_Z d l i = d.
Proof.
  intros Hi. unfold at_Z. destruct (Z.ltb_spec i 0); [done|].
  rewrite lookup_ge_None_2; [done|lia].
Qed.

Lemma upd_Z_out_of_range {A} (l : list A) i x :
  ~ (0 <= i < Z.of_nat (length l)) -> upd_Z l i x = l.
Proof.
  intros Hi. unfold upd_Z. destruct (Z.ltb_spec i 0); [done|].
  apply list_insert_ge. lia.
Qed.

Lemma at_Z_upd {A} (d : A) l i j x :
  at_Z d (upd_Z l i x) j =
  if decide (i = j /\ 0 <= i < Z.of_nat (length l)) then x else at_Z d l j.
Proof.
  case_decide as H.
  - destruct H as [-> H]. by apply at_Z_upd_same.
  - destruct (decide (i = j)) as [->|Hne].
    + rewrite upd_Z_out_of_range; [done|]. intros ?. apply H. done.
    + by apply at_Z_upd_other.
Qed.

Lemma dir_entry_set_dir_entry fs s i e s' i' :
  dir_entry (set_dir_entry fs s i e) s' i' =
  if decide ((s = s' /\ 0 <= s < Z.of_nat (length (directory fs)))
             /\ i = i' /\ 0 <= i < Z.of_nat (length (at_Z [] (directory fs) s)))
  then e else dir_entry fs s' i'.
Proof.
  unfold dir_entry, set_dir_entry. simpl. rewrite at_Z_upd.
  destruct (decide (s = s' /\ _)) as [[-> Hs]|Hs].
  - rewrite at_Z_upd.
    destruct (decide (i = i' /\ _)) as [Hi|Hi]; case_decide as H; try done; tauto.
  - case_decide as H; [tauto|done].
Qed.

Lemma length_directory_set_dir_entry fs s i e :
  length (directory (set_dir_entry fs s i e)) = length (directory fs).
Proof. unfold set_dir_entry. simpl. apply length_upd_Z. Qed.

Lemma length_dir_set_dir_entry fs s i e s' :
  length (at_Z [] (directory (set_dir_entry fs s i e)) s')
  = length (at_Z [] (directory fs) s').
Proof.
  unfold set_dir_entry. simpl. rewrite at_Z_upd.
  case_decide as H; [|done]. destruct H as [-> _]. apply length_upd_Z.
Qed.

Lemma dir_entry_set_i_node fs ib ino nd s i :
  dir_entry (set_i_node fs ib ino nd) s i = dir_entry fs s i.
Proof. done. Qed.

Lemma directory_set_i_node fs ib ino nd :
  directory (set_i_node fs ib ino nd) = directory fs.
Proof. done. Qed.

Lemma file_system_with_fs st fs : file_system (with_fs st fs) = fs.
Proof. done. Qed.

Lemma directory_set_node_of fs n nd : directory (set_node_of fs n nd) = directory fs.
Proof. done. Qed.

Lemma directory_set_both fs b : directory (set_both fs b) = directory fs.
Proof. done. Qed.

Lemma file_system_put_blocks st a n b : file_system (put_blocks st a n b) = file_system st.
Proof. done. Qed.

Lemma open_file_table_put_blocks st a n b :
  open_file_table (put_blocks st a n b) = open_file_table st.
Proof. done. Qed.

Lemma file_system_dump st : file_system (dump_file_system_to_disk st) = file_system st.
Proof.
  unfold dump_file_system_to_disk.
  match goal with |- file_system (foldl ?f ?a ?l) = _ =>
    assert (forall l' s, file_system (foldl f s l') = file_system s) as H
  end.
  { induction l' as [|x l' IH]; intros s; simpl; [done|]. by rewrite IH. }
  by rewrite H.
Qed.

Lemma open_file_table_dump st :
  open_file_table (dump_file_system_to_disk st) = open_file_table st.
Proof.
  unfold dump_file_system_to_disk.
  match goal with |- open_file_table (foldl ?f ?a ?l) = _ =>
    assert (forall l' s, open_file_table (foldl f s l') = open_file_table s) as H
  end.
  { induction l' as [|x l' IH]; intros s; simpl; [done|]. by rewrite IH. }
  by rewrite H.
Qed.

Lemma gnfni_dump st : gnfni (dump_file_system_to_disk st) = gnfni st.
Proof.
  unfold dump_file_system_to_disk.
  match goal with |- gnfni (foldl ?f ?a ?l) = _ =>
    assert (forall l' s, gnfni (foldl f s l') = gnfni s) as H
  end.
  { induction l' as [|x l' IH]; intros s; simpl; [done|]. by rewrite IH. }
  by rewrite H.
Qed.

(** ** The block allocator *)

Lemma get_free_block_Some fs i :
  first_index (fun i => negb (get_bit_map (free_bit_map fs) i =? 0))
    FIRST_DATA_BLOCK (Z.to_nat (LAST_DATA_BLOCK + 1 - FIRST_DATA_BLOCK)) = Some i ->
  get_free_block fs = (i, with_free_bit_map fs (clr_bit_map (free_bit_map fs) i)).
Proof. intros H. unfold get_free_block. by rewrite H. Qed.

Lemma get_free_block_cases fs :
  (get_free_block fs = (-1, fs)
   /\ forall i, FIRST_DATA_BLOCK <= i <= LAST_DATA_BLOCK -> get_bit_map (free_bit_map fs) i = 0)
  \/ (exists b,
        get_free_block fs = (b, with_free_bit_map fs (clr_bit_map (free_bit_map fs) b))
        /\ FIRST_DATA_BLOCK <= b <= LAST_DATA_BLOCK
        /\ get_bit_map (free_bit_map fs) b = 1
        /\ forall i, FIRST_DATA_BLOCK <= i < b -> get_bit_map (free_bit_map fs) i = 0).
Proof.
  unfold get_free_block.
  destruct (first_index _ _ _) as [b|] eqn:Hf.
  - right. exists b. apply first_index_Some in Hf as (Hr & Hp & Hlt).
    assert (FIRST_DATA_BLOCK <= b <= LAST_DATA_BLOCK) as Hb by (geometry; lia).
    split; [done|]. split; [done|]. split.
    + destruct (get_bit_map_01 (free_bit_map fs) b) as [H0|H1];
        [geometry; lia| |done].
      rewrite H0 in Hp. done.
    + intros i Hi. specialize (Hlt i Hi).
      apply negb_false_iff in Hlt. lia.
  - left. split; [done|]. intros i Hi.
    rewrite first_index_None in Hf.
    specialize (Hf i). apply negb_false_iff in Hf; [lia|].
    geometry. lia.
Qed.

(** C2, as amended.  [get_free_block] scans the blocks
    [FIRST_DATA_BLOCK = 1 + BLOCKS_I_NODE_FILE] to
    [LAST_DATA_BLOCK = NUMBER_OF_BLOCKS - 3 - MAX_DIRS_INCL_SHAD] inclusive:
    it returns -1 exactly when no bit of that range is set in the free bit
    map, and otherwise returns the first block of the range whose bit is
    set, after clearing that bit; it never returns a block outside the
    range. *)
Theorem get_free_block_scans_data_region (fs : s_file_system) :
  length (free_bit_map fs) = Z.to_nat sizeof_block_group ->
  FIRST_DATA_BLOCK = 1 + BLOCKS_I_NODE_FILE
  /\ LAST_DATA_BLOCK = NUMBER_OF_BLOCKS - 3 - MAX_DIRS_INCL_SHAD
  /\ allocates_first_free LAST_DATA_BLOCK fs.
Proof.
  intros Hlen. split; [done|]. split; [done|].
  unfold allocates_first_free.
  destruct (get_free_block_cases fs) as [[-> Hall]|(b & -> & Hb & Hbit & Hlt)]; simpl.
  - split; [done|]. intros H; done.
  - split.
    + split; [geometry; lia|]. intros Hall. rewrite Hall in Hbit; [done|lia].
    + intros _. split; [done|]. split; [done|]. split; [done|]. split; [done|].
      rewrite get_clr_bit_map.
      * by rewrite Z.eqb_refl.
      * geometry; lia.
      * geometry; lia.
      * rewrite Hlen. geometry. apply Z.div_lt_upper_bound; lia.
Qed.

Lemma get_free_block_scans_data_region_witness :
  length (free_bit_map init_file_system) = Z.to_nat sizeof_block_group
  /\ allocates_first_free LAST_DATA_BLOCK init_file_system.
Proof.
  split; [reflexivity|].
  apply (get_free_block_scans_data_region init_file_system). reflexivity.
Defined.

(** C2, as stated, fails: with the data region ending at block
    [NUMBER_OF_BLOCKS - 2 - MAX_DIRS_INCL_SHAD] = 1017, a file system whose
    only free bit is that of block 1017 has a set bit in the range, yet
    [get_free_block] returns -1. *)
Lemma get_free_block_misses_block_1017 :
  ~ allocates_first_free LAST_DATA_of_layout_table fs_only_1017_free.
Proof.
  unfold allocates_first_free. intros [[Hfail _] _].
  assert (fst (get_free_block fs_only_1017_free) = -1) as Hr by (vm_compute; reflexivity).
  specialize (Hfail Hr 1017).
  assert (get_bit_map (free_bit_map fs_only_1017_free) 1017 = 1) as Hbit
    by (vm_compute; reflexivity).
  rewrite Hfail in Hbit; [done|]. unfold LAST_DATA_of_layout_table. geometry. lia.
Qed.

(** ** Names *)

Lemma strncpy_substring s n : strncpy s n = String.substring 0 n s.
Proof.
  revert s. induction n as [|n IH]; intros [|ch r]; simpl; try done.
  by rewrite IH.
Qed.

Lemma strncmp_0_iff a b n : strncmp a b n = 0 <-> strncpy a n = strncpy b n.
Proof.
  revert a b. induction n as [|n IH]; intros [|c1 r1] [|c2 r2]; simpl; try done.
  destruct (decide (c1 = c2)) as [->|Hne].
  - rewrite IH. split; [by intros ->|by intros [= ->]].
  - split; [|by intros [= ? _]].
    destruct (char_code c1 <? char_code c2); done.
Qed.

Lemma same_name_iff a b :
  same_name a b = true <-> first_20 a = first_20 b.
Proof.
  unfold same_name, first_20. rewrite Z.eqb_eq, strncmp_0_iff.
  by rewrite !strncpy_substring.
Qed.

Lemma same_name_agree_r x a b :
  first_20 a = first_20 b -> same_name x a = same_name x b.
Proof.
  intros H. apply eq_true_iff_eq. rewrite !same_name_iff. by rewrite H.
Qed.

Lemma same_name_agree_l x a b :
  first_20 a = first_20 b -> same_name a x = same_name b x.
Proof.
  intros H. apply eq_true_iff_eq. rewrite !same_name_iff. by rewrite H.
Qed.

Lemma strlen_agree a b :
  first_20 a = first_20 b -> (strlen a =? 0) = (strlen b =? 0).
Proof.
  unfold first_20, strlen. destruct a, b; simpl; try done.
Qed.

Lemma same_name_empty_l f : f <> EmptyString -> same_name EmptyString f = false.
Proof. destruct f; [done|]. intros _. reflexivity. Qed.

Lemma same_name_nonempty e f :
  f <> EmptyString -> same_name e f = true -> e <> EmptyString.
Proof. intros Hf He ->. by rewrite same_name_empty_l in He. Qed.

Lemma name_empty_true s : name_empty s = true <-> s = EmptyString.
Proof. by destruct s. Qed.

Lemma strlen_0 s : (strlen s =? 0) = name_empty s.
Proof. by destruct s. Qed.

Section agree.
Context (n1 n2 : string) (Hagree : first_20 n1 = first_20 n2).

Lemma strncpy_agree : strncpy n1 (Z.to_nat MAX_NAME_LENGTH) = strncpy n2 (Z.to_nat MAX_NAME_LENGTH).
Proof. rewrite !strncpy_substring. exact Hagree. Qed.

Lemma first_index_agree_r (g : Z -> string) i k :
  first_index (fun j => same_name (g j) n1) i k = first_index (fun j => same_name (g j) n2) i k.
Proof. apply first_index_ext. intros j _. by apply same_name_agree_r. Qed.

Lemma first_index_agree_l (g : Z -> string) i k :
  first_index (fun j => same_name n1 (g j)) i k = first_index (fun j => same_name n2 (g j)) i k.
Proof. apply first_index_ext. intros j _. by apply same_name_agree_l. Qed.

Lemma add_file_to_dir_agree st ib ino :
  add_file_to_dir st n1 ib ino = add_file_to_dir st n2 ib ino.
Proof. unfold add_file_to_dir. by rewrite strncpy_agree. Qed.

Lemma fopen_new_agree st : fopen_new st n1 = fopen_new st n2.
Proof.
  unfold fopen_new, first_fd_named.
  rewrite first_index_agree_r, add_file_to_dir_agree, strncpy_agree. done.
Qed.

Lemma fopen_existing_agree st i : fopen_existing st n1 i = fopen_existing st n2 i.
Proof.
  unfold fopen_existing, create_open_file_entry, set_fopen_name.
  rewrite first_index_agree_l, strncpy_agree. done.
Qed.

Lemma ssfs_fopen_agree st : ssfs_fopen st n1 = ssfs_fopen st n2.
Proof.
  unfold ssfs_fopen.
  rewrite first_index_agree_r, fopen_new_agree, (strlen_agree n1 n2 Hagree).
  destruct (negb _); [done|]. destruct (strlen n2 =? 0); [done|].
  destruct (first_index _ _ _); [|done]. by rewrite fopen_existing_agree.
Qed.

Lemma rm_fd_agree st : rm_fd st n1 = rm_fd st n2.
Proof.
  unfold rm_fd. generalize (seqZ 0 MAX_FD). intros l. revert st.
  induction l as [|i l IH]; intros st; simpl; [done|].
  rewrite (same_name_agree_r _ n1 n2 Hagree). apply IH.
Qed.

Lemma rm_file_from_dir_agree st : rm_file_from_dir n1 st = rm_file_from_dir n2 st.
Proof. unfold rm_file_from_dir. by rewrite first_index_agree_r. Qed.

Lemma ssfs_remove_agree st : ssfs_remove st n1 = ssfs_remove st n2.
Proof. unfold ssfs_remove. by rewrite rm_fd_agree, rm_file_from_dir_agree. Qed.

Lemma ssfs_get_file_size_agree st : ssfs_get_file_size st n1 = ssfs_get_file_size st n2.
Proof. unfold ssfs_get_file_size. by rewrite first_index_agree_r. Qed.

End agree.

Lemma add_file_to_dir_stores_first_20 st f ib0 in0 i ib ino st' :
  arrays_ok st ->
  add_file_to_dir st f ib0 in0 = (i, ib, ino, st') -> 0 <= i ->
  name (dir_entry (file_system st') 0 i) = first_20 f.
Proof.
  intros Hok Hadd Hi. unfold add_file_to_dir in Hadd.
  destruct (first_index _ _ _) as [k|] eqn:Hk; [|injection Hadd as <-; lia].
  apply first_index_Some in Hk as (Hk & _ & _).
  destruct (get_free_i_node _ _) as [ino' ib'].
  destruct (ino' =? -1); [injection Hadd as <-; lia|].
  destruct (get_free_block _) as [blk fs1] eqn:Hg.
  assert (directory fs1 = directory (file_system st)) as Hdir.
  { destruct (get_free_block_cases (file_system st)) as [[H _]|(b & H & _)];
      rewrite H in Hg; by simplify_eq. }
  destruct (blk =? -1); [injection Hadd as <-; lia|].
  injection Hadd as <- <- <- <-.
  rewrite !file_system_put_blocks. simpl file_system.
  rewrite dir_entry_set_i_node, !dir_entry_set_dir_entry.
  rewrite !directory_set_i_node, Hdir.
  destruct Hok as [Hd Hds _ _ _ _ _].
  assert (0 <= 0 < Z.of_nat (length (directory (file_system st)))) as H0
    by (rewrite Hd; geometry; lia).
  assert (0 <= k < Z.of_nat (length (at_Z [] (directory (file_system st)) 0))) as Hk'.
  { pose proof (at_Z_in_range [] _ 0 H0) as Hl.
    rewrite Forall_lookup in Hds. rewrite (Hds _ _ Hl). geometry. lia. }
  rewrite length_directory_set_dir_entry, length_dir_set_dir_entry.
  rewrite !directory_set_i_node, Hdir.
  rewrite !decide_True by done. simpl.
  unfold first_20. by rewrite strncpy_substring.
Qed.


Lemma same_name_sym a b : same_name a b = same_name b a.
Proof. apply eq_true_iff_eq. rewrite !same_name_iff. done. Qed.

Lemma same_name_trans a b c :
  same_name a b = true -> same_name b c = true -> same_name a c = true.
Proof. rewrite !same_name_iff. congruence. Qed.

Lemma dir_entry_in_range fs s i :
  name (dir_entry fs s i) <> EmptyString ->
  (0 <= s < Z.of_nat (length (directory fs)))
  /\ 0 <= i < Z.of_nat (length (at_Z [] (directory fs) s)).
Proof.
  intros Hn. unfold dir_entry in Hn.
  destruct (decide (0 <= s < Z.of_nat (length (directory fs)))) as [Hs|Hs].
  - split; [done|].
    destruct (decide (0 <= i < Z.of_nat (length (at_Z [] (directory fs) s)))) as [Hi|Hi];
      [done|].
    rewrite (at_Z_out_of_range _ _ i) in Hn by done. done.
  - rewrite (at_Z_out_of_range _ _ s) in Hn by done.
    rewrite at_Z_out_of_range in Hn; [done|]. simpl. lia.
Qed.

(** The directory look-up of [ssfs_fopen], [rm_file_from_dir] and
    [ssfs_get_file_size]. *)
Lemma lookup_in_directory fs f :
  f <> EmptyString ->
  (in_directory fs f <->
   exists i, first_index (fun i => same_name (name (dir_entry fs 0 i)) f)
               0 (Z.to_nat MAX_FILES) = Some i).
Proof.
  intros Hf. split.
  - intros (i & Hi & _ & Hs).
    destruct (first_index _ _ _) as [k|] eqn:Hk; [by exists k|].
    rewrite first_index_None in Hk. rewrite Hk in Hs; [done|]. lia.
  - intros (i & Hi). apply first_index_Some in Hi as (Hr & Hs & _).
    exists i. split; [lia|]. split; [|done]. by eapply same_name_nonempty.
Qed.

Lemma lookup_not_in_directory fs f :
  f <> EmptyString -> ~ in_directory fs f ->
  first_index (fun i => same_name (name (dir_entry fs 0 i)) f)
    0 (Z.to_nat MAX_FILES) = None.
Proof.
  intros Hf Hn. destruct (first_index _ _ _) as [k|] eqn:Hk; [|done].
  exfalso. apply Hn. apply lookup_in_directory; eauto.
Qed.

(** *** Duplicate open *)

Lemma lookup_in_open_file_table t f :
  f <> EmptyString -> in_open_file_table t f ->
  exists i, first_fd_named t f = Some i /\ 0 <= i < MAX_FD.
Proof.
  intros Hf (i & Hi & _ & Hs). unfold first_fd_named.
  destruct (first_index _ _ _) as [k|] eqn:Hk.
  - exists k. split; [done|]. apply first_index_Some in Hk. lia.
  - rewrite first_index_None in Hk. rewrite Hk in Hs; [done|]. lia.
Qed.

(** C4, as amended.  For a name that the open-file table holds,
    [ssfs_fopen] returns -1 when the table is full or the name is in the
    live directory; when the table is not full and the name is not in the
    live directory, it returns the index of the first slot that holds the
    name.  The state is unchanged in all cases. *)
Theorem fopen_of_an_open_name (st : sfs_state) (f : string) :
  f <> EmptyString ->
  in_open_file_table (open_file_table st) f ->
  (check_fd_full st <> 0 \/ in_directory (file_system st) f ->
   ssfs_fopen st f = Some (-1, st))
  /\ (check_fd_full st = 0 -> ~ in_directory (file_system st) f ->
      exists i, first_fd_named (open_file_table st) f = Some i
                /\ 0 <= i < MAX_FD
                /\ ssfs_fopen st f = Some (i, st)).
Proof.
  intros Hf Hopen.
  destruct (lookup_in_open_file_table _ _ Hf Hopen) as (i0 & Hi0 & Hr0).
  assert ((strlen f =? 0) = false) as Hlen by (by destruct f).
  split.
  - intros Hcase. unfold ssfs_fopen.
    destruct (Z.eqb_spec (check_fd_full st) 0) as [Hfull|Hfull];
      cbv beta iota delta [negb]; [|done].
    destruct Hcase as [?|Hdir]; [done|]. rewrite Hlen.
    apply lookup_in_directory in Hdir as [i ->]; [|done].
    unfold fopen_existing.
    destruct (first_index _ _ _) as [k|] eqn:Hk; [done|].
    rewrite first_index_None in Hk.
    unfold first_fd_named in Hi0. apply first_index_Some in Hi0 as (_ & Hs & _).
    rewrite same_name_sym, Hk in Hs; [done|lia].
  - intros Hfull Hdir. exists i0. split; [done|]. split; [done|].
    unfold ssfs_fopen. rewrite Hfull, Hlen, lookup_not_in_directory by done.
    unfold fopen_new. by rewrite Hi0.
Qed.

(** C4, as stated, fails: after [mkssfs(1); ssfs_commit();
    ssfs_fopen("a"); ssfs_restore(1)] the name "a" is in the open-file
    table and not in the live directory, and [ssfs_fopen("a")] returns the
    descriptor 0 that holds it instead of -1. *)
Lemma fopen_returns_the_open_descriptor :
  ~ duplicate_open_fails st_open_but_not_in_directory "a".
Proof.
  intros H. destruct H as [st' H].
  - exists 0. split; [geometry; lia|]. split; [by vm_compute|by vm_compute].
  - apply (f_equal (fmap fst)) in H. vm_compute in H. discriminate.
Qed.

(** *** Remove *)

Lemma fd_at_set_fd st i f j :
  fd_at (open_file_table (set_fd st i f)) j
  = if decide (i = j /\ 0 <= i < Z.of_nat (length (open_file_table st)))
    then f else fd_at (open_file_table st) j.
Proof. unfold fd_at, set_fd. simpl. apply at_Z_upd. Qed.

Lemma rm_fd_loop f l st :
  NoDup l ->
  let st' :=
    foldl (fun st' i =>
             if same_name (name (entry (fd_at (open_file_table st') i))) f
             then set_fd st' i init_fd else st') st l in
  file_system st' = file_system st /\ disk st' = disk st /\ gnfni st' = gnfni st
  /\ forall i,
       fd_at (open_file_table st') i
       = if bool_decide (i ∈ l) && same_name (name (entry (fd_at (open_file_table st) i))) f
         then init_fd else fd_at (open_file_table st) i.
Proof.
  revert st. induction l as [|x l IH]; intros st Hnd; simpl.
  - repeat split; done.
  - apply NoDup_cons in Hnd as [Hx Hnd].
    set (st1 := if same_name _ f then set_fd st x init_fd else st).
    destruct (IH st1 Hnd) as (Hfs & Hd & Hg & Ht).
    assert (forall i, fd_at (open_file_table st1) i
                      = if decide (x = i)
                        then (if same_name (name (entry (fd_at (open_file_table st) x))) f
                              then init_fd else fd_at (open_file_table st) x)
                        else fd_at (open_file_table st) i) as H1.
    { intros i. subst st1.
      destruct (same_name _ f) eqn:Hs.
      - rewrite fd_at_set_fd. destruct (decide (x = i)) as [->|Hne].
        + case_decide as H; [done|].
          unfold fd_at. rewrite at_Z_out_of_range; [done|tauto].
        + case_decide as H; [tauto|done].
      - destruct (decide (x = i)) as [->|Hne]; done. }
    split; [rewrite Hfs; subst st1; by destruct (same_name _ f)|].
    split; [rewrite Hd; subst st1; by destruct (same_name _ f)|].
    split; [rewrite Hg; subst st1; by destruct (same_name _ f)|].
    intros i. rewrite Ht, !H1.
    destruct (decide (x = i)) as [->|Hne].
    + rewrite (bool_decide_eq_false_2 _ Hx). simpl.
      rewrite bool_decide_eq_true_2 by (apply elem_of_cons; by left). simpl. done.
    + destruct (bool_decide (i ∈ l)) eqn:Hin.
      * rewrite bool_decide_eq_true_2; [done|].
        apply bool_decide_eq_true in Hin. apply elem_of_cons. by right.
      * rewrite bool_decide_eq_false_2; [done|].
        apply bool_decide_eq_false in Hin. rewrite elem_of_cons. intros [?|?]; done.
Qed.

Lemma rm_fd_spec st f :
  file_system (rm_fd st f) = file_system st
  /\ disk (rm_fd st f) = disk st
  /\ gnfni (rm_fd st f) = gnfni st
  /\ forall i, 0 <= i < MAX_FD ->
       fd_at (open_file_table (rm_fd st f)) i
       = if same_name (name (entry (fd_at (open_file_table st) i))) f
         then init_fd else fd_at (open_file_table st) i.
Proof.
  destruct (rm_fd_loop f (seqZ 0 MAX_FD) st (NoDup_seqZ _ _)) as (Hfs & Hd & Hg & Ht).
  split; [done|]. split; [done|]. split; [done|].
  intros i Hi. unfold rm_fd. rewrite Ht.
  rewrite bool_decide_eq_true_2; [done|]. apply elem_of_seqZ. lia.
Qed.


Lemma directory_free_pointers p fs : directory (free_pointers p fs) = directory fs.
Proof.
  revert fs. induction p as [|x p IH]; intros fs; simpl; [done|].
  destruct (x =? 0); [done|]. by rewrite IH.
Qed.

Lemma directory_rm_file_from_disk s i st :
  directory (file_system (snd (rm_file_from_disk s i st))) = directory (file_system st).
Proof.
  unfold rm_file_from_disk. cbn [snd file_system with_fs].
  rewrite directory_set_node_of.
  destruct (ind_pointer _ =? 0); [by rewrite directory_free_pointers|].
  destruct (read_blocks _ _ _) as [err buf]. cbv beta iota.
  destruct (negb (err =? 0));
    by rewrite ?directory_set_both, !directory_free_pointers.
Qed.

Lemma dir_entry_eq_directory fs fs' s i :
  directory fs = directory fs' -> dir_entry fs s i = dir_entry fs' s i.
Proof. unfold dir_entry. by intros ->. Qed.

(** After a successful [rm_file_from_dir], no entry of the live directory
    matches the name. *)
Lemma rm_file_from_dir_no_match st f :
  f <> EmptyString -> unique_names (file_system st) -> in_directory (file_system st) f ->
  exists st', rm_file_from_dir f st = (0, st')
    /\ gnfni st' = gnfni st
    /\ forall j, 0 <= j < MAX_FILES ->
         same_name (name (dir_entry (file_system st') 0 j)) f = false.
Proof.
  intros Hf Huniq Hin.
  apply lookup_in_directory in Hin as [k Hk]; [|done].
  unfold rm_file_from_dir. rewrite Hk. eexists. split; [done|].
  apply first_index_Some in Hk as (Hr & Hs & _).
  pose proof (same_name_nonempty _ _ Hf Hs) as Hne.
  destruct (dir_entry_in_range _ _ _ Hne) as [H0 Hkr].
  split.
  { rewrite gnfni_dump. unfold rm_file_from_disk. done. }
  intros j Hjr. rewrite file_system_dump, file_system_with_fs.
  rewrite dir_entry_set_dir_entry, directory_rm_file_from_disk.
  case_decide as Hj; [by apply same_name_empty_l|].
  rewrite (dir_entry_eq_directory _ (file_system st))
    by apply directory_rm_file_from_disk.
  destruct (same_name (name (dir_entry (file_system st) 0 j)) f) eqn:Hsj; [|done].
  exfalso. apply Hj. split; [done|]. split; [|done].
  apply Huniq; [geometry; lia|done|done|].
  eapply same_name_trans; [exact Hs|]. by rewrite same_name_sym.
Qed.

Lemma next_file_name_loop_spec (Q : string -> Prop) n st :
  (forall j, 0 <= j < MAX_FILES ->
     name (dir_entry (file_system st) 0 j) <> EmptyString ->
     Q (name (dir_entry (file_system st) 0 j))) ->
  0 <= gnfni st < MAX_FILES ->
  (Z.to_nat (MAX_FILES - gnfni st) <= n)%nat ->
  exists out st',
    next_file_name_loop n st = Some (0, out, st')
    /\ file_system st' = file_system st
    /\ 0 <= gnfni st' <= MAX_FILES
    /\ forall nm, out = Some nm -> Q nm.
Proof.
  intros HQ. revert st HQ. induction n as [|n IH]; intros st HQ Hg Hn; [lia|].
  simpl. destruct (name_empty _) eqn:He; simpl.
  - destruct (Z.eqb_spec (gnfni st + 1) MAX_FILES) as [Hlast|Hlast].
    + eexists _, _. split; [done|]. split; [done|]. simpl. split; [geometry; lia|done].
    + destruct (IH (with_gnfni st (gnfni st + 1))) as (out & st' & -> & Hfs & Hg' & Hout).
      * done.
      * simpl. lia.
      * simpl. lia.
      * exists out, st'. done.
  - eexists _, _. split; [done|]. split; [done|]. simpl. split; [lia|].
    intros nm [= <-]. apply HQ; [done|]. intros Hemp. by rewrite Hemp in He.
Qed.

Lemma ssfs_get_next_file_name_spec (Q : string -> Prop) st :
  (forall j, 0 <= j < MAX_FILES ->
     name (dir_entry (file_system st) 0 j) <> EmptyString ->
     Q (name (dir_entry (file_system st) 0 j))) ->
  0 <= gnfni st <= MAX_FILES ->
  exists out st',
    ssfs_get_next_file_name st = Some (0, out, st')
    /\ file_system st' = file_system st
    /\ 0 <= gnfni st' <= MAX_FILES
    /\ forall nm, out = Some nm -> Q nm.
Proof.
  intros HQ Hg. unfold ssfs_get_next_file_name.
  destruct (Z.eqb_spec (gnfni st) MAX_FILES) as [He|He].
  - eexists _, _. split; [done|]. split; [done|]. simpl. split; [geometry; lia|done].
  - apply next_file_name_loop_spec; [done|lia|lia].
Qed.

Lemma enumerate_spec (Q : string -> Prop) k st :
  (forall j, 0 <= j < MAX_FILES ->
     name (dir_entry (file_system st) 0 j) <> EmptyString ->
     Q (name (dir_entry (file_system st) 0 j))) ->
  0 <= gnfni st <= MAX_FILES ->
  exists l, enumerate k st = Some l /\ Forall Q l.
Proof.
  revert st. induction k as [|k IH]; intros st HQ Hg; simpl.
  - exists []. done.
  - destruct (ssfs_get_next_file_name_spec Q st HQ Hg) as (out & st' & -> & Hfs & Hg' & Hout).
    destruct (IH st') as (l & -> & Hl); [by rewrite Hfs|done|].
    destruct out as [nm|]; eexists; (split; [done|]); [|done].
    constructor; [by apply Hout|done].
Qed.

(** C8.  When a file named [f] is in the live directory, [ssfs_remove(f)]
    returns 0, and afterwards [ssfs_get_file_size(f)] returns -1 and no
    call of [ssfs_get_next_file_name], from any position of its cursor and
    however often it is repeated, copies out [f] (or any name that
    [strncmp] equates with [f]). *)
Theorem removed_file_is_gone (st : sfs_state) (f : string) :
  f <> EmptyString ->
  unique_names (file_system st) ->
  in_directory (file_system st) f ->
  exists st',
    ssfs_remove st f = (0, st')
    /\ ssfs_get_file_size st' f = -1
    /\ forall g k, 0 <= g <= MAX_FILES ->
         exists l, enumerate k (with_gnfni st' g) = Some l
                   /\ (f ∉ l)
                   /\ Forall (fun nm => same_name nm f = false) l.
Proof.
  intros Hf Huniq Hin.
  destruct (rm_fd_spec st f) as (Hfs & _ & _ & _).
  destruct (rm_file_from_dir_no_match (rm_fd st f) f) as (st' & Hrm & _ & Hno);
    [done|by rewrite Hfs|by rewrite Hfs|].
  exists st'. split; [done|]. split.
  - unfold ssfs_get_file_size.
    destruct (first_index _ _ _) as [j|] eqn:Hj; [|done].
    apply first_index_Some in Hj as (Hr & Hs & _). rewrite Hno in Hs; [done|geometry; lia].
  - intros g k Hg.
    destruct (enumerate_spec (fun nm => same_name nm f = false) k (with_gnfni st' g))
      as (l & Hl & HQ); [by intros j Hj _; apply Hno|done|].
    exists l. split; [done|]. split; [|done].
    intros Hfl. rewrite Forall_forall in HQ. specialize (HQ f Hfl).
    assert (same_name f f = true) as Hff by (by apply same_name_iff).
    congruence.
Qed.

Lemma unique_names_b_correct fs : unique_names_b fs = true -> unique_names fs.
Proof.
  unfold unique_names_b, unique_names. rewrite forallb_forall.
  intros H i j Hi Hj Hne Hs.
  specialize (H i). rewrite forallb_forall in H.
  assert (forall k, 0 <= k < MAX_FILES -> In k (seqZ 0 MAX_FILES)) as Hin.
  { intros k Hk. apply list_elem_of_In, elem_of_seqZ. lia. }
  specialize (H (Hin i Hi) j (Hin j Hj)).
  rewrite Hs, andb_true_r in H.
  destruct (name_empty _) eqn:He; [by apply name_empty_true in He|].
  simpl in H. by apply Z.eqb_eq.
Qed.

(** ** Walking the blocks of a file *)

Lemma nonzero_prefix_app p : exists r, p = nonzero_prefix p ++ r /\ (r = [] \/ exists r', r = 0 :: r').
Proof.
  induction p as [|x p (r & Hr & Hz)]; simpl.
  - exists []. auto.
  - destruct (Z.eqb_spec x 0) as [->|Hx].
    + exists (0 :: p). split; [done|]. right. eauto.
    + exists r. split; [simpl; by f_equal|done].
Qed.

Lemma nonzero_prefix_nonzero p : Forall (fun x => x <> 0) (nonzero_prefix p).
Proof.
  induction p as [|x p IH]; simpl; [constructor|].
  destruct (Z.eqb_spec x 0); [constructor|]. by constructor.
Qed.

Lemma length_nonzero_prefix p : (length (nonzero_prefix p) <= length p)%nat.
Proof.
  destruct (nonzero_prefix_app p) as (r & Hr & _).
  remember (nonzero_prefix p) as q eqn:Hq. clear Hq. subst p.
  rewrite length_app. lia.
Qed.

Lemma nonzero_prefix_lookup p (j : nat) :
  (j < length (nonzero_prefix p))%nat -> p !! j = nonzero_prefix p !! j.
Proof.
  intros Hj. destruct (nonzero_prefix_app p) as (r & Hr & _).
  remember (nonzero_prefix p) as q eqn:Hq. clear Hq. subst p.
  by rewrite lookup_app_l.
Qed.

Lemma nonzero_prefix_end p :
  (length (nonzero_prefix p) < length p)%nat -> p !! length (nonzero_prefix p) = Some 0.
Proof.
  intros Hl. destruct (nonzero_prefix_app p) as (r & Hr & Hz).
  remember (nonzero_prefix p) as q eqn:Hq. clear Hq. subst p.
  rewrite lookup_app_r by lia. rewrite Nat.sub_diag.
  destruct Hz as [->|[r' ->]]; [|done].
  rewrite length_app in Hl. simpl in Hl. lia.
Qed.

Lemma nonzero_prefix_full p :
  length (nonzero_prefix p) = length p -> nonzero_prefix p = p.
Proof.
  intros Hl. destruct (nonzero_prefix_app p) as (r & Hr & _).
  remember (nonzero_prefix p) as q eqn:Hq. clear Hq. subst p.
  rewrite length_app in Hl.
  destruct r; [|simpl in Hl; lia]. by rewrite app_nil_r.
Qed.

Lemma last_cons (y : Z) l x : List.last (y :: l) x = List.last l y.
Proof.
  revert x y. induction l as [|b l IH]; intros x y; [done|].
  change (List.last (y :: b :: l) x) with (List.last (b :: l) x).
  by rewrite !IH.
Qed.

Lemma scan_last_spec p x :
  scan_last p x
  = (if (length (nonzero_prefix p) =? length p)%nat then inr else inl)
      (List.last (nonzero_prefix p) x).
Proof.
  revert x. induction p as [|y p IH]; intros x; simpl; [done|].
  destruct (Z.eqb_spec y 0) as [->|Hy]; [done|].
  rewrite IH, last_cons. done.
Qed.

Lemma scan_num_spec p x :
  scan_num p x
  = (if (length (nonzero_prefix p) =? length p)%nat then inr else inl)
      (x + Z.of_nat (length (nonzero_prefix p))).
Proof.
  revert x. induction p as [|y p IH]; intros x; simpl.
  - f_equal. lia.
  - destruct (Z.eqb_spec y 0) as [->|Hy]; simpl; [f_equal; lia|].
    rewrite IH. destruct (_ =? _)%nat; f_equal; lia.
Qed.

Lemma last_app_default (l1 l2 : list Z) x :
  List.last (l1 ++ l2) x = List.last l2 (List.last l1 x).
Proof.
  revert x. induction l1 as [|y l1 IH]; intros x; [done|].
  rewrite <- app_comm_cons, !last_cons. apply IH.
Qed.

Lemma get_last_file_block_spec st n :
  get_last_file_block st n = List.last (file_blocks st n) (-1).
Proof.
  unfold get_last_file_block, file_blocks. rewrite scan_last_spec.
  destruct (_ =? _)%nat; cbn [andb negb]; [|done].
  destruct (ind_pointer _ =? 0); cbn [andb negb]; [done|].
  rewrite scan_last_spec, last_app_default. by destruct (_ =? _)%nat.
Qed.

Lemma get_num_file_blocks_spec st n :
  get_num_file_blocks st n = Z.of_nat (length (file_blocks st n)).
Proof.
  unfold get_num_file_blocks, file_blocks. rewrite scan_num_spec.
  destruct (_ =? _)%nat; cbn [andb negb]; [|done].
  destruct (ind_pointer _ =? 0); cbn [andb negb]; [done|].
  rewrite scan_num_spec, length_app. destruct (_ =? _)%nat; lia.
Qed.

Lemma length_decode_pointers n b : length (decode_pointers n b) = n.
Proof. revert b. induction n as [|n IH]; intros b; simpl; [done|]. by rewrite IH. Qed.

Lemma length_read_ind_node_block st p :
  length (read_ind_node_block st p) = Z.to_nat POINTERS_IND_BLOCK.
Proof. apply length_decode_pointers. Qed.
Lemma first_index_is p i0 n k :
  i0 <= k < i0 + Z.of_nat n -> p k = true -> (forall j, i0 <= j < k -> p j = false) ->
  first_index p i0 n = Some k.
Proof.
  intros Hk Hp Hlt.
  destruct (first_index p i0 n) as [k'|] eqn:Hf.
  - apply first_index_Some in Hf as (Hr & Hp' & Hlt').
    f_equal. destruct (Z.lt_trichotomy k k') as [H|[H|H]]; [|done|].
    + rewrite Hlt' in Hp; [done|lia].
    + rewrite Hlt in Hp'; [done|lia].
  - rewrite first_index_None in Hf. rewrite Hf in Hp; [done|lia].
Qed.

Lemma at_Z_nat {A} (d : A) l (k : nat) : at_Z d l (Z.of_nat k) = default d (l !! k).
Proof.
  unfold at_Z. destruct (Z.ltb_spec (Z.of_nat k) 0); [lia|]. by rewrite Nat2Z.id.
Qed.

Lemma or_minus_one_nonzero x : x <> 0 -> or_minus_one x = x.
Proof. intros H. unfold or_minus_one. by destruct (Z.eqb_spec x 0). Qed.

Lemma next_in_prefix l (k : nat) :
  (k <= length (nonzero_prefix l))%nat ->
  or_minus_one (at_Z 0 l (Z.of_nat k)) = default (-1) (nonzero_prefix l !! k).
Proof.
  intros Hk. rewrite at_Z_nat.
  destruct (decide (k < length (nonzero_prefix l))%nat) as [Hlt|Hge].
  - rewrite nonzero_prefix_lookup by done.
    destruct (lookup_lt_is_Some_2 _ _ Hlt) as [x Hx]. rewrite Hx. simpl.
    apply or_minus_one_nonzero.
    pose proof (nonzero_prefix_nonzero l) as Hnz. rewrite Forall_lookup in Hnz. eauto.
  - assert (k = length (nonzero_prefix l)) as -> by lia.
    rewrite (lookup_ge_None_2 (nonzero_prefix l)) by lia. simpl.
    destruct (decide (length (nonzero_prefix l) < length l)%nat) as [Hl|Hl].
    + by rewrite nonzero_prefix_end.
    + rewrite lookup_ge_None_2 by lia. done.
Qed.

Lemma first_index_in_prefix l (k N : nat) b :
  nonzero_prefix l !! k = Some b -> (k < N)%nat ->
  (forall j, (j < k)%nat -> nonzero_prefix l !! j <> Some b) ->
  first_index (fun j => at_Z 0 l j =? b) 0 N = Some (Z.of_nat k).
Proof.
  intros Hk HN Hlt.
  pose proof (lookup_lt_Some _ _ _ Hk) as Hkl.
  apply first_index_is; [lia| |].
  - rewrite at_Z_nat, nonzero_prefix_lookup, Hk by done. simpl. lia.
  - intros j Hj. replace j with (Z.of_nat (Z.to_nat j)) by lia.
    rewrite at_Z_nat, nonzero_prefix_lookup by lia.
    destruct (lookup_lt_is_Some_2 (nonzero_prefix l) (Z.to_nat j)) as [x Hx]; [lia|].
    rewrite Hx. simpl. apply Z.eqb_neq. intros ->. apply (Hlt (Z.to_nat j)); [lia|done].
Qed.

Lemma first_index_not_in l (N : nat) b :
  (N <= length (nonzero_prefix l))%nat ->
  (forall j, nonzero_prefix l !! j <> Some b) ->
  first_index (fun j => at_Z 0 l j =? b) 0 N = None.
Proof.
  intros HN Hno. apply first_index_None. intros j Hj.
  replace j with (Z.of_nat (Z.to_nat j)) by lia.
  rewrite at_Z_nat, nonzero_prefix_lookup by lia.
  destruct (lookup_lt_is_Some_2 (nonzero_prefix l) (Z.to_nat j)) as [x Hx]; [lia|].
  rewrite Hx. simpl. apply Z.eqb_neq. intros ->. by apply (Hno (Z.to_nat j)).
Qed.

Lemma file_blocks_cases st n :
  let node := node_of (file_system st) n in
  let d := nonzero_prefix (pointer node) in
  (file_blocks st n = d
   /\ ((length d < length (pointer node))%nat \/ ind_pointer node = 0))
  \/ (file_blocks st n = pointer node ++ nonzero_prefix (read_ind_node_block st (ind_pointer node))
      /\ d = pointer node /\ ind_pointer node <> 0).
Proof.
  intros node d. unfold file_blocks. fold node. fold d.
  destruct (Nat.eqb_spec (length d) (length (pointer node))) as [He|Hne]; cbn [andb].
  - destruct (Z.eqb_spec (ind_pointer node) 0) as [H0|H0]; cbn [negb].
    + left. auto.
    + right. subst d. rewrite (nonzero_prefix_full _ He). auto.
  - left. split; [done|]. left. pose proof (length_nonzero_prefix (pointer node)). subst d. lia.
Qed.

Lemma get_next_file_block_spec st n b (i : nat) :
  node_ok (node_of (file_system st) n) ->
  NoDup (file_blocks st n) ->
  file_blocks st n !! i = Some b ->
  get_next_file_block st n b = Some (default (-1) (file_blocks st n !! S i)).
Proof.
  intros Hok Hnd Hi. unfold node_ok in Hok.
  assert (forall j, j <> i -> file_blocks st n !! j <> Some b) as Hother.
  { intros j Hj Hjb. apply Hj. by eapply NoDup_lookup. }
  unfold get_next_file_block.
  set (node := node_of (file_system st) n) in *.
  set (ind := read_ind_node_block st (ind_pointer node)).
  change (Z.to_nat NUMBER_OF_POINTERS) with 14%nat in *.
  change (Z.to_nat POINTERS_IND_BLOCK) with 256%nat.
  pose proof (length_nonzero_prefix (pointer node)) as Hdl.
  pose proof (length_nonzero_prefix ind) as Hql.
  pose proof (length_read_ind_node_block st (ind_pointer node)) as Hindl.
  change (Z.to_nat POINTERS_IND_BLOCK) with 256%nat in Hindl. fold ind in Hindl.
  destruct (file_blocks_cases st n) as [[Hc Hshort]|(Hc & Hfull & Hind)];
    fold node in Hc, Hshort || fold node in Hc, Hfull, Hind; fold ind in Hc; rewrite Hc in *.
  - (* only direct pointers *)
    pose proof (lookup_lt_Some _ _ _ Hi) as Hil.
    rewrite (first_index_in_prefix _ i 14 b) by (try done; try lia; intros j Hj; apply Hother; lia).
    destruct (Z.ltb_spec (Z.of_nat i + 1) NUMBER_OF_POINTERS) as [Hlt|Hge].
    + replace (Z.of_nat i + 1) with (Z.of_nat (S i)) by lia.
      rewrite next_in_prefix by lia. done.
    + change NUMBER_OF_POINTERS with 14 in Hge.
      assert (i = 13%nat) as -> by lia.
      destruct Hshort as [Hshort|Hshort]; [lia|].
      rewrite Hshort. simpl. rewrite lookup_ge_None_2 by lia. done.
  - (* direct pointers, then the indirect block *)
    set (p := pointer node) in *.
    pose proof (first_index_in_prefix p) as Hfirst.
    pose proof (first_index_not_in p) as Hnone.
    pose proof (next_in_prefix p) as Hnext.
    rewrite Hfull in Hfirst, Hnone, Hnext.
    destruct (decide (i < 14)%nat) as [Hlt|Hge].
    + rewrite lookup_app_l in Hi by lia.
      rewrite (Hfirst i 14%nat b); [|done|lia|].
      2:{ intros j Hj Hjb. apply (Hother j); [lia|]. rewrite lookup_app_l by lia. done. }
      destruct (Z.ltb_spec (Z.of_nat i + 1) NUMBER_OF_POINTERS) as [Hlt'|Hge'].
      * change NUMBER_OF_POINTERS with 14 in Hlt'.
        replace (Z.of_nat i + 1) with (Z.of_nat (S i)) by lia.
        rewrite Hnext by lia. rewrite lookup_app_l by lia. done.
      * change NUMBER_OF_POINTERS with 14 in Hge'.
        assert (i = 13%nat) as -> by lia.
        destruct (Z.eqb_spec (ind_pointer node) 0) as [?|_]; [done|].
        rewrite lookup_app_r by lia. rewrite Hok.
        change (or_minus_one (at_Z 0 ind 0))
          with (or_minus_one (at_Z 0 ind (Z.of_nat 0))).
        rewrite next_in_prefix by lia. done.
    + rewrite lookup_app_r in Hi by lia. rewrite Hok in Hi.
      rewrite Hnone; [|lia|].
      2:{ intros j Hjb. pose proof (lookup_lt_Some _ _ _ Hjb).
          apply (Hother j); [lia|]. rewrite lookup_app_l by lia. done. }
      pose proof (lookup_lt_Some _ _ _ Hi) as Hil.
      rewrite (first_index_in_prefix _ (i - 14) 256 b); [|done|lia|].
      2:{ intros j Hj Hjb. apply (Hother (14 + j)%nat); [lia|].
          rewrite lookup_app_r by lia. rewrite Hok.
          replace (14 + j - 14)%nat with j by lia. done. }
      rewrite lookup_app_r by lia. rewrite Hok.
      replace (S i - 14)%nat with (S (i - 14)) by lia.
      destruct (Z.ltb_spec (Z.of_nat (i - 14) + 1) POINTERS_IND_BLOCK) as [Hlt'|Hge'].
      * replace (Z.of_nat (i - 14) + 1) with (Z.of_nat (S (i - 14))) by lia.
        rewrite next_in_prefix by lia. done.
      * change POINTERS_IND_BLOCK with 256 in Hge'.
        rewrite lookup_ge_None_2 by lia. done.
Qed.

(** ** Reading *)

Lemma fread_chars_spec n data cb lb lc len cc bp k :
  k = Z.max 0 (Z.min (read_limit cb lb lc - cc) (len - bp)) ->
  (Z.to_nat k <= n)%nat ->
  exists r, fread_chars n data cb lb lc len cc bp = (r, cc + k, bp + k)
            /\ Z.of_nat (length r) = k.
Proof.
  revert cc bp k. induction n as [|n IH]; intros cc bp k Hk Hn.
  - exists []. simpl. assert (k = 0) as -> by lia. split; [f_equal; [f_equal|]; lia|done].
  - simpl. unfold read_limit in Hk.
    destruct (Z.ltb_spec cc NUMBER_OF_BYTES_BLOCK) as [H1|H1];
      destruct (Z.ltb_spec bp len) as [H2|H2];
      destruct (Z.eqb_spec cb lb) as [H3|H3];
      destruct (Z.leb_spec lc cc) as [H4|H4]; cbn [andb negb];
      try (exists []; assert (k = 0) as -> by lia;
           split; [f_equal; [f_equal|]; lia|done]).
    all: destruct (IH (cc + 1) (bp + 1) (k - 1)) as (r & -> & Hr);
      [unfold read_limit; destruct (Z.eqb_spec cb lb); try done; lia|lia|];
      eexists; split; [f_equal; [f_equal|]; lia | simpl; lia].
Qed.

Lemma last_lookup_default (l : list Z) d :
  l <> [] -> l !! (length l - 1)%nat = Some (List.last l d).
Proof.
  revert d. induction l as [|x l IH]; intros d Hl; [done|].
  rewrite last_cons. destruct l as [|y l]; [done|].
  simpl length. replace (S (S (length l)) - 1)%nat with (S (length (y :: l) - 1)).
  - simpl lookup. apply IH. done.
  - simpl. lia.
Qed.

Lemma get_end_char_range st n :
  0 <= size (node_of (file_system st) n) ->
  0 <= get_end_char st n <= NUMBER_OF_BYTES_BLOCK.
Proof.
  intros Hs. unfold get_end_char, get_file_size.
  pose proof (Z.rem_bound_pos (size (node_of (file_system st) n)) NUMBER_OF_BYTES_BLOCK Hs)
    as Hr.
  geometry. destruct (_ =? 0); [destruct (_ =? _)|]; lia.
Qed.

Section walk.
Context (st : sfs_state) (n : Z) (Hok : file_chain_ok st n).

Lemma last_block_iff (i : nat) cb :
  file_blocks st n !! i = Some cb ->
  cb = get_last_file_block st n <-> S i = length (file_blocks st n).
Proof.
  intros Hi. rewrite get_last_file_block_spec.
  assert (file_blocks st n <> []) as Hne by (intros H; by rewrite H in Hi).
  pose proof (last_lookup_default _ (-1) Hne) as Hl.
  pose proof (lookup_lt_Some _ _ _ Hi) as Hil.
  split.
  - intros ->. pose proof (NoDup_lookup _ _ _ _ (chain_NoDup _ _ Hok) Hi Hl). lia.
  - intros He. replace (length (file_blocks st n) - 1)%nat with i in Hl by lia. congruence.
Qed.

Lemma block_positive (i : nat) cb : file_blocks st n !! i = Some cb -> 0 < cb < NUMBER_OF_BLOCKS.
Proof.
  intros Hi. pose proof (chain_blocks _ _ Hok) as H. rewrite Forall_lookup in H. eauto.
Qed.

End walk.
Section fread.
Context (st : sfs_state) (fileID n : Z).
Context (Hn : i_node_number (entry (fd_at (open_file_table st) fileID)) = n).
Context (Hok : file_chain_ok st n).

Lemma fread_fill_spec len fuel (i : nat) cb cc bp R :
  file_blocks st n !! i = Some cb -> 0 <= cc <= NUMBER_OF_BYTES_BLOCK ->
  R = Z.max 0 (Z.min (len - bp) (end_of_file st n - offset_of i cc)) ->
  (Z.to_nat R < fuel)%nat ->
  exists r cb' cc' (i' : nat),
    fread_fill fuel st fileID (get_last_file_block st n) (get_end_char st n) len cb cc bp
    = Some (r, cb', cc', bp + R)
    /\ Z.of_nat (length r) = R
    /\ file_blocks st n !! i' = Some cb'
    /\ 0 <= cc' <= NUMBER_OF_BYTES_BLOCK
    /\ offset_of i' cc' = offset_of i cc + R.
Proof.
  pose proof (get_end_char_range st n (chain_size _ _ Hok)) as Hlc.
  unfold end_of_file, offset_of.
  set (chain := file_blocks st n) in *.
  set (lb := get_last_file_block st n) in *.
  set (lc := get_end_char st n) in *.
  revert i cb cc bp R.
  induction fuel as [|fuel IH]; intros i cb cc bp R Hi Hcc HR Hfuel; [lia|].
  pose proof (lookup_lt_Some _ _ _ Hi) as Hil.
  (* one pass through the block [cb'] at index [i'], entered with [cc' < 1024] *)
  assert (forall (i' : nat) cb' cc',
            chain !! i' = Some cb' -> 0 <= cc' < NUMBER_OF_BYTES_BLOCK ->
            NUMBER_OF_BYTES_BLOCK * Z.of_nat i' + cc' = NUMBER_OF_BYTES_BLOCK * Z.of_nat i + cc ->
            exists r cb'' cc'' (i'' : nat),
              (let data_block := snd (read_blocks (disk st) cb' local_buffer) in
               let '(r, cc0, buf_pos) :=
                 fread_chars (Z.to_nat NUMBER_OF_BYTES_BLOCK) data_block cb' lb lc len cc' bp in
               if (buf_pos <? len) && negb ((cb' =? lb) && (lc <=? cc0)) then
                 match fread_fill fuel st fileID lb lc len cb' cc0 buf_pos with
                 | None => None
                 | Some (r', cb'0, cc'0, buf_pos') => Some (r ++ r', cb'0, cc'0, buf_pos')
                 end
               else Some (r, cb', cc0, buf_pos)) = Some (r, cb'', cc'', bp + R)
              /\ Z.of_nat (length r) = R
              /\ chain !! i'' = Some cb''
              /\ 0 <= cc'' <= NUMBER_OF_BYTES_BLOCK
              /\ NUMBER_OF_BYTES_BLOCK * Z.of_nat i'' + cc''
                 = NUMBER_OF_BYTES_BLOCK * Z.of_nat i + cc + R) as Hfill.
  { intros i' cb' cc' Hi' Hcc' Hoff. cbv zeta.
    pose proof (lookup_lt_Some _ _ _ Hi') as Hil'.
    pose proof (last_block_iff st n Hok i' cb' Hi') as Hlast. fold lb chain in Hlast.
    set (k := Z.max 0 (Z.min (read_limit cb' lb lc - cc') (len - bp))).
    destruct (fread_chars_spec (Z.to_nat NUMBER_OF_BYTES_BLOCK)
                (snd (read_blocks (disk st) cb' local_buffer)) cb' lb lc len cc' bp k eq_refl)
      as (r & -> & Hr).
    { subst k. unfold read_limit. destruct (cb' =? lb); geometry; lia. }
    unfold read_limit in k.
    destruct (Z.eqb_spec cb' lb) as [Hlb|Hlb].
    - (* the last block *)
      apply Hlast in Hlb.
      assert (R = k) as HRk by (subst R k; geometry; lia).
      assert ((bp + k <? len) && negb (true && (lc <=? cc' + k)) = false) as ->.
      { destruct (Z.ltb_spec (bp + k) len); destruct (Z.leb_spec lc (cc' + k));
          try done. subst k. geometry. lia. }
      exists r, cb', (cc' + k), i'. rewrite HRk. repeat split; try done; subst k; geometry; lia.
    - (* another block *)
      assert (S i' < length chain)%nat as Hmid by (rewrite Hlast in Hlb; lia).
      cbn [andb negb]. rewrite andb_true_r.
      destruct (Z.ltb_spec (bp + k) len) as [Hmore|Hdone].
      + assert (k = NUMBER_OF_BYTES_BLOCK - cc') as Hk by (subst k; geometry; lia).
        destruct (IH i' cb' (cc' + k) (bp + k) (R - k))
          as (r' & cb'' & cc'' & i'' & -> & Hr' & Hi'' & Hcc'' & Hoff'');
          [done|geometry; lia|subst R; geometry; lia|subst R; geometry; lia|].
        exists (r ++ r'), cb'', cc'', i''.
        split; [f_equal; f_equal; lia|].
        split; [rewrite length_app; lia|].
        split; [done|]. split; [done|]. lia.
      + assert (R = k) as HRk by (subst R k; geometry; lia).
        exists r, cb', (cc' + k), i'. rewrite HRk.
        repeat split; try done; subst k; geometry; lia. }
  cbn [fread_fill].
  destruct (Z.leb_spec NUMBER_OF_BYTES_BLOCK cc) as [Hfull|Hroom].
  - rewrite Hn, (get_next_file_block_spec st n cb i (chain_node_ok _ _ Hok)
                   (chain_NoDup _ _ Hok) Hi).
    fold chain. destruct (chain !! S i) as [tb|] eqn:Htb; cbn [default from_option id].
    + pose proof (block_positive st n Hok _ _ Htb) as Hpos.
      destruct (Z.ltb_spec tb 0); [lia|].
      destruct (Hfill (S i) tb 0) as (r & cb'' & cc'' & i'' & Hres);
        [done|geometry; lia|geometry; lia|].
      exists r, cb'', cc'', i''. exact Hres.
    + pose proof (lookup_ge_None_1 _ _ Htb) as Hlast.
      assert (R = 0) as -> by (subst R; geometry; lia).
      exists [], cb, cc, i. rewrite !Z.add_0_r. done.
  - destruct (Hfill i cb cc) as (r & cb'' & cc'' & i'' & Hres); [done|lia|done|].
    exists r, cb'', cc'', i''. exact Hres.
Qed.


Lemma fd_at_in_range t i :
  name (entry (fd_at t i)) <> EmptyString -> 0 <= i < Z.of_nat (length t).
Proof.
  intros Hne. destruct (decide (0 <= i < Z.of_nat (length t))) as [H|H]; [done|].
  unfold fd_at in Hne. rewrite at_Z_out_of_range in Hne by done. done.
Qed.

Lemma ssfs_fread_spec len (i : nat) :
  let f := fd_at (open_file_table st) fileID in
  name (entry f) <> EmptyString ->
  file_blocks st n !! i = Some (block (read_pointer f)) ->
  0 <= c_ptr (read_pointer f) <= NUMBER_OF_BYTES_BLOCK ->
  exists r st' (i' : nat),
    let k := Z.max 0 (Z.min len (end_of_file st n - offset_of i (c_ptr (read_pointer f)))) in
    let f' := fd_at (open_file_table st') fileID in
    ssfs_fread st fileID len = Some (k, r, st')
    /\ Z.of_nat (length r) = k
    /\ file_system st' = file_system st
    /\ disk st' = disk st
    /\ entry f' = entry f /\ write_pointer f' = write_pointer f
    /\ file_blocks st n !! i' = Some (block (read_pointer f'))
    /\ offset_of i' (c_ptr (read_pointer f')) = offset_of i (c_ptr (read_pointer f)) + k.
Proof.
  intros f Hname Hi Hcc. unfold ssfs_fread. fold f.
  destruct (name_empty (name (entry f))) eqn:He; [by apply name_empty_true in He|].
  destruct (Z.eqb_spec len 0) as [->|Hlen].
  - exists [], st, i. cbv zeta.
    replace (Z.max 0 (Z.min 0 _)) with 0 by lia.
    rewrite Z.add_0_r. done.
  - subst f. rewrite Hn.
    set (f := fd_at (open_file_table st) fileID) in *.
    set (R := Z.max 0 (Z.min len (end_of_file st n - offset_of i (c_ptr (read_pointer f))))).
    destruct (fread_fill_spec len (S (Z.to_nat len)) i (block (read_pointer f))
                (c_ptr (read_pointer f)) 0 R)
      as (r & cb' & cc' & i' & -> & Hr & Hi' & Hcc' & Hoff); [done|done|subst R; lia|lia|].
    exists r, (set_fd st fileID (mk_fd (entry f) (mk_file_pointer cb' cc') (write_pointer f))), i'.
    cbv zeta. rewrite fd_at_set_fd, decide_True by (split; [done|by apply fd_at_in_range]).
    rewrite Z.add_0_l. done.
Qed.

End fread.

(** C7.  [ssfs_fread] on a descriptor whose name is empty returns -1.  On
    an open descriptor whose read cursor is at offset [pos] of the file,
    it returns the number of characters read, which is [len] or, if that
    is less, the number of characters between [pos] and the end-of-file
    position [(get_last_file_block, get_end_char)]; so it is at most [len]
    and at most what is left before the end of the file, and when it is
    less than [len] the read cursor has stopped at the end of the file. *)
Theorem fread_stops_at_end_of_file (st : sfs_state) (fileID len : Z) (i : nat) :
  let f := fd_at (open_file_table st) fileID in
  let n := i_node_number (entry f) in
  let pos := offset_of i (c_ptr (read_pointer f)) in
  (name (entry f) = EmptyString -> ssfs_fread st fileID len = Some (-1, [], st))
  /\ (name (entry f) <> EmptyString ->
      file_chain_ok st n ->
      file_blocks st n !! i = Some (block (read_pointer f)) ->
      0 <= c_ptr (read_pointer f) <= NUMBER_OF_BYTES_BLOCK ->
      0 <= len ->
      exists k r st' (i' : nat),
        let f' := fd_at (open_file_table st') fileID in
        ssfs_fread st fileID len = Some (k, r, st')
        /\ Z.of_nat (length r) = k
        /\ k = Z.max 0 (Z.min len (end_of_file st n - pos))
        /\ k <= len
        /\ k <= Z.max 0 (end_of_file st n - pos)
        /\ file_blocks st n !! i' = Some (block (read_pointer f'))
        /\ offset_of i' (c_ptr (read_pointer f')) = pos + k
        /\ (k < len -> pos <= end_of_file st n ->
            offset_of i' (c_ptr (read_pointer f')) = end_of_file st n)).
Proof.
  intros f n pos. split.
  - intros He. unfold ssfs_fread. fold f. by rewrite He.
  - intros Hname Hok Hi Hcc Hlen.
    destruct (ssfs_fread_spec st fileID n eq_refl Hok len i Hname Hi Hcc)
      as (r & st' & i' & Hread & Hr & _ & _ & _ & _ & Hi' & Hoff).
    eexists _, r, st', i'. cbv zeta. split; [exact Hread|].
    fold f n pos in Hoff |- *.
    repeat split; try done; lia.
Qed.
(** ** Writing *)

Lemma upd_Z_upd_Z {A} (l : list A) i x y : upd_Z (upd_Z l i x) i y = upd_Z l i y.
Proof. unfold upd_Z. destruct (i <? 0); [done|]. apply list_insert_insert_eq. Qed.

Lemma upd_Z_id {A} (d : A) l i : upd_Z l i (at_Z d l i) = l.
Proof.
  destruct (decide (0 <= i < Z.of_nat (length l))) as [H|H].
  - unfold upd_Z. destruct (Z.ltb_spec i 0); [lia|].
    apply list_insert_id. by apply at_Z_in_range.
  - by apply upd_Z_out_of_range.
Qed.

Lemma node_of_set_node_of fs n nd :
  inode_in_range fs n -> node_of (set_node_of fs n nd) n = nd.
Proof.
  intros [Hb Hn]. unfold node_of, set_node_of, get_i_node, set_i_node. cbn [i_node_file with_i_node_file].
  rewrite at_Z_upd_same by done. by rewrite at_Z_upd_same.
Qed.

Lemma set_node_of_set_node_of fs n nd1 nd2 :
  set_node_of (set_node_of fs n nd1) n nd2 = set_node_of fs n nd2.
Proof.
  unfold set_node_of, set_i_node, with_i_node_file. cbn [i_node_file super_block directory free_bit_map write_mask].
  f_equal. rewrite upd_Z_upd_Z. f_equal.
  destruct (decide (0 <= node_number_to_block n < Z.of_nat (length (i_node_file fs)))) as [H|H].
  - rewrite at_Z_upd_same by done. apply upd_Z_upd_Z.
  - rewrite (upd_Z_out_of_range (i_node_file fs)) by done. done.
Qed.

Lemma set_node_of_id fs n : set_node_of fs n (node_of fs n) = fs.
Proof.
  unfold set_node_of, node_of, set_i_node, get_i_node, with_i_node_file.
  rewrite !upd_Z_id. by destruct fs.
Qed.

Lemma inode_in_range_set_node_of fs n n' nd :
  inode_in_range fs n -> inode_in_range (set_node_of fs n' nd) n.
Proof.
  intros [Hb Hn]. unfold inode_in_range, set_node_of, set_i_node. cbn [i_node_file with_i_node_file].
  rewrite length_upd_Z. split; [done|].
  rewrite at_Z_upd. case_decide as H; [|done].
  destruct H as [Heq _]. by rewrite length_upd_Z, Heq.
Qed.

Lemma with_fs_id st : with_fs st (file_system st) = st.
Proof. by destruct st. Qed.

Lemma inc_file_size_0 st n : inc_file_size st n 0 = st.
Proof.
  unfold inc_file_size. rewrite Z.add_0_r.
  replace (mk_node _ _ _) with (node_of (file_system st) n) by (by destruct (node_of _ _)).
  by rewrite set_node_of_id, with_fs_id.
Qed.

Lemma inc_file_size_add st n a b :
  inc_file_size (inc_file_size st n a) n b = inc_file_size st n (a + b).
Proof.
  unfold inc_file_size. cbn [file_system with_fs].
  rewrite set_node_of_set_node_of.
  destruct (decide (inode_in_range (file_system st) n)) as [H|H].
  - rewrite node_of_set_node_of by done. cbn [size pointer ind_pointer].
    by rewrite Z.add_assoc.
  - assert (forall nd, set_node_of (file_system st) n nd = file_system st) as Hno.
    { intros nd. unfold set_node_of, set_i_node, with_i_node_file, inode_in_range in *.
      destruct (decide (0 <= node_number_to_block n < Z.of_nat (length (i_node_file (file_system st)))))
        as [Hb|Hb].
      - rewrite (upd_Z_out_of_range (at_Z _ _ _)) by tauto.
        rewrite upd_Z_id. by destruct (file_system st).
      - rewrite upd_Z_out_of_range by done. by destruct (file_system st). }
    by rewrite !Hno.
Qed.

Lemma fwrite_chars_spec buf st n nb cb lb lc data cc bp k delta :
  0 <= cc <= NUMBER_OF_BYTES_BLOCK ->
  k = Z.min (Z.of_nat (length buf)) (NUMBER_OF_BYTES_BLOCK - cc) ->
  delta = (if negb (nb =? 0) then k
           else if cb =? lb then Z.max 0 (cc + k - Z.max cc lc) else 0) ->
  exists data',
    fwrite_chars buf st n nb cb lb lc data cc bp
    = (drop (Z.to_nat k) buf, inc_file_size st n delta, data', cc + k, bp + k).
Proof.
  revert st data cc bp k delta.
  induction buf as [|x r IH]; intros st data cc bp k delta Hcc Hk Hdelta.
  - simpl in Hk. assert (k = 0) as -> by lia.
    assert (delta = 0) as ->
      by (rewrite Hdelta; destruct (negb _); [done|]; destruct (_ =? _); lia).
    exists data. cbn [fwrite_chars]. rewrite inc_file_size_0, !Z.add_0_r. done.
  - cbn [fwrite_chars]. cbn [length] in Hk.
    destruct (Z.ltb_spec cc NUMBER_OF_BYTES_BLOCK) as [Hlt|Hge].
    + set (d1 := if negb (nb =? 0) || (cb =? lb) && (lc <? cc + 1) then 1 else 0).
      assert ((if negb (nb =? 0) || (cb =? lb) && (lc <? cc + 1)
               then inc_file_size st n 1 else st) = inc_file_size st n d1) as ->.
      { subst d1. destruct (_ || _); [done|]. by rewrite inc_file_size_0. }
      destruct (IH (inc_file_size st n d1) (upd_Z data cc x) (cc + 1) (bp + 1) (k - 1)
                  (delta - d1)) as (data' & ->); [lia|lia| |].
      { subst d1 delta.
        destruct (Z.eqb_spec nb 0); cbn [negb orb andb]; [|lia].
        destruct (Z.eqb_spec cb lb); cbn [andb]; [|lia].
        destruct (Z.ltb_spec lc (cc + 1)); lia. }
      exists data'. rewrite inc_file_size_add.
      replace (d1 + (delta - d1)) with delta by lia.
      replace (Z.to_nat k) with (S (Z.to_nat (k - 1))) by lia.
      cbn [drop]. f_equal; [f_equal|]; lia.
    + assert (k = 0) as -> by lia.
      assert (delta = 0) as ->
        by (rewrite Hdelta; destruct (negb _); [done|]; destruct (_ =? _); lia).
      exists data. rewrite inc_file_size_0, !Z.add_0_r. done.
Qed.

(** *** The indirect block on the device *)

Lemma decode_encode_u32 x rest :
  decode_u32 (take 4 (encode_u32 x ++ rest)) = x `mod` 4294967296.
Proof.
  unfold encode_u32, decode_u32, at_Z. cbn [app take Z.ltb Z.compare].
  change (Z.to_nat 0) with 0%nat. change (Z.to_nat 1) with 1%nat.
  change (Z.to_nat 2) with 2%nat. change (Z.to_nat 3) with 3%nat.
  cbn [lookup list_lookup default from_option id].
  change 4294967296 with (256 * (256 * (256 * 256))).
  rewrite (Z.rem_mul_r x 256 (256 * (256 * 256))) by lia.
  rewrite (Z.rem_mul_r (x / 256) 256 (256 * 256)) by lia.
  rewrite (Z.rem_mul_r (x / 256 / 256) 256 256) by lia.
  rewrite !Z.div_div by lia.
  change (256 * 256 * 256) with 16777216. change (256 * 256) with 65536. lia.
Qed.

Lemma decode_encode_pointers l :
  decode_pointers (length l) (flat_map encode_u32 l) = (fun x => x `mod` 4294967296) <$> l.
Proof.
  induction l as [|x l IH]; [done|].
  cbn [length decode_pointers flat_map fmap list_fmap].
  rewrite decode_encode_u32. f_equal. exact IH.
Qed.

Lemma length_encode_pointers l : length (flat_map encode_u32 l) = (4 * length l)%nat.
Proof. induction l as [|x l IH]; [done|]. cbn [flat_map length app]. rewrite length_app, IH. simpl. lia. Qed.

Lemma read_blocks_in_range d p buf :
  0 <= p < NUMBER_OF_BLOCKS ->
  read_blocks d p buf = (0, default init_data_block (d !! p)).
Proof.
  intros Hp. unfold read_blocks.
  destruct (Z.leb_spec 0 p); [|lia].
  destruct (Z.leb_spec (p + 1) NUMBER_OF_BLOCKS); [done|lia].
Qed.

Lemma disk_put_blocks_1 st p data :
  disk (put_blocks st p 1 data)
  = if decide (0 <= p < NUMBER_OF_BLOCKS) then <[p := block_of data 0]> (disk st) else disk st.
Proof.
  unfold put_blocks, write_blocks. cbn [disk with_disk].
  case_decide as Hp.
  - destruct (Z.leb_spec 0 p); [|lia].
    destruct (Z.leb_spec (p + 1) NUMBER_OF_BLOCKS); [|lia].
    change (seqZ 0 1) with [0]. cbn [foldl snd]. by rewrite Z.add_0_r.
  - destruct (Z.leb_spec 0 p); [|done].
    destruct (Z.leb_spec (p + 1) NUMBER_OF_BLOCKS); [lia|done].
Qed.

Lemma disk_put_blocks_1_other st p data b :
  b <> p -> disk (put_blocks st p 1 data) !! b = disk st !! b.
Proof.
  intros Hb. rewrite disk_put_blocks_1. case_decide; [|done]. by rewrite lookup_insert_ne.
Qed.

Lemma read_ind_node_block_eq st st' p :
  disk st' !! p = disk st !! p -> read_ind_node_block st' p = read_ind_node_block st p.
Proof. intros H. unfold read_ind_node_block, read_blocks. by rewrite H. Qed.

Lemma read_ind_node_block_written st p l :
  0 <= p < NUMBER_OF_BLOCKS -> length l = Z.to_nat POINTERS_IND_BLOCK ->
  read_ind_node_block (put_blocks st p 1 (encode_ind_node_block l)) p
  = (fun x => x `mod` 4294967296) <$> l.
Proof.
  intros Hp Hl. unfold read_ind_node_block.
  rewrite read_blocks_in_range, disk_put_blocks_1, decide_True, lookup_insert_eq by done.
  cbn [snd default from_option id].
  unfold block_of, encode_ind_node_block, decode_ind_node_block.
  change (Z.to_nat (NUMBER_OF_BYTES_BLOCK * 0)) with 0%nat. cbn [drop].
  rewrite drop_0, take_ge by (rewrite length_encode_pointers, Hl; geometry; lia).
  rewrite <- Hl. apply decode_encode_pointers.
Qed.

(** *** Appending a block *)

Lemma get_next_file_block_found st n b :
  let node := node_of (file_system st) n in
  (exists j, 0 <= j < NUMBER_OF_POINTERS /\ at_Z 0 (pointer node) j = b)
  \/ (exists j, 0 <= j < POINTERS_IND_BLOCK
                /\ at_Z 0 (read_ind_node_block st (ind_pointer node)) j = b) ->
  is_Some (get_next_file_block st n b).
Proof.
  intros node Hfound. unfold get_next_file_block. fold node.
  destruct (first_index _ 0 (Z.to_nat NUMBER_OF_POINTERS)) as [i|] eqn:Hd.
  - destruct (_ <? _); [eauto|]. destruct (_ =? _); eauto.
  - destruct (first_index _ 0 (Z.to_nat POINTERS_IND_BLOCK)) as [i|] eqn:Hi.
    + destruct (_ <? _); eauto.
    + exfalso. rewrite first_index_None in Hd, Hi.
      destruct Hfound as [(j & Hj & Hb)|(j & Hj & Hb)].
      * specialize (Hd j). rewrite Hb, Z.eqb_refl in Hd. by (discriminate Hd; geometry; lia).
      * specialize (Hi j). rewrite Hb, Z.eqb_refl in Hi. by (discriminate Hi; geometry; lia).
Qed.

Lemma node_of_with_free_bit_map fs m n : node_of (with_free_bit_map fs m) n = node_of fs n.
Proof. done. Qed.

Lemma free_bit_map_set_node_of fs n nd :
  free_bit_map (set_node_of fs n nd) = free_bit_map fs.
Proof. done. Qed.

Lemma node_of_set_both fs b n : node_of (set_both fs b) n = node_of fs n.
Proof. done. Qed.

Lemma at_Z_fmap {A B} (f : A -> B) d l i :
  0 <= i < Z.of_nat (length l) -> at_Z (f d) (f <$> l) i = f (at_Z d l i).
Proof.
  intros Hi. unfold at_Z. destruct (Z.ltb_spec i 0); [lia|].
  rewrite list_lookup_fmap. by destruct (l !! Z.to_nat i).
Qed.

Lemma add_block_spec st n r st' :
  inode_in_range (file_system st) n ->
  node_ok (node_of (file_system st) n) ->
  length (free_bit_map (file_system st)) = Z.to_nat sizeof_block_group ->
  0 <= ind_pointer (node_of (file_system st) n) < NUMBER_OF_BLOCKS ->
  (ind_pointer (node_of (file_system st) n) <> 0 ->
   get_bit_map (free_bit_map (file_system st)) (ind_pointer (node_of (file_system st) n)) = 0) ->
  add_block st n = (r, st') ->
  open_file_table st' = open_file_table st
  /\ size (node_of (file_system st') n) = size (node_of (file_system st) n)
  /\ (r = -1
      \/ (0 < r < NUMBER_OF_BLOCKS
          /\ inode_in_range (file_system st') n
          /\ node_ok (node_of (file_system st') n)
          /\ length (free_bit_map (file_system st')) = Z.to_nat sizeof_block_group
          /\ 0 <= ind_pointer (node_of (file_system st') n) < NUMBER_OF_BLOCKS
          /\ (ind_pointer (node_of (file_system st') n) <> 0 ->
              get_bit_map (free_bit_map (file_system st'))
                (ind_pointer (node_of (file_system st') n)) = 0)
          /\ r <> ind_pointer (node_of (file_system st') n)
          /\ is_Some (get_next_file_block st' n r))).
Proof.
  intros Hrange Hnode Hlen Hind Hbit. unfold add_block.
  set (fs := file_system st) in *. set (node := node_of fs n) in *.
  destruct (get_free_block_cases fs) as [[-> _]|(b & -> & Hb & Hbb & _)].
  { cbn [Z.ltb Z.compare]. intros [= <- <-]. auto. }
  set (fs1 := with_free_bit_map fs (clr_bit_map (free_bit_map fs) b)).
  assert (14 <= b <= 1016) as Hb' by (geometry; lia).
  destruct (Z.ltb_spec b 0) as [?|_]; [lia|].
  change (node_of fs1 n) with node.
  assert (forall x, 0 <= x < NUMBER_OF_BLOCKS ->
            get_bit_map (free_bit_map fs1) x = if b =? x then 0 else get_bit_map (free_bit_map fs) x)
    as Hclr.
  { intros x Hx. apply get_clr_bit_map; [lia|lia|].
    rewrite Hlen. geometry. apply Z.div_lt_upper_bound; lia. }
  assert (b <> ind_pointer node) as Hbind.
  { intros Heq. rewrite <- Heq in Hbit. rewrite Hbit in Hbb; [done|lia]. }
  assert (ind_pointer node <> 0 -> get_bit_map (free_bit_map fs1) (ind_pointer node) = 0) as Hbit1.
  { intros H0. rewrite Hclr by done. destruct (_ =? _); [done|]. by apply Hbit. }
  assert (length (free_bit_map fs1) = Z.to_nat sizeof_block_group) as Hlen1
    by (subst fs1; cbn [free_bit_map with_free_bit_map]; by rewrite length_clr_bit_map).
  assert (inode_in_range fs1 n) as Hrange1 by exact Hrange.
  destruct (first_index _ 0 (Z.to_nat NUMBER_OF_POINTERS)) as [i|] eqn:Hd.
  - (* a free direct pointer *)
    apply first_index_Some in Hd as (Hi & _ & _).
    intros [= <- <-]. cbn [open_file_table file_system with_fs].
    rewrite node_of_set_node_of by done. cbn [size pointer ind_pointer].
    split; [done|]. split; [done|]. right.
    split; [geometry; lia|].
    split; [by apply inode_in_range_set_node_of|].
    split; [unfold node_ok; cbn [pointer]; by rewrite length_upd_Z|].
    split; [done|]. split; [done|]. split; [done|]. split; [done|].
    apply get_next_file_block_found. left. exists i.
    cbn [file_system with_fs]. rewrite node_of_set_node_of by done. cbn [pointer].
    split; [lia|]. apply at_Z_upd_same. rewrite Hnode. lia.
  - destruct (Z.eqb_spec (ind_pointer node) 0) as [Hno|Hyes].
    + (* no indirect block yet *)
      destruct (get_free_block_cases fs1) as [[-> _]|(b2 & -> & Hb2 & Hbb2 & _)].
      { cbn [Z.ltb Z.compare]. intros [= <- <-]. auto. }
      assert (14 <= b2 <= 1016) as Hb2' by (geometry; lia).
      destruct (Z.ltb_spec b2 0) as [?|_]; [lia|].
      set (fs2 := with_free_bit_map fs1 (clr_bit_map (free_bit_map fs1) b2)).
      intros [= <- <-].
      rewrite open_file_table_put_blocks, file_system_put_blocks.
      cbn [open_file_table file_system with_fs].
      assert (inode_in_range fs2 n) as Hrange2 by exact Hrange.
      rewrite node_of_set_node_of by done. cbn [size pointer ind_pointer].
      split; [done|]. split; [done|]. right.
      split; [geometry; lia|].
      split; [by apply inode_in_range_set_node_of|].
      split; [done|].
      split; [rewrite free_bit_map_set_node_of; subst fs2;
              cbn [free_bit_map with_free_bit_map]; by rewrite length_clr_bit_map|].
      split; [geometry; lia|].
      split.
      { intros _. rewrite free_bit_map_set_node_of.
        subst fs2. cbn [free_bit_map with_free_bit_map].
        rewrite get_clr_bit_map, Z.eqb_refl; [done|lia|lia|].
        rewrite Hlen1. geometry. apply Z.div_lt_upper_bound; lia. }
      split.
      { intros Heq. rewrite <- Heq, Hclr, Z.eqb_refl in Hbb2; [done|geometry; lia]. }
      apply get_next_file_block_found. right. exists 0.
      rewrite file_system_put_blocks. cbn [file_system with_fs].
      rewrite node_of_set_node_of by done. cbn [ind_pointer].
      split; [geometry; lia|].
      rewrite read_ind_node_block_written;
        [|geometry; lia|by rewrite length_upd_Z].
      change 0 with ((fun x => x `mod` 4294967296) 0) at 1.
      rewrite at_Z_fmap
        by (rewrite length_upd_Z; change (length init_ind_node_block) with 256%nat; lia).
      rewrite at_Z_upd_same by (change (length init_ind_node_block) with 256%nat; lia).
      apply Z.mod_small. lia.
    + (* an indirect block *)
      change (read_ind_node_block (with_fs st fs1) (ind_pointer node))
        with (read_ind_node_block st (ind_pointer node)).
      set (ind := read_ind_node_block st (ind_pointer node)).
      assert (length ind = Z.to_nat POINTERS_IND_BLOCK) as Hil
        by apply length_read_ind_node_block.
      destruct (first_index _ 0 (Z.to_nat POINTERS_IND_BLOCK)) as [i|] eqn:Hi.
      2:{ intros [= <- <-]. auto. }
      apply first_index_Some in Hi as (Hi & _ & _).
      intros [= <- <-].
      rewrite open_file_table_put_blocks, file_system_put_blocks.
      cbn [open_file_table file_system with_fs]. change (node_of fs1 n) with node.
      split; [done|]. split; [done|]. right.
      split; [geometry; lia|].
      split; [done|]. split; [done|]. split; [done|]. split; [done|].
      split; [done|]. split; [done|].
      apply get_next_file_block_found. right. exists i.
      rewrite file_system_put_blocks. cbn [file_system with_fs]. change (node_of fs1 n) with node.
      split; [lia|].
      rewrite read_ind_node_block_written; [|done|by rewrite length_upd_Z].
      change 0 with ((fun x => x `mod` 4294967296) 0) at 1.
      rewrite at_Z_fmap by (rewrite length_upd_Z, Hil; geometry; lia).
      rewrite at_Z_upd_same by (rewrite Hil; geometry; lia).
      apply Z.mod_small. lia.
Qed.
(** *** The loop of [ssfs_fwrite] *)

Lemma file_blocks_ext st st' n :
  pointer (node_of (file_system st') n) = pointer (node_of (file_system st) n) ->
  ind_pointer (node_of (file_system st') n) = ind_pointer (node_of (file_system st) n) ->
  disk st' !! ind_pointer (node_of (file_system st) n)
  = disk st !! ind_pointer (node_of (file_system st) n) ->
  file_blocks st' n = file_blocks st n.
Proof.
  intros Hp Hi Hd. unfold file_blocks. rewrite Hp, Hi.
  by rewrite (read_ind_node_block_eq st st' _ Hd).
Qed.

Lemma get_next_file_block_ext st st' n b :
  pointer (node_of (file_system st') n) = pointer (node_of (file_system st) n) ->
  ind_pointer (node_of (file_system st') n) = ind_pointer (node_of (file_system st) n) ->
  disk st' !! ind_pointer (node_of (file_system st) n)
  = disk st !! ind_pointer (node_of (file_system st) n) ->
  get_next_file_block st' n b = get_next_file_block st n b.
Proof.
  intros Hp Hi Hd. unfold get_next_file_block. rewrite Hp, Hi.
  by rewrite (read_ind_node_block_eq st st' _ Hd).
Qed.

Lemma file_system_inc_file_size st n d :
  file_system (inc_file_size st n d)
  = set_node_of (file_system st) n
      (mk_node (size (node_of (file_system st) n) + d)
         (pointer (node_of (file_system st) n)) (ind_pointer (node_of (file_system st) n))).
Proof. done. Qed.

Lemma node_of_inc_file_size st n d :
  inode_in_range (file_system st) n ->
  node_of (file_system (inc_file_size st n d)) n
  = mk_node (size (node_of (file_system st) n) + d)
      (pointer (node_of (file_system st) n)) (ind_pointer (node_of (file_system st) n)).
Proof. intros H. rewrite file_system_inc_file_size. by apply node_of_set_node_of. Qed.

Lemma file_system_inc_file_size_eq st st' n d :
  file_system st = file_system st' ->
  file_system (inc_file_size st n d) = file_system (inc_file_size st' n d).
Proof. intros H. rewrite !file_system_inc_file_size. by rewrite H. Qed.

Section fwrite.
Context (st0 : sfs_state) (fileID n : Z).
Context (Hn : i_node_number (entry (fd_at (open_file_table st0) fileID)) = n).
Context (Hok : file_write_ok st0 n).

Lemma write_progress_start (i : nat) cb cc :
  file_blocks st0 n !! i = Some cb -> 0 <= cc <= NUMBER_OF_BYTES_BLOCK ->
  write_progress st0 n (offset_of i cc) st0 0 cb cc 0.
Proof.
  intros Hi Hcc. destruct Hok as [Hchain Hrange Hlen Hind Hapart Hused].
  assert (bytes_past (offset_of i cc) (end_of_file st0 n) (offset_of i cc + 0) = 0) as H0
    by (unfold bytes_past; lia).
  split; try done.
  - apply (chain_node_ok _ _ Hchain).
  - rewrite H0. lia.
  - left. split; [done|]. rewrite H0, inc_file_size_0. split; [done|]. split; [done|].
    exists i. split; [done|lia].
Qed.

(** In the first phase the file is seen as it was in [st0]. *)
Lemma first_phase_view st d :
  file_system st = file_system (inc_file_size st0 n d) ->
  (forall b, b ∉ file_blocks st0 n -> disk st !! b = disk st0 !! b) ->
  pointer (node_of (file_system st) n) = pointer (node_of (file_system st0) n)
  /\ ind_pointer (node_of (file_system st) n) = ind_pointer (node_of (file_system st0) n)
  /\ file_blocks st n = file_blocks st0 n
  /\ forall b, get_next_file_block st n b = get_next_file_block st0 n b.
Proof.
  intros Hfs Hdisk. destruct Hok as [Hchain Hrange Hlen Hind Hapart Hused].
  rewrite Hfs, node_of_inc_file_size by done. cbn [pointer ind_pointer].
  split; [done|]. split; [done|].
  assert (pointer (node_of (file_system st) n) = pointer (node_of (file_system st0) n)) as Hp
    by (rewrite Hfs, node_of_inc_file_size by done; done).
  assert (ind_pointer (node_of (file_system st) n) = ind_pointer (node_of (file_system st0) n))
    as Hi by (rewrite Hfs, node_of_inc_file_size by done; done).
  split; [|intros b]; [apply file_blocks_ext|apply get_next_file_block_ext]; auto.
Qed.

Lemma write_progress_fill pos0 st nb cb cc bp buf :
  write_progress st0 n pos0 st nb cb cc bp ->
  cc < NUMBER_OF_BYTES_BLOCK -> buf <> [] ->
  exists st1 data' k,
    1 <= k <= Z.of_nat (length buf)
    /\ fwrite_chars buf st n nb cb (get_last_file_block st0 n) (get_end_char st0 n)
         (snd (read_blocks (disk st) cb local_buffer)) cc bp
       = (drop (Z.to_nat k) buf, st1, data', cc + k, bp + k)
    /\ (drop (Z.to_nat k) buf <> [] -> cc + k = NUMBER_OF_BYTES_BLOCK)
    /\ write_progress st0 n pos0 (put_blocks st1 cb 1 data') nb cb (cc + k) (bp + k).
Proof.
  intros [Ht Hin Hnode Hbm Hcc Hbp Hsize Hind Hused Hphase] Hroom Hbuf.
  destruct Hok as [Hchain Hrange0 Hlen0 Hind0 Hapart0 Hused0].
  pose proof (get_end_char_range st0 n (chain_size _ _ Hchain)) as Hlc.
  set (lb := get_last_file_block st0 n) in *. set (lc := get_end_char st0 n) in *.
  set (k := Z.min (Z.of_nat (length buf)) (NUMBER_OF_BYTES_BLOCK - cc)).
  assert (1 <= k <= Z.of_nat (length buf)) as Hk.
  { destruct buf; [done|]. subst k. cbn [length]. lia. }
  set (delta := if negb (nb =? 0) then k
                else if cb =? lb then Z.max 0 (cc + k - Z.max cc lc) else 0).
  destruct (fwrite_chars_spec buf st n nb cb lb lc
              (snd (read_blocks (disk st) cb local_buffer)) cc bp k delta Hcc eq_refl eq_refl)
    as (data' & Hchars).
  exists (inc_file_size st n delta), data', k.
  split; [done|]. split; [done|]. split.
  { intros Hrest. destruct (decide (k = Z.of_nat (length buf))) as [He|Hne].
    - rewrite drop_ge in Hrest by lia. done.
    - subst k. lia. }
  assert (node_of (file_system (inc_file_size st n delta)) n
          = mk_node (size (node_of (file_system st) n) + delta)
              (pointer (node_of (file_system st) n))
              (ind_pointer (node_of (file_system st) n))) as Hnd
    by (by apply node_of_inc_file_size).
  assert (size (node_of (file_system st) n) + delta
          = size (node_of (file_system st0) n)
            + bytes_past pos0 (end_of_file st0 n) (pos0 + (bp + k))) as Hsize'.
  { rewrite Hsize. unfold bytes_past, end_of_file in *. fold lc.
    destruct Hphase as [(-> & _ & _ & i & Hi & Hoff)|(Hnb & _ & Hpast & _)].
    - pose proof (last_block_iff st0 n Hchain i cb Hi) as Hlast. fold lb in Hlast.
      pose proof (lookup_lt_Some _ _ _ Hi) as Hil.
      unfold offset_of in Hoff. subst delta. cbn [Z.eqb negb].
      destruct (Z.eqb_spec cb lb) as [Hlb|Hlb].
      + apply Hlast in Hlb. geometry. lia.
      + assert (S i < length (file_blocks st0 n))%nat by (rewrite Hlast in Hlb; lia).
        geometry. lia.
    - subst delta. destruct (Z.eqb_spec nb 0) as [?|_]; [lia|]. cbn [negb].
      geometry. lia. }
  split.
  - by rewrite open_file_table_put_blocks.
  - rewrite file_system_put_blocks, file_system_inc_file_size.
    by apply inode_in_range_set_node_of.
  - rewrite file_system_put_blocks, Hnd. exact Hnode.
  - rewrite file_system_put_blocks, file_system_inc_file_size. exact Hbm.
  - lia.
  - lia.
  - rewrite file_system_put_blocks, Hnd. cbn [size]. exact Hsize'.
  - rewrite file_system_put_blocks, Hnd. exact Hind.
  - rewrite file_system_put_blocks, Hnd. cbn [ind_pointer].
    rewrite file_system_inc_file_size. exact Hused.
  - destruct Hphase as [(Hnb & Hfs & Hdisk & i & Hi & Hoff)|(Hnb & Hcb & Hpast & Hne & Hnext)].
    + left. split; [done|]. split; [|split].
      * rewrite file_system_put_blocks.
        rewrite (file_system_inc_file_size_eq st _ n delta Hfs), inc_file_size_add.
        f_equal. f_equal.
        rewrite Hsize in Hsize'. lia.
      * intros b Hb. rewrite disk_put_blocks_1_other.
        -- by apply Hdisk.
        -- intros ->. apply Hb. apply list_elem_of_lookup. eauto.
      * exists i. split; [done|]. unfold offset_of in *. lia.
    + right. split; [done|]. split; [done|]. split; [lia|].
      rewrite file_system_put_blocks, Hnd. cbn [ind_pointer]. split; [done|].
      erewrite get_next_file_block_ext; [exact Hnext| | |].
      * by rewrite file_system_put_blocks, Hnd.
      * by rewrite file_system_put_blocks, Hnd.
      * rewrite disk_put_blocks_1_other by done. done.
Qed.

Lemma fwrite_fill_spec pos0 L fuel buf st nb cb cc bp :
  write_progress st0 n pos0 st nb cb cc bp ->
  buf <> [] -> (length buf < fuel)%nat -> bp + Z.of_nat (length buf) = L ->
  exists st' cb' cc' bp',
    fwrite_fill fuel st fileID buf (get_last_file_block st0 n) (get_end_char st0 n)
      nb cb cc bp = Some (st', cb', cc', bp')
    /\ open_file_table st' = open_file_table st0
    /\ bp <= bp' <= L
    /\ size (node_of (file_system st') n)
       = size (node_of (file_system st0) n) + bytes_past pos0 (end_of_file st0 n) (pos0 + bp')
    /\ (pos0 + L <= NUMBER_OF_BYTES_BLOCK * Z.of_nat (length (file_blocks st0 n)) ->
        bp' = L
        /\ file_system st'
           = file_system (inc_file_size st0 n (bytes_past pos0 (end_of_file st0 n) (pos0 + L)))).
Proof.
  set (lb := get_last_file_block st0 n). set (lc := get_end_char st0 n).
  revert buf st nb cb cc bp.
  induction fuel as [|fuel IH]; intros buf st nb cb cc bp Hwp Hbuf Hfuel HL; [lia|].
  (* one pass through a block, entered with [cc < 1024] *)
  assert (forall st nb cb cc,
            write_progress st0 n pos0 st nb cb cc bp -> cc < NUMBER_OF_BYTES_BLOCK ->
            exists st' cb' cc' bp',
              (let data_block := snd (read_blocks (disk st) cb local_buffer) in
               let '(buf', st1, data_block0, cc0, buf_pos) :=
                 fwrite_chars buf st n nb cb lb lc data_block cc bp in
               let st2 := put_blocks st1 cb 1 data_block0 in
               match buf' with
               | [] => Some (st2, cb, cc0, buf_pos)
               | _ :: _ => fwrite_fill fuel st2 fileID buf' lb lc nb cb cc0 buf_pos
               end) = Some (st', cb', cc', bp')
              /\ open_file_table st' = open_file_table st0
              /\ bp <= bp' <= L
              /\ size (node_of (file_system st') n)
                 = size (node_of (file_system st0) n)
                   + bytes_past pos0 (end_of_file st0 n) (pos0 + bp')
              /\ (pos0 + L <= NUMBER_OF_BYTES_BLOCK * Z.of_nat (length (file_blocks st0 n)) ->
                  bp' = L
                  /\ file_system st'
                     = file_system
                         (inc_file_size st0 n
                            (bytes_past pos0 (end_of_file st0 n) (pos0 + L))))) as Hfill.
  { clear st nb cb cc Hwp. intros st nb cb cc Hwp Hroom. cbv zeta.
    destruct (write_progress_fill pos0 st nb cb cc bp buf Hwp Hroom Hbuf)
      as (st1 & data' & k & Hk & Hchars & Hrest & Hwp').
    fold lb lc in Hchars. rewrite Hchars.
    destruct (drop (Z.to_nat k) buf) as [|y rest] eqn:Hdrop.
    - assert (k = Z.of_nat (length buf)) as Hkl.
      { apply (f_equal length) in Hdrop. rewrite length_drop in Hdrop. simpl in Hdrop. lia. }
      exists (put_blocks st1 cb 1 data'), cb, (cc + k), (bp + k).
      split; [done|]. destruct Hwp' as [Ht' _ _ _ _ _ Hsize' _ _ Hphase'].
      split; [done|]. split; [lia|]. split; [done|].
      intros Hfit. split; [lia|].
      destruct Hphase' as [(_ & Hfs & _)|(Hnb' & _)].
      + rewrite Hfs. do 3 f_equal. lia.
      + destruct Hwp as [_ _ _ _ _ _ _ _ _ [(Hnb & _)|(_ & _ & Hpast & _)]]; lia.
    - destruct (IH (y :: rest) (put_blocks st1 cb 1 data') nb cb (cc + k) (bp + k))
        as (st' & cb' & cc' & bp' & Hres & Ht' & Hbp' & Hsize' & Hfit'); [done|done| |  |].
      { rewrite <- Hdrop, length_drop. lia. }
      { rewrite <- Hdrop, length_drop. lia. }
      exists st', cb', cc', bp'. split; [done|]. split; [done|]. split; [lia|]. done. }
  cbn [fwrite_fill].
  pose proof Hwp as [Ht Hin Hnode Hbm Hcc Hbp Hsize Hind Hused Hphase].
  rewrite Ht, Hn.
  destruct (Z.leb_spec NUMBER_OF_BYTES_BLOCK cc) as [Hfull|Hroom]; [|by apply Hfill].
  assert (cc = NUMBER_OF_BYTES_BLOCK) as -> by lia.
  destruct Hok as [Hchain Hrange0 Hlen0 Hind0 Hapart0 Hused0].
  pose proof (get_end_char_range st0 n (chain_size _ _ Hchain)) as Hlc. fold lc in Hlc.
  (* what [add_block] leads to *)
  assert (forall tb,
            NUMBER_OF_BYTES_BLOCK * Z.of_nat (length (file_blocks st0 n)) <= pos0 + bp ->
            exists st' cb' cc' bp',
              (let '(nb0, st1) := add_block st n in
               if nb0 <? 0 then Some (st1, cb, NUMBER_OF_BYTES_BLOCK, bp)
               else
                 (let data_block := snd (read_blocks (disk st1) (if nb0 =? 0 then tb else nb0) local_buffer) in
                  let '(buf', st2, data_block0, cc0, buf_pos) :=
                    fwrite_chars buf st1 n nb0 (if nb0 =? 0 then tb else nb0) lb lc data_block 0 bp in
                  let st3 := put_blocks st2 (if nb0 =? 0 then tb else nb0) 1 data_block0 in
                  match buf' with
                  | [] => Some (st3, if nb0 =? 0 then tb else nb0, cc0, buf_pos)
                  | _ :: _ => fwrite_fill fuel st3 fileID buf' lb lc nb0 (if nb0 =? 0 then tb else nb0) cc0 buf_pos
                  end)) = Some (st', cb', cc', bp')
              /\ open_file_table st' = open_file_table st0
              /\ bp <= bp' <= L
              /\ size (node_of (file_system st') n)
                 = size (node_of (file_system st0) n)
                   + bytes_past pos0 (end_of_file st0 n) (pos0 + bp')
              /\ (pos0 + L <= NUMBER_OF_BYTES_BLOCK * Z.of_nat (length (file_blocks st0 n)) ->
                  bp' = L
                  /\ file_system st'
                     = file_system
                         (inc_file_size st0 n
                            (bytes_past pos0 (end_of_file st0 n) (pos0 + L))))) as Happend.
  { intros tb Hpast.
    assert (0 < Z.of_nat (length buf)) as Hpos by (destruct buf; [done|cbn [length]; lia]).
    destruct (add_block st n) as [r st1] eqn:Hadd.
    destruct (add_block_spec st n r st1 Hin Hnode Hbm Hind Hused Hadd)
      as (Ht1 & Hsize1 & [->|(Hr & Hin1 & Hnode1 & Hbm1 & Hind1 & Hused1 & Hne1 & Hnext1)]).
    - cbn [Z.ltb Z.compare]. exists st1, cb, NUMBER_OF_BYTES_BLOCK, bp.
      split; [done|]. split; [congruence|]. split; [lia|]. split; [congruence|]. lia.
    - destruct (Z.ltb_spec r 0) as [?|_]; [lia|].
      destruct (Z.eqb_spec r 0) as [?|_]; [lia|].
      apply Hfill; [|geometry; lia].
      split; try done; try congruence; try (geometry; lia).
      right. split; [lia|]. done. }
  destruct Hphase as [(-> & Hfs & Hdisk & i & Hi & Hoff)|(Hnb & Hcb & Hpast & Hne & Hnext)].
  - (* walking the blocks that the file had *)
    destruct (first_phase_view st _ Hfs Hdisk) as (_ & _ & _ & Hnextv).
    rewrite Hnextv, (get_next_file_block_spec st0 n cb i (chain_node_ok _ _ Hchain)
                       (chain_NoDup _ _ Hchain) Hi).
    destruct (file_blocks st0 n !! S i) as [tb|] eqn:Htb; cbn [default from_option id].
    + pose proof (block_positive st0 n Hchain _ _ Htb) as Htbpos.
      destruct (Z.ltb_spec tb 0) as [?|_]; [lia|]. cbn [Z.ltb Z.eqb Z.compare].
      apply Hfill; [|geometry; lia].
      split; try done; try (geometry; lia).
      left. split; [done|]. split; [done|]. split; [done|].
      exists (S i). split; [done|]. unfold offset_of in *. geometry. lia.
    + pose proof (lookup_ge_None_1 _ _ Htb) as Hlast.
      pose proof (lookup_lt_Some _ _ _ Hi) as Hil.
      cbn [Z.ltb Z.compare]. apply (Happend (-1)).
      unfold offset_of in Hoff. geometry. lia.
  - (* on an appended block *)
    destruct Hnext as [tb Htb]. rewrite Htb.
    destruct (Z.ltb_spec tb 0) as [Hneg|Hnonneg].
    + apply (Happend tb). done.
    + destruct (Z.ltb_spec nb 0) as [?|_]; [lia|].
      destruct (Z.eqb_spec nb 0) as [?|_]; [lia|].
      apply Hfill; [|geometry; lia].
      split; try done; try (geometry; lia).
      right. subst cb. split; [done|]. split; [done|]. split; [done|]. split; [done|].
      rewrite Htb. eauto.
Qed.


Lemma ssfs_fwrite_spec buf (i : nat) :
  let f := fd_at (open_file_table st0) fileID in
  let pos := offset_of i (c_ptr (write_pointer f)) in
  file_blocks st0 n !! i = Some (block (write_pointer f)) ->
  0 <= c_ptr (write_pointer f) <= NUMBER_OF_BYTES_BLOCK ->
  exists k st',
    ssfs_fwrite st0 fileID buf = Some (k, st')
    /\ 0 <= k <= Z.of_nat (length buf)
    /\ size (node_of (file_system st') n)
       = size (node_of (file_system st0) n) + bytes_past pos (end_of_file st0 n) (pos + k)
    /\ (pos + Z.of_nat (length buf) <= end_of_file st0 n ->
        k = Z.of_nat (length buf) /\ file_system st' = file_system st0).
Proof.
  intros f pos Hi Hcc. unfold ssfs_fwrite.
  destruct buf as [|x rest].
  - exists 0, st0. cbn [length]. unfold bytes_past.
    split; [done|]. split; [lia|]. split; [lia|]. done.
  - fold f. subst f. rewrite Hn.
    set (f := fd_at (open_file_table st0) fileID) in *.
    destruct (fwrite_fill_spec pos (Z.of_nat (length (x :: rest))) (S (length (x :: rest)))
                (x :: rest) st0 0 (block (write_pointer f)) (c_ptr (write_pointer f)) 0)
      as (st' & cb' & cc' & bp' & Hres & Ht & Hbp & Hsize & Hfit);
      [by apply write_progress_start|done|lia|lia|].
    rewrite Hres. eexists _, _. split; [reflexivity|].
    split; [lia|]. split; [exact Hsize|].
    intros Hle. destruct Hok as [Hchain _ _ _ _ _].
    pose proof (get_end_char_range st0 n (chain_size _ _ Hchain)) as Hlc.
    destruct Hfit as [-> Hfs].
    { unfold end_of_file in Hle. geometry. lia. }
    split; [done|].
    change (file_system (set_fd _ _ _)) with (file_system st').
    rewrite Hfs. unfold bytes_past. rewrite Z.max_l by lia. by rewrite inc_file_size_0.
Qed.

End fwrite.

(** C5.  For a write of [length buf] bytes to an open file whose write
    cursor is at offset [pos], with the end-of-file position
    [(get_last_file_block, get_end_char)] at offset [eof] when the call
    starts: [ssfs_fwrite] returns a number [k] of bytes written, and the
    size of the i-node has grown by the number of those [k] bytes that lie
    past [eof], one for each.  When the whole write lies within the file
    ([pos + length buf <= eof]) all the bytes are written, no block is
    appended and the size, like the rest of the file system image, is
    unchanged. *)
Theorem fwrite_grows_size_past_end_of_file (st : sfs_state) (fileID : Z) (buf : list Z) (i : nat) :
  let f := fd_at (open_file_table st) fileID in
  let n := i_node_number (entry f) in
  let pos := offset_of i (c_ptr (write_pointer f)) in
  let eof := end_of_file st n in
  file_write_ok st n ->
  file_blocks st n !! i = Some (block (write_pointer f)) ->
  0 <= c_ptr (write_pointer f) <= NUMBER_OF_BYTES_BLOCK ->
  exists k st',
    ssfs_fwrite st fileID buf = Some (k, st')
    /\ 0 <= k <= Z.of_nat (length buf)
    /\ size (node_of (file_system st') n)
       = size (node_of (file_system st) n) + Z.max 0 (pos + k - Z.max pos eof)
    /\ (pos + Z.of_nat (length buf) <= eof ->
        k = Z.of_nat (length buf)
        /\ size (node_of (file_system st') n) = size (node_of (file_system st) n)
        /\ file_system st' = file_system st).
Proof.
  intros f n pos eof Hok Hi Hcc.
  destruct (ssfs_fwrite_spec st fileID n eq_refl Hok buf i Hi Hcc)
    as (k & st' & Hw & Hk & Hsize & Hfit).
  exists k, st'. split; [exact Hw|]. split; [exact Hk|]. split; [exact Hsize|].
  intros Hle. destruct (Hfit Hle) as [-> Hfs]. by rewrite Hfs.
Qed.

(** ** Defects *)

(** C3 (the code departs from it).  When the direct pointers and the
    indirect block of the i-node are full and a data block is free,
    [add_block] takes the first free block [b], returns -1, and leaves the
    bit of [b] cleared: the block is not given back to the free bit map,
    unlike on the failure path eleven lines above, which sets it again. *)
Theorem add_block_leaks_the_block_when_full (st : sfs_state) (n b : Z) (fs' : s_file_system) :
  let node := node_of (file_system st) n in
  get_free_block (file_system st) = (b, fs') -> 0 <= b ->
  (forall i, 0 <= i < NUMBER_OF_POINTERS -> at_Z 0 (pointer node) i <> 0) ->
  ind_pointer node <> 0 ->
  (forall i, 0 <= i < POINTERS_IND_BLOCK ->
     at_Z 0 (read_ind_node_block st (ind_pointer node)) i <> 0) ->
  length (free_bit_map (file_system st)) = Z.to_nat sizeof_block_group ->
  add_block st n = (-1, with_fs st fs')
  /\ get_bit_map (free_bit_map (file_system st)) b = 1
  /\ get_bit_map (free_bit_map fs') b = 0.
Proof.
  intros node Hfree Hb Hdirect Hind Hindirect Hlen.
  destruct (get_free_block_cases (file_system st)) as [[H _]|(b' & H & Hr & Hbit & _)];
    rewrite H in Hfree; injection Hfree as <- <-; [lia|].
  split.
  - unfold add_block. rewrite H.
    destruct (Z.ltb_spec b' 0) as [?|_]; [lia|].
    assert (node_of (with_free_bit_map (file_system st)
                       (clr_bit_map (free_bit_map (file_system st)) b')) n = node) as ->
      by done.
    rewrite (proj2 (first_index_None _ _ _)).
    2:{ intros i Hi. apply Z.eqb_neq, Hdirect. geometry. lia. }
    destruct (Z.eqb_spec (ind_pointer node) 0) as [?|_]; [done|].
    rewrite (proj2 (first_index_None _ _ _)); [done|].
    intros i Hi. apply Z.eqb_neq, Hindirect. geometry. lia.
  - split; [done|]. simpl. rewrite get_clr_bit_map.
    + by rewrite Z.eqb_refl.
    + geometry; lia.
    + geometry; lia.
    + rewrite Hlen. geometry. apply Z.div_lt_upper_bound; lia.
Qed.

(** C6 (the code departs from it).  For a file that has an indirect
    block, a seek to an offset of [(NUMBER_OF_POINTERS +
    POINTERS_IND_BLOCK) * NUMBER_OF_BYTES_BLOCK] or more does not return
    -1: [seek_block] indexes its local indirect block beyond its last
    entry (the outcome [None] of the embedding). *)
Theorem seek_beyond_the_indirect_block (st : sfs_state) (fileID loc : Z) :
  let node :=
    node_of (file_system st) (i_node_number (entry (fd_at (open_file_table st) fileID))) in
  ind_pointer node <> 0 ->
  (NUMBER_OF_POINTERS + POINTERS_IND_BLOCK) * NUMBER_OF_BYTES_BLOCK <= loc ->
  ssfs_frseek st fileID loc = None /\ ssfs_fwseek st fileID loc = None.
Proof.
  intros node Hind Hloc.
  assert (seek_block st fileID loc = None) as Hsb.
  { unfold seek_block. fold node.
    destruct (Z.ltb_spec loc 0) as [?|_]; [geometry; lia|].
    assert (NUMBER_OF_POINTERS + POINTERS_IND_BLOCK <= loc ÷ NUMBER_OF_BYTES_BLOCK) as Hq.
    { geometry. rewrite Z.quot_div_nonneg by lia. apply Z.div_le_lower_bound; lia. }
    destruct (Z.ltb_spec (loc ÷ NUMBER_OF_BYTES_BLOCK) NUMBER_OF_POINTERS) as [?|_];
      [geometry; lia|].
    destruct (Z.eqb_spec (ind_pointer node) 0) as [?|_]; [done|].
    destruct (Z.ltb_spec (loc ÷ NUMBER_OF_BYTES_BLOCK - NUMBER_OF_POINTERS)
                POINTERS_IND_BLOCK) as [?|_]; [geometry; lia|done]. }
  unfold ssfs_frseek, ssfs_fwseek. by rewrite Hsb.
Qed.

(** C1 (the code departs from it).  A file "a" of 1030 bytes (two blocks)
    is committed and the commit is restored at once.  The restored "a"
    still has size 1030, but its i-node has the first block only, and a
    reader gets 6 bytes instead of the 1030 that were there at the commit:
    [copy_file] allocates a block for every further block of the original
    and never stores it in the copy. *)
Theorem restore_keeps_only_the_first_block :
  let st1 := snd (ssfs_commit st_two_blocks) in
  let st2 := snd (ssfs_restore st1 1) in
  let live := node_of (file_system st2) (i_node_number (dir_entry (file_system st2) 0 0)) in
  (ssfs_get_file_size st_two_blocks "a" = 1030
   /\ contents st_two_blocks "a" 2000 = Some (pattern 1030))
  /\ name (dir_entry (file_system st2) 0 0) = "a"%string
  /\ ssfs_get_file_size st2 "a" = 1030
  /\ contents st2 "a" 2000 = Some (take 6 (pattern 1030))
  /\ at_Z 0 (pointer live) 0 <> 0
  /\ at_Z 0 (pointer live) 1 = 0.
Proof. vm_compute. repeat split; done. Qed.

(** ** The states of the scenarios are well formed *)

Ltac by_computation := vm_compute; repeat constructor.

Lemma arrays_ok_mkssfs_fresh : arrays_ok mkssfs_fresh.
Proof. split; by_computation. Qed.

Lemma add_block_leaks_the_block_when_full_witness :
  let st := st_full in
  let fs' := with_free_bit_map (file_system st) (clr_bit_map (free_bit_map (file_system st)) 285) in
  add_block st 5 = (-1, with_fs st fs')
  /\ get_bit_map (free_bit_map (file_system st)) 285 = 1
  /\ get_bit_map (free_bit_map fs') 285 = 0.
Proof.
  assert (get_free_block (file_system st_full)
          = (285, with_free_bit_map (file_system st_full)
                    (clr_bit_map (free_bit_map (file_system st_full)) 285))
          /\ forallb (fun x => negb (x =? 0)) (pointer (node_of (file_system st_full) 5)) = true
          /\ length (pointer (node_of (file_system st_full) 5)) = 14%nat
          /\ ind_pointer (node_of (file_system st_full) 5) <> 0
          /\ forallb (fun x => negb (x =? 0))
               (read_ind_node_block st_full
                  (ind_pointer (node_of (file_system st_full) 5))) = true
          /\ length (read_ind_node_block st_full
                       (ind_pointer (node_of (file_system st_full) 5))) = 256%nat
          /\ length (free_bit_map (file_system st_full)) = Z.to_nat sizeof_block_group)
    as (Hfree & Hdir & Hdirlen & Hind & Hall & Hlen & Hmap).
  { vm_compute. repeat split; try reflexivity. discriminate. }
  assert (forall l i, forallb (fun x => negb (x =? 0)) l = true ->
            0 <= i < Z.of_nat (length l) -> at_Z 0 l i <> 0) as Hnz.
  { intros l i Hl Hi. rewrite forallb_forall in Hl.
    pose proof (at_Z_in_range 0 l i Hi) as Hin.
    apply list_elem_of_lookup_2, list_elem_of_In in Hin.
    specialize (Hl _ Hin). by apply negb_true_iff, Z.eqb_neq in Hl. }
  apply (add_block_leaks_the_block_when_full st_full 5 285).
  - exact Hfree.
  - lia.
  - intros i Hi. apply Hnz; [exact Hdir|]. rewrite Hdirlen. geometry. lia.
  - exact Hind.
  - intros i Hi. apply Hnz; [exact Hall|]. rewrite Hlen. geometry. lia.
  - exact Hmap.
Defined.

Lemma seek_beyond_the_indirect_block_witness :
  ssfs_frseek st_indirect 0 276480 = None /\ ssfs_fwseek st_indirect 0 276480 = None.
Proof.
  apply (seek_beyond_the_indirect_block st_indirect 0 276480).
  - by vm_compute.
  - vm_compute. discriminate.
Defined.

(** ** Instances of the theorems that have hypotheses *)

Lemma fopen_of_an_open_name_witness :
  check_fd_full st_open_but_not_in_directory = 0
  /\ ~ in_directory (file_system st_open_but_not_in_directory) "a"
  /\ exists i, ssfs_fopen st_open_but_not_in_directory "a"
               = Some (i, st_open_but_not_in_directory).
Proof.
  assert (~ in_directory (file_system st_open_but_not_in_directory) "a") as Hdir.
  { intros Hin. apply lookup_in_directory in Hin as [i Hi]; [|done].
    vm_compute in Hi. discriminate. }
  split; [reflexivity|]. split; [exact Hdir|].
  destruct (fopen_of_an_open_name st_open_but_not_in_directory "a") as [_ H].
  - discriminate.
  - exists 0. split; [geometry; lia|]. split; [by vm_compute|by vm_compute].
  - destruct (H eq_refl Hdir) as (i & _ & _ & Hi). by exists i.
Defined.


Lemma removed_file_is_gone_witness :
  exists st',
    ssfs_remove st_two_blocks "a" = (0, st')
    /\ ssfs_get_file_size st' "a" = -1
    /\ exists l, enumerate 40 (with_gnfni st' 0) = Some l /\ ("a"%string ∉ l).
Proof.
  destruct (removed_file_is_gone st_two_blocks "a") as (st' & Hr & Hs & He).
  - discriminate.
  - apply unique_names_b_correct. vm_compute. reflexivity.
  - exists 0. split; [geometry; lia|]. split; [by vm_compute|by vm_compute].
  - exists st'. split; [exact Hr|]. split; [exact Hs|].
    destruct (He 0 40%nat) as (l & Hl & Hnot & _); [geometry; lia|].
    exists l. split; [exact Hl|exact Hnot].
Defined.

Ltac decide_by_computation := apply (bool_decide_unpack _); vm_compute; exact I.

Lemma file_chain_ok_st_reopened : file_chain_ok st_reopened 5.
Proof.
  split.
  - vm_compute. reflexivity.
  - decide_by_computation.
  - decide_by_computation.
  - decide_by_computation.
Qed.

Lemma file_write_ok_st_reopened_at_1000 : file_write_ok st_reopened_at_1000 5.
Proof.
  split.
  - split; [vm_compute; reflexivity|decide_by_computation..].
  - split; decide_by_computation.
  - vm_compute. reflexivity.
  - decide_by_computation.
  - decide_by_computation.
  - intros H. exfalso. apply H. vm_compute. reflexivity.
Qed.

Lemma fread_stops_at_end_of_file_witness :
  exists r st', ssfs_fread st_reopened 0 2000 = Some (1030, r, st').
Proof.
  destruct (fread_stops_at_end_of_file st_reopened 0 2000 0) as [_ H].
  destruct H as (k & r & st' & i' & Hread & _ & Hk & _).
  - vm_compute. discriminate.
  - exact file_chain_ok_st_reopened.
  - vm_compute. reflexivity.
  - decide_by_computation.
  - lia.
  - exists r, st'. rewrite Hread, Hk. vm_compute. reflexivity.
Defined.

Lemma fwrite_grows_size_past_end_of_file_witness :
  exists k st',
    ssfs_fwrite st_reopened_at_1000 0 (replicate 100 7) = Some (k, st')
    /\ size (node_of (file_system st') 5)
       = size (node_of (file_system st_reopened_at_1000) 5)
         + Z.max 0 (offset_of 0 1000 + k
                    - Z.max (offset_of 0 1000) (end_of_file st_reopened_at_1000 5)).
Proof.
  destruct (fwrite_grows_size_past_end_of_file st_reopened_at_1000 0 (replicate 100 7) 0)
    as (k & st' & Hw & _ & Hsize & _).
  - exact file_write_ok_st_reopened_at_1000.
  - vm_compute. reflexivity.
  - decide_by_computation.
  - exists k, st'. split; [exact Hw|exact Hsize].
Defined.

(** * Further properties *)

(** ** Bit maps, formatting and allocation *)

(** X1.  [set_bit_map] and [clr_bit_map] change the bit of their block to
    1 and to 0 and no other bit, for a block whose group lies in the map;
    the map keeps its length. *)
Theorem bit_map_set_clr_get (m : list Z) (b b' : Z) :
  0 <= b -> 0 <= b' -> b / 8 < Z.of_nat (length m) ->
  get_bit_map (set_bit_map m b) b' = (if b =? b' then 1 else get_bit_map m b')
  /\ get_bit_map (clr_bit_map m b) b' = (if b =? b' then 0 else get_bit_map m b')
  /\ length (set_bit_map m b) = length m
  /\ length (clr_bit_map m b) = length m.
Proof.
  intros Hb Hb' Hlen. split; [|split; [|split]].
  - by apply get_set_bit_map.
  - by apply get_clr_bit_map.
  - apply length_set_bit_map.
  - apply length_clr_bit_map.
Qed.

Lemma bit_map_set_clr_get_witness :
  get_bit_map (set_bit_map init_map 17) 17 = 1
  /\ get_bit_map (clr_bit_map init_map 17) 17 = 0
  /\ get_bit_map (clr_bit_map init_map 17) 16 = get_bit_map init_map 16.
Proof.
  pose proof (bit_map_set_clr_get init_map 17 17) as H.
  pose proof (bit_map_set_clr_get init_map 17 16) as H'.
  destruct H as (H1 & H2 & _); [lia | lia | vm_compute; reflexivity |].
  destruct H' as (_ & H3 & _); [lia | lia | vm_compute; reflexivity |].
  split; [exact H1 | split; [exact H2 | exact H3]].
Defined.

(** A bit that is set stays set when [set_bit_map] sets any bit. *)
Lemma get_set_bit_map_mono m b x :
  0 <= x -> get_bit_map m x = 1 -> get_bit_map (set_bit_map m b) x = 1.
Proof.
  intros Hx H. unfold get_bit_map, set_bit_map in *.
  rewrite at_Z_upd. case_decide as Hd; [|done].
  destruct Hd as [Hq Hr]. rewrite <- Hq in H.
  assert (0 <= Z.rem x 8 < 8) as Hrem.
  { rewrite rem8 by done. apply Z.mod_pos_bound. lia. }
  rewrite get_bit_testbit in * by lia.
  destruct (Z.testbit (at_Z 0 m (b ÷ 8)) (Z.rem x 8)) eqn:Ht; [|done].
  unfold set_bit. rewrite Z.land_spec, Z.lor_spec, Ht.
  change 255 with (Z.ones 8). rewrite Z.ones_spec_low by lia. done.
Qed.

(** X2.  After formatting, the blocks that are free are the blocks 14 to
    1015: the super block, the i-node file, block 1016, the directories
    and the two maps are in use; the write mask is a copy of the free bit
    map. *)
Theorem format_frees_the_data_blocks (b : Z) :
  0 <= b < NUMBER_OF_BLOCKS ->
  get_bit_map (free_bit_map init_file_system) b
  = (if (FIRST_DATA_BLOCK <=? b) && (b <? LAST_DATA_BLOCK) then 1 else 0)
  /\ get_bit_map (write_mask init_file_system) b
     = get_bit_map (free_bit_map init_file_system) b.
Proof.
  intros Hb.
  assert (Forall (fun b =>
            get_bit_map (free_bit_map init_file_system) b
            = (if (FIRST_DATA_BLOCK <=? b) && (b <? LAST_DATA_BLOCK) then 1 else 0)
            /\ get_bit_map (write_mask init_file_system) b
               = get_bit_map (free_bit_map init_file_system) b)
            (seqZ 0 NUMBER_OF_BLOCKS)) as H.
  { apply (bool_decide_unpack _). vm_compute. exact I. }
  rewrite Forall_forall in H. apply H. apply elem_of_seqZ. lia.
Qed.

Lemma format_frees_the_data_blocks_witness :
  get_bit_map (free_bit_map init_file_system) 1016 = 0
  /\ get_bit_map (write_mask init_file_system) 1016
     = get_bit_map (free_bit_map init_file_system) 1016.
Proof.
  apply (format_frees_the_data_blocks 1016). geometry. lia.
Defined.

(** The i-node that [get_free_i_node] returns. *)
Lemma get_free_i_node_spec (fs : s_file_system) (i_block : Z) :
  let r := get_free_i_node fs i_block in
  (fst r = -1 <->
   forall i j, 0 <= i < BLOCKS_I_NODE_FILE -> 0 <= j < MAX_NODE_IN_BLOCK ->
     ~ i_node_free fs i j)
  /\ (fst r = -1 -> snd r = i_block)
  /\ (fst r <> -1 ->
      0 <= snd r < BLOCKS_I_NODE_FILE /\ 0 <= fst r < MAX_NODE_IN_BLOCK
      /\ i_node_free fs (snd r) (fst r)
      /\ forall i j, 0 <= i < BLOCKS_I_NODE_FILE -> 0 <= j < MAX_NODE_IN_BLOCK ->
           i < snd r \/ (i = snd r /\ j < fst r) -> ~ i_node_free fs i j).
Proof.
  cbv zeta. unfold get_free_i_node, i_node_free.
  destruct (first_index _ 0 (Z.to_nat BLOCKS_I_NODE_FILE)) as [i|] eqn:Hi.
  - apply first_index_Some in Hi as (Hir & Hpi & Hbefore).
    unfold free_i_node_in_block in *.
    destruct (first_index _ 0 (Z.to_nat MAX_NODE_IN_BLOCK)) as [j|] eqn:Hj; [|done].
    apply first_index_Some in Hj as (Hjr & Hpj & Hjbefore).
    cbn [fst snd default from_option id].
    apply Z.eqb_eq in Hpj.
    assert (j <> -1) by lia.
    split; [|split]; [split | done |].
    + done.
    + intros Hall. exfalso. apply (Hall i j); [geometry; lia | geometry; lia | done].
    + intros _. split; [geometry; lia|]. split; [geometry; lia|]. split; [done|].
      intros i' j' Hi' Hj' [Hlt | [-> Hlt]].
      * specialize (Hbefore i' ltac:(lia)).
        destruct (first_index _ 0 (Z.to_nat MAX_NODE_IN_BLOCK)) eqn:Hn in Hbefore; [done|].
        rewrite first_index_None in Hn.
        specialize (Hn j' ltac:(geometry; lia)). cbv beta in Hn. lia.
      * specialize (Hjbefore j' ltac:(lia)). cbv beta in Hjbefore. lia.
  - cbn [fst snd]. rewrite first_index_None in Hi.
    split; [|split]; [split | done | done].
    + intros _ i j Hir Hjr.
      specialize (Hi i ltac:(geometry; lia)). cbv beta in Hi.
      unfold free_i_node_in_block in Hi.
      destruct (first_index _ 0 (Z.to_nat MAX_NODE_IN_BLOCK)) eqn:Hn in Hi; [done|].
      rewrite first_index_None in Hn.
      specialize (Hn j ltac:(geometry; lia)). cbv beta in Hn. lia.
    + done.
Qed.

(** X3.  [get_free_i_node] returns the first i-node, in the order of the
    i-node file, whose first pointer is zero, and its block through
    [i_block]; it returns -1, and leaves [i_block] as it is, exactly when
    no i-node of the [BLOCKS_I_NODE_FILE * MAX_NODE_IN_BLOCK] has a zero
    first pointer. *)
Theorem get_free_i_node_first_free (fs : s_file_system) (i_block : Z) :
  let r := get_free_i_node fs i_block in
  (fst r = -1 <->
   forall i j, 0 <= i < BLOCKS_I_NODE_FILE -> 0 <= j < MAX_NODE_IN_BLOCK ->
     ~ i_node_free fs i j)
  /\ (fst r = -1 -> snd r = i_block)
  /\ (fst r <> -1 ->
      0 <= snd r < BLOCKS_I_NODE_FILE /\ 0 <= fst r < MAX_NODE_IN_BLOCK
      /\ i_node_free fs (snd r) (fst r)
      /\ forall i j, 0 <= i < BLOCKS_I_NODE_FILE -> 0 <= j < MAX_NODE_IN_BLOCK ->
           i < snd r \/ (i = snd r /\ j < fst r) -> ~ i_node_free fs i j).
Proof. exact (get_free_i_node_spec fs i_block). Qed.

(** X4.  When the direct pointers of the i-node are in use, it has no
    indirect block and one block [b] is left in the data region,
    [add_block] takes [b], finds no block for the indirect block, gives
    [b] back and returns -1: every bit of the free bit map is as before.
    The bit of [b] in the write mask is set, whatever it was. *)
Theorem add_block_gives_the_block_back (st : sfs_state) (n b : Z) :
  let fs := file_system st in
  let node := node_of fs n in
  length (free_bit_map fs) = Z.to_nat sizeof_block_group ->
  length (write_mask fs) = Z.to_nat sizeof_block_group ->
  (forall i, 0 <= i < NUMBER_OF_POINTERS -> at_Z 0 (pointer node) i <> 0) ->
  ind_pointer node = 0 ->
  FIRST_DATA_BLOCK <= b <= LAST_DATA_BLOCK ->
  (forall i, FIRST_DATA_BLOCK <= i <= LAST_DATA_BLOCK ->
     get_bit_map (free_bit_map fs) i = if i =? b then 1 else 0) ->
  exists st',
    add_block st n = (-1, st')
    /\ (forall x, 0 <= x ->
          get_bit_map (free_bit_map (file_system st')) x = get_bit_map (free_bit_map fs) x)
    /\ (forall x, 0 <= x ->
          get_bit_map (write_mask (file_system st')) x
          = if x =? b then 1 else get_bit_map (write_mask fs) x)
    /\ i_node_file (file_system st') = i_node_file fs
    /\ directory (file_system st') = directory fs
    /\ disk st' = disk st
    /\ open_file_table st' = open_file_table st.
Proof.
  intros fs node Hlen Hlenw Hfull Hind Hb Hbits.
  assert (b / 8 < Z.of_nat (length (free_bit_map fs))) as Hb8.
  { rewrite Hlen. geometry. apply Z.div_lt_upper_bound; lia. }
  unfold add_block. fold fs.
  destruct (get_free_block_cases fs) as [[_ Hnone]|(b1 & -> & Hb1 & Hbb1 & _)].
  { specialize (Hnone b Hb). rewrite Hbits, Z.eqb_refl in Hnone; done. }
  assert (b1 = b) as ->.
  { rewrite Hbits in Hbb1 by done. by destruct (Z.eqb_spec b1 b). }
  set (fs1 := with_free_bit_map fs (clr_bit_map (free_bit_map fs) b)).
  destruct (Z.ltb_spec b 0) as [?|_]; [geometry; lia|].
  change (node_of fs1 n) with node.
  rewrite (proj2 (first_index_None _ _ _)).
  2:{ intros j Hj. apply Z.eqb_neq, Hfull. geometry. lia. }
  rewrite Hind. cbn [Z.eqb].
  destruct (get_free_block_cases fs1) as [[-> _]|(b2 & _ & Hb2 & Hbb2 & _)].
  2:{ subst fs1. cbn [free_bit_map with_free_bit_map] in Hbb2.
      rewrite get_clr_bit_map in Hbb2 by (geometry; lia).
      destruct (Z.eqb_spec b b2) as [|Hne]; [done|].
      rewrite Hbits in Hbb2 by done. by destruct (Z.eqb_spec b2 b). }
  cbn [Z.ltb Z.compare]. eexists. split; [done|].
  cbn [file_system with_fs set_both free_bit_map write_mask with_write_mask with_free_bit_map
       i_node_file directory disk open_file_table fs1].
  split; [|split; [|done]].
  - intros x Hx. rewrite get_set_bit_map, get_clr_bit_map;
      [|geometry; lia|done|done|geometry; lia|done|by rewrite length_clr_bit_map].
    destruct (Z.eqb_spec b x) as [<-|]; [|done].
    by rewrite Hbits, Z.eqb_refl.
  - intros x Hx. rewrite get_set_bit_map; [|geometry; lia|done|].
    + rewrite Z.eqb_sym. done.
    + fold fs. rewrite Hlenw, <- Hlen. done.
Qed.

(** A property of every index of a range, by running it on each. *)
Ltac for_all_in lo len :=
  match goal with
  | |- forall i, _ -> @?P i =>
      let H := fresh in
      assert (H : Forall P (seqZ lo len))
        by (apply (bool_decide_unpack _); vm_compute; exact I);
      let i := fresh in
      let Hi := fresh in
      intros i Hi; rewrite Forall_forall in H; apply (H i); apply elem_of_seqZ;
      geometry; lia
  end.

Lemma add_block_gives_the_block_back_witness :
  exists st',
    add_block st_one_block_left 5 = (-1, st')
    /\ forall x, 0 <= x ->
         get_bit_map (free_bit_map (file_system st')) x
         = get_bit_map (free_bit_map (file_system st_one_block_left)) x.
Proof.
  destruct (add_block_gives_the_block_back st_one_block_left 5 500)
    as (st' & H1 & H2 & _).
  - vm_compute; reflexivity.
  - vm_compute; reflexivity.
  - for_all_in 0 14.
  - vm_compute; reflexivity.
  - geometry; lia.
  - for_all_in 14 1003.
  - exists st'. split; [exact H1 | exact H2].
Defined.

(** ** Files without holes *)

Lemma nonzero_prefix_app_nonzero q l :
  Forall (fun x => x <> 0) q -> nonzero_prefix (q ++ l) = q ++ nonzero_prefix l.
Proof.
  induction 1 as [|x q Hx _ IH]; [done|]. cbn [app nonzero_prefix].
  destruct (Z.eqb_spec x 0); [done|]. by rewrite IH.
Qed.

Lemma nonzero_prefix_zeros k : nonzero_prefix (replicate k 0) = [].
Proof. by destruct k. Qed.

Lemma take_nonzero_prefix p : take (length (nonzero_prefix p)) p = nonzero_prefix p.
Proof.
  destruct (nonzero_prefix_app p) as (r & Hp & _).
  rewrite Hp at 2. by rewrite take_app_length.
Qed.

Lemma pointers_dense_split p :
  pointers_dense p ->
  p = nonzero_prefix p ++ replicate (length p - length (nonzero_prefix p)) 0.
Proof.
  unfold pointers_dense. intros H.
  rewrite <- (take_drop (length (nonzero_prefix p)) p) at 1.
  rewrite take_nonzero_prefix. f_equal.
  rewrite <- length_drop.
  induction H as [|x l -> _ IH]; [done|]. cbn [length replicate]. by rewrite <- IH.
Qed.

Lemma pointers_dense_intro q k :
  Forall (fun x => x <> 0) q -> pointers_dense (q ++ replicate k 0).
Proof.
  intros Hq. unfold pointers_dense.
  rewrite nonzero_prefix_app_nonzero, nonzero_prefix_zeros, app_nil_r, drop_app_length by done.
  apply Forall_replicate. done.
Qed.

Lemma first_zero_index p (N : nat) :
  (N <= length p)%nat ->
  first_index (fun i => at_Z 0 p i =? 0) 0 N
  = if decide (length (nonzero_prefix p) < N)%nat
    then Some (Z.of_nat (length (nonzero_prefix p))) else None.
Proof.
  intros HN.
  assert (forall j : nat, (j < length (nonzero_prefix p))%nat -> at_Z 0 p (Z.of_nat j) <> 0) as Hnz.
  { intros j Hj. rewrite at_Z_nat, nonzero_prefix_lookup by done.
    destruct (lookup_lt_is_Some_2 _ _ Hj) as [x Hx]. rewrite Hx. cbn.
    pose proof (nonzero_prefix_nonzero p) as Hall.
    rewrite Forall_forall in Hall. apply Hall. by eapply list_elem_of_lookup_2. }
  case_decide as Hlt.
  - apply first_index_is; [lia| |].
    + rewrite at_Z_nat, nonzero_prefix_end by lia. done.
    + intros j Hj. apply Z.eqb_neq. replace j with (Z.of_nat (Z.to_nat j)) by lia.
      apply Hnz. lia.
  - apply first_index_None. intros j Hj. apply Z.eqb_neq.
    replace j with (Z.of_nat (Z.to_nat j)) by lia. apply Hnz. lia.
Qed.

Lemma pointers_dense_append p r :
  pointers_dense p -> r <> 0 -> (length (nonzero_prefix p) < length p)%nat ->
  nonzero_prefix (<[length (nonzero_prefix p) := r]> p) = nonzero_prefix p ++ [r]
  /\ pointers_dense (<[length (nonzero_prefix p) := r]> p).
Proof.
  intros Hd Hr Hlt. pose proof (pointers_dense_split p Hd) as Hp.
  set (q := nonzero_prefix p) in *.
  destruct (length p - length q)%nat as [|k] eqn:Hk; [lia|].
  assert (<[length q := r]> p = (q ++ [r]) ++ replicate k 0) as ->.
  { rewrite Hp at 1. cbn [replicate].
    rewrite insert_app_r_alt, Nat.sub_diag by lia. cbn [list_insert]. by rewrite <- app_assoc. }
  assert (Forall (fun x => x <> 0) (q ++ [r])) as Hq.
  { apply Forall_app. split; [apply nonzero_prefix_nonzero|]. by apply Forall_singleton. }
  split; [|by apply pointers_dense_intro].
  by rewrite nonzero_prefix_app_nonzero, nonzero_prefix_zeros, app_nil_r.
Qed.

Lemma nonzero_prefix_all p : Forall (fun x => x <> 0) p -> nonzero_prefix p = p.
Proof.
  intros H. rewrite <- (app_nil_r p) at 1.
  rewrite nonzero_prefix_app_nonzero by done. apply app_nil_r.
Qed.

Lemma file_blocks_dense st n :
  file_dense st n ->
  file_blocks st n
  = nonzero_prefix (pointer (node_of (file_system st) n))
    ++ (if ind_pointer (node_of (file_system st) n) =? 0 then []
        else nonzero_prefix (read_ind_node_block st (ind_pointer (node_of (file_system st) n)))).
Proof.
  intros [_ Hfull _]. unfold file_blocks.
  destruct (Z.eqb_spec (ind_pointer (node_of (file_system st) n)) 0) as [|Hne].
  - cbn [negb]. rewrite andb_false_r. symmetry. apply app_nil_r.
  - rewrite (nonzero_prefix_all _ (Hfull Hne)), Nat.eqb_refl. done.
Qed.

Lemma upd_Z_nat {A} (l : list A) (k : nat) x : upd_Z l (Z.of_nat k) x = <[k := x]> l.
Proof.
  unfold upd_Z. destruct (Z.ltb_spec (Z.of_nat k) 0); [lia|]. by rewrite Nat2Z.id.
Qed.

Lemma fmap_mod_small (l : list Z) :
  Forall (fun x => 0 <= x < 4294967296) l -> (fun x => x `mod` 4294967296) <$> l = l.
Proof.
  induction 1 as [|x l Hx _ IH]; [done|]. cbn [fmap list_fmap].
  rewrite Z.mod_small by done. f_equal. exact IH.
Qed.

Lemma Forall_insert_in {A} (P : A -> Prop) l (k : nat) x :
  Forall P l -> P x -> Forall P (<[k := x]> l).
Proof.
  intros Hl Hx. apply Forall_forall. intros y Hy.
  apply list_elem_of_lookup in Hy as [j Hj].
  destruct (decide (k = j)) as [->|Hne].
  - destruct (decide (j < length l)%nat).
    + rewrite list_lookup_insert_eq in Hj by done. by injection Hj as <-.
    + rewrite lookup_ge_None_2 in Hj; [done|]. rewrite length_insert. lia.
  - rewrite list_lookup_insert_ne in Hj by done.
    rewrite Forall_forall in Hl. apply Hl. by eapply list_elem_of_lookup_2.
Qed.

(** What [add_block] does when it returns a block. *)
Lemma add_block_appends st n r st' :
  file_write_ok st n -> file_dense st n ->
  add_block st n = (r, st') -> r <> -1 ->
  let node := node_of (file_system st) n in
  let node' := node_of (file_system st') n in
  file_blocks st' n = file_blocks st n ++ [r]
  /\ get_bit_map (free_bit_map (file_system st)) r = 1
  /\ (forall x, 0 <= x < NUMBER_OF_BLOCKS ->
        get_bit_map (free_bit_map (file_system st')) x = 1 ->
        get_bit_map (free_bit_map (file_system st)) x = 1 /\ x <> r)
  /\ file_dense st' n
  /\ (ind_pointer node' = ind_pointer node
      \/ get_bit_map (free_bit_map (file_system st)) (ind_pointer node') = 1).
Proof.
  intros [[Hnode Hnodup Hblocks Hsize] Hrange Hlen Hind Hapart Hbit] Hdense Hadd Hr.
  cbv zeta. revert Hadd. unfold add_block.
  pose proof (file_blocks_dense st n Hdense) as Hchain.
  destruct Hdense as [Hdd Hdfull Hdi].
  set (fs := file_system st) in *. set (node := node_of fs n) in *.
  destruct (get_free_block_cases fs) as [[-> _]|(b & -> & Hb & Hbb & _)].
  { cbn [Z.ltb Z.compare]. intros [<- <-]%pair_equal_spec. done. }
  set (fs1 := with_free_bit_map fs (clr_bit_map (free_bit_map fs) b)).
  assert (14 <= b <= 1016) as Hb' by (geometry; lia).
  destruct (Z.ltb_spec b 0) as [?|_]; [lia|].
  change (node_of fs1 n) with node.
  assert (forall x, 0 <= x < NUMBER_OF_BLOCKS ->
            get_bit_map (free_bit_map fs1) x = if b =? x then 0 else get_bit_map (free_bit_map fs) x)
    as Hclr.
  { intros x Hx. apply get_clr_bit_map; [lia|lia|].
    rewrite Hlen. geometry. apply Z.div_lt_upper_bound; lia. }
  assert (forall x, 0 <= x < NUMBER_OF_BLOCKS ->
            get_bit_map (free_bit_map fs1) x = 1 ->
            get_bit_map (free_bit_map fs) x = 1 /\ x <> b) as Hclr1.
  { intros x Hx. rewrite Hclr by done. destruct (Z.eqb_spec b x); [done|]. auto. }
  assert (length (free_bit_map fs1) = Z.to_nat sizeof_block_group) as Hlen1
    by (subst fs1; cbn [free_bit_map with_free_bit_map]; by rewrite length_clr_bit_map).
  assert (inode_in_range fs1 n) as Hrange1 by exact Hrange.
  change (Z.to_nat NUMBER_OF_POINTERS) with 14%nat.
  rewrite first_zero_index by (rewrite Hnode; done).
  case_decide as Hfree.
  - (* a free direct pointer *)
    intros [<- <-]%pair_equal_spec. cbn [file_system with_fs].
    rewrite node_of_set_node_of by done. cbn [ind_pointer].
    rewrite upd_Z_nat.
    assert (ind_pointer node = 0) as Hno.
    { destruct (decide (ind_pointer node = 0)) as [|Hne]; [done|].
      pose proof (nonzero_prefix_all _ (Hdfull Hne)) as Heq.
      rewrite Heq, Hnode in Hfree. change (Z.to_nat NUMBER_OF_POINTERS) with 14%nat in Hfree. lia. }
    destruct (pointers_dense_append (pointer node) b Hdd) as [Hnz' Hd']; [lia|rewrite Hnode; done|].
    assert (file_dense (with_fs (with_fs st fs1)
              (set_node_of fs1 n
                 (mk_node (size node) (<[length (nonzero_prefix (pointer node)) := b]> (pointer node))
                    (ind_pointer node)))) n) as Hdense'.
    { split; cbn [file_system with_fs]; rewrite node_of_set_node_of by done;
        cbn [pointer ind_pointer]; [done|by rewrite Hno|by rewrite Hno]. }
    split; [|split; [done|split; [exact Hclr1|split; [done|by left]]]].
    rewrite (file_blocks_dense _ _ Hdense'), Hchain. cbn [file_system with_fs].
    rewrite node_of_set_node_of by done. cbn [pointer ind_pointer].
    rewrite Hno, Hnz'. cbn [Z.eqb]. by rewrite !app_nil_r.
  - assert (Forall (fun x => x <> 0) (pointer node)) as Hfull.
    { rewrite <- (nonzero_prefix_full (pointer node)); [apply nonzero_prefix_nonzero|].
      pose proof (length_nonzero_prefix (pointer node)). rewrite Hnode in *.
      change (Z.to_nat NUMBER_OF_POINTERS) with 14%nat in *. lia. }
    destruct (Z.eqb_spec (ind_pointer node) 0) as [Hno|Hyes].
    + (* no indirect block yet *)
      destruct (get_free_block_cases fs1) as [[-> _]|(b2 & -> & Hb2 & Hbb2 & _)].
      { cbn [Z.ltb Z.compare]. intros [<- <-]%pair_equal_spec. done. }
      assert (14 <= b2 <= 1016) as Hb2' by (geometry; lia).
      destruct (Z.ltb_spec b2 0) as [?|_]; [lia|].
      set (fs2 := with_free_bit_map fs1 (clr_bit_map (free_bit_map fs1) b2)).
      intros [<- <-]%pair_equal_spec.
      rewrite !file_system_put_blocks. cbn [file_system with_fs].
      assert (inode_in_range fs2 n) as Hrange2 by exact Hrange.
      rewrite node_of_set_node_of by done. cbn [ind_pointer].
      assert (read_ind_node_block
                (put_blocks (with_fs (with_fs st fs1)
                               (set_node_of fs2 n (mk_node (size node) (pointer node) b2)))
                   b2 1 (encode_ind_node_block (upd_Z init_ind_node_block 0 b))) b2
              = [b] ++ replicate 255 0) as Hread.
      { rewrite read_ind_node_block_written; [|geometry; lia|by rewrite length_upd_Z].
        rewrite fmap_mod_small; [done|].
        change (upd_Z init_ind_node_block 0 b) with (b :: replicate 255 0).
        apply Forall_cons. split; [lia|]. apply Forall_replicate. lia. }
      assert (file_dense
                (put_blocks (with_fs (with_fs st fs1)
                               (set_node_of fs2 n (mk_node (size node) (pointer node) b2)))
                   b2 1 (encode_ind_node_block (upd_Z init_ind_node_block 0 b))) n) as Hdense'.
      { split; rewrite ?file_system_put_blocks; cbn [file_system with_fs];
          rewrite node_of_set_node_of by done; cbn [pointer ind_pointer]; [done|done|].
        intros _. rewrite Hread. apply pointers_dense_intro. apply Forall_singleton. lia. }
      split; [|split; [done|split; [|split; [done|right]]]].
      * rewrite (file_blocks_dense _ _ Hdense'), Hchain.
        rewrite !file_system_put_blocks. cbn [file_system with_fs].
        rewrite node_of_set_node_of by done. cbn [pointer ind_pointer].
        rewrite Hread.
        destruct (Z.eqb_spec b2 0) as [?|_]; [lia|].
        rewrite nonzero_prefix_app_nonzero, nonzero_prefix_zeros, !app_nil_r
          by (apply Forall_singleton; lia). done.
      * intros x Hx. rewrite free_bit_map_set_node_of. subst fs2.
        cbn [free_bit_map with_free_bit_map].
        rewrite get_clr_bit_map; [|lia|lia|rewrite Hlen1; geometry; apply Z.div_lt_upper_bound; lia].
        destruct (Z.eqb_spec b2 x); [done|]. by apply Hclr1.
      * apply (Hclr1 b2); [geometry; lia|done].
    + (* an indirect block *)
      change (read_ind_node_block (with_fs st fs1) (ind_pointer node))
        with (read_ind_node_block st (ind_pointer node)).
      set (ind := read_ind_node_block st (ind_pointer node)) in *.
      assert (length ind = Z.to_nat POINTERS_IND_BLOCK) as Hil
        by apply length_read_ind_node_block.
      change (Z.to_nat POINTERS_IND_BLOCK) with 256%nat in *.
      rewrite first_zero_index by (rewrite Hil; done).
      case_decide as Hfree2; [|intros [<- <-]%pair_equal_spec; done].
      intros [<- <-]%pair_equal_spec.
      rewrite !file_system_put_blocks. cbn [file_system with_fs].
      change (node_of fs1 n) with node.
      rewrite upd_Z_nat.
      specialize (Hdi Hyes). fold ind in Hdi.
      destruct (pointers_dense_append ind b Hdi) as [Hnz' Hd']; [lia|rewrite Hil; done|].
      assert (Forall (fun x => 0 <= x < 4294967296) ind) as Hsmall.
      { rewrite (pointers_dense_split ind Hdi). apply Forall_app. split.
        - rewrite Hchain in Hblocks. apply Forall_app in Hblocks as [_ Hb2].
          eapply Forall_impl; [exact Hb2|]. cbv beta. geometry. lia.
        - apply Forall_replicate. lia. }
      assert (read_ind_node_block
                (put_blocks (with_fs st fs1) (ind_pointer node) 1
                   (encode_ind_node_block (<[length (nonzero_prefix ind) := b]> ind)))
                (ind_pointer node)
              = <[length (nonzero_prefix ind) := b]> ind) as Hread.
      { rewrite read_ind_node_block_written; [|done|by rewrite length_insert].
        apply fmap_mod_small. apply Forall_insert_in; [done|lia]. }
      assert (file_dense
                (put_blocks (with_fs st fs1) (ind_pointer node) 1
                   (encode_ind_node_block (<[length (nonzero_prefix ind) := b]> ind))) n)
        as Hdense'.
      { split; rewrite ?file_system_put_blocks; cbn [file_system with_fs];
          change (node_of fs1 n) with node; [done|done|].
        intros _. by rewrite Hread. }
      split; [|split; [done|split; [exact Hclr1|split; [done|by left]]]].
      rewrite (file_blocks_dense _ _ Hdense'), Hchain.
      rewrite !file_system_put_blocks. cbn [file_system with_fs].
      change (node_of fs1 n) with node.
      rewrite Hread, Hnz'.
      destruct (Z.eqb_spec (ind_pointer node) 0) as [?|_]; [done|].
      by rewrite app_assoc.
Qed.


(** The file after an [add_block] that returns a block. *)
Lemma add_block_appends_ok (st : sfs_state) (n r : Z) (st' : sfs_state) :
  file_write_ok st n -> file_dense st n -> file_blocks_used st n ->
  add_block st n = (r, st') -> r <> -1 ->
  file_blocks st' n = file_blocks st n ++ [r]
  /\ get_bit_map (free_bit_map (file_system st)) r = 1
  /\ size (node_of (file_system st') n) = size (node_of (file_system st) n)
  /\ file_write_ok st' n /\ file_dense st' n /\ file_blocks_used st' n.
Proof.
  intros Hok Hdense Hused Hadd Hr.
  destruct (add_block_appends st n r st' Hok Hdense Hadd Hr)
    as (Hchain & Hfree & Hbits & Hdense' & Hindcase).
  destruct Hok as [[Hnode Hnodup Hblocks Hsize] Hrange Hlen Hind Hapart Hbit].
  destruct (add_block_spec st n r st' Hrange Hnode Hlen Hind Hbit Hadd)
    as (_ & Hsz & [?|(Hr0 & Hrange' & Hnode' & Hlen' & Hind' & Hbit' & Hrind & _)]); [done|].
  unfold file_blocks_used in *.
  assert (r ∉ file_blocks st n) as Hnotin.
  { intros Hin. rewrite Forall_forall in Hused. specialize (Hused r Hin). congruence. }
  assert (get_bit_map (free_bit_map (file_system st')) r = 0) as Hr'.
  { destruct (get_bit_map_01 (free_bit_map (file_system st')) r) as [H0|H1]; [lia|done|].
    destruct (Hbits r) as [_ Hne]; [lia|done|done]. }
  split; [done|]. split; [done|]. split; [done|]. split; [|split; [done|]].
  - split; [split| | | | |]; try done.
    + rewrite Hchain. apply NoDup_app. split; [done|]. split; [|apply NoDup_singleton].
      intros x Hx ->%list_elem_of_singleton. done.
    + rewrite Hchain. apply Forall_app. split; [done|]. apply Forall_singleton. done.
    + lia.
    + rewrite Hchain. intros [Hin|Heq%list_elem_of_singleton]%elem_of_app; [|done].
      destruct Hindcase as [Heq|Hfree']; [by rewrite Heq in Hin|].
      rewrite Forall_forall in Hused. specialize (Hused _ Hin). congruence.
  - rewrite Hchain. apply Forall_app. split; [|by apply Forall_singleton].
    rewrite Forall_forall in Hused, Hblocks |- *. intros x Hx.
    destruct (get_bit_map_01 (free_bit_map (file_system st')) x) as [H0|H1];
      [specialize (Hblocks x Hx); lia|done|].
    destruct (Hbits x) as [Hone _]; [specialize (Hblocks x Hx); lia|done|].
    specialize (Hused x Hx). congruence.
Qed.

(** X5.  When [add_block] returns a block [r] for a file without holes
    whose blocks are in use, [r] was free, is now in use, and is the new
    last block of the file: the blocks of the file are those it had,
    followed by [r].  The size of the file is as before, and the file is
    again well formed, without holes, and made of blocks in use. *)
Theorem add_block_appends_to_the_file (st : sfs_state) (n r : Z) (st' : sfs_state) :
  file_write_ok st n -> file_dense st n -> file_blocks_used st n ->
  add_block st n = (r, st') -> r <> -1 ->
  file_blocks st' n = file_blocks st n ++ [r]
  /\ get_bit_map (free_bit_map (file_system st)) r = 1
  /\ size (node_of (file_system st') n) = size (node_of (file_system st) n)
  /\ file_write_ok st' n /\ file_dense st' n /\ file_blocks_used st' n.
Proof. exact (add_block_appends_ok st n r st'). Qed.

Lemma file_dense_st_reopened_at_1000 : file_dense st_reopened_at_1000 5.
Proof.
  split.
  - decide_by_computation.
  - intros H. exfalso. apply H. vm_compute. reflexivity.
  - intros H. exfalso. apply H. vm_compute. reflexivity.
Qed.

Lemma add_block_appends_to_the_file_witness :
  file_blocks (snd (add_block st_reopened_at_1000 5)) 5
  = file_blocks st_reopened_at_1000 5 ++ [fst (add_block st_reopened_at_1000 5)].
Proof.
  refine (proj1 (add_block_appends_to_the_file st_reopened_at_1000 5 _ _
                   file_write_ok_st_reopened_at_1000 file_dense_st_reopened_at_1000 _ _ _)).
  - decide_by_computation.
  - apply surjective_pairing.
  - vm_compute. discriminate.
Defined.

(** ** Opening and closing *)

Lemma first_free_fd_Some t i :
  first_free_fd t = Some i -> 0 <= i < MAX_FD /\ name (entry (fd_at t i)) = EmptyString.
Proof.
  intros (Hi & Hn & _)%first_index_Some. split; [geometry; lia|].
  by apply name_empty_true.
Qed.

(** [add_file_to_dir] returns -1 or the index of a directory entry, and
    leaves the state as it is when it returns -1. *)
Lemma add_file_to_dir_fails st f ib0 in0 e ib ino st' :
  add_file_to_dir st f ib0 in0 = (e, ib, ino, st') ->
  (e = -1 /\ st' = st) \/ 0 <= e < MAX_FILES.
Proof.
  unfold add_file_to_dir.
  destruct (first_index _ _ _) as [k|] eqn:Hk; [|intros [= <- _ _ <-]; by left].
  apply first_index_Some in Hk as (Hk & _ & _).
  destruct (get_free_i_node _ _) as [ino' ib'].
  destruct (ino' =? -1); [intros [= <- _ _ <-]; by left|].
  destruct (get_free_block_cases (file_system st)) as [[-> _]|(b & -> & Hb & _)].
  - cbn [Z.eqb]. intros [= <- _ _ <-]. left. by rewrite with_fs_id.
  - destruct (Z.eqb_spec b (-1)) as [?|_]; [geometry; lia|].
    intros [<- _]%pair_equal_spec%proj1%pair_equal_spec%proj1%pair_equal_spec.
    right. geometry. lia.
Qed.

(** X6.  [ssfs_fopen] returns -1 or a descriptor of the open-file table.
    It returns -1 for the empty name and when no slot of the table is
    free, and whenever it returns -1 it leaves the file system, the
    open-file table and the device as they are. *)
Theorem fopen_fails_without_effect (st : sfs_state) (f : string) (r : Z) (st' : sfs_state) :
  ssfs_fopen st f = Some (r, st') ->
  (r = -1 \/ 0 <= r < MAX_FD)
  /\ (r = -1 -> st' = st)
  /\ (f = EmptyString -> r = -1)
  /\ (check_fd_full st = -1 -> r = -1).
Proof.
  unfold ssfs_fopen.
  destruct (Z.eqb_spec (check_fd_full st) 0) as [Hfull|Hfull]; cbv beta iota delta [negb].
  2:{ intros [= <- <-]. auto. }
  rewrite strlen_0.
  destruct (name_empty f) eqn:Hf.
  { intros [= <- <-]. auto. }
  assert (f <> EmptyString) as Hne by (intros ->; done).
  assert (forall P : Prop, r = -1 \/ 0 <= r < MAX_FD -> (r = -1 -> st' = st) ->
            (r = -1 \/ 0 <= r < MAX_FD) /\ (r = -1 -> st' = st)
            /\ (f = EmptyString -> r = -1) /\ (check_fd_full st = -1 -> r = -1)) as Hgoal.
  { intros _ H1 H2. split; [done|]. split; [done|]. split; [done|]. lia. }
  destruct (first_index _ 0 (Z.to_nat MAX_FILES)) as [i|].
  - unfold fopen_existing.
    destruct (first_index _ 0 (Z.to_nat MAX_FD)) as [k|].
    { intros [= <- <-]. auto. }
    unfold create_open_file_entry.
    destruct (first_free_fd (open_file_table st)) as [k|] eqn:Hk.
    2:{ intros [= <- <-]. auto. }
    apply first_free_fd_Some in Hk as [Hk _].
    unfold set_fopen_ptrs, set_write_ptr. cbn [Z.eqb negb].
    intros [= <- <-]. apply (Hgoal True); [by right|lia].
  - unfold fopen_new.
    destruct (first_fd_named (open_file_table st) f) as [k|] eqn:Hk.
    { apply first_index_Some in Hk as (Hk & _).
      intros [= <- <-]. apply (Hgoal True); [right; geometry; lia|done]. }
    destruct (first_free_fd (open_file_table st)) as [k|] eqn:Hk2; [|done].
    apply first_free_fd_Some in Hk2 as [Hk2 _].
    destruct (add_file_to_dir st f (-1) (-1)) as [[[e ib] ino] st1] eqn:Hadd.
    apply add_file_to_dir_fails in Hadd as [[-> ->]|He].
    + cbn [Z.ltb Z.compare]. intros [= <- <-]. auto.
    + destruct (Z.ltb_spec e 0) as [?|_]; [lia|].
      intros [= <- <-]. apply (Hgoal True); [by right|lia].
Qed.

Lemma fopen_fails_without_effect_witness :
  ssfs_fopen mkssfs_fresh "" = Some (-1, mkssfs_fresh).
Proof.
  destruct (ssfs_fopen mkssfs_fresh "") as [[r st']|] eqn:H.
  - destruct (fopen_fails_without_effect mkssfs_fresh "" r st' H) as (_ & Hst & Hr & _).
    rewrite (Hr eq_refl) in *. by rewrite Hst.
  - vm_compute in H. discriminate H.
Defined.

(** *** Creating a file *)

Lemma get_i_node_set_i_node fs ib ino nd ib' ino' :
  get_i_node (set_i_node fs ib ino nd) ib' ino'
  = if decide ((ib = ib' /\ 0 <= ib < Z.of_nat (length (i_node_file fs)))
               /\ ino = ino' /\ 0 <= ino < Z.of_nat (length (at_Z [] (i_node_file fs) ib)))
    then nd else get_i_node fs ib' ino'.
Proof.
  unfold get_i_node, set_i_node. cbn [i_node_file with_i_node_file].
  rewrite at_Z_upd. case_decide as H1.
  - destruct H1 as [<- H1]. rewrite at_Z_upd. case_decide as H2.
    + rewrite decide_True by tauto. done.
    + rewrite decide_False by tauto. done.
  - rewrite decide_False by tauto. done.
Qed.

Lemma get_i_node_set_dir_entry fs s i e ib ino :
  get_i_node (set_dir_entry fs s i e) ib ino = get_i_node fs ib ino.
Proof. done. Qed.

Lemma i_node_file_set_dir_entry fs s i e :
  i_node_file (set_dir_entry fs s i e) = i_node_file fs.
Proof. done. Qed.

Lemma node_of_split ib ino :
  0 <= ib -> 0 <= ino < MAX_NODE_IN_BLOCK ->
  node_number_to_block (ino + ib * MAX_NODE_IN_BLOCK) = ib
  /\ node_number_to_node_in_block (ino + ib * MAX_NODE_IN_BLOCK) = ino.
Proof.
  intros Hib Hino. unfold node_number_to_block, node_number_to_node_in_block.
  geometry. rewrite Z.quot_div_nonneg, Z.rem_mod_nonneg by lia.
  rewrite Z.div_add, Z.mod_add, Z.div_small, Z.mod_small by lia. lia.
Qed.

(** The lengths of the arrays after a store. *)
Lemma arrays_ok_set_i_node st ib ino nd :
  arrays_ok st -> node_ok nd -> arrays_ok (with_fs st (set_i_node (file_system st) ib ino nd)).
Proof.
  intros [H1 H2 H3 H4 H5 H6 H7] Hnd. split; cbn [file_system with_fs open_file_table]; try done.
  - unfold set_i_node. cbn [i_node_file with_i_node_file]. by rewrite length_upd_Z.
  - unfold set_i_node. cbn [i_node_file with_i_node_file].
    destruct (decide (0 <= ib < Z.of_nat (length (i_node_file (file_system st))))) as [Hin|Hout].
    2:{ by rewrite upd_Z_out_of_range. }
    pose proof (at_Z_in_range [] _ _ Hin) as Hb.
    rewrite Forall_lookup in H4. destruct (H4 _ _ Hb) as [Hl Hf].
    unfold upd_Z at 1. destruct (ib <? 0); [by apply Forall_lookup|].
    apply Forall_insert_in; [by apply Forall_lookup|].
    rewrite length_upd_Z. split; [done|].
    unfold upd_Z. destruct (ino <? 0); [done|]. by apply Forall_insert_in.
Qed.

Lemma arrays_ok_set_dir_entry st s i e :
  arrays_ok st -> arrays_ok (with_fs st (set_dir_entry (file_system st) s i e)).
Proof.
  intros [H1 H2 H3 H4 H5 H6 H7]. split; cbn [file_system with_fs open_file_table]; try done.
  - by rewrite length_directory_set_dir_entry.
  - unfold set_dir_entry. cbn [directory with_directory].
    destruct (decide (0 <= s < Z.of_nat (length (directory (file_system st))))) as [Hin|Hout].
    2:{ by rewrite upd_Z_out_of_range. }
    pose proof (at_Z_in_range [] _ _ Hin) as Hb.
    rewrite Forall_lookup in H2. pose proof (H2 _ _ Hb) as Hl.
    unfold upd_Z at 1. destruct (s <? 0); [by apply Forall_lookup|].
    apply Forall_insert_in; [by apply Forall_lookup|].
    by rewrite length_upd_Z.
Qed.

Lemma arrays_ok_ext st st' :
  directory (file_system st') = directory (file_system st) ->
  i_node_file (file_system st') = i_node_file (file_system st) ->
  length (free_bit_map (file_system st')) = length (free_bit_map (file_system st)) ->
  length (write_mask (file_system st')) = length (write_mask (file_system st)) ->
  length (open_file_table st') = length (open_file_table st) ->
  arrays_ok st -> arrays_ok st'.
Proof.
  intros E1 E2 E3 E4 E5 [H1 H2 H3 H4 H5 H6 H7]. split; congruence.
Qed.

Lemma arrays_ok_in_range st ib ino :
  arrays_ok st -> 0 <= ib < BLOCKS_I_NODE_FILE -> 0 <= ino < MAX_NODE_IN_BLOCK ->
  (0 <= ib < Z.of_nat (length (i_node_file (file_system st))))
  /\ 0 <= ino < Z.of_nat (length (at_Z [] (i_node_file (file_system st)) ib))
  /\ node_ok (get_i_node (file_system st) ib ino).
Proof.
  intros [_ _ H3 H4 _ _ _] Hib Hino.
  assert (0 <= ib < Z.of_nat (length (i_node_file (file_system st)))) as Hin
    by (rewrite H3; geometry; lia).
  pose proof (at_Z_in_range [] _ _ Hin) as Hb.
  rewrite Forall_lookup in H4. destruct (H4 _ _ Hb) as [Hl Hf].
  assert (0 <= ino < Z.of_nat (length (at_Z [] (i_node_file (file_system st)) ib))) as Hin2
    by (rewrite Hl; geometry; lia).
  split; [done|]. split; [done|].
  pose proof (at_Z_in_range init_node _ _ Hin2) as Hn.
  rewrite Forall_lookup in Hf. exact (Hf _ _ Hn).
Qed.

Lemma arrays_ok_dir_in_range st s i :
  arrays_ok st -> 0 <= s < MAX_DIRS_INCL_SHAD -> 0 <= i < MAX_FILES ->
  (0 <= s < Z.of_nat (length (directory (file_system st))))
  /\ 0 <= i < Z.of_nat (length (at_Z [] (directory (file_system st)) s)).
Proof.
  intros [H1 H2 _ _ _ _ _] Hs Hi.
  assert (0 <= s < Z.of_nat (length (directory (file_system st)))) as Hin
    by (rewrite H1; geometry; lia).
  pose proof (at_Z_in_range [] _ _ Hin) as Hb.
  rewrite Forall_lookup in H2. rewrite (H2 _ _ Hb). split; [done|]. geometry. lia.
Qed.

Lemma get_free_i_node_Some fs ib0 ino ib :
  get_free_i_node fs ib0 = (ino, ib) -> ino <> -1 ->
  0 <= ib < BLOCKS_I_NODE_FILE /\ 0 <= ino < MAX_NODE_IN_BLOCK /\ i_node_free fs ib ino.
Proof.
  intros Hg Hne. pose proof (get_free_i_node_spec fs ib0) as H. cbv zeta in H.
  rewrite Hg in H. cbn [fst snd] in H. destruct H as (_ & _ & H). specialize (H Hne). tauto.
Qed.

Lemma first_20_strncpy f : strncpy f (Z.to_nat MAX_NAME_LENGTH) = first_20 f.
Proof. unfold first_20. by rewrite strncpy_substring. Qed.

(** What [add_file_to_dir] does when it returns a directory index. *)
Lemma add_file_to_dir_spec st f ib0 in0 e ib ino st' :
  arrays_ok st ->
  add_file_to_dir st f ib0 in0 = (e, ib, ino, st') -> 0 <= e ->
  let fs := file_system st in
  let fs' := file_system st' in
  exists blk,
    (0 <= e < MAX_FILES /\ 0 <= ib < BLOCKS_I_NODE_FILE /\ 0 <= ino < MAX_NODE_IN_BLOCK
     /\ FIRST_DATA_BLOCK <= blk <= LAST_DATA_BLOCK)
    /\ (name (dir_entry fs 0 e) = EmptyString
        /\ forall j, 0 <= j < e -> name (dir_entry fs 0 j) <> EmptyString)
    /\ i_node_free fs ib ino
    /\ get_bit_map (free_bit_map fs) blk = 1
    /\ (forall s j, dir_entry fs' s j
          = if decide (s = 0 /\ j = e)
            then mk_dir_entry (first_20 f) (ino + ib * MAX_NODE_IN_BLOCK)
            else dir_entry fs s j)
    /\ (forall i j, get_i_node fs' i j
          = if decide (i = ib /\ j = ino)
            then mk_node 0 (upd_Z (pointer (get_i_node fs ib ino)) 0 blk)
                   (ind_pointer (get_i_node fs ib ino))
            else get_i_node fs i j)
    /\ free_bit_map fs' = clr_bit_map (free_bit_map fs) blk
    /\ write_mask fs' = write_mask fs
    /\ open_file_table st' = open_file_table st
    /\ gnfni st' = gnfni st
    /\ (forall b, FIRST_DATA_BLOCK <= b <= LAST_DATA_BLOCK -> disk st' !! b = disk st !! b)
    /\ arrays_ok st'.
Proof.
  intros Hok Hadd He fs fs'. subst fs'. revert Hadd. unfold add_file_to_dir. fold fs.
  destruct (first_index _ _ _) as [k|] eqn:Hk; [|intros [= <- _ _ _]; lia].
  apply first_index_Some in Hk as (Hk & Hkn & Hkb).
  destruct (get_free_i_node fs (-1)) as [ino' ib'] eqn:Hgi.
  destruct (Z.eqb_spec ino' (-1)) as [?|Hino]; [intros [= <- _ _ _]; lia|].
  apply get_free_i_node_Some in Hgi as (Hib & Hjn & Hfree); [|done].
  destruct (get_free_block_cases fs) as [[-> _]|(blk & -> & Hb & Hbb & _)].
  { cbn [Z.eqb]. intros [= <- _ _ _]; lia. }
  destruct (Z.eqb_spec blk (-1)) as [?|_]; [geometry; lia|].
  set (fs1 := with_free_bit_map fs (clr_bit_map (free_bit_map fs) blk)).
  change (get_i_node fs1 ib' ino') with (get_i_node fs ib' ino').
  set (nd := get_i_node fs ib' ino').
  destruct (arrays_ok_in_range st ib' ino' Hok Hib Hjn) as (Hr1 & Hr2 & Hnd). fold fs nd in Hr1, Hr2, Hnd.
  destruct (arrays_ok_dir_in_range st 0 k Hok) as (Hd1 & Hd2); [geometry; lia|geometry; lia|].
  fold fs in Hd1, Hd2.
  set (fs2 := set_i_node fs1 ib' ino' (mk_node 0 (pointer nd) (ind_pointer nd))).
  set (fs3 := set_dir_entry fs2 0 k _).
  set (fs4 := set_dir_entry fs3 0 k _).
  assert (forall s j, dir_entry fs4 s j
            = if decide (s = 0 /\ j = k)
              then mk_dir_entry (first_20 f) (ino' + ib' * MAX_NODE_IN_BLOCK)
              else dir_entry fs s j) as Hdir.
  { intros s j. subst fs4 fs3.
    rewrite !dir_entry_set_dir_entry, length_directory_set_dir_entry, length_dir_set_dir_entry.
    change (directory fs2) with (directory fs).
    destruct (decide (s = 0 /\ j = k)) as [[-> ->]|Hne].
    - rewrite !decide_True by done. cbn [name]. by rewrite first_20_strncpy.
    - destruct (decide ((0 = s /\ _) /\ k = j /\ _)) as [[[Hs _] [Hj _]]|_]; [exfalso; apply Hne; by split|].
      done. }
  assert (get_i_node fs4 ib' ino' = mk_node 0 (pointer nd) (ind_pointer nd)) as Hnd4.
  { subst fs4 fs3. rewrite !get_i_node_set_dir_entry. subst fs2.
    rewrite get_i_node_set_i_node. by rewrite decide_True. }
  rewrite Hnd4. cbn [size pointer ind_pointer].
  set (fs5 := set_i_node fs4 ib' ino' _).
  intros [= <- <- <- <-]. rewrite !file_system_put_blocks. cbn [file_system with_fs].
  exists blk. split; [geometry; lia|].
  split. { split; [by apply name_empty_true|]. intros j Hj Hn. apply name_empty_true in Hn.
           rewrite Hkb in Hn; [done|lia]. }
  split; [done|]. split; [done|].
  split. { intros s j. subst fs5. by rewrite dir_entry_set_i_node. }
  split.
  { intros i j. subst fs5. rewrite get_i_node_set_i_node.
    change (i_node_file fs4) with (i_node_file fs2).
    assert (length (i_node_file fs2) = length (i_node_file fs)) as ->
      by (subst fs2; unfold set_i_node; cbn [i_node_file with_i_node_file]; by rewrite length_upd_Z).
    assert (length (at_Z [] (i_node_file fs2) ib') = length (at_Z [] (i_node_file fs) ib')) as ->.
    { subst fs2. unfold set_i_node. cbn [i_node_file with_i_node_file].
      rewrite at_Z_upd_same by done. by rewrite length_upd_Z. }
    destruct (decide (i = ib' /\ j = ino')) as [[-> ->]|Hne].
    - by rewrite decide_True.
    - rewrite decide_False by (intros [[? _] [? _]]; apply Hne; by split).
      subst fs4 fs3. rewrite !get_i_node_set_dir_entry. subst fs2.
      rewrite get_i_node_set_i_node. rewrite decide_False by (intros [[? _] [? _]]; apply Hne; by split). done. }
  split; [done|]. split; [done|].
  rewrite !open_file_table_put_blocks. split; [done|]. split; [done|].
  split.
  { intros b Hb'. rewrite !disk_put_blocks_1_other by (geometry; lia). done. }
  apply (arrays_ok_ext (with_fs st fs5));
    rewrite ?file_system_put_blocks, ?open_file_table_put_blocks; try done.
  apply (arrays_ok_set_i_node (with_fs st fs4));
    [|unfold node_ok; cbn [pointer]; by rewrite length_upd_Z].
  apply (arrays_ok_set_dir_entry (with_fs st fs3)).
  apply (arrays_ok_set_dir_entry (with_fs st fs2)).
  apply (arrays_ok_set_i_node (with_fs st fs1)); [|exact Hnd].
  apply (arrays_ok_ext st); try done.
  cbn [file_system with_fs fs1 free_bit_map with_free_bit_map]. apply length_clr_bit_map.
Qed.

Lemma first_20_nonempty f : f <> EmptyString -> first_20 f <> EmptyString.
Proof. by destruct f. Qed.

Lemma same_name_first_20 f : same_name (first_20 f) f = true.
Proof.
  apply same_name_iff. unfold first_20. rewrite <- !strncpy_substring.
  apply strncmp_0_iff. generalize (Z.to_nat MAX_NAME_LENGTH). intros n.
  revert f. induction n as [|n IH]; intros [|c f]; cbn; try done.
  rewrite decide_True by done. apply IH.
Qed.

Lemma first_fd_named_None t f :
  f <> EmptyString -> ~ in_open_file_table t f -> first_fd_named t f = None.
Proof.
  intros Hf Hnot. destruct (first_fd_named t f) as [i|] eqn:Hi; [|done].
  exfalso. apply Hnot. apply first_index_Some in Hi as (Hi & Hs & _).
  exists i. split; [geometry; lia|]. split; [|done]. by eapply same_name_nonempty.
Qed.

Lemma file_system_set_fd st i x : file_system (set_fd st i x) = file_system st.
Proof. done. Qed.

(** What a successful [ssfs_fopen] of a name that is neither in the live
    directory nor open has done. *)
Lemma ssfs_fopen_new_file (st : sfs_state) (f : string) (r : Z) (st' : sfs_state) :
  arrays_ok st -> f <> EmptyString ->
  ~ in_directory (file_system st) f -> ~ in_open_file_table (open_file_table st) f ->
  ssfs_fopen st f = Some (r, st') -> 0 <= r ->
  exists n blk e,
    fd_at (open_file_table st') r
    = mk_fd (mk_dir_entry (first_20 f) n) (mk_file_pointer blk 0) (mk_file_pointer blk 0)
    /\ name (entry (fd_at (open_file_table st) r)) = EmptyString
    /\ (forall j, j <> r -> fd_at (open_file_table st') j = fd_at (open_file_table st) j)
    /\ in_directory (file_system st') f
    /\ ssfs_get_file_size st' f = 0
    /\ size (node_of (file_system st') n) = 0
    /\ at_Z 0 (pointer (node_of (file_system st') n)) 0 = blk
    /\ FIRST_DATA_BLOCK <= blk <= LAST_DATA_BLOCK
    /\ get_bit_map (free_bit_map (file_system st)) blk = 1
    /\ get_bit_map (free_bit_map (file_system st')) blk = 0
    /\ arrays_ok st'
    /\ (0 <= node_number_to_block n < BLOCKS_I_NODE_FILE
        /\ 0 <= node_number_to_node_in_block n < MAX_NODE_IN_BLOCK
        /\ n = node_number_to_node_in_block n + node_number_to_block n * MAX_NODE_IN_BLOCK)
    /\ i_node_free (file_system st) (node_number_to_block n) (node_number_to_node_in_block n)
    /\ ~ i_node_free (file_system st') (node_number_to_block n) (node_number_to_node_in_block n)
    /\ (forall ib ino, 0 <= ib < BLOCKS_I_NODE_FILE -> 0 <= ino < MAX_NODE_IN_BLOCK ->
          (ib, ino) <> (node_number_to_block n, node_number_to_node_in_block n) ->
          get_i_node (file_system st') ib ino = get_i_node (file_system st) ib ino)
    /\ 0 <= e < MAX_FILES
    /\ name (dir_entry (file_system st) 0 e) = EmptyString
    /\ dir_entry (file_system st') 0 e = mk_dir_entry (first_20 f) n
    /\ (forall s j, (s, j) <> (0, e) ->
          dir_entry (file_system st') s j = dir_entry (file_system st) s j).
Proof.
  intros Hok Hf Hdir Hopen Hfopen Hr. revert Hfopen. unfold ssfs_fopen.
  destruct (Z.eqb_spec (check_fd_full st) 0) as [_|_]; cbv beta iota delta [negb].
  2:{ intros [= <- _]. lia. }
  rewrite strlen_0. destruct (name_empty f) eqn:Hfe; [by destruct f|].
  pose proof (lookup_not_in_directory _ _ Hf Hdir) as Hlook. rewrite Hlook.
  unfold fopen_new. rewrite (first_fd_named_None _ _ Hf Hopen).
  destruct (first_free_fd (open_file_table st)) as [k|] eqn:Hk; [|done].
  apply first_free_fd_Some in Hk as [Hk Hkn].
  destruct (add_file_to_dir st f (-1) (-1)) as [[[e ib] ino] st1] eqn:Hadd.
  destruct (Z.ltb_spec e 0) as [?|He]; [intros [= <- _]; lia|].
  destruct (add_file_to_dir_spec _ _ _ _ _ _ _ _ Hok Hadd He)
    as (blk & (Her & Hib & Hino & Hblk) & (Hempty & _) & Hfree & Hbit & Hdir' & Hnode' & Hfbm & _ & Htab & _ & _ & Hok1).
  intros [<- <-]%(inj Some)%pair_equal_spec.
  set (n := ino + ib * MAX_NODE_IN_BLOCK).
  destruct (node_of_split ib ino) as [Hnb Hni]; [lia|lia|]. fold n in Hnb, Hni.
  assert (node_of (file_system st1) n
          = mk_node 0 (upd_Z (pointer (get_i_node (file_system st) ib ino)) 0 blk)
              (ind_pointer (get_i_node (file_system st) ib ino))) as Hn.
  { unfold node_of. rewrite Hnb, Hni, Hnode'. by rewrite decide_True. }
  destruct (arrays_ok_in_range st ib ino Hok Hib Hino) as (_ & _ & Hndok).
  assert (at_Z 0 (upd_Z (pointer (get_i_node (file_system st) ib ino)) 0 blk) 0 = blk) as Hp0.
  { apply at_Z_upd_same. rewrite Hndok. geometry. lia. }
  assert (dir_entry (file_system st1) 0 e = mk_dir_entry (first_20 f) n) as He'.
  { rewrite Hdir'. by rewrite decide_True. }
  exists n, blk, e. rewrite !file_system_set_fd.
  split.
  { rewrite fd_at_set_fd, decide_True.
    2:{ split; [done|]. rewrite Htab, (ok_table _ Hok). geometry. lia. }
    rewrite He', first_20_strncpy. cbn [i_node_number].
    change (get_i_node (file_system st1) ib ino) with (get_i_node (file_system st1) ib ino).
    rewrite Hnode', decide_True by done. cbn [pointer]. by rewrite Hp0. }
  split; [done|].
  split.
  { intros j Hj. rewrite fd_at_set_fd, Htab. case_decide as Hd; [|done]. by destruct Hd as [-> _]. }
  split.
  { exists e. split; [done|]. rewrite He'. cbn [name].
    split; [by apply first_20_nonempty|apply same_name_first_20]. }
  split.
  { unfold ssfs_get_file_size. rewrite !file_system_set_fd.
    rewrite (first_index_is _ 0 _ e).
    - rewrite He'. cbn [i_node_number]. by rewrite Hn.
    - geometry. lia.
    - rewrite He'. apply same_name_first_20.
    - intros j Hj. rewrite Hdir', decide_False by lia.
      rewrite first_index_None in Hlook. apply Hlook. geometry. lia. }
  rewrite Hn. cbn [size pointer].
  split; [done|]. split; [done|]. split; [done|]. split; [done|].
  split.
  { rewrite Hfbm, get_clr_bit_map, Z.eqb_refl; [done|geometry; lia|geometry; lia|].
    rewrite (ok_free_bit_map _ Hok). geometry. apply Z.div_lt_upper_bound; lia. }
  split.
  { apply (arrays_ok_ext st1); try done.
    unfold set_fd. cbn [open_file_table with_table]. by rewrite length_upd_Z. }
  rewrite Hnb, Hni.
  split; [done|]. split; [done|].
  split.
  { unfold i_node_free. rewrite Hnode', decide_True by done. cbn [pointer].
    rewrite Hp0. geometry. lia. }
  split.
  { intros ib' ino' _ _ Hne. rewrite Hnode'. apply decide_False.
    intros [-> ->]. done. }
  split; [done|]. split; [done|]. split; [done|].
  intros s j Hne. rewrite Hdir'. apply decide_False. intros [-> ->]. done.
Qed.


(** X7.  [ssfs_fopen] of a name that neither the live directory nor the
    open-file table holds, when it succeeds, creates an empty file: the
    descriptor it returns is a slot that was free and now holds the first
    20 characters of the name, the number of an i-node, and both cursors at
    the start of a block that was free and is now in use; the other
    descriptors are as before.  The i-node is new: it is an i-node of the
    i-node file that was free before the call ([get_free_i_node] could
    hand it out) and is not free after it, and no other i-node has
    changed.  The name, cut to 20 characters, and the i-node number are in
    an entry of the live directory that was unused, no other directory
    entry has changed, and [ssfs_get_file_size] of the name is 0. *)
Theorem fopen_creates_an_empty_file (st : sfs_state) (f : string) (r : Z) (st' : sfs_state) :
  arrays_ok st -> f <> EmptyString ->
  ~ in_directory (file_system st) f -> ~ in_open_file_table (open_file_table st) f ->
  ssfs_fopen st f = Some (r, st') -> 0 <= r ->
  exists n blk e,
    fd_at (open_file_table st') r
    = mk_fd (mk_dir_entry (first_20 f) n) (mk_file_pointer blk 0) (mk_file_pointer blk 0)
    /\ name (entry (fd_at (open_file_table st) r)) = EmptyString
    /\ (forall j, j <> r -> fd_at (open_file_table st') j = fd_at (open_file_table st) j)
    /\ in_directory (file_system st') f
    /\ ssfs_get_file_size st' f = 0
    /\ size (node_of (file_system st') n) = 0
    /\ at_Z 0 (pointer (node_of (file_system st') n)) 0 = blk
    /\ FIRST_DATA_BLOCK <= blk <= LAST_DATA_BLOCK
    /\ get_bit_map (free_bit_map (file_system st)) blk = 1
    /\ get_bit_map (free_bit_map (file_system st')) blk = 0
    /\ arrays_ok st'
    /\ (0 <= node_number_to_block n < BLOCKS_I_NODE_FILE
        /\ 0 <= node_number_to_node_in_block n < MAX_NODE_IN_BLOCK
        /\ n = node_number_to_node_in_block n + node_number_to_block n * MAX_NODE_IN_BLOCK)
    /\ i_node_free (file_system st) (node_number_to_block n) (node_number_to_node_in_block n)
    /\ ~ i_node_free (file_system st') (node_number_to_block n) (node_number_to_node_in_block n)
    /\ (forall ib ino, 0 <= ib < BLOCKS_I_NODE_FILE -> 0 <= ino < MAX_NODE_IN_BLOCK ->
          (ib, ino) <> (node_number_to_block n, node_number_to_node_in_block n) ->
          get_i_node (file_system st') ib ino = get_i_node (file_system st) ib ino)
    /\ 0 <= e < MAX_FILES
    /\ name (dir_entry (file_system st) 0 e) = EmptyString
    /\ dir_entry (file_system st') 0 e = mk_dir_entry (first_20 f) n
    /\ (forall s j, (s, j) <> (0, e) ->
          dir_entry (file_system st') s j = dir_entry (file_system st) s j).
Proof. exact (ssfs_fopen_new_file st f r st'). Qed.

Lemma fopen_creates_an_empty_file_witness :
  ssfs_get_file_size (snd (opened mkssfs_fresh "a")) "a" = 0.
Proof.
  destruct (fopen_creates_an_empty_file mkssfs_fresh "a"
              (fst (opened mkssfs_fresh "a")) (snd (opened mkssfs_fresh "a")))
    as (n & blk & e & _ & _ & _ & _ & H & _).
  - exact arrays_ok_mkssfs_fresh.
  - discriminate.
  - intros H. apply lookup_in_directory in H as [i Hi]; [|discriminate].
    vm_compute in Hi. discriminate Hi.
  - intros H. apply lookup_in_open_file_table in H as (i & Hi & _); [|discriminate].
    vm_compute in Hi. discriminate Hi.
  - vm_compute. reflexivity.
  - vm_compute. discriminate.
  - exact H.
Defined.

Lemma length_set_fd st i x :
  length (open_file_table (set_fd st i x)) = length (open_file_table st).
Proof. unfold set_fd. cbn [open_file_table with_table]. apply length_upd_Z. Qed.

Lemma fd_at_set_fd_same st i x :
  0 <= i < Z.of_nat (length (open_file_table st)) ->
  fd_at (open_file_table (set_fd st i x)) i = x.
Proof. intros Hi. rewrite fd_at_set_fd. by rewrite decide_True. Qed.

Lemma set_fd_set_fd st i x y : set_fd (set_fd st i x) i y = set_fd st i y.
Proof. unfold set_fd, with_table. cbn [open_file_table file_system disk gnfni]. by rewrite upd_Z_upd_Z. Qed.

(** X8.  [ssfs_fopen] of a name that the live directory holds and the
    open-file table does not, when a slot of the table is free, returns
    the first free slot.  The slot then holds the first 20 characters of
    the name and the i-node number of the directory entry, its read cursor
    is at the start of the first block of the file and its write cursor is
    at the end of the file; the other slots, the file system and the
    device are as before. *)
Theorem fopen_of_a_closed_file (st : sfs_state) (f : string) :
  length (open_file_table st) = Z.to_nat MAX_FD -> f <> EmptyString ->
  in_directory (file_system st) f -> ~ in_open_file_table (open_file_table st) f ->
  check_fd_full st = 0 ->
  exists r i,
    first_free_fd (open_file_table st) = Some r
    /\ first_index (fun i => same_name (name (dir_entry (file_system st) 0 i)) f)
         0 (Z.to_nat MAX_FILES) = Some i
    /\ let n := i_node_number (dir_entry (file_system st) 0 i) in
       ssfs_fopen st f
       = Some (r, set_fd st r
                    (mk_fd (mk_dir_entry (first_20 f) n)
                       (mk_file_pointer (at_Z 0 (pointer (node_of (file_system st) n)) 0) 0)
                       (mk_file_pointer (get_last_file_block st n) (get_end_char st n)))).
Proof.
  intros Hlen Hf Hdir Hopen Hfull.
  apply lookup_in_directory in Hdir as [i Hi]; [|done].
  unfold check_fd_full in Hfull.
  destruct (first_free_fd (open_file_table st)) as [r|] eqn:Hr; [|done].
  exists r, i. split; [done|]. split; [done|]. cbv zeta.
  unfold ssfs_fopen, check_fd_full. rewrite Hr, Hi. cbn [Z.eqb negb].
  rewrite strlen_0. destruct (name_empty f) eqn:Hfe; [by destruct f|].
  unfold fopen_existing.
  destruct (first_index _ 0 (Z.to_nat MAX_FD)) as [k|] eqn:Hk.
  { exfalso. apply Hopen. apply first_index_Some in Hk as (Hk & Hs & _).
    rewrite same_name_sym in Hs.
    exists k. split; [geometry; lia|]. split; [|done]. by eapply same_name_nonempty. }
  unfold create_open_file_entry. rewrite Hr.
  apply first_free_fd_Some in Hr as [Hr _].
  assert (0 <= r < Z.of_nat (length (open_file_table st))) as Hr' by (rewrite Hlen; geometry; lia).
  unfold set_fopen_ptrs, set_write_ptr. cbn [Z.eqb negb].
  unfold set_fopen_name, set_read_ptr.
  rewrite !fd_at_set_fd_same by (rewrite ?length_set_fd; done).
  rewrite !set_fd_set_fd. rewrite !file_system_set_fd.
  cbn [entry name i_node_number read_pointer write_pointer].
  by rewrite first_20_strncpy.
Qed.

Lemma fopen_of_a_closed_file_witness :
  exists st', ssfs_fopen st_two_blocks "a" = Some (0, st').
Proof.
  destruct (fopen_of_a_closed_file st_two_blocks "a") as (r & i & Hr & _ & H).
  - vm_compute. reflexivity.
  - discriminate.
  - exists 0. split; [geometry; lia|]. split; [vm_compute; discriminate|vm_compute; reflexivity].
  - intros H. apply lookup_in_open_file_table in H as (i & Hi & _); [|discriminate].
    vm_compute in Hi. discriminate Hi.
  - vm_compute. reflexivity.
  - vm_compute in Hr. injection Hr as <-. eexists. exact H.
Defined.

(** A write of blocks leaves the other blocks of the device as they are. *)
Lemma disk_put_blocks_other st a n buf b :
  ~ (a <= b < a + n) -> disk (put_blocks st a n buf) !! b = disk st !! b.
Proof.
  intros Hb. unfold put_blocks, write_blocks. cbn [disk with_disk].
  destruct (_ && _); [|done]. cbn [snd].
  assert (forall i, i ∈ seqZ 0 n -> a + i <> b) as Hl.
  { intros i Hi%elem_of_seqZ. lia. }
  revert Hl. generalize (seqZ 0 n) (disk st). intros l.
  induction l as [|i l IH]; intros d Hl; [done|]. cbn [foldl].
  rewrite IH by (intros j Hj; apply Hl; by right).
  apply lookup_insert_ne. apply Hl. by left.
Qed.

(** X9.  [ssfs_fclose] returns 0 exactly for a descriptor of the table
    that is open, and -1 otherwise, leaving the state as it is.  When it
    returns 0 the descriptor is reset, the other descriptors, the file
    system and the data blocks of the device are as before, and a second
    [ssfs_fclose] or an [ssfs_fread] on the descriptor returns -1. *)
Theorem fclose_closes_the_descriptor (st : sfs_state) (fileID : Z) :
  length (open_file_table st) = Z.to_nat MAX_FD ->
  let r := fst (ssfs_fclose st fileID) in
  let st' := snd (ssfs_fclose st fileID) in
  (r = 0 <->
   0 <= fileID < MAX_FD /\ name (entry (fd_at (open_file_table st) fileID)) <> EmptyString)
  /\ (r = 0 \/ r = -1)
  /\ (r = -1 -> st' = st)
  /\ file_system st' = file_system st
  /\ (forall j, j <> fileID -> fd_at (open_file_table st') j = fd_at (open_file_table st) j)
  /\ (forall b, FIRST_DATA_BLOCK <= b <= LAST_DATA_BLOCK -> disk st' !! b = disk st !! b)
  /\ (r = 0 ->
      fd_at (open_file_table st') fileID = init_fd
      /\ fst (ssfs_fclose st' fileID) = -1
      /\ forall len, ssfs_fread st' fileID len = Some (-1, [], st')).
Proof.
  intros Hlen. cbv zeta.
  destruct (ssfs_fclose st fileID) as [r st'] eqn:Hc. cbn [fst snd].
  revert Hc. unfold ssfs_fclose at 1.
  destruct (Z.ltb_spec fileID 0) as [Hneg|Hpos]; cbn [orb].
  { intros [<- <-]%pair_equal_spec.
    repeat split; try done; try lia; try (by right). }
  destruct (Z.leb_spec MAX_FD fileID) as [Hbig|Hsmall].
  { intros [<- <-]%pair_equal_spec.
    repeat split; try done; try lia; try (by right). }
  destruct (name_empty (name (entry (fd_at (open_file_table st) fileID)))) eqn:Hn.
  { apply name_empty_true in Hn. intros [<- <-]%pair_equal_spec.
    repeat split; try done; try lia; try (by right); try (by intros [_ H]). }
  assert (name (entry (fd_at (open_file_table st) fileID)) <> EmptyString) as Hn'.
  { intros H. apply name_empty_true in H. congruence. }
  intros [<- Hst]%pair_equal_spec.
  assert (file_system st' = file_system st) as Hfs.
  { rewrite <- Hst. by rewrite file_system_set_fd, !file_system_put_blocks. }
  assert (fd_at (open_file_table st') fileID = init_fd) as Hfd.
  { rewrite <- Hst. apply fd_at_set_fd_same.
    rewrite !open_file_table_put_blocks, Hlen. geometry. lia. }
  split; [done|]. split; [by left|]. split; [done|]. split; [done|].
  split.
  { intros j Hj. rewrite <- Hst. rewrite fd_at_set_fd, !open_file_table_put_blocks.
    case_decide as Hd; [|done]. by destruct Hd as [-> _]. }
  split.
  { intros b Hb. rewrite <- Hst. unfold set_fd. cbn [disk with_table].
    rewrite !disk_put_blocks_other by (geometry; lia). done. }
  intros _. split; [done|]. split.
  - unfold ssfs_fclose. rewrite Hfd.
    destruct (Z.ltb_spec fileID 0); [lia|]. destruct (Z.leb_spec MAX_FD fileID); [lia|]. done.
  - intros len. unfold ssfs_fread. by rewrite Hfd.
Qed.

Lemma fclose_closes_the_descriptor_witness :
  fst (ssfs_fclose st_reopened 0) = 0
  /\ fst (ssfs_fclose (snd (ssfs_fclose st_reopened 0)) 0) = -1.
Proof.
  destruct (fclose_closes_the_descriptor st_reopened 0) as (H1 & _ & _ & _ & _ & _ & H2).
  - vm_compute. reflexivity.
  - assert (fst (ssfs_fclose st_reopened 0) = 0) as H0.
    { apply H1. split; [geometry; lia|]. vm_compute. discriminate. }
    split; [exact H0|]. exact (proj1 (proj2 (H2 H0))).
Defined.

(** *** Removing a file *)

Lemma get_set_both fs b x :
  0 <= x ->
  (get_bit_map (free_bit_map fs) x = 1 -> get_bit_map (free_bit_map (set_both fs b)) x = 1)
  /\ (get_bit_map (write_mask fs) x = 1 -> get_bit_map (write_mask (set_both fs b)) x = 1).
Proof.
  intros Hx. unfold set_both. cbn [free_bit_map write_mask with_write_mask with_free_bit_map].
  split; by apply get_set_bit_map_mono.
Qed.

Lemma set_both_sets fs b :
  0 <= b -> b / 8 < Z.of_nat (length (free_bit_map fs)) ->
  b / 8 < Z.of_nat (length (write_mask fs)) ->
  get_bit_map (free_bit_map (set_both fs b)) b = 1
  /\ get_bit_map (write_mask (set_both fs b)) b = 1.
Proof.
  intros Hb H1 H2. unfold set_both.
  cbn [free_bit_map write_mask with_write_mask with_free_bit_map].
  rewrite !get_set_bit_map, Z.eqb_refl by done. done.
Qed.

Lemma set_both_frame fs b :
  i_node_file (set_both fs b) = i_node_file fs
  /\ directory (set_both fs b) = directory fs
  /\ length (free_bit_map (set_both fs b)) = length (free_bit_map fs)
  /\ length (write_mask (set_both fs b)) = length (write_mask fs).
Proof.
  unfold set_both. cbn [free_bit_map write_mask with_write_mask with_free_bit_map].
  by rewrite !length_set_bit_map.
Qed.

(** The loop that frees the pointers of an array: it sets the bits of the
    pointers before the first zero and clears none. *)
Lemma free_pointers_spec p fs :
  let fs' := free_pointers p fs in
  (i_node_file fs' = i_node_file fs /\ directory fs' = directory fs
   /\ length (free_bit_map fs') = length (free_bit_map fs)
   /\ length (write_mask fs') = length (write_mask fs))
  /\ (forall x, 0 <= x ->
        (get_bit_map (free_bit_map fs) x = 1 -> get_bit_map (free_bit_map fs') x = 1)
        /\ (get_bit_map (write_mask fs) x = 1 -> get_bit_map (write_mask fs') x = 1))
  /\ (forall b, b ∈ nonzero_prefix p -> 0 <= b ->
        b / 8 < Z.of_nat (length (free_bit_map fs)) ->
        b / 8 < Z.of_nat (length (write_mask fs)) ->
        get_bit_map (free_bit_map fs') b = 1 /\ get_bit_map (write_mask fs') b = 1).
Proof.
  revert fs. induction p as [|y p IH]; intros fs; cbn [free_pointers nonzero_prefix].
  - split; [done|]. split; [done|]. intros b Hb. by apply elem_of_nil in Hb.
  - destruct (Z.eqb_spec y 0) as [_|Hy].
    { split; [done|]. split; [done|]. intros b Hb. by apply elem_of_nil in Hb. }
    destruct (IH (set_both fs y)) as ((E1 & E2 & E3 & E4) & Hmono & Hset).
    destruct (set_both_frame fs y) as (F1 & F2 & F3 & F4).
    split; [repeat split; congruence|]. split.
    + intros x Hx. destruct (Hmono x Hx) as [M1 M2]. destruct (get_set_both fs y x Hx) as [N1 N2].
      split; auto.
    + intros b Hb Hb0 Hl1 Hl2. apply elem_of_cons in Hb as [->|Hb].
      * destruct (set_both_sets fs y Hb0 Hl1 Hl2) as [S1 S2].
        destruct (Hmono y Hb0) as [M1 M2]. split; auto.
      * apply Hset; [done|done|by rewrite F3|by rewrite F4].
Qed.

(** What [rm_file_from_disk] does to the file system. *)
Lemma rm_file_from_disk_spec s i st :
  let fs := file_system st in
  let n := i_node_number (dir_entry fs s i) in
  let st' := snd (rm_file_from_disk s i st) in
  let fs' := file_system st' in
  (directory fs' = directory fs
   /\ length (free_bit_map fs') = length (free_bit_map fs)
   /\ length (write_mask fs') = length (write_mask fs)
   /\ open_file_table st' = open_file_table st /\ disk st' = disk st /\ gnfni st' = gnfni st)
  /\ (forall x, 0 <= x ->
        (get_bit_map (free_bit_map fs) x = 1 -> get_bit_map (free_bit_map fs') x = 1)
        /\ (get_bit_map (write_mask fs) x = 1 -> get_bit_map (write_mask fs') x = 1))
  /\ (forall b, b ∈ file_blocks st n -> 0 <= b < NUMBER_OF_BLOCKS ->
        length (free_bit_map fs) = Z.to_nat sizeof_block_group ->
        length (write_mask fs) = Z.to_nat sizeof_block_group ->
        get_bit_map (free_bit_map fs') b = 1 /\ get_bit_map (write_mask fs') b = 1)
  /\ (inode_in_range fs n -> node_of fs' n = init_node)
  /\ (forall n', (node_number_to_block n', node_number_to_node_in_block n')
                 <> (node_number_to_block n, node_number_to_node_in_block n) ->
        node_of fs' n' = node_of fs n').
Proof.
  intros fs n. cbv zeta. unfold rm_file_from_disk. fold fs n. cbn [snd].
  rewrite file_system_with_fs.
  set (node := node_of fs n).
  destruct (free_pointers_spec (pointer node) fs) as ((E1 & E2 & E3 & E4) & Hmono1 & Hset1).
  set (fs1 := free_pointers (pointer node) fs) in *.
  set (fs2 := if ind_pointer node =? 0 then fs1 else _).
  assert ((i_node_file fs2 = i_node_file fs /\ directory fs2 = directory fs
           /\ length (free_bit_map fs2) = length (free_bit_map fs)
           /\ length (write_mask fs2) = length (write_mask fs))
          /\ (forall x, 0 <= x ->
                (get_bit_map (free_bit_map fs1) x = 1 -> get_bit_map (free_bit_map fs2) x = 1)
                /\ (get_bit_map (write_mask fs1) x = 1 -> get_bit_map (write_mask fs2) x = 1))
          /\ (ind_pointer node <> 0 ->
              forall b, b ∈ nonzero_prefix (read_ind_node_block st (ind_pointer node)) ->
                0 <= b < NUMBER_OF_BLOCKS ->
                length (free_bit_map fs) = Z.to_nat sizeof_block_group ->
                length (write_mask fs) = Z.to_nat sizeof_block_group ->
                get_bit_map (free_bit_map fs2) b = 1 /\ get_bit_map (write_mask fs2) b = 1))
    as ((G1 & G2 & G3 & G4) & Hmono2 & Hset2).
  { subst fs2. destruct (Z.eqb_spec (ind_pointer node) 0) as [H0|Hne].
    { split; [done|]. split; [done|]. done. }
    unfold read_ind_node_block.
    destruct (read_blocks (disk st) (ind_pointer node) local_buffer) as [err buf] eqn:Hrb.
    cbn [snd].
    destruct (Z.eqb_spec err 0) as [->|Herr]; cbn [negb].
    - destruct (free_pointers_spec (decode_ind_node_block buf) fs1)
        as ((E1' & E2' & E3' & E4') & Hmono' & Hset').
      destruct (set_both_frame (free_pointers (decode_ind_node_block buf) fs1) (ind_pointer node))
        as (F1 & F2 & F3 & F4).
      split; [repeat split; congruence|]. split.
      + intros x Hx. destruct (Hmono' x Hx) as [M1 M2].
        destruct (get_set_both (free_pointers (decode_ind_node_block buf) fs1)
                    (ind_pointer node) x Hx) as [N1 N2].
        split; auto.
      + intros _ b Hb Hb0 Hl1 Hl2.
        assert (b / 8 < 128) as Hb8 by (geometry; apply Z.div_lt_upper_bound; lia).
        destruct (Hset' b Hb) as [S1 S2];
          [lia|rewrite E3, Hl1; geometry; lia|rewrite E4, Hl2; geometry; lia|].
        destruct (get_set_both (free_pointers (decode_ind_node_block buf) fs1)
                    (ind_pointer node) b) as [N1 N2]; [lia|].
        split; auto.
    - split; [done|]. split; [done|].
      intros _ b Hb. exfalso. revert Hrb Hb. unfold read_blocks.
      destruct (_ && _); [intros [= <- _]; done|]. intros [= _ <-].
      change (decode_ind_node_block local_buffer) with (replicate 256 0).
      intros Hb. by apply elem_of_nil in Hb. }
  split; [done|]. split.
  { intros x Hx. destruct (Hmono1 x Hx) as [M1 M2]. destruct (Hmono2 x Hx) as [N1 N2].
    split; auto. }
  split.
  { intros b Hb Hb0 Hl1 Hl2.
    assert (b / 8 < 128) as Hb8 by (geometry; apply Z.div_lt_upper_bound; lia).
    change (free_bit_map (set_node_of fs2 n init_node)) with (free_bit_map fs2).
    change (write_mask (set_node_of fs2 n init_node)) with (write_mask fs2).
    destruct (file_blocks_cases st n) as [[Heq _]|(Heq & Hfull & Hne)];
      fold fs node in Heq |- *; rewrite Heq in Hb.
    - destruct (Hset1 b Hb) as [S1 S2]; [lia|rewrite Hl1; geometry; lia|rewrite Hl2; geometry; lia|].
      destruct (Hmono2 b) as [N1 N2]; [lia|]. split; auto.
    - fold fs node in Hfull, Hne.
      apply elem_of_app in Hb as [Hb|Hb].
      + rewrite <- Hfull in Hb.
        destruct (Hset1 b Hb) as [S1 S2]; [lia|rewrite Hl1; geometry; lia|rewrite Hl2; geometry; lia|].
        destruct (Hmono2 b) as [N1 N2]; [lia|]. split; auto.
      + by apply Hset2. }
  split.
  { intros Hr. apply node_of_set_node_of. destruct Hr as [R1 R2]. split; by rewrite G1. }
  intros n' Hn'. unfold node_of, set_node_of. rewrite get_i_node_set_i_node.
  rewrite decide_False; [by unfold get_i_node; rewrite G1|].
  intros [[H1 _] [H2 _]]. apply Hn'. by rewrite H1, H2.
Qed.

(** The last thing [rm_file_from_disk] frees: when the i-node has an
    indirect block that [read_blocks] can read, the two bits of that
    block itself. *)
Lemma rm_file_from_disk_ind_block s i st :
  let fs := file_system st in
  let n := i_node_number (dir_entry fs s i) in
  let ind := ind_pointer (node_of fs n) in
  let fs' := file_system (snd (rm_file_from_disk s i st)) in
  ind <> 0 -> 0 <= ind < NUMBER_OF_BLOCKS ->
  length (free_bit_map fs) = Z.to_nat sizeof_block_group ->
  length (write_mask fs) = Z.to_nat sizeof_block_group ->
  get_bit_map (free_bit_map fs') ind = 1 /\ get_bit_map (write_mask fs') ind = 1.
Proof.
  intros fs n ind. cbv zeta. unfold rm_file_from_disk. fold fs n. cbn [snd].
  rewrite file_system_with_fs. fold ind.
  intros Hne Hr Hl1 Hl2.
  destruct (free_pointers_spec (pointer (node_of fs n)) fs) as ((_ & _ & E3 & E4) & _ & _).
  set (fs1 := free_pointers (pointer (node_of fs n)) fs) in *. clearbody fs1.
  destruct (Z.eqb_spec ind 0) as [|_]; [done|].
  destruct (read_blocks (disk st) ind local_buffer) as [err buf] eqn:Hrb.
  assert (err = 0) as ->.
  { revert Hrb. unfold read_blocks.
    destruct (Z.leb_spec 0 ind); [|lia].
    destruct (Z.leb_spec (ind + 1) NUMBER_OF_BLOCKS); [|lia].
    cbn [andb]. by intros [= <- _]. }
  rewrite Z.eqb_refl. cbn [negb].
  destruct (free_pointers_spec (decode_ind_node_block buf) fs1) as ((_ & _ & E3' & E4') & _ & _).
  set (fs2 := free_pointers (decode_ind_node_block buf) fs1) in *. clearbody fs2.
  assert (ind / 8 < 128) as H8 by (geometry; apply Z.div_lt_upper_bound; lia).
  destruct (set_both_sets fs2 ind) as [S1 S2];
    [lia|rewrite E3', E3, Hl1; geometry; lia|rewrite E4', E4, Hl2; geometry; lia|].
  split; [exact S1|exact S2].
Qed.

Lemma disk_dump_other st b :
  FIRST_DATA_BLOCK <= b <= LAST_DATA_BLOCK ->
  disk (dump_file_system_to_disk st) !! b = disk st !! b.
Proof.
  intros Hb. unfold dump_file_system_to_disk.
  change (seqZ 0 MAX_DIRS_INCL_SHAD) with [0; 1; 2; 3; 4]. cbn [foldl].
  rewrite !disk_put_blocks_other by (geometry; lia). done.
Qed.

Lemma file_blocks_same st st' n :
  file_system st' = file_system st -> disk st' = disk st -> file_blocks st' n = file_blocks st n.
Proof. intros Hfs Hd. unfold file_blocks, read_ind_node_block. by rewrite Hfs, Hd. Qed.

Lemma disk_with_fs st fs : disk (with_fs st fs) = disk st.
Proof. done. Qed.

Lemma ssfs_remove_found st f i :
  first_index (fun i => same_name (name (dir_entry (file_system st) 0 i)) f)
    0 (Z.to_nat MAX_FILES) = Some i ->
  ssfs_remove st f
  = (0, dump_file_system_to_disk
          (with_fs (snd (rm_file_from_disk 0 i (rm_fd st f)))
             (set_dir_entry (file_system (snd (rm_file_from_disk 0 i (rm_fd st f)))) 0 i
                init_dir_entry))).
Proof.
  intros Hi. destruct (rm_fd_spec st f) as (Hfs & _).
  unfold ssfs_remove, rm_file_from_dir. rewrite Hfs, Hi. reflexivity.
Qed.

(** What [ssfs_remove] of a name that [rm_file_from_dir] finds does. *)
Lemma ssfs_remove_frees (st : sfs_state) (f : string) (i : Z) :
  let fs := file_system st in
  let n := i_node_number (dir_entry fs 0 i) in
  first_index (fun i => same_name (name (dir_entry fs 0 i)) f) 0 (Z.to_nat MAX_FILES) = Some i ->
  arrays_ok st -> inode_in_range fs n ->
  Forall (fun b => 0 <= b < NUMBER_OF_BLOCKS) (file_blocks st n) ->
  exists st',
    ssfs_remove st f = (0, st')
    /\ Forall (fun b => get_bit_map (free_bit_map (file_system st')) b = 1
                        /\ get_bit_map (write_mask (file_system st')) b = 1)
         (file_blocks st n)
    /\ (ind_pointer (node_of fs n) <> 0 ->
        0 <= ind_pointer (node_of fs n) < NUMBER_OF_BLOCKS ->
        get_bit_map (free_bit_map (file_system st')) (ind_pointer (node_of fs n)) = 1
        /\ get_bit_map (write_mask (file_system st')) (ind_pointer (node_of fs n)) = 1)
    /\ node_of (file_system st') n = init_node
    /\ dir_entry (file_system st') 0 i = init_dir_entry
    /\ (forall x, 0 <= x ->
          (get_bit_map (free_bit_map (file_system st)) x = 1 ->
           get_bit_map (free_bit_map (file_system st')) x = 1)
          /\ (get_bit_map (write_mask (file_system st)) x = 1 ->
              get_bit_map (write_mask (file_system st')) x = 1))
    /\ (forall b, FIRST_DATA_BLOCK <= b <= LAST_DATA_BLOCK -> disk st' !! b = disk st !! b).
Proof.
  intros fs n Hi Hok Hrange Hblocks.
  pose proof (rm_file_from_disk_ind_block 0 i (rm_fd st f)) as Hind. cbv zeta in Hind.
  destruct (rm_fd_spec st f) as (Hfs & Hdisk & _ & _).
  rewrite (ssfs_remove_found st f i Hi).
  eexists. split; [reflexivity|].
  pose proof (rm_file_from_disk_spec 0 i (rm_fd st f)) as Hspec. cbv zeta in Hspec.
  rewrite Hfs in Hspec, Hind. fold fs n in Hspec, Hind.
  rewrite (file_blocks_same _ _ _ Hfs Hdisk) in Hspec.
  destruct Hspec as ((Hdir & Hl1 & Hl2 & _ & Hd & _) & Hmono & Hset & Hnode & _).
  set (st1 := snd (rm_file_from_disk 0 i (rm_fd st f))) in *.
  rewrite file_system_dump, file_system_with_fs.
  apply first_index_Some in Hi as (Hir & _ & _).
  destruct (arrays_ok_dir_in_range st 0 i Hok) as (Hd1 & Hd2); [geometry; lia|geometry; lia|].
  split.
  { rewrite Forall_forall in Hblocks |- *. intros b Hb.
    apply Hset; [done|by apply Hblocks|apply (ok_free_bit_map _ Hok)|apply (ok_write_mask _ Hok)]. }
  split.
  { intros Hne Hr.
    apply Hind; [done|done|apply (ok_free_bit_map _ Hok)|apply (ok_write_mask _ Hok)]. }
  split; [by apply Hnode|].
  split.
  { rewrite dir_entry_set_dir_entry, Hdir. rewrite decide_True; [done|].
    split; [split; [done|exact Hd1]|split; [done|exact Hd2]]. }
  split.
  { intros x Hx. by apply Hmono. }
  intros b Hb. by rewrite disk_dump_other, disk_with_fs, Hd, Hdisk.
Qed.

(** X10.  [ssfs_remove] of a name that the live directory holds returns 0
    and gives the file back: the bits of all the blocks of the file (those
    of the direct pointers and those of the entries of the indirect block)
    are set in the free bit map and in the write mask, and so are the bits
    of the indirect block itself when the i-node has one; its i-node is
    initialised again (so [get_free_i_node] can hand it out), and its
    directory entry is empty.  No bit of the free bit map or of the write
    mask is cleared, and the data blocks of the device are not touched. *)
Theorem remove_frees_the_blocks (st : sfs_state) (f : string) (i : Z) :
  let fs := file_system st in
  let n := i_node_number (dir_entry fs 0 i) in
  first_index (fun i => same_name (name (dir_entry fs 0 i)) f) 0 (Z.to_nat MAX_FILES) = Some i ->
  arrays_ok st -> inode_in_range fs n ->
  Forall (fun b => 0 <= b < NUMBER_OF_BLOCKS) (file_blocks st n) ->
  exists st',
    ssfs_remove st f = (0, st')
    /\ Forall (fun b => get_bit_map (free_bit_map (file_system st')) b = 1
                        /\ get_bit_map (write_mask (file_system st')) b = 1)
         (file_blocks st n)
    /\ (ind_pointer (node_of fs n) <> 0 ->
        0 <= ind_pointer (node_of fs n) < NUMBER_OF_BLOCKS ->
        get_bit_map (free_bit_map (file_system st')) (ind_pointer (node_of fs n)) = 1
        /\ get_bit_map (write_mask (file_system st')) (ind_pointer (node_of fs n)) = 1)
    /\ node_of (file_system st') n = init_node
    /\ dir_entry (file_system st') 0 i = init_dir_entry
    /\ (forall x, 0 <= x ->
          (get_bit_map (free_bit_map (file_system st)) x = 1 ->
           get_bit_map (free_bit_map (file_system st')) x = 1)
          /\ (get_bit_map (write_mask (file_system st)) x = 1 ->
              get_bit_map (write_mask (file_system st')) x = 1))
    /\ (forall b, FIRST_DATA_BLOCK <= b <= LAST_DATA_BLOCK -> disk st' !! b = disk st !! b).
Proof. exact (ssfs_remove_frees st f i). Qed.

Lemma remove_frees_the_blocks_witness :
  let fs := file_system st_indirect in
  let n := i_node_number (dir_entry fs 0 0) in
  exists st',
    ssfs_remove st_indirect "a" = (0, st')
    /\ length (file_blocks st_indirect n) = 15%nat
    /\ Forall (fun b => get_bit_map (free_bit_map (file_system st')) b = 1
                        /\ get_bit_map (write_mask (file_system st')) b = 1)
         (file_blocks st_indirect n)
    /\ ind_pointer (node_of fs n) = 29
    /\ get_bit_map (free_bit_map fs) 29 = 0
    /\ get_bit_map (free_bit_map (file_system st')) (ind_pointer (node_of fs n)) = 1
    /\ get_bit_map (write_mask (file_system st')) (ind_pointer (node_of fs n)) = 1.
Proof.
  intros fs n.
  destruct (remove_frees_the_blocks st_indirect "a" 0) as (st' & H1 & H2 & H3 & _).
  - vm_compute; reflexivity.
  - split; vm_compute; repeat constructor.
  - split; apply (bool_decide_unpack _); vm_compute; exact I.
  - apply (bool_decide_unpack _); vm_compute; exact I.
  - assert (ind_pointer (node_of fs n) = 29) as Hind by (vm_compute; reflexivity).
    assert (ind_pointer (node_of fs n) <> 0) as Hne by (rewrite Hind; lia).
    assert (0 <= ind_pointer (node_of fs n) < NUMBER_OF_BLOCKS) as Hr by (rewrite Hind; geometry; lia).
    pose proof (H3 Hne Hr) as [H4 H5].
    exists st'. split; [exact H1|]. split; [vm_compute; reflexivity|].
    split; [exact H2|]. split; [exact Hind|]. split; [vm_compute; reflexivity|].
    split; [exact H4|exact H5].
Defined.

(** *** Listing the directory *)








(** ** Seeking *)

Lemma or_minus_one_dense l (k : nat) :
  pointers_dense l -> or_minus_one (at_Z 0 l (Z.of_nat k)) = default (-1) (nonzero_prefix l !! k).
Proof.
  intros Hd. destruct (decide (k <= length (nonzero_prefix l))%nat) as [Hle|Hgt].
  { by apply next_in_prefix. }
  rewrite (lookup_ge_None_2 (nonzero_prefix l)) by lia.
  rewrite at_Z_nat. rewrite (pointers_dense_split l Hd).
  rewrite lookup_app_r by lia.
  destruct (replicate _ 0 !! _) as [x|] eqn:Hx; [|done].
  apply lookup_replicate in Hx as [-> _]. done.
Qed.

(** [seek_block] on a file without holes: the block of the file that
    holds the offset, -1 when the file has no such block. *)
Lemma seek_block_dense st fileID loc :
  let n := i_node_number (entry (fd_at (open_file_table st) fileID)) in
  node_ok (node_of (file_system st) n) -> file_dense st n ->
  0 <= loc < (NUMBER_OF_POINTERS + POINTERS_IND_BLOCK) * NUMBER_OF_BYTES_BLOCK ->
  seek_block st fileID loc
  = Some (default (-1) (file_blocks st n !! Z.to_nat (loc / NUMBER_OF_BYTES_BLOCK))).
Proof.
  intros n Hnode Hdense Hloc. unfold seek_block. fold n.
  rewrite (file_blocks_dense _ _ Hdense).
  destruct Hdense as [Hdd Hdfull Hdi].
  set (node := node_of (file_system st) n) in *.
  destruct (Z.ltb_spec loc 0) as [?|_]; [lia|].
  rewrite Z.quot_div_nonneg by (geometry; lia).
  set (k := loc / NUMBER_OF_BYTES_BLOCK).
  assert (0 <= k < 270) as Hk.
  { subst k. geometry. split; [apply Z.div_pos; lia|apply Z.div_lt_upper_bound; lia]. }
  pose proof (length_nonzero_prefix (pointer node)) as Hle. rewrite Hnode in Hle.
  change (Z.to_nat NUMBER_OF_POINTERS) with 14%nat in Hle.
  destruct (Z.ltb_spec k NUMBER_OF_POINTERS) as [Hdir|Hind].
  - f_equal. rewrite <- (Z2Nat.id k) at 1 by lia.
    rewrite or_minus_one_dense by done.
    destruct (decide (Z.to_nat k < length (nonzero_prefix (pointer node)))%nat) as [Hin|Hout].
    + by rewrite lookup_app_l.
    + rewrite (lookup_ge_None_2 (nonzero_prefix _)) by lia.
      destruct (Z.eqb_spec (ind_pointer node) 0) as [_|Hne].
      * rewrite app_nil_r. by rewrite lookup_ge_None_2 by lia.
      * exfalso. rewrite (nonzero_prefix_all _ (Hdfull Hne)), Hnode in Hout.
        geometry. change (Z.to_nat 14) with 14%nat in Hout. lia.
  - destruct (Z.eqb_spec (ind_pointer node) 0) as [Hno|Hne].
    + f_equal. rewrite app_nil_r. rewrite lookup_ge_None_2; [done|]. geometry. lia.
    + destruct (Z.ltb_spec (k - NUMBER_OF_POINTERS) POINTERS_IND_BLOCK) as [_|?];
        [|geometry; lia].
      f_equal. rewrite (nonzero_prefix_all _ (Hdfull Hne)).
      rewrite lookup_app_r by (rewrite Hnode; geometry; lia).
      rewrite Hnode. change (Z.to_nat NUMBER_OF_POINTERS) with 14%nat.
      replace (k - NUMBER_OF_POINTERS) with (Z.of_nat (Z.to_nat k - 14)) by (geometry; lia).
      by apply or_minus_one_dense, Hdi.
Qed.

(** The values of [seek_block] and [seek_char] for an offset of a file
    without holes. *)
Lemma seek_in_file st fileID loc :
  let n := i_node_number (entry (fd_at (open_file_table st) fileID)) in
  let m := Z.of_nat (length (file_blocks st n)) in
  file_chain_ok st n -> file_dense st n ->
  0 <= loc < (NUMBER_OF_POINTERS + POINTERS_IND_BLOCK) * NUMBER_OF_BYTES_BLOCK ->
  (loc < NUMBER_OF_BYTES_BLOCK * m /\ loc <= end_of_file st n ->
   exists b, file_blocks st n !! Z.to_nat (loc / NUMBER_OF_BYTES_BLOCK) = Some b
             /\ 0 < b
             /\ seek_block st fileID loc = Some b
             /\ seek_char st fileID loc = Some (loc `mod` NUMBER_OF_BYTES_BLOCK))
  /\ (~ (loc < NUMBER_OF_BYTES_BLOCK * m /\ loc <= end_of_file st n) ->
      exists b c, seek_block st fileID loc = Some b /\ seek_char st fileID loc = Some c
                  /\ (b < 0 \/ c < 0)).
Proof.
  intros n m Hok Hdense Hloc.
  pose proof (seek_block_dense st fileID loc (chain_node_ok _ _ Hok) Hdense Hloc) as Hsb.
  fold n in Hsb.
  unfold seek_char. fold n. rewrite Hsb.
  destruct (Z.ltb_spec loc 0) as [?|_]; [lia|].
  rewrite Z.rem_mod_nonneg by (geometry; lia).
  set (k := loc / NUMBER_OF_BYTES_BLOCK) in *. set (c := loc `mod` NUMBER_OF_BYTES_BLOCK).
  assert (loc = NUMBER_OF_BYTES_BLOCK * k + c) as Hdiv by (apply Z.div_mod; geometry; lia).
  assert (0 <= c < NUMBER_OF_BYTES_BLOCK) as Hc by (apply Z.mod_pos_bound; geometry; lia).
  assert (0 <= k) as Hk by (apply Z.div_pos; geometry; lia).
  pose proof (get_end_char_range st n (chain_size _ _ Hok)) as Hec.
  unfold end_of_file. fold m.
  destruct (file_blocks st n !! Z.to_nat k) as [b|] eqn:Hb; cbn [default from_option id].
  - pose proof (lookup_lt_Some _ _ _ Hb) as Hlt.
    pose proof (block_positive st n Hok _ _ Hb) as Hpos.
    pose proof (last_block_iff st n Hok _ _ Hb) as Hlast.
    split.
    + intros [Hm Heof]. exists b. split; [done|]. split; [lia|]. split; [done|].
      destruct (Z.eqb_spec b (get_last_file_block st n)) as [Heq|_]; [|done].
      apply Hlast in Heq.
      destruct (Z.leb_spec c (get_end_char st n)) as [_|?]; [done|]. geometry. lia.
    + intros Hnot. exists b.
      destruct (Z.eqb_spec b (get_last_file_block st n)) as [Heq|Hne].
      * apply Hlast in Heq.
        destruct (Z.leb_spec c (get_end_char st n)) as [?|_].
        -- exfalso. apply Hnot. geometry. lia.
        -- exists (-1). split; [done|]. split; [done|]. lia.
      * exfalso. apply Hnot.
        assert (S (Z.to_nat k) <> length (file_blocks st n)) by (intros H; by apply Hne, Hlast).
        geometry. lia.
  - apply lookup_ge_None_1 in Hb. split.
    + intros [Hm _]. exfalso. geometry. lia.
    + intros _. exists (-1). destruct (_ =? _).
      * destruct (_ <=? _); eexists; (split; [done|]); (split; [done|]); lia.
      * eexists; (split; [done|]); (split; [done|]); lia.
Qed.

(** X12.  For a file without holes and an offset [loc] below the capacity
    of an i-node, [ssfs_frseek] and [ssfs_fwseek] succeed exactly when
    [loc] lies in a block of the file and not past its end of file.  They
    then put the read cursor, respectively the write cursor, on the block
    of the file that holds [loc], at [loc % NUMBER_OF_BYTES_BLOCK], and
    change nothing else; when they fail they change nothing.  An offset
    equal to the end of file of a file that fills its last block is
    refused. *)
Theorem seek_within_the_file (st : sfs_state) (fileID loc : Z) :
  let f := fd_at (open_file_table st) fileID in
  let n := i_node_number (entry f) in
  let m := Z.of_nat (length (file_blocks st n)) in
  let k := Z.to_nat (loc / NUMBER_OF_BYTES_BLOCK) in
  let c := loc `mod` NUMBER_OF_BYTES_BLOCK in
  file_chain_ok st n -> file_dense st n ->
  0 <= loc < (NUMBER_OF_POINTERS + POINTERS_IND_BLOCK) * NUMBER_OF_BYTES_BLOCK ->
  offset_of k c = loc
  /\ (loc < NUMBER_OF_BYTES_BLOCK * m /\ loc <= end_of_file st n ->
      exists b,
        file_blocks st n !! k = Some b
        /\ ssfs_frseek st fileID loc
           = Some (0, set_fd st fileID
                        (mk_fd (entry f) (mk_file_pointer b c) (write_pointer f)))
        /\ ssfs_fwseek st fileID loc
           = Some (0, set_fd st fileID
                        (mk_fd (entry f) (read_pointer f) (mk_file_pointer b c))))
  /\ (~ (loc < NUMBER_OF_BYTES_BLOCK * m /\ loc <= end_of_file st n) ->
      ssfs_frseek st fileID loc = Some (-1, st)
      /\ ssfs_fwseek st fileID loc = Some (-1, st)).
Proof.
  intros f n m k c Hok Hdense Hloc.
  destruct (seek_in_file st fileID loc Hok Hdense Hloc) as [Hin Hout].
  fold f n m in Hin, Hout. split; [|split].
  - unfold offset_of. subst k c. rewrite Z2Nat.id by (apply Z.div_pos; geometry; lia).
    symmetry. apply Z.div_mod. geometry. lia.
  - intros Hcond. destruct (Hin Hcond) as (b & Hb & Hpos & Hsb & Hsc).
    exists b. split; [done|]. unfold ssfs_frseek, ssfs_fwseek. rewrite Hsb, Hsc.
    destruct (Z.ltb_spec b 0) as [?|_]; [lia|].
    destruct (Z.ltb_spec (loc `mod` NUMBER_OF_BYTES_BLOCK) 0) as [Hneg|_]; [|done].
    pose proof (Z.mod_pos_bound loc NUMBER_OF_BYTES_BLOCK). geometry. lia.
  - intros Hcond. destruct (Hout Hcond) as (b & c' & Hsb & Hsc & Hneg).
    unfold ssfs_frseek, ssfs_fwseek. rewrite Hsb, Hsc.
    destruct (Z.ltb_spec b 0) as [?|?]; [done|].
    destruct (Z.ltb_spec c' 0) as [?|?]; [done|lia].
Qed.

(** A store into one slot of the open-file table. *)
Lemma set_fd_frame st i x :
  file_system (set_fd st i x) = file_system st
  /\ disk (set_fd st i x) = disk st
  /\ gnfni (set_fd st i x) = gnfni st
  /\ (forall j, j <> i ->
        fd_at (open_file_table (set_fd st i x)) j = fd_at (open_file_table st) j)
  /\ (fd_at (open_file_table (set_fd st i x)) i = x
      \/ fd_at (open_file_table (set_fd st i x)) i = fd_at (open_file_table st) i).
Proof.
  repeat split.
  - intros j Hj. rewrite fd_at_set_fd. case_decide as Hd; [|done]. by destruct Hd as [-> _].
  - rewrite fd_at_set_fd. case_decide; auto.
Qed.

Lemma seek_block_negative st fileID loc : loc < 0 -> seek_block st fileID loc = Some (-1).
Proof. intros H. unfold seek_block. by destruct (Z.ltb_spec loc 0); [|lia]. Qed.

Lemma ssfs_frseek_frame st fileID loc r st' :
  ssfs_frseek st fileID loc = Some (r, st') ->
  (r = 0 \/ r = -1)
  /\ (loc < 0 -> r = -1)
  /\ (r = -1 -> st' = st)
  /\ file_system st' = file_system st /\ disk st' = disk st /\ gnfni st' = gnfni st
  /\ (forall j, j <> fileID ->
        fd_at (open_file_table st') j = fd_at (open_file_table st) j)
  /\ entry (fd_at (open_file_table st') fileID) = entry (fd_at (open_file_table st) fileID)
  /\ write_pointer (fd_at (open_file_table st') fileID)
     = write_pointer (fd_at (open_file_table st) fileID).
Proof.
  unfold ssfs_frseek. pose proof (seek_block_negative st fileID loc) as Hneg.
  destruct (seek_block st fileID loc) as [b|]; [|done].
  destruct (seek_char st fileID loc) as [c|]; [|done].
  destruct ((b <? 0) || (c <? 0)) eqn:Hcond.
  - intros [<- <-]%(inj Some)%pair_equal_spec. repeat split; auto.
  - apply orb_false_iff in Hcond as [Hb0 _]. apply Z.ltb_ge in Hb0.
    intros [<- <-]%(inj Some)%pair_equal_spec.
    destruct (set_fd_frame st fileID
                (mk_fd (entry (fd_at (open_file_table st) fileID)) (mk_file_pointer b c)
                   (write_pointer (fd_at (open_file_table st) fileID))))
      as (H1 & H2 & H3 & H4 & H5).
    split; [by left|]. split; [intros Hl; specialize (Hneg Hl); injection Hneg; lia|].
    split; [done|]. split; [done|]. split; [done|]. split; [done|]. split; [done|].
    destruct H5 as [-> | ->]; done.
Qed.

Lemma ssfs_fwseek_frame st fileID loc r st' :
  ssfs_fwseek st fileID loc = Some (r, st') ->
  (r = 0 \/ r = -1)
  /\ (loc < 0 -> r = -1)
  /\ (r = -1 -> st' = st)
  /\ file_system st' = file_system st /\ disk st' = disk st /\ gnfni st' = gnfni st
  /\ (forall j, j <> fileID ->
        fd_at (open_file_table st') j = fd_at (open_file_table st) j)
  /\ entry (fd_at (open_file_table st') fileID) = entry (fd_at (open_file_table st) fileID)
  /\ read_pointer (fd_at (open_file_table st') fileID)
     = read_pointer (fd_at (open_file_table st) fileID).
Proof.
  unfold ssfs_fwseek. pose proof (seek_block_negative st fileID loc) as Hneg.
  destruct (seek_block st fileID loc) as [b|]; [|done].
  destruct (seek_char st fileID loc) as [c|]; [|done].
  destruct ((b <? 0) || (c <? 0)) eqn:Hcond.
  - intros [<- <-]%(inj Some)%pair_equal_spec. repeat split; auto.
  - apply orb_false_iff in Hcond as [Hb0 _]. apply Z.ltb_ge in Hb0.
    intros [<- <-]%(inj Some)%pair_equal_spec.
    destruct (set_fd_frame st fileID
                (mk_fd (entry (fd_at (open_file_table st) fileID))
                   (read_pointer (fd_at (open_file_table st) fileID)) (mk_file_pointer b c)))
      as (H1 & H2 & H3 & H4 & H5).
    split; [by left|]. split; [intros Hl; specialize (Hneg Hl); injection Hneg; lia|].
    split; [done|]. split; [done|]. split; [done|]. split; [done|]. split; [done|].
    destruct H5 as [-> | ->]; done.
Qed.

(** X13.  For a descriptor of the open-file table, 0 <= fileID < MAX_FD
    (the source checks no range, and outside it the C code indexes past
    the table), and whatever the offset, a seek that returns changes at
    most the cursor it is for: it returns 0 or -1, -1 for a negative
    offset; the file system, the device and the other descriptors are as
    before, as are the name, the i-node number and the other cursor of
    the descriptor; when it returns -1 the state is unchanged. *)
Theorem seek_changes_one_cursor (st : sfs_state) (fileID loc r : Z) (st' : sfs_state) :
  0 <= fileID < MAX_FD ->
  ssfs_frseek st fileID loc = Some (r, st') \/ ssfs_fwseek st fileID loc = Some (r, st') ->
  (r = 0 \/ r = -1)
  /\ (loc < 0 -> r = -1)
  /\ (r = -1 -> st' = st)
  /\ file_system st' = file_system st /\ disk st' = disk st /\ gnfni st' = gnfni st
  /\ (forall j, j <> fileID ->
        fd_at (open_file_table st') j = fd_at (open_file_table st) j)
  /\ entry (fd_at (open_file_table st') fileID) = entry (fd_at (open_file_table st) fileID)
  /\ (ssfs_frseek st fileID loc = Some (r, st') ->
      write_pointer (fd_at (open_file_table st') fileID)
      = write_pointer (fd_at (open_file_table st) fileID))
  /\ (ssfs_fwseek st fileID loc = Some (r, st') ->
      read_pointer (fd_at (open_file_table st') fileID)
      = read_pointer (fd_at (open_file_table st) fileID)).
Proof.
  intros _ Hr.
  assert ((r = 0 \/ r = -1)
          /\ (loc < 0 -> r = -1)
          /\ (r = -1 -> st' = st)
          /\ file_system st' = file_system st /\ disk st' = disk st /\ gnfni st' = gnfni st
          /\ (forall j, j <> fileID ->
                fd_at (open_file_table st') j = fd_at (open_file_table st) j)
          /\ entry (fd_at (open_file_table st') fileID)
             = entry (fd_at (open_file_table st) fileID))
    as (H1 & H2 & H3 & H4 & H5 & H6 & H7 & H8).
  { destruct Hr as [Hr|Hr];
      [apply ssfs_frseek_frame in Hr|apply ssfs_fwseek_frame in Hr]; tauto. }
  repeat (split; [done|]). split.
  - intros H. apply ssfs_frseek_frame in H. tauto.
  - intros H. apply ssfs_fwseek_frame in H. tauto.
Qed.

Lemma file_dense_st_reopened : file_dense st_reopened 5.
Proof.
  split.
  - decide_by_computation.
  - intros H. exfalso. apply H. vm_compute. reflexivity.
  - intros H. exfalso. apply H. vm_compute. reflexivity.
Qed.

Lemma seek_within_the_file_witness :
  (exists st', ssfs_frseek st_reopened 0 1000 = Some (0, st'))
  /\ ssfs_frseek st_reopened 0 1031 = Some (-1, st_reopened).
Proof.
  split.
  - destruct (seek_within_the_file st_reopened 0 1000) as (_ & (b & _ & H & _) & _).
    + exact file_chain_ok_st_reopened.
    + exact file_dense_st_reopened.
    + geometry. lia.
    + split; vm_compute; [reflexivity|discriminate].
    + eexists. exact H.
  - destruct (seek_within_the_file st_reopened 0 1031) as (_ & _ & H).
    + exact file_chain_ok_st_reopened.
    + exact file_dense_st_reopened.
    + geometry. lia.
    + apply H. intros [_ Hle]. vm_compute in Hle. apply Hle. reflexivity.
Defined.

Lemma seek_changes_one_cursor_witness :
  file_system (snd (default (0, st_reopened) (ssfs_fwseek st_reopened 0 1000)))
  = file_system st_reopened.
Proof.
  refine (proj1 (proj2 (proj2 (proj2
            (seek_changes_one_cursor st_reopened 0 1000 _ _ _ (or_intror _)))))).
  - by vm_compute.
  - vm_compute. reflexivity.
Defined.

(** ** The bytes that are read and written *)

Arguments block_data : simpl never.
Arguments file_byte : simpl never.

Lemma seqZ_shift a k : seqZ a k = Z.add a <$> seqZ 0 k.
Proof. rewrite fmap_add_seqZ. by rewrite Z.add_0_r. Qed.

Lemma fmap_seqZ_succ {A} (g : Z -> A) k :
  0 <= k -> g <$> seqZ 0 (k + 1) = g 0 :: ((fun j => g (1 + j)) <$> seqZ 0 k).
Proof.
  intros Hk. rewrite seqZ_cons by lia. rewrite fmap_cons. f_equal.
  replace (Z.pred (k + 1)) with k by lia. change (Z.succ 0) with 1.
  rewrite (seqZ_shift 1). by rewrite <- list_fmap_compose.
Qed.

Lemma fmap_seqZ_app {A} (g : Z -> A) a b :
  0 <= a -> 0 <= b ->
  g <$> seqZ 0 (a + b) = (g <$> seqZ 0 a) ++ ((fun j => g (a + j)) <$> seqZ 0 b).
Proof.
  intros Ha Hb. rewrite seqZ_app by lia. rewrite fmap_app. f_equal.
  rewrite Z.add_0_l, (seqZ_shift a). by rewrite <- list_fmap_compose.
Qed.

Lemma fmap_seqZ_ext {A} (g h : Z -> A) k :
  (forall j, 0 <= j < k -> g j = h j) -> g <$> seqZ 0 k = h <$> seqZ 0 k.
Proof.
  intros H. apply list_fmap_ext. intros i x Hx.
  apply lookup_seqZ in Hx as [-> Hi]. apply H. lia.
Qed.

Lemma fmap_seqZ_at_Z (l : list Z) :
  (fun j => at_Z 0 l j) <$> seqZ 0 (Z.of_nat (length l)) = l.
Proof.
  induction l as [|x l IH]; [done|].
  change (length (x :: l)) with (S (length l)).
  rewrite Nat2Z.inj_succ, <- Z.add_1_r, fmap_seqZ_succ by lia.
  f_equal. rewrite <- IH at 2. apply fmap_seqZ_ext. intros j Hj.
  unfold at_Z. destruct (Z.ltb_spec (1 + j) 0); [lia|]. destruct (Z.ltb_spec j 0); [lia|].
  replace (Z.to_nat (1 + j)) with (S (Z.to_nat j)) by lia. done.
Qed.

Lemma file_bytes_app st n pos a b :
  0 <= a -> 0 <= b ->
  file_bytes st n pos (a + b) = file_bytes st n pos a ++ file_bytes st n (pos + a) b.
Proof.
  intros Ha Hb. unfold file_bytes. rewrite fmap_seqZ_app by done. f_equal.
  apply fmap_seqZ_ext. intros j _. f_equal. lia.
Qed.

Lemma length_file_bytes st n pos k : 0 <= k -> Z.of_nat (length (file_bytes st n pos k)) = k.
Proof. intros Hk. unfold file_bytes. rewrite length_fmap, length_seqZ. lia. Qed.

(** The byte of a file at an offset of its block [i]. *)
Lemma file_byte_in_block st n (i : nat) b c :
  file_blocks st n !! i = Some b -> 0 <= c < NUMBER_OF_BYTES_BLOCK ->
  file_byte st n (offset_of i c) = at_Z 0 (block_data st b) c.
Proof.
  intros Hi Hc. unfold file_byte, offset_of.
  replace ((NUMBER_OF_BYTES_BLOCK * Z.of_nat i + c) / NUMBER_OF_BYTES_BLOCK) with (Z.of_nat i).
  2:{ apply Z.div_unique with c; [left|]; geometry; lia. }
  replace ((NUMBER_OF_BYTES_BLOCK * Z.of_nat i + c) `mod` NUMBER_OF_BYTES_BLOCK) with c.
  2:{ apply Z.mod_unique with (Z.of_nat i); [left|]; geometry; lia. }
  by rewrite Nat2Z.id, Hi.
Qed.

(** *** Reading *)

Lemma fread_chars_content n data cb lb lc len : forall cc bp,
  0 <= cc ->
  let r := (fread_chars n data cb lb lc len cc bp).1.1 in
  r = (fun j => at_Z 0 data (cc + j)) <$> seqZ 0 (Z.of_nat (length r)).
Proof.
  induction n as [|n IH]; intros cc bp Hcc; cbn [fread_chars]; [done|].
  destruct (_ && _); [|done].
  specialize (IH (cc + 1) (bp + 1) ltac:(lia)). cbv zeta in IH.
  destruct (fread_chars n data cb lb lc len (cc + 1) (bp + 1)) as [[r cc'] bp'].
  cbn [fst] in *. change (length (_ :: r)) with (S (length r)).
  rewrite Nat2Z.inj_succ, <- Z.add_1_r, fmap_seqZ_succ by lia.
  rewrite Z.add_0_r. f_equal. rewrite IH at 1. apply fmap_seqZ_ext. intros j _. f_equal. lia.
Qed.

Section fread_content.
Context (st : sfs_state) (fileID n : Z).
Context (Hn : i_node_number (entry (fd_at (open_file_table st) fileID)) = n).
Context (Hok : file_chain_ok st n).

Lemma fread_fill_content len fuel : forall (i : nat) cb cc bp r cb' cc' bp',
  file_blocks st n !! i = Some cb -> 0 <= cc <= NUMBER_OF_BYTES_BLOCK ->
  fread_fill fuel st fileID (get_last_file_block st n) (get_end_char st n) len cb cc bp
  = Some (r, cb', cc', bp') ->
  r = file_bytes st n (offset_of i cc) (Z.of_nat (length r)).
Proof.
  pose proof (get_end_char_range st n (chain_size _ _ Hok)) as Hlc.
  set (lb := get_last_file_block st n) in *.
  set (lc := get_end_char st n) in *.
  induction fuel as [|fuel IH]; intros i cb cc bp r cb' cc' bp' Hi Hcc; [done|].
  assert (forall (i' : nat) cb0 cc0,
            file_blocks st n !! i' = Some cb0 -> 0 <= cc0 < NUMBER_OF_BYTES_BLOCK ->
            (let data_block := snd (read_blocks (disk st) cb0 local_buffer) in
             let '(r, cc1, buf_pos) :=
               fread_chars (Z.to_nat NUMBER_OF_BYTES_BLOCK) data_block cb0 lb lc len cc0 bp in
             if (buf_pos <? len) && negb ((cb0 =? lb) && (lc <=? cc1)) then
               match fread_fill fuel st fileID lb lc len cb0 cc1 buf_pos with
               | None => None
               | Some (r', cb'0, cc'0, buf_pos') => Some (r ++ r', cb'0, cc'0, buf_pos')
               end
             else Some (r, cb0, cc1, buf_pos)) = Some (r, cb', cc', bp') ->
            r = file_bytes st n (offset_of i' cc0) (Z.of_nat (length r))) as Hfill.
  { intros i' cb0 cc0 Hi' Hcc0. cbv zeta.
    set (k := Z.max 0 (Z.min (read_limit cb0 lb lc - cc0) (len - bp))).
    pose proof (fread_chars_content (Z.to_nat NUMBER_OF_BYTES_BLOCK)
                  (snd (read_blocks (disk st) cb0 local_buffer)) cb0 lb lc len cc0 bp
                  ltac:(lia)) as Hcontent.
    cbv zeta in Hcontent.
    destruct (fread_chars_spec (Z.to_nat NUMBER_OF_BYTES_BLOCK)
                (snd (read_blocks (disk st) cb0 local_buffer)) cb0 lb lc len cc0 bp k eq_refl)
      as (r1 & Heq & Hr1).
    { subst k. unfold read_limit. destruct (cb0 =? lb); geometry; lia. }
    rewrite Heq in Hcontent |- *. cbn [fst] in Hcontent.
    assert (0 <= k /\ cc0 + k <= NUMBER_OF_BYTES_BLOCK) as Hk.
    { subst k. unfold read_limit. destruct (cb0 =? lb); geometry; lia. }
    assert (r1 = file_bytes st n (offset_of i' cc0) k) as Hr1'.
    { rewrite Hcontent, Hr1. unfold file_bytes. apply fmap_seqZ_ext. intros j Hj.
      replace (offset_of i' cc0 + j) with (offset_of i' (cc0 + j)) by (unfold offset_of; lia).
      symmetry. apply file_byte_in_block; [done|lia]. }
    destruct (_ && _).
    - destruct (fread_fill fuel st fileID lb lc len cb0 (cc0 + k) (bp + k))
        as [[[[r' cb1] cc1] bp1]|] eqn:Hrec; [|done].
      intros [= <- _ _ _].
      apply (IH i') in Hrec; [|done|lia].
      rewrite length_app, Nat2Z.inj_add, Hr1, file_bytes_app by lia.
      rewrite <- Hr1'. f_equal. rewrite Hrec at 1. f_equal. unfold offset_of. lia.
    - intros [= <- _ _ _]. by rewrite Hr1. }
  cbn [fread_fill].
  destruct (Z.leb_spec NUMBER_OF_BYTES_BLOCK cc) as [Hfull|Hroom].
  - rewrite Hn, (get_next_file_block_spec st n cb i (chain_node_ok _ _ Hok)
                   (chain_NoDup _ _ Hok) Hi).
    destruct (file_blocks st n !! S i) as [tb|] eqn:Htb; cbn [default from_option id].
    + pose proof (block_positive st n Hok _ _ Htb) as Hpos.
      destruct (Z.ltb_spec tb 0); [lia|].
      intros Hres. apply (Hfill (S i) tb 0) in Hres; [|done|geometry; lia].
      rewrite Hres at 1. f_equal. unfold offset_of. geometry. lia.
    + cbn [Z.ltb Z.compare]. intros [= <- _ _ _]. done.
  - intros Hres. by apply (Hfill i cb cc) in Hres; [|done|lia].
Qed.

End fread_content.

(** What [ssfs_fread] returns and stores into the buffer. *)
Lemma ssfs_fread_bytes (st : sfs_state) (fileID len : Z) (i : nat) :
  let f := fd_at (open_file_table st) fileID in
  let n := i_node_number (entry f) in
  let pos := offset_of i (c_ptr (read_pointer f)) in
  let k := Z.max 0 (Z.min len (end_of_file st n - pos)) in
  name (entry f) <> EmptyString ->
  file_chain_ok st n ->
  file_blocks st n !! i = Some (block (read_pointer f)) ->
  0 <= c_ptr (read_pointer f) <= NUMBER_OF_BYTES_BLOCK ->
  exists st' (i' : nat),
    let f' := fd_at (open_file_table st') fileID in
    ssfs_fread st fileID len = Some (k, file_bytes st n pos k, st')
    /\ file_system st' = file_system st /\ disk st' = disk st
    /\ entry f' = entry f /\ write_pointer f' = write_pointer f
    /\ file_blocks st n !! i' = Some (block (read_pointer f'))
    /\ offset_of i' (c_ptr (read_pointer f')) = pos + k.
Proof.
  intros f n pos k Hname Hok Hi Hcc.
  destruct (ssfs_fread_spec st fileID n eq_refl Hok len i Hname Hi Hcc)
    as (r & st' & i' & Hread & Hlen & Hfs & Hdisk & He & Hw & Hi' & Hoff).
  fold f n pos k in Hread, Hlen, Hoff.
  exists st', i'. cbv zeta. split; [|done].
  rewrite Hread. do 3 f_equal.
  revert Hread. unfold ssfs_fread. fold f n.
  destruct (name_empty (name (entry f))); [intros [= Hk <- _]; by rewrite <- Hk|].
  destruct (Z.eqb_spec len 0) as [->|_]; [intros [= Hk <- _]; by rewrite <- Hk|].
  destruct (fread_fill _ st fileID _ _ len _ _ 0) as [[[[r0 cb0] cc0] bp0]|] eqn:Hfill; [|done].
  intros [= _ <- _].
  apply (fread_fill_content st fileID n eq_refl Hok _ _ i) in Hfill; [|done|done].
  by rewrite Hfill, Hlen at 1.
Qed.



(** *** Writing *)

Lemma disk_inc_file_size st n d : disk (inc_file_size st n d) = disk st.
Proof. done. Qed.

(** The block that the inner loop of [ssfs_fwrite] leaves: the
    characters of the buffer from [cc] on, as far as the block reaches. *)
Lemma fwrite_chars_content buf : forall st n nb cb lb lc data cc bp,
  0 <= cc ->
  let res := fwrite_chars buf st n nb cb lb lc data cc bp in
  let data' := res.1.1.2 in
  let cc' := res.1.2 in
  length data' = length data
  /\ disk res.1.1.1.2 = disk st
  /\ forall c, at_Z 0 data' c
               = if decide (cc <= c < cc' /\ c < Z.of_nat (length data))
                 then at_Z 0 buf (c - cc) else at_Z 0 data c.
Proof.
  induction buf as [|x buf IH]; intros st n nb cb lb lc data cc bp Hcc; cbn [fwrite_chars].
  - cbn [fst snd]. split; [done|]. split; [done|]. intros c. rewrite decide_False by lia. done.
  - destruct (Z.ltb_spec cc NUMBER_OF_BYTES_BLOCK) as [Hlt|Hge].
    2:{ cbn [fst snd]. split; [done|]. split; [done|].
        intros c. rewrite decide_False by lia. done. }
    match goal with |- context [fwrite_chars buf ?st1 n nb cb lb lc ?d1 ?c1 ?b1] =>
      specialize (IH st1 n nb cb lb lc d1 c1 b1 ltac:(lia));
      pose proof (fwrite_chars_spec buf st1 n nb cb lb lc d1 c1 b1 _ _ ltac:(lia) eq_refl eq_refl)
        as (dd & Hspec)
    end.
    cbv zeta in IH. rewrite Hspec in IH |- *. cbn [fst snd] in IH |- *.
    destruct IH as (Hl & Hd & Hc). rewrite length_upd_Z in Hl, Hc. split; [done|].
    split; [rewrite Hd; by destruct (_ || _)|].
    intros c. rewrite Hc.
    set (k := Z.min (Z.of_nat (length buf)) (NUMBER_OF_BYTES_BLOCK - (cc + 1))) in *.
    assert (0 <= k) by (subst k; lia).
    destruct (decide (c = cc)) as [->|Hne].
    + rewrite decide_False by lia. rewrite at_Z_upd.
      case_decide as H1; case_decide as H2; try lia.
      by rewrite Z.sub_diag.
    + rewrite at_Z_upd_other by done.
      case_decide as H1; case_decide as H2; try lia.
      unfold at_Z. destruct (Z.ltb_spec (c - (cc + 1)) 0); [lia|].
      destruct (Z.ltb_spec (c - cc) 0); [lia|].
      replace (Z.to_nat (c - cc)) with (S (Z.to_nat (c - (cc + 1)))) by lia. done.
Qed.

Lemma block_data_put_blocks st cb data b :
  0 <= cb < NUMBER_OF_BLOCKS -> length data = Z.to_nat NUMBER_OF_BYTES_BLOCK ->
  block_data (put_blocks st cb 1 data) b = if decide (b = cb) then data else block_data st b.
Proof.
  intros Hcb Hlen. unfold block_data. case_decide as Hb.
  - subst b. rewrite read_blocks_in_range, disk_put_blocks_1, decide_True, lookup_insert_eq by done.
    cbn [snd default from_option id]. unfold block_of.
    change (Z.to_nat (NUMBER_OF_BYTES_BLOCK * 0)) with 0%nat.
    rewrite drop_0. apply take_ge. lia.
  - unfold read_blocks. by rewrite disk_put_blocks_1_other.
Qed.

Lemma block_data_same_disk st st' b : disk st' = disk st -> block_data st' b = block_data st b.
Proof. intros H. unfold block_data. by rewrite H. Qed.

Lemma at_Z_drop (l : list Z) (m : nat) x :
  0 <= x -> at_Z 0 (drop m l) x = at_Z 0 l (Z.of_nat m + x).
Proof.
  intros Hx. unfold at_Z. destruct (Z.ltb_spec x 0); [lia|].
  destruct (Z.ltb_spec (Z.of_nat m + x) 0); [lia|].
  rewrite lookup_drop. by replace (Z.to_nat (Z.of_nat m + x)) with (m + Z.to_nat x)%nat by lia.
Qed.

Section fwrite_content.
Context (st0 : sfs_state) (fileID n : Z).
Context (Hn : i_node_number (entry (fd_at (open_file_table st0) fileID)) = n).
Context (Hok : file_write_ok st0 n).
Context (buf0 : list Z) (pos0 : Z).
Context (Hfit : pos0 + Z.of_nat (length buf0)
                <= NUMBER_OF_BYTES_BLOCK * Z.of_nat (length (file_blocks st0 n))).

Lemma bytes_written_fill st cb cc bp buf st1 data' k :
  write_progress st0 n pos0 st 0 cb cc bp ->
  bytes_written st0 n pos0 buf0 st bp ->
  buf = drop (Z.to_nat bp) buf0 ->
  fwrite_chars buf st n 0 cb (get_last_file_block st0 n) (get_end_char st0 n)
    (snd (read_blocks (disk st) cb local_buffer)) cc bp
  = (drop (Z.to_nat k) buf, st1, data', cc + k, bp + k) ->
  0 <= k -> cc + k <= NUMBER_OF_BYTES_BLOCK ->
  bytes_written st0 n pos0 buf0 (put_blocks st1 cb 1 data') (bp + k).
Proof.
  intros [_ _ _ _ Hcc Hbp _ _ _ Hphase] Hbw Hbuf Hchars Hk Hck.
  destruct Hphase as [(_ & _ & _ & i & Hi & Hoff)|(? & _)]; [|lia].
  destruct Hok as [Hchain _ _ _ _ _].
  pose proof (fwrite_chars_content buf st n 0 cb (get_last_file_block st0 n)
                (get_end_char st0 n) (snd (read_blocks (disk st) cb local_buffer)) cc bp
                ltac:(lia)) as Hcontent.
  cbv zeta in Hcontent. rewrite Hchars in Hcontent. cbn [fst snd] in Hcontent.
  destruct Hcontent as (Hlen & Hdisk & Hdata).
  fold (block_data st cb) in Hlen, Hdata.
  destruct (Hbw i cb 0 Hi ltac:(geometry; lia)) as [Hlcb _].
  rewrite Hlcb in Hlen, Hdata.
  pose proof (block_positive st0 n Hchain _ _ Hi) as Hcbpos.
  intros j b c Hj Hc. destruct (Hbw j b c Hj Hc) as [Hlb Hold].
  rewrite block_data_put_blocks by (done || lia).
  rewrite (block_data_same_disk st st1 b Hdisk).
  unfold offset_of in *.
  destruct (decide (b = cb)) as [Hb|Hb].
  - subst b. assert (j = i) as -> by (eapply NoDup_lookup; [apply (chain_NoDup _ _ Hchain)|done..]).
    split; [done|]. rewrite Hdata.
    destruct (decide (cc <= c < cc + k /\ _)) as [H1|H1].
    + rewrite decide_True by lia. rewrite Hbuf, at_Z_drop by lia. f_equal. lia.
    + rewrite Hold. repeat case_decide; try done; geometry; lia.
  - assert (j <> i) as Hji by (intros ->; congruence).
    split; [done|]. rewrite Hold.
    repeat case_decide; try done; geometry; lia.
Qed.

Lemma fwrite_fill_content fuel : forall buf st cb cc bp st' cb' cc' bp',
  write_progress st0 n pos0 st 0 cb cc bp ->
  bytes_written st0 n pos0 buf0 st bp ->
  buf <> [] -> buf = drop (Z.to_nat bp) buf0 ->
  fwrite_fill fuel st fileID buf (get_last_file_block st0 n) (get_end_char st0 n) 0 cb cc bp
  = Some (st', cb', cc', bp') ->
  bp' = Z.of_nat (length buf0)
  /\ write_progress st0 n pos0 st' 0 cb' cc' bp'
  /\ bytes_written st0 n pos0 buf0 st' bp'.
Proof.
  set (lb := get_last_file_block st0 n). set (lc := get_end_char st0 n).
  induction fuel as [|fuel IH]; intros buf st cb cc bp st' cb' cc' bp' Hwp Hbw Hbuf Hdrop; [done|].
  assert (0 <= bp /\ bp + Z.of_nat (length buf) = Z.of_nat (length buf0)) as [Hbp Hbl].
  { destruct Hwp as [_ _ _ _ _ Hbp _ _ _ _]. split; [done|].
    rewrite Hdrop, length_drop.
    assert (Z.to_nat bp < length buf0)%nat; [|lia].
    destruct (decide (Z.to_nat bp < length buf0)%nat) as [|Hge]; [done|].
    rewrite drop_ge in Hdrop by lia. done. }
  assert (forall st cb cc,
            write_progress st0 n pos0 st 0 cb cc bp ->
            bytes_written st0 n pos0 buf0 st bp ->
            cc < NUMBER_OF_BYTES_BLOCK ->
            (let data_block := snd (read_blocks (disk st) cb local_buffer) in
             let '(buf', st1, data_block0, cc0, buf_pos) :=
               fwrite_chars buf st n 0 cb lb lc data_block cc bp in
             let st2 := put_blocks st1 cb 1 data_block0 in
             match buf' with
             | [] => Some (st2, cb, cc0, buf_pos)
             | _ :: _ => fwrite_fill fuel st2 fileID buf' lb lc 0 cb cc0 buf_pos
             end) = Some (st', cb', cc', bp') ->
            bp' = Z.of_nat (length buf0)
            /\ write_progress st0 n pos0 st' 0 cb' cc' bp'
            /\ bytes_written st0 n pos0 buf0 st' bp') as Hfill.
  { clear st cb cc Hwp Hbw. intros st cb cc Hwp Hbw Hroom. cbv zeta.
    destruct (write_progress_fill st0 n Hok pos0 st 0 cb cc bp buf Hwp Hroom Hbuf)
      as (st1 & data' & k & Hk & Hchars & Hrest & Hwp').
    fold lb lc in Hchars. rewrite Hchars.
    assert (cc + k <= NUMBER_OF_BYTES_BLOCK) as Hck
      by (destruct Hwp' as [_ _ _ _ Hcc' _ _ _ _ _]; lia).
    pose proof (bytes_written_fill st cb cc bp buf st1 data' k Hwp Hbw Hdrop Hchars
                  ltac:(lia) Hck) as Hbw'.
    destruct (drop (Z.to_nat k) buf) as [|y rest] eqn:Hd.
    - assert (k = Z.of_nat (length buf)) as Hkl.
      { apply (f_equal length) in Hd. rewrite length_drop in Hd. cbn [length] in Hd. lia. }
      intros [= <- <- <- <-]. split; [lia|]. done.
    - intros Hres. apply (IH (y :: rest)) in Hres; [done|done|done|done|].
      rewrite <- Hd, Hdrop, drop_drop. f_equal. lia. }
  cbn [fwrite_fill].
  pose proof Hwp as [Ht Hin Hnode Hbm Hcc _ Hsize Hind Hused Hphase].
  rewrite Ht, Hn.
  destruct (Z.leb_spec NUMBER_OF_BYTES_BLOCK cc) as [Hfull|Hroom]; [|by apply Hfill].
  assert (cc = NUMBER_OF_BYTES_BLOCK) as -> by lia.
  destruct Hok as [Hchain Hrange0 Hlen0 Hind0 Hapart0 Hused0].
  destruct Hphase as [(_ & Hfs & Hdisk & i & Hi & Hoff)|(? & _)]; [|lia].
  destruct (first_phase_view st0 n Hok st _ Hfs Hdisk) as (_ & _ & _ & Hnextv).
  rewrite Hnextv, (get_next_file_block_spec st0 n cb i (chain_node_ok _ _ Hchain)
                     (chain_NoDup _ _ Hchain) Hi).
  assert (0 < Z.of_nat (length buf)) as Hpos by (destruct buf; [done|cbn [length]; lia]).
  destruct (file_blocks st0 n !! S i) as [tb|] eqn:Htb; cbn [default from_option id].
  - pose proof (block_positive st0 n Hchain _ _ Htb) as Htbpos.
    destruct (Z.ltb_spec tb 0) as [?|_]; [lia|]. cbn [Z.ltb Z.eqb Z.compare].
    apply Hfill; [|done|geometry; lia].
    split; try done; try (geometry; lia).
    left. split; [done|]. split; [done|]. split; [done|].
    exists (S i). split; [done|]. unfold offset_of in *. geometry. lia.
  - exfalso. pose proof (lookup_ge_None_1 _ _ Htb) as Hlast.
    unfold offset_of in Hoff. geometry. lia.
Qed.

End fwrite_content.

Lemma disk_set_fd st i x : disk (set_fd st i x) = disk st.
Proof. done. Qed.

Lemma bytes_written_start st n pos buf :
  file_blocks_sized st n -> bytes_written st n pos buf st 0.
Proof.
  intros Hs j b c Hj Hc. unfold file_blocks_sized in Hs. rewrite Forall_lookup in Hs.
  split; [by eapply Hs|]. rewrite decide_False by lia. done.
Qed.

Lemma offset_of_div_mod off :
  0 <= off ->
  offset_of (Z.to_nat (off / NUMBER_OF_BYTES_BLOCK)) (off `mod` NUMBER_OF_BYTES_BLOCK) = off
  /\ 0 <= off `mod` NUMBER_OF_BYTES_BLOCK < NUMBER_OF_BYTES_BLOCK.
Proof.
  intros Hoff. unfold offset_of. rewrite Z2Nat.id by (apply Z.div_pos; geometry; lia).
  split; [symmetry; apply Z.div_mod; geometry; lia|apply Z.mod_pos_bound; geometry; lia].
Qed.

(** What [ssfs_fwrite] does when the write fits in the blocks of the file. *)
Lemma ssfs_fwrite_in_place (st : sfs_state) (fileID : Z) (buf : list Z) (i : nat) :
  let f := fd_at (open_file_table st) fileID in
  let n := i_node_number (entry f) in
  let pos := offset_of i (c_ptr (write_pointer f)) in
  let L := Z.of_nat (length buf) in
  name (entry f) <> EmptyString ->
  file_write_ok st n -> file_blocks_sized st n -> file_in_data_region st n ->
  file_blocks st n !! i = Some (block (write_pointer f)) ->
  0 <= c_ptr (write_pointer f) <= NUMBER_OF_BYTES_BLOCK ->
  pos + L <= NUMBER_OF_BYTES_BLOCK * Z.of_nat (length (file_blocks st n)) ->
  exists st' (i' : nat),
    let f' := fd_at (open_file_table st') fileID in
    ssfs_fwrite st fileID buf = Some (L, st')
    /\ file_blocks st' n = file_blocks st n
    /\ (forall off,
          0 <= off < NUMBER_OF_BYTES_BLOCK * Z.of_nat (length (file_blocks st n)) ->
          file_byte st' n off
          = if decide (pos <= off < pos + L) then at_Z 0 buf (off - pos)
            else file_byte st n off)
    /\ file_bytes st' n pos L = buf
    /\ size (node_of (file_system st') n)
       = size (node_of (file_system st) n) + Z.max 0 (pos + L - Z.max pos (end_of_file st n))
    /\ entry f' = entry f /\ read_pointer f' = read_pointer f
    /\ file_blocks st n !! i' = Some (block (write_pointer f'))
    /\ 0 <= c_ptr (write_pointer f') <= NUMBER_OF_BYTES_BLOCK
    /\ offset_of i' (c_ptr (write_pointer f')) = pos + L
    /\ file_write_ok st' n /\ file_blocks_sized st' n /\ file_in_data_region st' n.
Proof.
  intros f n pos L Hname Hok Hsized Hregion Hi Hcc Hfit.
  assert (0 <= pos) as Hpos0 by (unfold pos, offset_of; geometry; lia).
  destruct buf as [|x rest].
  { exists st, i. cbv zeta. subst L. cbn [length]. change (Z.of_nat 0) with 0.
    rewrite Z.add_0_r. split; [done|]. split; [done|].
    split; [intros off _; by rewrite decide_False by lia|].
    split; [done|]. split; [lia|]. done. }
  set (buf := x :: rest) in *.
  pose proof (write_progress_start st n Hok i _ _ Hi Hcc) as Hwp0. fold f pos in Hwp0.
  pose proof (bytes_written_start st n pos buf Hsized) as Hbw0.
  destruct (fwrite_fill_spec st fileID n eq_refl Hok pos L (S (length buf)) buf st 0
              (block (write_pointer f)) (c_ptr (write_pointer f)) 0 Hwp0)
    as (st1 & cb' & cc' & bp' & Hres & Ht & Hbp & Hsize & _); [done|lia|lia|].
  assert (buf <> []) as Hbufne by (unfold buf; done).
  destruct (fwrite_fill_content st fileID n eq_refl Hok buf pos Hfit (S (length buf)) buf st
              (block (write_pointer f)) (c_ptr (write_pointer f)) 0 st1 cb' cc' bp'
              Hwp0 Hbw0 Hbufne eq_refl Hres) as (Hbp' & Hwp1 & Hbw1).
  fold L in Hbp'. subst bp'.
  unfold ssfs_fwrite. fold buf. cbv beta iota. fold f n. rewrite Hres.
  set (st2 := put_blocks st1 1 BLOCKS_I_NODE_FILE _).
  assert (fd_at (open_file_table st2) fileID = f) as Hf2.
  { unfold st2. by rewrite open_file_table_put_blocks, Ht. }
  rewrite Hf2.
  set (st' := set_fd st2 fileID _).
  destruct Hwp1 as [_ Hin1 Hnode1 Hbm1 Hcc1 _ Hsize1 Hind1 Hused1 Hphase1].
  destruct Hphase1 as [(_ & Hfs1 & Hdisk1 & i' & Hi' & Hoff')|(? & _)]; [|lia].
  destruct (first_phase_view st n Hok st1 _ Hfs1 Hdisk1) as (Hp1 & Hip1 & Hchain1 & _).
  assert (file_system st' = file_system st1) as Hfs'.
  { unfold st', st2. by rewrite file_system_set_fd, file_system_put_blocks. }
  assert (forall b, FIRST_DATA_BLOCK <= b -> disk st' !! b = disk st1 !! b) as Hdisk'.
  { intros b Hb. unfold st', st2. rewrite disk_set_fd.
    apply disk_put_blocks_other. geometry. lia. }
  destruct Hregion as [Hrb Hri].
  pose proof Hok as [Hchain Hrange0 Hlen0 Hind0 Hapart0 Hused0].
  assert (disk st' !! ind_pointer (node_of (file_system st) n)
          = disk st !! ind_pointer (node_of (file_system st) n)) as Hdind.
  { destruct (decide (ind_pointer (node_of (file_system st) n) = 0)) as [H0|Hne].
    - rewrite H0. unfold st', st2. rewrite disk_set_fd.
      rewrite disk_put_blocks_other by (geometry; lia).
      rewrite <- H0. by apply Hdisk1.
    - rewrite Hdisk' by (specialize (Hri Hne); lia). by apply Hdisk1. }
  assert (file_blocks st' n = file_blocks st n) as Hchain'.
  { apply file_blocks_ext; rewrite ?Hfs'; done. }
  assert (forall b, b ∈ file_blocks st n -> block_data st' b = block_data st1 b) as Hbd.
  { intros b Hb. unfold block_data, read_blocks. rewrite Hdisk'; [done|].
    rewrite Forall_forall in Hrb. specialize (Hrb b Hb). lia. }
  assert (forall off,
            0 <= off < NUMBER_OF_BYTES_BLOCK * Z.of_nat (length (file_blocks st n)) ->
            file_byte st' n off
            = if decide (pos <= off < pos + L) then at_Z 0 buf (off - pos)
              else file_byte st n off) as Hbytes.
  { intros off Hoff. destruct (offset_of_div_mod off) as [Hdm Hm]; [lia|].
    set (j := Z.to_nat (off / NUMBER_OF_BYTES_BLOCK)) in *.
    set (c := off `mod` NUMBER_OF_BYTES_BLOCK) in *.
    assert (j < length (file_blocks st n))%nat as Hj by (unfold offset_of in Hdm; geometry; lia).
    destruct (lookup_lt_is_Some_2 _ _ Hj) as [b Hb].
    clearbody j c. subst off.
    rewrite (file_byte_in_block st' n j b c), (file_byte_in_block st n j b c);
      [|done|done|by rewrite Hchain'|done].
    rewrite Hbd by (by eapply list_elem_of_lookup_2).
    by destruct (Hbw1 j b c Hb Hm) as [_ ->]. }
  exists st', i'. cbv zeta.
  assert (fd_at (open_file_table st') fileID
          = mk_fd (entry f) (read_pointer f) (mk_file_pointer cb' cc')) as Hf'.
  { unfold st'. apply fd_at_set_fd_same. unfold st2.
    rewrite open_file_table_put_blocks, Ht. by apply fd_at_in_range. }
  rewrite Hf'. cbn [entry read_pointer write_pointer block c_ptr].
  split; [done|]. split; [done|]. split; [done|].
  split.
  { etransitivity; [|apply (fmap_seqZ_at_Z buf)]. unfold file_bytes. apply fmap_seqZ_ext.
    intros j Hj. rewrite Hbytes by (fold L in Hj; lia).
    rewrite decide_True by (fold L in Hj; lia). f_equal. lia. }
  split; [by rewrite Hfs', Hsize1|].
  split; [done|]. split; [done|]. split; [done|]. split; [done|]. split; [done|].
  split; [|split].
  - split; [split| | | | |]; rewrite ?Hfs', ?Hchain'; try done.
    + apply (chain_NoDup _ _ Hchain).
    + apply (chain_blocks _ _ Hchain).
    + rewrite Hsize1. pose proof (chain_size _ _ Hchain). unfold bytes_past. lia.
    + by rewrite Hip1.
  - unfold file_blocks_sized. rewrite Hchain'. apply Forall_lookup. intros j b Hb.
    rewrite Hbd by (by eapply list_elem_of_lookup_2).
    by destruct (Hbw1 j b 0 Hb ltac:(geometry; lia)) as [-> _].
  - split; rewrite ?Hfs', ?Hchain', ?Hip1; done.
Qed.

(** X15.  A write that fits in the blocks that the file has: for an open
    descriptor whose write cursor is at offset [pos] of a well-formed file
    that lies in the data region, when [pos + length] does not pass the
    end of the last block of the file, [ssfs_fwrite] returns [length],
    appends no block, and leaves the bytes of the buffer at the offsets
    [pos .. pos + length - 1] of the file and every other byte of the
    file as it was.  The write cursor advances by [length], the read
    cursor stays, the size grows by the number of bytes written past the
    end of file, and the file is again well formed. *)
Theorem fwrite_in_place_stores_the_bytes
    (st : sfs_state) (fileID : Z) (buf : list Z) (i : nat) :
  let f := fd_at (open_file_table st) fileID in
  let n := i_node_number (entry f) in
  let pos := offset_of i (c_ptr (write_pointer f)) in
  let L := Z.of_nat (length buf) in
  name (entry f) <> EmptyString ->
  file_write_ok st n -> file_blocks_sized st n -> file_in_data_region st n ->
  file_blocks st n !! i = Some (block (write_pointer f)) ->
  0 <= c_ptr (write_pointer f) <= NUMBER_OF_BYTES_BLOCK ->
  pos + L <= NUMBER_OF_BYTES_BLOCK * Z.of_nat (length (file_blocks st n)) ->
  exists st' (i' : nat),
    let f' := fd_at (open_file_table st') fileID in
    ssfs_fwrite st fileID buf = Some (L, st')
    /\ file_blocks st' n = file_blocks st n
    /\ (forall off,
          0 <= off < NUMBER_OF_BYTES_BLOCK * Z.of_nat (length (file_blocks st n)) ->
          file_byte st' n off
          = if decide (pos <= off < pos + L) then at_Z 0 buf (off - pos)
            else file_byte st n off)
    /\ file_bytes st' n pos L = buf
    /\ size (node_of (file_system st') n)
       = size (node_of (file_system st) n) + Z.max 0 (pos + L - Z.max pos (end_of_file st n))
    /\ entry f' = entry f /\ read_pointer f' = read_pointer f
    /\ file_blocks st n !! i' = Some (block (write_pointer f'))
    /\ 0 <= c_ptr (write_pointer f') <= NUMBER_OF_BYTES_BLOCK
    /\ offset_of i' (c_ptr (write_pointer f')) = pos + L
    /\ file_write_ok st' n /\ file_blocks_sized st' n /\ file_in_data_region st' n.
Proof. exact (ssfs_fwrite_in_place st fileID buf i). Qed.

(** The end of file is at the size of the file when the size lies in the
    last block of the file. *)
Lemma end_of_file_size st n :
  let m := Z.of_nat (length (file_blocks st n)) in
  let sz := size (node_of (file_system st) n) in
  NUMBER_OF_BYTES_BLOCK * (m - 1) <= sz <= NUMBER_OF_BYTES_BLOCK * m -> 0 <= sz ->
  end_of_file st n = sz.
Proof.
  intros m sz Hsz H0. unfold end_of_file, get_end_char, get_file_size.
  rewrite get_num_file_blocks_spec. fold m sz.
  rewrite Z.rem_mod_nonneg by (geometry; lia).
  geometry.
  assert (sz = 1024 * (m - 1) + (sz - 1024 * (m - 1))) as Hd by lia.
  destruct (decide (sz = 1024 * m)) as [Hfull|Hnot].
  - assert (sz `mod` 1024 = 0) as ->.
    { rewrite Hfull, Z.mul_comm. apply Z.mod_mul. lia. }
    cbn [Z.eqb]. destruct (Z.eqb_spec sz (m * 1024)); lia.
  - assert (sz `mod` 1024 = sz - 1024 * (m - 1)) as ->.
    { symmetry. apply Z.mod_unique with (m - 1); [left|]; lia. }
    destruct (Z.eqb_spec (sz - 1024 * (m - 1)) 0); [|lia].
    destruct (Z.eqb_spec sz (m * 1024)); lia.
Qed.

(** X16.  What is written is read back: for an open descriptor whose read
    and write cursors are at the same place of the file, not past its end
    of file, a write that fits in the blocks of the file followed by a
    read of as many bytes returns the bytes that were written.  (The size
    of the file is assumed to be the offset of its end of file, as it is
    for the files that [ssfs_fopen] creates and [ssfs_fwrite] extends.) *)
Theorem fread_after_fwrite_returns_the_bytes
    (st : sfs_state) (fileID : Z) (buf : list Z) (i : nat) :
  let f := fd_at (open_file_table st) fileID in
  let n := i_node_number (entry f) in
  let pos := offset_of i (c_ptr (write_pointer f)) in
  let L := Z.of_nat (length buf) in
  name (entry f) <> EmptyString ->
  file_write_ok st n -> file_blocks_sized st n -> file_in_data_region st n ->
  file_blocks st n !! i = Some (block (write_pointer f)) ->
  0 <= c_ptr (write_pointer f) <= NUMBER_OF_BYTES_BLOCK ->
  pos + L <= NUMBER_OF_BYTES_BLOCK * Z.of_nat (length (file_blocks st n)) ->
  read_pointer f = write_pointer f ->
  size (node_of (file_system st) n) = end_of_file st n ->
  pos <= end_of_file st n ->
  exists st1 st2,
    ssfs_fwrite st fileID buf = Some (L, st1)
    /\ ssfs_fread st1 fileID L = Some (L, buf, st2).
Proof.
  intros f n pos L Hname Hok Hsized Hregion Hi Hcc Hfit Hrw Hsize Hpos.
  destruct (ssfs_fwrite_in_place st fileID buf i Hname Hok Hsized Hregion Hi Hcc Hfit)
    as (st1 & i' & Hw & Hchain1 & _ & Hbytes & Hsize1 & He & Hr & _ & _ & _ & Hok1 & _).
  fold f n pos L in Hw, Hbytes, Hsize1, He, Hr, Hchain1, Hok1.
  exists st1.
  set (f1 := fd_at (open_file_table st1) fileID) in *.
  assert (i_node_number (entry f1) = n) as Hn1 by (by rewrite He).
  destruct (ssfs_fread_bytes st1 fileID L i) as (st2 & _ & Hread & _).
  - fold f1. by rewrite He.
  - fold f1. rewrite Hn1. apply (write_chain_ok _ _ Hok1).
  - fold f1. by rewrite Hn1, Hchain1, Hr, Hrw.
  - fold f1. by rewrite Hr, Hrw.
  - exists st2. split; [done|]. fold f1 in Hread. rewrite Hn1, Hr, Hrw in Hread. fold pos in Hread.
    assert (Z.max 0 (Z.min L (end_of_file st1 n - pos)) = L) as Hk.
    { pose proof (get_end_char_range st n (chain_size _ _ (write_chain_ok _ _ Hok))) as Hec.
      pose proof (lookup_lt_Some _ _ _ Hi) as Hil.
      assert (end_of_file st1 n = size (node_of (file_system st1) n)) as ->.
      { apply end_of_file_size; cbv zeta; rewrite ?Hchain1, ?Hsize1, ?Hsize;
          unfold end_of_file in *; geometry; lia. }
      rewrite Hsize1, Hsize. unfold end_of_file in *. geometry. subst L. lia. }
    rewrite Hk in Hread. by rewrite Hread, Hbytes.
Qed.

Lemma file_in_data_region_st_reopened_at_1000 : file_in_data_region st_reopened_at_1000 5.
Proof.
  split.
  - decide_by_computation.
  - intros H. exfalso. apply H. vm_compute. reflexivity.
Qed.

Lemma fwrite_in_place_stores_the_bytes_witness :
  exists st',
    ssfs_fwrite st_reopened_at_1000 0 (replicate 20 7) = Some (20, st')
    /\ file_bytes st' 5 1000 20 = replicate 20 7.
Proof.
  destruct (fwrite_in_place_stores_the_bytes st_reopened_at_1000 0 (replicate 20 7) 0)
    as (st' & i' & H1 & _ & _ & H2 & _).
  - vm_compute. discriminate.
  - exact file_write_ok_st_reopened_at_1000.
  - decide_by_computation.
  - exact file_in_data_region_st_reopened_at_1000.
  - vm_compute. reflexivity.
  - decide_by_computation.
  - decide_by_computation.
  - exists st'. split; [exact H1|exact H2].
Defined.

Lemma file_write_ok_st_created : file_write_ok st_created 5.
Proof.
  split.
  - split; [vm_compute; reflexivity|decide_by_computation..].
  - split; decide_by_computation.
  - vm_compute. reflexivity.
  - decide_by_computation.
  - decide_by_computation.
  - intros H. exfalso. apply H. vm_compute. reflexivity.
Qed.

Lemma fread_after_fwrite_returns_the_bytes_witness :
  exists st1 st2,
    ssfs_fwrite st_created 0 (pattern 100) = Some (100, st1)
    /\ ssfs_fread st1 0 100 = Some (100, pattern 100, st2).
Proof.
  destruct (fread_after_fwrite_returns_the_bytes st_created 0 (pattern 100) 0)
    as (st1 & st2 & H1 & H2).
  - vm_compute. discriminate.
  - exact file_write_ok_st_created.
  - decide_by_computation.
  - split; [decide_by_computation|].
    intros H. exfalso. apply H. vm_compute. reflexivity.
  - vm_compute. reflexivity.
  - decide_by_computation.
  - decide_by_computation.
  - vm_compute. reflexivity.
  - vm_compute. reflexivity.
  - decide_by_computation.
  - exists st1, st2. split; [exact H1|exact H2].
Defined.

(** ** Commit and restore *)

Lemma open_file_table_with_fs st fs : open_file_table (with_fs st fs) = open_file_table st.
Proof. done. Qed.

Lemma gnfni_with_fs st fs : gnfni (with_fs st fs) = gnfni st.
Proof. done. Qed.

Lemma keeps_snapshots_refl st : keeps_snapshots st st.
Proof. by repeat split. Qed.

Lemma keeps_snapshots_trans st1 st2 st3 :
  keeps_snapshots st1 st2 -> keeps_snapshots st2 st3 -> keeps_snapshots st1 st3.
Proof.
  intros (A1 & A2 & A3 & A4) (B1 & B2 & B3 & B4). repeat split; try congruence.
  intros k Hk. by rewrite B1, A1.
Qed.

(** A change of the file system that leaves the directories as they are. *)
Lemma keeps_snapshots_fs st st' :
  directory (file_system st') = directory (file_system st) ->
  open_file_table st' = open_file_table st -> gnfni st' = gnfni st ->
  keeps_snapshots st st'.
Proof. intros H1 H2 H3. repeat split; try done; by rewrite H1. Qed.

Lemma directory_get_free_block fs : directory (snd (get_free_block fs)) = directory fs.
Proof. by destruct (get_free_block_cases fs) as [[-> _]|(b & -> & _)]. Qed.

Lemma gnfni_put_blocks st a n b : gnfni (put_blocks st a n b) = gnfni st.
Proof. done. Qed.

Lemma keeps_snapshots_set_dir_entry st i e :
  keeps_snapshots st (with_fs st (set_dir_entry (file_system st) 0 i e)).
Proof.
  repeat split.
  - intros k Hk. rewrite file_system_with_fs. unfold set_dir_entry.
    cbn [directory with_directory]. by rewrite at_Z_upd_other.
  - rewrite file_system_with_fs. apply length_directory_set_dir_entry.
Qed.

Lemma keeps_snapshots_dump st : keeps_snapshots st (dump_file_system_to_disk st).
Proof.
  apply keeps_snapshots_fs;
    [by rewrite file_system_dump|apply open_file_table_dump|apply gnfni_dump].
Qed.

Lemma keeps_snapshots_rm_file_from_disk s i st :
  keeps_snapshots st (snd (rm_file_from_disk s i st)).
Proof.
  destruct (rm_file_from_disk_spec s i st) as ((H1 & _ & _ & H2 & _ & H3) & _).
  by apply keeps_snapshots_fs.
Qed.

Lemma keeps_snapshots_rm_file_from_dir f st :
  keeps_snapshots st (snd (rm_file_from_dir f st)).
Proof.
  unfold rm_file_from_dir. destruct (first_index _ _ _) as [i|]; cbn [snd].
  - eapply keeps_snapshots_trans; [apply (keeps_snapshots_rm_file_from_disk 0 i)|].
    eapply keeps_snapshots_trans; [apply (keeps_snapshots_set_dir_entry _ i init_dir_entry)|].
    apply keeps_snapshots_dump.
  - apply keeps_snapshots_refl.
Qed.

Lemma keeps_snapshots_add_file_to_dir st f ib0 in0 :
  keeps_snapshots st (snd (add_file_to_dir st f ib0 in0)).
Proof.
  unfold add_file_to_dir.
  destruct (first_index _ _ _) as [k|]; [|apply keeps_snapshots_refl].
  destruct (get_free_i_node _ _) as [ino ib].
  destruct (ino =? -1); [apply keeps_snapshots_refl|].
  pose proof (directory_get_free_block (file_system st)) as Hd.
  destruct (get_free_block (file_system st)) as [blk fs1]. cbn [snd] in Hd.
  destruct (blk =? -1); cbn [snd].
  { by apply keeps_snapshots_fs. }
  repeat split; rewrite ?file_system_put_blocks, ?file_system_with_fs.
  - intros j Hj. rewrite directory_set_i_node. unfold set_dir_entry at 1.
    cbn [directory with_directory]. rewrite at_Z_upd_other by done.
    unfold set_dir_entry at 1. cbn [directory with_directory]. rewrite at_Z_upd_other by done.
    by rewrite directory_set_i_node, Hd.
  - by rewrite directory_set_i_node, !length_directory_set_dir_entry, directory_set_i_node, Hd.
Qed.

Lemma keeps_snapshots_copy_block st a b : keeps_snapshots st (copy_block st a b).
Proof. by apply keeps_snapshots_fs. Qed.

Lemma keeps_snapshots_get_free_block st :
  keeps_snapshots st (with_fs st (snd (get_free_block (file_system st)))).
Proof.
  apply keeps_snapshots_fs; [|done|done].
  rewrite file_system_with_fs. apply directory_get_free_block.
Qed.

Lemma keeps_snapshots_copy_file_direct n : forall i a b st,
  keeps_snapshots st (snd (copy_file_direct n i a b st)).
Proof.
  induction n as [|n IH]; intros i a b st; cbn [copy_file_direct];
    [apply keeps_snapshots_refl|].
  destruct (_ =? 0); [apply keeps_snapshots_refl|].
  pose proof (keeps_snapshots_get_free_block st) as Hg.
  destruct (get_free_block (file_system st)) as [blk fs1]. cbn [snd] in Hg.
  destruct (blk <? 0); [done|].
  eapply keeps_snapshots_trans; [exact Hg|].
  eapply keeps_snapshots_trans; [|apply IH]. apply keeps_snapshots_copy_block.
Qed.

Lemma keeps_snapshots_copy_file_indirect n : forall i o c st,
  keeps_snapshots st (snd (copy_file_indirect n i o c st)).
Proof.
  induction n as [|n IH]; intros i o c st; cbn [copy_file_indirect];
    [apply keeps_snapshots_refl|].
  destruct (_ =? 0); [apply keeps_snapshots_refl|].
  pose proof (keeps_snapshots_get_free_block st) as Hg.
  destruct (get_free_block (file_system st)) as [blk fs1]. cbn [snd] in Hg.
  destruct (blk <? 0); [done|].
  eapply keeps_snapshots_trans; [exact Hg|].
  eapply keeps_snapshots_trans; [|apply IH]. apply keeps_snapshots_copy_block.
Qed.

Lemma keeps_snapshots_set_node_of st n nd :
  keeps_snapshots st (with_fs st (set_node_of (file_system st) n nd)).
Proof. apply keeps_snapshots_fs; [|done|done]. by rewrite file_system_with_fs, directory_set_node_of. Qed.

Lemma keeps_snapshots_copy_file st a b : keeps_snapshots st (snd (copy_file st a b)).
Proof.
  unfold copy_file.
  set (st1 := copy_block _ _ _).
  assert (keeps_snapshots st st1) as H1.
  { eapply keeps_snapshots_trans; [apply (keeps_snapshots_set_node_of st b)|].
    apply keeps_snapshots_copy_block. }
  pose proof (keeps_snapshots_copy_file_direct (Z.to_nat (NUMBER_OF_POINTERS - 1)) 1 a b st1) as H2.
  destruct (copy_file_direct _ 1 a b st1) as [[r|] st2]; cbn [snd] in H2 |- *.
  { by eapply keeps_snapshots_trans. }
  destruct (_ =? 0); cbn [snd]; [by eapply keeps_snapshots_trans|].
  pose proof (keeps_snapshots_get_free_block st2) as Hg.
  destruct (get_free_block (file_system st2)) as [blk fs3]. cbn [snd] in Hg.
  destruct (blk <? 0); cbn [snd].
  { eapply keeps_snapshots_trans; [exact H1|]. by eapply keeps_snapshots_trans. }
  set (st4 := with_fs (with_fs st2 fs3) _).
  assert (keeps_snapshots st st4) as H4.
  { eapply keeps_snapshots_trans; [exact H1|]. eapply keeps_snapshots_trans; [exact H2|].
    eapply keeps_snapshots_trans; [exact Hg|].
    apply (keeps_snapshots_set_node_of (with_fs st2 fs3) b). }
  match goal with |- context [copy_file_indirect ?n ?i ?o ?c st4] =>
    pose proof (keeps_snapshots_copy_file_indirect n i o c st4) as H5;
    destruct (copy_file_indirect n i o c st4) as [[r|] st5]
  end; cbn [snd] in H5 |- *; by eapply keeps_snapshots_trans.
Qed.

Lemma keeps_snapshots_restore_entries n : forall i s st,
  keeps_snapshots st (snd (restore_entries n i s st)).
Proof.
  induction n as [|n IH]; intros i s st; cbn [restore_entries];
    [apply keeps_snapshots_refl|].
  destruct (name_empty _); [apply IH|].
  pose proof (keeps_snapshots_add_file_to_dir st (name (dir_entry (file_system st) s i)) 0 0) as Ha.
  destruct (add_file_to_dir st _ 0 0) as [[[e ib] ino] st1]. cbn [snd] in Ha.
  destruct (e <? 0); cbn [snd].
  { eapply keeps_snapshots_trans; [exact Ha|]. apply keeps_snapshots_rm_file_from_dir. }
  match goal with |- context [copy_file st1 ?a ?b] =>
    pose proof (keeps_snapshots_copy_file st1 a b) as Hc;
    destruct (copy_file st1 a b) as [err st2]
  end. cbn [snd] in Hc.
  destruct (err <? 0); cbn [snd].
  - eapply keeps_snapshots_trans; [exact Ha|]. eapply keeps_snapshots_trans; [exact Hc|].
    apply keeps_snapshots_rm_file_from_dir.
  - eapply keeps_snapshots_trans; [exact Ha|]. eapply keeps_snapshots_trans; [exact Hc|].
    apply IH.
Qed.

Lemma keeps_snapshots_restore_shadow_directory st s :
  keeps_snapshots st (snd (restore_shadow_directory st s)).
Proof.
  unfold restore_shadow_directory.
  destruct (_ || _); [apply keeps_snapshots_refl|].
  pose proof (keeps_snapshots_restore_entries (Z.to_nat MAX_FILES) 0 s st) as H.
  destruct (restore_entries _ 0 s st) as [[r|] st1]; cbn [snd] in H |- *; [done|].
  eapply keeps_snapshots_trans; [exact H|]. apply keeps_snapshots_dump.
Qed.

Lemma at_Z_set_dir_entry_other fs s i e k :
  k <> s -> at_Z [] (directory (set_dir_entry fs s i e)) k = at_Z [] (directory fs) k.
Proof.
  intros Hk. unfold set_dir_entry. cbn [directory with_directory]. by rewrite at_Z_upd_other.
Qed.

(** [free_shadow_directory] changes no directory but the one it frees. *)
Lemma free_shadow_directory_frame st s :
  let st' := free_shadow_directory st s in
  (forall k, k <> s ->
     at_Z [] (directory (file_system st')) k = at_Z [] (directory (file_system st)) k)
  /\ length (directory (file_system st')) = length (directory (file_system st))
  /\ open_file_table st' = open_file_table st
  /\ gnfni st' = gnfni st.
Proof.
  cbv zeta. unfold free_shadow_directory.
  rewrite file_system_dump, open_file_table_dump, gnfni_dump.
  generalize (seqZ 0 MAX_FILES). intros l. revert st.
  induction l as [|i l IH]; intros st; cbn [foldl]; [done|].
  destruct (name_empty _); [apply IH|].
  match goal with |- context [foldl _ ?st1 l] =>
    destruct (IH st1) as (H1 & H2 & H3 & H4);
    assert ((forall k, k <> s ->
               at_Z [] (directory (file_system st1)) k = at_Z [] (directory (file_system st)) k)
            /\ length (directory (file_system st1)) = length (directory (file_system st))
            /\ open_file_table st1 = open_file_table st
            /\ gnfni st1 = gnfni st) as (G1 & G2 & G3 & G4)
  end.
  { destruct (rm_file_from_disk_spec s i st) as ((D1 & _ & _ & D2 & _ & D3) & _).
    rewrite file_system_with_fs. split; [|split; [|done]].
    - intros k Hk. by rewrite at_Z_set_dir_entry_other, D1.
    - by rewrite length_directory_set_dir_entry, D1. }
  split; [|split; [|split]]; try congruence.
  intros k Hk. by rewrite H1, G1.
Qed.

Lemma keeps_snapshots_free_live st : keeps_snapshots st (free_shadow_directory st 0).
Proof.
  destruct (free_shadow_directory_frame st 0) as (F1 & F2 & F3 & F4). by split.
Qed.

Lemma keeps_snapshots_init_live st :
  keeps_snapshots st
    (with_fs st (with_directory (file_system st) (upd_Z (directory (file_system st)) 0 init_dir))).
Proof.
  split; [|split; [|done]].
  - intros k Hk. rewrite file_system_with_fs. cbn [directory with_directory].
    by rewrite at_Z_upd_other.
  - rewrite file_system_with_fs. cbn [directory with_directory]. by rewrite length_upd_Z.
Qed.

(** X17.  [ssfs_restore] changes no snapshot: whatever its argument, the
    directories other than the live one, the open-file table (a
    descriptor that is open stays so, with the i-node number it had) and
    the cursor of the enumeration are as before.  For the argument 0 it
    returns 0, for an argument that is not a snapshot it returns -1, and
    in both cases it changes nothing. *)
Theorem restore_keeps_the_snapshots (st : sfs_state) (cnum : Z) :
  let r := fst (ssfs_restore st cnum) in
  let st' := snd (ssfs_restore st cnum) in
  keeps_snapshots st st'
  /\ (cnum = 0 -> r = Some 0 /\ st' = st)
  /\ (cnum < 0 \/ MAX_DIRS_INCL_SHAD <= cnum -> r = Some (-1) /\ st' = st).
Proof.
  cbv zeta. unfold ssfs_restore.
  destruct (Z.eqb_spec cnum 0) as [->|Hne].
  { cbn [fst snd]. split; [apply keeps_snapshots_refl|]. split; [done|]. geometry. lia. }
  destruct (Z.ltb_spec cnum 0) as [Hneg|Hpos]; cbn [orb].
  { cbn [fst snd]. split; [apply keeps_snapshots_refl|]. done. }
  destruct (Z.leb_spec MAX_DIRS_INCL_SHAD cnum) as [Hbig|Hsmall].
  { cbn [fst snd]. split; [apply keeps_snapshots_refl|]. done. }
  cbn [fst snd]. split; [|split; [done|lia]].
  eapply keeps_snapshots_trans; [|apply keeps_snapshots_dump].
  eapply keeps_snapshots_trans; [|apply keeps_snapshots_restore_shadow_directory].
  eapply keeps_snapshots_trans; [apply keeps_snapshots_free_live|].
  apply keeps_snapshots_init_live.
Qed.

(** X18.  [ssfs_commit] returns 0 and moves every directory one snapshot
    further: snapshot 1 is the live directory as it was, with the i-node
    numbers it had, and snapshot [k + 1] is the former snapshot [k]; the
    oldest snapshot is dropped.  The open-file table is as before, so a
    descriptor opened before the commit holds the i-node number of the
    file of snapshot 1. *)
Theorem commit_shifts_the_snapshots (st : sfs_state) :
  length (directory (file_system st)) = Z.to_nat MAX_DIRS_INCL_SHAD ->
  let st' := snd (ssfs_commit st) in
  fst (ssfs_commit st) = 0
  /\ (forall k, 1 <= k < MAX_DIRS_INCL_SHAD ->
        at_Z [] (directory (file_system st')) k = at_Z [] (directory (file_system st)) (k - 1))
  /\ open_file_table st' = open_file_table st
  /\ gnfni st' = gnfni st.
Proof.
  intros Hlen. cbv zeta. unfold ssfs_commit. cbn [fst snd]. split; [done|].
  destruct (free_shadow_directory_frame st (MAX_DIRS_INCL_SHAD - 1)) as (F1 & F2 & F3 & F4).
  set (st1 := free_shadow_directory st (MAX_DIRS_INCL_SHAD - 1)) in *.
  set (dirs := foldl _ (directory (file_system st1)) _).
  set (st2 := with_fs st1 (with_directory (file_system st1) (upd_Z dirs 0 init_dir))).
  destruct (keeps_snapshots_restore_shadow_directory st2 1) as (R1 & R2 & R3 & R4).
  rewrite file_system_dump, open_file_table_dump, gnfni_dump.
  assert (open_file_table st2 = open_file_table st1) as T1 by apply open_file_table_with_fs.
  assert (gnfni st2 = gnfni st1) as T2 by apply gnfni_with_fs.
  split; [|split; congruence].
  intros k Hk. rewrite R1 by lia.
  unfold st2. rewrite file_system_with_fs. cbn [directory with_directory].
  rewrite at_Z_upd_other by lia.
  assert (forall j, 0 <= j < 4 ->
            at_Z [] (directory (file_system st1)) j = at_Z [] (directory (file_system st)) j) as Hj.
  { intros j Hj. apply F1. geometry. lia. }
  rewrite Hlen in F2. subst dirs.
  destruct (directory (file_system st1)) as [|d0 [|d1 [|d2 [|d3 [|d4 [|]]]]]]; try discriminate.
  change (reverse (seqZ 1 (MAX_DIRS_INCL_SHAD - 1))) with [4; 3; 2; 1].
  assert (k = 1 \/ k = 2 \/ k = 3 \/ k = 4) as [->|[->|[->| ->]]] by (geometry; lia).
  - rewrite <- Hj by lia. done.
  - rewrite <- Hj by lia. done.
  - rewrite <- Hj by lia. done.
  - rewrite <- Hj by lia. done.
Qed.

Lemma commit_shifts_the_snapshots_witness :
  at_Z [] (directory (file_system (snd (ssfs_commit st_two_blocks)))) 1
  = at_Z [] (directory (file_system st_two_blocks)) 0.
Proof.
  destruct (commit_shifts_the_snapshots st_two_blocks) as (_ & H & _).
  - vm_compute. reflexivity.
  - apply (H 1). geometry. lia.
Defined.

(** ** Names: what is stored, and the name that is empty *)

(** [add_file_to_dir] returns a directory index as soon as the live
    directory has an unused entry, an i-node is free and a data block is
    free. *)
Lemma add_file_to_dir_succeeds st f ib0 in0 :
  let fs := file_system st in
  (exists e, 0 <= e < MAX_FILES /\ name (dir_entry fs 0 e) = EmptyString) ->
  (exists ib ino, 0 <= ib < BLOCKS_I_NODE_FILE /\ 0 <= ino < MAX_NODE_IN_BLOCK
                  /\ i_node_free fs ib ino) ->
  (exists b, FIRST_DATA_BLOCK <= b <= LAST_DATA_BLOCK /\ get_bit_map (free_bit_map fs) b = 1) ->
  exists e ib ino st', add_file_to_dir st f ib0 in0 = (e, ib, ino, st') /\ 0 <= e.
Proof.
  intros fs (e & He & Hname) (ib & ino & Hib & Hino & Hfree) (b & Hb & Hbit).
  unfold add_file_to_dir. fold fs.
  destruct (first_index (fun i => name_empty (name (dir_entry fs 0 i))) 0 (Z.to_nat MAX_FILES))
    as [k|] eqn:Hk.
  2:{ rewrite first_index_None in Hk. specialize (Hk e). rewrite Hname in Hk.
      exfalso. assert (true = false) as Hc by (apply Hk; geometry; lia). done. }
  apply first_index_Some in Hk as (Hk & _ & _).
  pose proof (get_free_i_node_spec fs (-1)) as Hspec. cbv zeta in Hspec.
  destruct (get_free_i_node fs (-1)) as [ino' ib'] eqn:Hgi. cbn [fst snd] in Hspec.
  destruct Hspec as (Hnone & _ & _).
  destruct (Z.eqb_spec ino' (-1)) as [Heq|_].
  { exfalso. destruct Hnone as [Hnone _]. by apply (Hnone Heq ib ino). }
  destruct (get_free_block_cases fs) as [[_ Hfull]|(blk & -> & Hblk & _ & _)].
  { rewrite Hfull in Hbit by done. done. }
  destruct (Z.eqb_spec blk (-1)) as [?|_]; [geometry; lia|].
  do 4 eexists. split; [reflexivity|lia].
Qed.

(** [ssfs_fopen] of a new name succeeds when a descriptor, a directory
    entry, an i-node and a data block are left. *)
Lemma ssfs_fopen_new_succeeds st f :
  let fs := file_system st in
  f <> EmptyString ->
  ~ in_directory fs f -> ~ in_open_file_table (open_file_table st) f ->
  check_fd_full st = 0 ->
  (exists e, 0 <= e < MAX_FILES /\ name (dir_entry fs 0 e) = EmptyString) ->
  (exists ib ino, 0 <= ib < BLOCKS_I_NODE_FILE /\ 0 <= ino < MAX_NODE_IN_BLOCK
                  /\ i_node_free fs ib ino) ->
  (exists b, FIRST_DATA_BLOCK <= b <= LAST_DATA_BLOCK /\ get_bit_map (free_bit_map fs) b = 1) ->
  exists r st', ssfs_fopen st f = Some (r, st') /\ 0 <= r < MAX_FD.
Proof.
  intros fs Hf Hdir Hopen Hfull He Hi Hb. subst fs.
  destruct (add_file_to_dir_succeeds st f (-1) (-1) He Hi Hb)
    as (e & ib & ino & st1 & Hadd & He0).
  unfold ssfs_fopen. rewrite Hfull. change (negb (0 =? 0)) with false. cbv iota.
  rewrite strlen_0. destruct (name_empty f) eqn:Hfe; [by destruct f|].
  rewrite (lookup_not_in_directory _ _ Hf Hdir).
  unfold fopen_new. rewrite (first_fd_named_None _ _ Hf Hopen).
  revert Hfull. unfold check_fd_full.
  destruct (first_free_fd (open_file_table st)) as [k|] eqn:Hk; [intros _|done].
  apply first_free_fd_Some in Hk as [Hk _].
  rewrite Hadd. destruct (Z.ltb_spec e 0) as [?|_]; [lia|].
  do 2 eexists. split; [reflexivity|exact Hk].
Qed.

(** C9.  Names are compared and stored on their first [MAX_NAME_LENGTH]
    (20) characters only.  For two names that agree on their first 20
    characters, [ssfs_fopen], [ssfs_remove] and [ssfs_get_file_size] return
    the same value and leave the same state, and the directory entry that
    [add_file_to_dir] fills in holds the first 20 characters of the name.
    And a name is stored: when a descriptor, a directory entry, an i-node
    and a data block are left, [ssfs_fopen] of a name that is not empty,
    not in the live directory and not open returns a descriptor; an entry
    of the live directory that was unused and the descriptor then hold the
    first 20 characters of the name, and the other name, which agrees with
    it on 20 characters, is in the directory and open, has size 0 and can
    be removed. *)
Theorem names_are_their_first_20_characters (st : sfs_state) (n1 n2 : string) :
  arrays_ok st ->
  first_20 n1 = first_20 n2 ->
  ssfs_fopen st n1 = ssfs_fopen st n2
  /\ ssfs_remove st n1 = ssfs_remove st n2
  /\ ssfs_get_file_size st n1 = ssfs_get_file_size st n2
  /\ (forall ib0 in0 i ib ino st',
        add_file_to_dir st n1 ib0 in0 = (i, ib, ino, st') -> 0 <= i ->
        name (dir_entry (file_system st') 0 i) = first_20 n1)
  /\ (n1 <> EmptyString ->
      ~ in_directory (file_system st) n1 ->
      ~ in_open_file_table (open_file_table st) n1 ->
      check_fd_full st = 0 ->
      (exists e, 0 <= e < MAX_FILES /\ name (dir_entry (file_system st) 0 e) = EmptyString) ->
      (exists ib ino, 0 <= ib < BLOCKS_I_NODE_FILE /\ 0 <= ino < MAX_NODE_IN_BLOCK
                      /\ i_node_free (file_system st) ib ino) ->
      (exists b, FIRST_DATA_BLOCK <= b <= LAST_DATA_BLOCK
                 /\ get_bit_map (free_bit_map (file_system st)) b = 1) ->
      exists r st' e,
        ssfs_fopen st n1 = Some (r, st')
        /\ 0 <= r < MAX_FD
        /\ 0 <= e < MAX_FILES
        /\ name (dir_entry (file_system st) 0 e) = EmptyString
        /\ name (dir_entry (file_system st') 0 e) = first_20 n1
        /\ name (entry (fd_at (open_file_table st') r)) = first_20 n1
        /\ in_directory (file_system st') n2
        /\ in_open_file_table (open_file_table st') n2
        /\ ssfs_get_file_size st' n2 = 0
        /\ fst (ssfs_remove st' n2) = 0).
Proof.
  intros Hok H. split; [by apply ssfs_fopen_agree|].
  split; [by apply ssfs_remove_agree|].
  split; [by apply ssfs_get_file_size_agree|].
  split.
  { intros ib0 in0 i ib ino st' Hadd Hi. by eapply add_file_to_dir_stores_first_20. }
  intros Hn1 Hdir Hopen Hfull He Hi Hb.
  destruct (ssfs_fopen_new_succeeds st n1 Hn1 Hdir Hopen Hfull He Hi Hb)
    as (r & st' & Hfopen & Hr).
  destruct (ssfs_fopen_new_file st n1 r st' Hok Hn1 Hdir Hopen Hfopen)
    as (n & blk & e & Hfd & _ & _ & Hin & Hsize & _ & _ & _ & _ & _ & _ & _ & _ & _ & _
        & Her & Hwas & Hentry & _); [lia|].
  assert (n2 <> EmptyString) as Hn2.
  { intros ->. destruct n1; [done|]. discriminate H. }
  assert (in_directory (file_system st') n2) as Hin2.
  { destruct Hin as (j & Hj & Hne & Hs). exists j. split; [done|]. split; [done|].
    by rewrite <- (same_name_agree_r _ n1 n2 H). }
  exists r, st', e.
  split; [done|]. split; [done|]. split; [done|]. split; [done|].
  split; [by rewrite Hentry|].
  split; [by rewrite Hfd|].
  split; [done|].
  split.
  { exists r. split; [done|]. rewrite Hfd. cbn [entry name].
    split; [by apply first_20_nonempty|].
    rewrite <- (same_name_agree_r _ n1 n2 H). apply same_name_first_20. }
  split; [by rewrite <- (ssfs_get_file_size_agree n1 n2 H)|].
  apply lookup_in_directory in Hin2 as [k Hk]; [|done].
  by rewrite (ssfs_remove_found st' n2 k Hk).
Qed.

Lemma names_are_their_first_20_characters_witness :
  let n1 := "a_name_that_is_longer_than_twenty"%string in
  let n2 := "a_name_that_is_longer_and_differs"%string in
  first_20 n1 = first_20 n2
  /\ ssfs_fopen mkssfs_fresh n1 = ssfs_fopen mkssfs_fresh n2
  /\ ssfs_remove mkssfs_fresh n1 = ssfs_remove mkssfs_fresh n2
  /\ ssfs_get_file_size mkssfs_fresh n1 = ssfs_get_file_size mkssfs_fresh n2
  /\ exists r st' e,
       ssfs_fopen mkssfs_fresh n1 = Some (r, st')
       /\ name (dir_entry (file_system mkssfs_fresh) 0 e) = EmptyString
       /\ name (dir_entry (file_system st') 0 e) = "a_name_that_is_longe"%string
       /\ name (entry (fd_at (open_file_table st') r)) = "a_name_that_is_longe"%string
       /\ ssfs_get_file_size st' n2 = 0
       /\ fst (ssfs_remove st' n2) = 0.
Proof.
  intros n1 n2.
  split; [reflexivity|].
  destruct (names_are_their_first_20_characters mkssfs_fresh n1 n2)
    as (H1 & H2 & H3 & _ & H5).
  - exact arrays_ok_mkssfs_fresh.
  - reflexivity.
  - split; [exact H1|]. split; [exact H2|]. split; [exact H3|].
    destruct H5 as (r & st' & e & G1 & _ & _ & G2 & G3 & G4 & _ & _ & G5 & G6).
    + discriminate.
    + intros Hin. apply lookup_in_directory in Hin as [i Hi]; [|discriminate].
      vm_compute in Hi. discriminate.
    + intros (i & Hi & Hne & _). apply Hne.
      assert (Forall (fun i => name (entry (fd_at (open_file_table mkssfs_fresh) i))
                               = EmptyString) (seqZ 0 MAX_FD)) as Hall
        by (vm_compute; repeat constructor).
      rewrite Forall_forall in Hall. apply Hall. apply elem_of_seqZ. lia.
    + vm_compute. reflexivity.
    + exists 0. split; [geometry; lia|]. vm_compute. reflexivity.
    + exists 0, 5. split; [geometry; lia|]. split; [geometry; lia|]. vm_compute. reflexivity.
    + exists 14. split; [geometry; lia|]. vm_compute. reflexivity.
    + exists r, st', e. split; [exact G1|]. split; [exact G2|].
      split; [exact G3|]. split; [exact G4|]. split; [exact G5|exact G6].
Defined.



(** ** Writes that make the file grow *)

Lemma file_blocks_frame st st' n :
  pointer (node_of (file_system st') n) = pointer (node_of (file_system st) n) ->
  ind_pointer (node_of (file_system st') n) = ind_pointer (node_of (file_system st) n) ->
  (ind_pointer (node_of (file_system st) n) <> 0 ->
   disk st' !! ind_pointer (node_of (file_system st) n)
   = disk st !! ind_pointer (node_of (file_system st) n)) ->
  file_blocks st' n = file_blocks st n.
Proof.
  intros Hp Hi Hd. unfold file_blocks. rewrite Hp, Hi.
  destruct (Z.eqb_spec (ind_pointer (node_of (file_system st) n)) 0) as [H0|Hne].
  - cbn [negb]. by rewrite !andb_false_r.
  - by rewrite (read_ind_node_block_eq st st' _ (Hd Hne)).
Qed.

(** A change of the state that keeps the pointers of the i-node, its
    indirect block, and the bits of the blocks in use keeps the file. *)
Lemma file_grow_ok_frame st st' n :
  file_grow_ok st n ->
  pointer (node_of (file_system st') n) = pointer (node_of (file_system st) n) ->
  ind_pointer (node_of (file_system st') n) = ind_pointer (node_of (file_system st) n) ->
  0 <= size (node_of (file_system st') n) ->
  inode_in_range (file_system st') n ->
  length (free_bit_map (file_system st')) = length (free_bit_map (file_system st)) ->
  (forall x, 0 <= x < NUMBER_OF_BLOCKS ->
     get_bit_map (free_bit_map (file_system st')) x = 1 ->
     get_bit_map (free_bit_map (file_system st)) x = 1) ->
  (ind_pointer (node_of (file_system st) n) <> 0 ->
   disk st' !! ind_pointer (node_of (file_system st) n)
   = disk st !! ind_pointer (node_of (file_system st) n)) ->
  disk_sized st' ->
  file_blocks st' n = file_blocks st n /\ file_grow_ok st' n.
Proof.
  intros [[[Hnode Hnodup Hblocks Hsize] Hrange Hlen Hind Hapart Hbit] [Hdd Hdf Hdi] Hused
            [Hrb Hri] Hsized] Hp Hi Hsz' Hrange' Hlen' Hbits Hdisk Hsized'.
  pose proof (file_blocks_frame st st' n Hp Hi Hdisk) as Hchain.
  assert (forall x, 0 <= x < NUMBER_OF_BLOCKS ->
            get_bit_map (free_bit_map (file_system st)) x = 0 ->
            get_bit_map (free_bit_map (file_system st')) x = 0) as Hzero.
  { intros x Hx H0.
    destruct (get_bit_map_01 (free_bit_map (file_system st')) x) as [?|H1]; [lia|done|].
    apply Hbits in H1; [congruence|done]. }
  split; [done|]. split.
  - split; [split| | | | |]; rewrite ?Hchain, ?Hi, ?Hp; try done.
    + unfold node_ok. by rewrite Hp.
    + congruence.
    + intros Hne. apply Hzero; [done|]. by apply Hbit.
  - split; rewrite ?Hi, ?Hp; try done.
    intros Hne. rewrite (read_ind_node_block_eq st st' _ (Hdisk Hne)). by apply Hdi.
  - unfold file_blocks_used in *. rewrite Hchain.
    rewrite Forall_forall in Hused, Hblocks |- *. intros x Hx.
    apply Hzero; [|by apply Hused]. specialize (Hblocks x Hx). lia.
  - split; rewrite ?Hchain, ?Hi; done.
  - done.
Qed.

Lemma length_block_of_ind l :
  length l = Z.to_nat POINTERS_IND_BLOCK ->
  length (block_of (encode_ind_node_block l) 0) = Z.to_nat NUMBER_OF_BYTES_BLOCK.
Proof.
  intros H. unfold block_of, encode_ind_node_block.
  rewrite length_take, length_drop, length_encode_pointers, H.
  change (Z.to_nat POINTERS_IND_BLOCK) with 256%nat.
  change (Z.to_nat (NUMBER_OF_BYTES_BLOCK * 0)) with 0%nat.
  change (Z.to_nat NUMBER_OF_BYTES_BLOCK) with 1024%nat. lia.
Qed.

Lemma disk_sized_put_blocks st p data :
  disk_sized st -> length (block_of data 0) = Z.to_nat NUMBER_OF_BYTES_BLOCK ->
  disk_sized (put_blocks st p 1 data).
Proof.
  intros Hs Hl b Hb. unfold block_data. destruct (decide (b = p)) as [->|Hne].
  - rewrite read_blocks_in_range by (geometry; lia).
    rewrite disk_put_blocks_1, decide_True by (geometry; lia).
    rewrite lookup_insert_eq. done.
  - unfold read_blocks. rewrite disk_put_blocks_1_other by done. apply (Hs b Hb).
Qed.

(** What [add_block] changes besides the file. *)
Lemma add_block_frame st n r st' :
  file_write_ok st n -> file_in_data_region st n -> disk_sized st ->
  add_block st n = (r, st') ->
  (forall b, b <> ind_pointer (node_of (file_system st') n) -> disk st' !! b = disk st !! b)
  /\ disk_sized st'
  /\ length (free_bit_map (file_system st')) = length (free_bit_map (file_system st))
  /\ (forall x, 0 <= x < NUMBER_OF_BLOCKS ->
        get_bit_map (free_bit_map (file_system st')) x = 1 ->
        get_bit_map (free_bit_map (file_system st)) x = 1)
  /\ (r = -1 ->
      i_node_file (file_system st') = i_node_file (file_system st) /\ disk st' = disk st)
  /\ (r <> -1 ->
      FIRST_DATA_BLOCK <= r <= LAST_DATA_BLOCK
      /\ (ind_pointer (node_of (file_system st') n) <> 0 ->
          FIRST_DATA_BLOCK <= ind_pointer (node_of (file_system st') n) <= LAST_DATA_BLOCK)).
Proof.
  intros [[Hnode Hnodup Hblocks Hsize] Hrange Hlen Hind Hapart Hbit] [Hrb Hri] Hsized.
  unfold add_block.
  set (fs := file_system st) in *. set (node := node_of fs n) in *.
  destruct (get_free_block_cases fs) as [[-> _]|(b & -> & Hb & Hbb & _)].
  { cbn [Z.ltb Z.compare]. intros [<- <-]%pair_equal_spec.
    cbn [file_system with_fs disk]. fold fs. repeat split; try done. }
  set (fs1 := with_free_bit_map fs (clr_bit_map (free_bit_map fs) b)).
  assert (14 <= b <= 1016) as Hb' by (geometry; lia).
  destruct (Z.ltb_spec b 0) as [?|_]; [lia|].
  change (node_of fs1 n) with node.
  assert (forall x, 0 <= x < NUMBER_OF_BLOCKS ->
            get_bit_map (free_bit_map fs1) x = if b =? x then 0 else get_bit_map (free_bit_map fs) x)
    as Hclr.
  { intros x Hx. apply get_clr_bit_map; [lia|lia|].
    rewrite Hlen. geometry. apply Z.div_lt_upper_bound; lia. }
  assert (forall x, 0 <= x < NUMBER_OF_BLOCKS ->
            get_bit_map (free_bit_map fs1) x = 1 ->
            get_bit_map (free_bit_map fs) x = 1) as Hclr1.
  { intros x Hx. rewrite Hclr by done. destruct (Z.eqb_spec b x); [done|]. auto. }
  assert (length (free_bit_map fs1) = length (free_bit_map fs)) as Hlen1
    by (subst fs1; cbn [free_bit_map with_free_bit_map]; by rewrite length_clr_bit_map).
  assert (inode_in_range fs1 n) as Hrange1 by exact Hrange.
  destruct (first_index _ 0 (Z.to_nat NUMBER_OF_POINTERS)) as [i|] eqn:Hd.
  - (* a free direct pointer *)
    intros [<- <-]%pair_equal_spec. cbn [file_system with_fs disk].
    rewrite node_of_set_node_of by done. cbn [ind_pointer].
    rewrite free_bit_map_set_node_of.
    split; [done|]. split; [done|]. split; [done|]. split; [done|].
    split; [lia|]. intros _. split; [done|]. exact Hri.
  - destruct (Z.eqb_spec (ind_pointer node) 0) as [Hno|Hyes].
    + (* no indirect block yet *)
      destruct (get_free_block_cases fs1) as [[-> _]|(b2 & -> & Hb2 & Hbb2 & _)].
      { cbn [Z.ltb Z.compare]. intros [<- <-]%pair_equal_spec.
        cbn [file_system with_fs disk]. unfold set_both.
        cbn [free_bit_map with_write_mask with_free_bit_map i_node_file].
        split; [done|]. split; [done|].
        split; [by rewrite length_set_bit_map|].
        split; [|done].
        intros x Hx. rewrite get_set_bit_map;
          [|lia|lia|rewrite Hlen1, Hlen; geometry; apply Z.div_lt_upper_bound; lia].
        destruct (Z.eqb_spec b x) as [<-|Hne]; [done|]. by apply Hclr1. }
      assert (14 <= b2 <= 1016) as Hb2' by (geometry; lia).
      destruct (Z.ltb_spec b2 0) as [?|_]; [lia|].
      set (fs2 := with_free_bit_map fs1 (clr_bit_map (free_bit_map fs1) b2)).
      intros [<- <-]%pair_equal_spec.
      rewrite !file_system_put_blocks. cbn [file_system with_fs].
      assert (inode_in_range fs2 n) as Hrange2 by exact Hrange.
      rewrite node_of_set_node_of by done. cbn [ind_pointer].
      rewrite free_bit_map_set_node_of.
      split; [intros x Hx; by rewrite disk_put_blocks_1_other|].
      split.
      { apply disk_sized_put_blocks; [done|]. apply length_block_of_ind.
        by rewrite length_upd_Z. }
      split; [subst fs2; cbn [free_bit_map with_free_bit_map]; by rewrite length_clr_bit_map|].
      split.
      { intros x Hx. subst fs2. cbn [free_bit_map with_free_bit_map].
        rewrite get_clr_bit_map;
          [|lia|lia|rewrite Hlen1, Hlen; geometry; apply Z.div_lt_upper_bound; lia].
        destruct (Z.eqb_spec b2 x); [done|]. by apply Hclr1. }
      split; [lia|]. intros _. split; [done|]. intros _. geometry. lia.
    + (* an indirect block *)
      change (read_ind_node_block (with_fs st fs1) (ind_pointer node))
        with (read_ind_node_block st (ind_pointer node)).
      set (ind := read_ind_node_block st (ind_pointer node)) in *.
      assert (length ind = Z.to_nat POINTERS_IND_BLOCK) as Hil
        by apply length_read_ind_node_block.
      destruct (first_index _ 0 (Z.to_nat POINTERS_IND_BLOCK)) as [i|] eqn:Hi.
      2:{ intros [<- <-]%pair_equal_spec. cbn [file_system with_fs disk].
          change (node_of fs1 n) with node. repeat split; try done. }
      intros [<- <-]%pair_equal_spec.
      rewrite !file_system_put_blocks. cbn [file_system with_fs].
      change (node_of fs1 n) with node.
      split; [intros x Hx; by rewrite disk_put_blocks_1_other|].
      split.
      { apply disk_sized_put_blocks; [done|]. apply length_block_of_ind.
        by rewrite length_upd_Z. }
      split; [done|]. split; [done|].
      split; [lia|]. intros _. split; [done|]. exact Hri.
Qed.

(** The file after [add_block], whether it returns a block or not. *)
Lemma add_block_grows st n r st' :
  file_grow_ok st n -> add_block st n = (r, st') ->
  open_file_table st' = open_file_table st
  /\ size (node_of (file_system st') n) = size (node_of (file_system st) n)
  /\ (forall x, 0 <= x < NUMBER_OF_BLOCKS ->
        get_bit_map (free_bit_map (file_system st')) x = 1 ->
        get_bit_map (free_bit_map (file_system st)) x = 1)
  /\ file_grow_ok st' n
  /\ (forall b, b ∈ file_blocks st n -> block_data st' b = block_data st b)
  /\ (r = -1 -> file_blocks st' n = file_blocks st n)
  /\ (r <> -1 ->
      file_blocks st' n = file_blocks st n ++ [r]
      /\ get_bit_map (free_bit_map (file_system st)) r = 1 /\ 0 < r).
Proof.
  intros Hgrow Hadd. pose proof Hgrow as [Hok Hdense Hused Hregion Hsized].
  destruct (add_block_frame st n r st' Hok Hregion Hsized Hadd)
    as (Hdisk & Hsized' & Hlen' & Hbits & Hfail & Hsucc).
  pose proof Hok as [[Hnode Hnodup Hblocks Hsize] Hrange Hlen Hind Hapart Hbit].
  destruct (add_block_spec st n r st' Hrange Hnode Hlen Hind Hbit Hadd) as (Ht & Hsz & _).
  split; [done|]. split; [done|]. split; [done|].
  destruct (decide (r = -1)) as [Hr|Hr].
  - destruct (Hfail Hr) as [Hnf Hd].
    assert (node_of (file_system st') n = node_of (file_system st) n) as Hnd
      by (unfold node_of, get_i_node; by rewrite Hnf).
    destruct (file_grow_ok_frame st st' n Hgrow) as [Hchain Hgrow'];
      rewrite ?Hnd, ?Hd; try done.
    { unfold inode_in_range. rewrite Hnf. exact Hrange. }
    split; [done|]. split; [|split; [done|done]].
    intros b _. unfold block_data. by rewrite Hd.
  - destruct (add_block_appends_ok st n r st' Hok Hdense Hused Hadd Hr)
      as (Hchain & Hfree & _ & Hok' & Hdense' & Hused').
    destruct (Hsucc Hr) as [Hrr Hri'].
    split.
    { split; try done. split; [|done].
      rewrite Hchain. apply Forall_app. split; [by destruct Hregion|].
      by apply Forall_singleton. }
    split.
    { intros b Hb. unfold block_data, read_blocks. rewrite Hdisk; [done|].
      intros ->. apply (write_ind_apart _ _ Hok'). rewrite Hchain.
      apply elem_of_app. by left. }
    split; [done|]. intros _. split; [done|]. split; [done|]. geometry. lia.
Qed.

Lemma disk_sized_same_disk st st' : disk st' = disk st -> disk_sized st -> disk_sized st'.
Proof. intros Hd Hs b Hb. unfold block_data. rewrite Hd. by apply Hs. Qed.

Section fwrite_grow.
Context (st0 : sfs_state) (fileID n : Z).
Context (Hn : i_node_number (entry (fd_at (open_file_table st0) fileID)) = n).
Context (Hgrow0 : file_grow_ok st0 n).
Context (buf0 : list Z) (pos0 : Z).

(** One pass of the inner loop of [ssfs_fwrite] and the [write_blocks]
    that follows it. *)
Lemma grow_progress_fill st nb cb cc bp buf :
  grow_progress st0 n pos0 buf0 st nb cb cc bp ->
  cc < NUMBER_OF_BYTES_BLOCK -> buf <> [] -> buf = drop (Z.to_nat bp) buf0 ->
  exists st1 data' k,
    1 <= k <= Z.of_nat (length buf)
    /\ fwrite_chars buf st n nb cb (get_last_file_block st0 n) (get_end_char st0 n)
         (snd (read_blocks (disk st) cb local_buffer)) cc bp
       = (drop (Z.to_nat k) buf, st1, data', cc + k, bp + k)
    /\ (drop (Z.to_nat k) buf <> [] -> cc + k = NUMBER_OF_BYTES_BLOCK)
    /\ grow_progress st0 n pos0 buf0 (put_blocks st1 cb 1 data') nb cb (cc + k) (bp + k).
Proof.
  intros [Ht Hgrow Hcc Hbp Hsize Hfree (news & Hnews & Hnewsfree) (i & Hi & Hoff) Hphase Hw Hk]
    Hroom Hbuf Hdrop.
  pose proof Hgrow as [Hok Hdense Hused [Hrb Hri] Hsized].
  pose proof Hok as [Hchain Hrange Hlen Hind Hapart Hbit].
  pose proof Hgrow0 as [Hok0 _ _ _ _]. pose proof Hok0 as [Hchain0 _ _ _ _ _].
  pose proof (get_end_char_range st0 n (chain_size _ _ Hchain0)) as Hlc.
  set (lb := get_last_file_block st0 n) in *. set (lc := get_end_char st0 n) in *.
  set (k := Z.min (Z.of_nat (length buf)) (NUMBER_OF_BYTES_BLOCK - cc)).
  assert (1 <= k <= Z.of_nat (length buf)) as Hkr.
  { destruct buf; [done|]. subst k. cbn [length]. lia. }
  set (delta := if negb (nb =? 0) then k
                else if cb =? lb then Z.max 0 (cc + k - Z.max cc lc) else 0).
  set (data := snd (read_blocks (disk st) cb local_buffer)).
  destruct (fwrite_chars_spec buf st n nb cb lb lc data cc bp k delta Hcc eq_refl eq_refl)
    as (data' & Hchars).
  pose proof (fwrite_chars_content buf st n nb cb lb lc data cc bp ltac:(lia)) as Hcontent.
  cbv zeta in Hcontent. rewrite Hchars in Hcontent. cbn [fst snd] in Hcontent.
  destruct Hcontent as (Hldata & _ & Hdata).
  assert (cb ∈ file_blocks st n) as Hcbin by (by eapply list_elem_of_lookup_2).
  assert (FIRST_DATA_BLOCK <= cb <= LAST_DATA_BLOCK) as Hcbr
    by (rewrite Forall_forall in Hrb; by apply Hrb).
  assert (length data = Z.to_nat NUMBER_OF_BYTES_BLOCK) as Hld by (by apply Hsized).
  rewrite Hld in Hldata, Hdata.
  exists (inc_file_size st n delta), data', k.
  split; [done|]. split; [done|]. split.
  { intros Hrest. destruct (decide (k = Z.of_nat (length buf))) as [He|Hne].
    - rewrite drop_ge in Hrest by lia. done.
    - subst k. lia. }
  set (st1 := put_blocks (inc_file_size st n delta) cb 1 data').
  assert (node_of (file_system st1) n
          = mk_node (size (node_of (file_system st) n) + delta)
              (pointer (node_of (file_system st) n))
              (ind_pointer (node_of (file_system st) n))) as Hnd.
  { unfold st1. rewrite file_system_put_blocks. by apply node_of_inc_file_size. }
  assert (0 <= delta) as Hdelta.
  { subst delta. destruct (negb _); [lia|]. destruct (_ =? _); lia. }
  assert (size (node_of (file_system st) n) + delta
          = size (node_of (file_system st0) n)
            + bytes_past pos0 (end_of_file st0 n) (pos0 + (bp + k))) as Hsize'.
  { rewrite Hsize. unfold bytes_past, end_of_file in *. fold lc.
    destruct Hphase as [(-> & Hsame)|(Hnb & _ & _ & Hpast)].
    - rewrite Hsame in Hi.
      pose proof (last_block_iff st0 n Hchain0 i cb Hi) as Hlast. fold lb in Hlast.
      pose proof (lookup_lt_Some _ _ _ Hi) as Hil.
      unfold offset_of in Hoff. subst delta. cbn [Z.eqb negb].
      destruct (Z.eqb_spec cb lb) as [Hlb|Hlb].
      + apply Hlast in Hlb. geometry. lia.
      + assert (S i < length (file_blocks st0 n))%nat by (rewrite Hlast in Hlb; lia).
        geometry. lia.
    - subst delta. destruct (Z.eqb_spec nb 0) as [?|_]; [lia|]. cbn [negb].
      geometry. lia. }
  assert (cb <> ind_pointer (node_of (file_system st) n)) as Hcbind by (intros ->; done).
  destruct (file_grow_ok_frame st st1 n Hgrow) as [Hchain1 Hgrow1].
  { by rewrite Hnd. }
  { by rewrite Hnd. }
  { rewrite Hnd. cbn [size]. pose proof (chain_size _ _ Hchain). lia. }
  { unfold st1. rewrite file_system_put_blocks, file_system_inc_file_size.
    by apply inode_in_range_set_node_of. }
  { unfold st1. by rewrite file_system_put_blocks, file_system_inc_file_size,
      free_bit_map_set_node_of. }
  { unfold st1. rewrite file_system_put_blocks, file_system_inc_file_size,
      free_bit_map_set_node_of. auto. }
  { intros _. unfold st1. by rewrite disk_put_blocks_1_other. }
  { unfold st1. apply disk_sized_put_blocks.
    - by apply (disk_sized_same_disk st).
    - unfold block_of. change (Z.to_nat (NUMBER_OF_BYTES_BLOCK * 0)) with 0%nat.
      rewrite drop_0, length_take. lia. }
  assert (forall b, block_data st1 b = if decide (b = cb) then data' else block_data st b) as Hbd.
  { intros b. unfold st1. rewrite block_data_put_blocks by (done || geometry; lia).
    case_decide; [done|]. by apply block_data_same_disk. }
  assert (forall (j : nat) b, file_blocks st n !! j = Some b -> b = cb -> j = i) as Hsamei.
  { intros j b Hj ->. eapply NoDup_lookup; [apply (chain_NoDup _ _ Hchain)|done..]. }
  assert (forall c, 0 <= c < NUMBER_OF_BYTES_BLOCK ->
            at_Z 0 data' c
            = if decide (cc <= c < cc + k) then at_Z 0 buf0 (offset_of i c - pos0)
              else at_Z 0 (block_data st cb) c) as Hdata'.
  { intros c Hc. rewrite Hdata. unfold offset_of in *.
    destruct (decide (cc <= c < cc + k /\ _)) as [H1|H1].
    - rewrite decide_True by lia. rewrite Hdrop, at_Z_drop by lia. f_equal. lia.
    - rewrite decide_False; [done|]. geometry. lia. }
  split.
  - unfold st1. by rewrite open_file_table_put_blocks.
  - done.
  - lia.
  - lia.
  - rewrite Hnd. cbn [size]. exact Hsize'.
  - unfold st1. rewrite file_system_put_blocks, file_system_inc_file_size,
      free_bit_map_set_node_of. exact Hfree.
  - exists news. by rewrite Hchain1.
  - exists i. rewrite Hchain1. split; [done|]. unfold offset_of in *. lia.
  - rewrite Hchain1. destruct Hphase as [(Hnb & Hsame)|(Hnb & Hcb & Hlast & Hpast)].
    + by left.
    + right. split; [done|]. split; [done|]. split; [done|]. lia.
  - intros j b c Hj Hc Hin. rewrite Hchain1 in Hj. rewrite Hbd.
    destruct (decide (b = cb)) as [Hb|Hb].
    + pose proof (Hsamei j b Hj Hb) as ->. subst b. rewrite Hdata' by done.
      case_decide as Hcin; [done|].
      apply (Hw i cb c Hi Hc). unfold offset_of in *. lia.
    + assert (j <> i) as Hji by (intros ->; congruence).
      apply (Hw j b c Hj Hc). unfold offset_of in *. geometry. lia.
  - intros j b c Hj Hc Hout. rewrite Hbd.
    assert (file_blocks st n !! j = Some b) as Hj'
      by (rewrite Hnews; by apply lookup_app_l_Some).
    destruct (decide (b = cb)) as [Hb|Hb].
    + pose proof (Hsamei j b Hj' Hb) as ->. subst b. rewrite Hdata' by done.
      rewrite decide_False by (unfold offset_of in *; lia).
      apply (Hk i cb c Hj Hc). lia.
    + apply (Hk j b c Hj Hc). lia.
Qed.

Lemma fwrite_fill_grows fuel : forall buf st nb cb cc bp,
  grow_progress st0 n pos0 buf0 st nb cb cc bp ->
  buf <> [] -> buf = drop (Z.to_nat bp) buf0 -> (length buf < fuel)%nat ->
  grow_exit st0 n pos0 buf0 bp
    (fwrite_fill fuel st fileID buf (get_last_file_block st0 n) (get_end_char st0 n)
       nb cb cc bp).
Proof.
  set (lb := get_last_file_block st0 n). set (lc := get_end_char st0 n).
  induction fuel as [|fuel IH]; intros buf st nb cb cc bp Hgp Hbuf Hdrop Hfuel; [lia|].
  assert (0 <= bp /\ bp + Z.of_nat (length buf) = Z.of_nat (length buf0)) as [Hbp Hbl].
  { destruct Hgp as [_ _ _ Hbp _ _ _ _ _ _ _]. split; [done|].
    rewrite Hdrop, length_drop.
    assert (Z.to_nat bp < length buf0)%nat; [|lia].
    destruct (decide (Z.to_nat bp < length buf0)%nat) as [|Hge]; [done|].
    rewrite drop_ge in Hdrop by lia. done. }
  (* one pass through a block, entered with [cc < 1024] *)
  assert (forall st nb cb cc,
            grow_progress st0 n pos0 buf0 st nb cb cc bp -> cc < NUMBER_OF_BYTES_BLOCK ->
            grow_exit st0 n pos0 buf0 bp
              (let data_block := snd (read_blocks (disk st) cb local_buffer) in
               let '(buf', st1, data_block0, cc0, buf_pos) :=
                 fwrite_chars buf st n nb cb lb lc data_block cc bp in
               let st2 := put_blocks st1 cb 1 data_block0 in
               match buf' with
               | [] => Some (st2, cb, cc0, buf_pos)
               | _ :: _ => fwrite_fill fuel st2 fileID buf' lb lc nb cb cc0 buf_pos
               end)) as Hfill.
  { clear st nb cb cc Hgp. intros st nb cb cc Hgp Hroom. cbv zeta.
    destruct (grow_progress_fill st nb cb cc bp buf Hgp Hroom Hbuf Hdrop)
      as (st1 & data' & k & Hk & Hchars & Hrest & Hgp').
    fold lb lc in Hchars. rewrite Hchars.
    destruct (drop (Z.to_nat k) buf) as [|y rest] eqn:Hd.
    - assert (k = Z.of_nat (length buf)) as Hkl.
      { apply (f_equal length) in Hd. rewrite length_drop in Hd. cbn [length] in Hd. lia. }
      exists (put_blocks st1 cb 1 data'), nb, cb, (cc + k), (bp + k).
      split; [done|]. split; [done|]. split; [lia|]. lia.
    - destruct (IH (y :: rest) (put_blocks st1 cb 1 data') nb cb (cc + k) (bp + k))
        as (st' & nb' & cb' & cc' & bp' & Hres & Hgp'' & Hbp' & Hshort); [done|done| | |].
      { rewrite <- Hd, Hdrop, drop_drop. f_equal. lia. }
      { rewrite <- Hd, length_drop. lia. }
      exists st', nb', cb', cc', bp'. split; [done|]. split; [done|]. split; [lia|]. done. }
  cbn [fwrite_fill].
  pose proof Hgp as [Ht Hgrow Hcc _ Hsize Hfree (news & Hnews & Hnewsfree) (i & Hi & Hoff)
                       Hphase Hw Hk].
  rewrite Ht, Hn.
  destruct (Z.leb_spec NUMBER_OF_BYTES_BLOCK cc) as [Hfull|Hroom]; [|by apply Hfill].
  assert (cc = NUMBER_OF_BYTES_BLOCK) as -> by lia.
  pose proof Hgrow as [Hok Hdense Hused Hregion Hsized].
  pose proof Hok as [Hchain Hrange Hlen Hind Hapart Hbit].
  rewrite (get_next_file_block_spec st n cb i (chain_node_ok _ _ Hchain)
             (chain_NoDup _ _ Hchain) Hi).
  pose proof (lookup_lt_Some _ _ _ Hi) as Hil.
  assert (0 <= nb) as Hnb0 by (destruct Hphase as [[-> _]|[? _]]; lia).
  destruct (file_blocks st n !! S i) as [tb|] eqn:Htb; cbn [default from_option id].
  - (* the next block of the file *)
    pose proof (block_positive st n Hchain _ _ Htb) as Htbpos.
    pose proof (lookup_lt_Some _ _ _ Htb) as Htbl.
    destruct (Z.ltb_spec tb 0) as [?|_]; [lia|].
    destruct (Z.ltb_spec nb 0) as [?|_]; [lia|].
    destruct Hphase as [(-> & Hsame)|(Hnb & _ & Hlast & _)].
    2:{ exfalso.
        assert (i = (length (file_blocks st n) - 1)%nat)
          by (eapply NoDup_lookup; [apply (chain_NoDup _ _ Hchain)|done..]).
        lia. }
    cbn [Z.eqb]. apply Hfill; [|geometry; lia].
    split; try done; try (geometry; lia).
    + by exists news.
    + exists (S i). split; [done|]. unfold offset_of in *. geometry. lia.
    + by left.
  - (* the end of the file: a block is appended *)
    pose proof (lookup_ge_None_1 _ _ Htb) as Hlastge.
    assert (i = (length (file_blocks st n) - 1)%nat) as Hilast by lia.
    cbn [Z.ltb Z.compare].
    destruct (add_block st n) as [r st1] eqn:Hadd.
    destruct (add_block_grows st n r st1 Hgrow Hadd)
      as (Ht1 & Hsz1 & Hbits1 & Hgrow1 & Hbd1 & Hfail & Hsucc).
    assert (forall (j : nat) b, file_blocks st0 n !! j = Some b -> file_blocks st n !! j = Some b)
      as Hold by (intros j b Hj; rewrite Hnews; by apply lookup_app_l_Some).
    destruct (decide (r = -1)) as [->|Hr].
    + cbn [Z.ltb Z.compare]. specialize (Hfail eq_refl).
      exists st1, nb, cb, NUMBER_OF_BYTES_BLOCK, bp.
      split; [done|]. split; [|split; [lia|]].
      * split; try done; rewrite ?Hfail; try congruence.
        -- intros x Hx H1. apply Hfree; [done|]. by apply Hbits1.
        -- by exists news.
        -- by exists i.
        -- intros j b c Hj Hc Hin. rewrite Hbd1 by (by eapply list_elem_of_lookup_2).
           by apply (Hw j b c).
        -- intros j b c Hj Hc Hout.
           rewrite Hbd1 by (eapply list_elem_of_lookup_2; by apply Hold).
           by apply (Hk j b c).
      * intros _. split; [done|]. rewrite Hfail, <- Hilast. done.
    + destruct (Hsucc Hr) as (Hchain1 & Hrfree & Hrpos).
      destruct (Z.ltb_spec r 0) as [?|_]; [lia|].
      destruct (Z.eqb_spec r 0) as [?|_]; [lia|].
      pose proof (chain_blocks _ _ (write_chain_ok _ _ (grow_write_ok _ _ Hgrow1))) as Hb1.
      rewrite Hchain1 in Hb1. apply Forall_app in Hb1 as [_ Hr1]. rewrite Forall_singleton in Hr1.
      apply Hfill; [|geometry; lia].
      split; try done; try congruence; try (geometry; lia).
      * intros x Hx H1. apply Hfree; [done|]. by apply Hbits1.
      * exists (news ++ [r]). rewrite Hchain1, Hnews, app_assoc. split; [done|].
        apply Forall_app. split; [done|]. apply Forall_singleton. apply Hfree; [geometry; lia|done].
      * exists (length (file_blocks st n)). rewrite Hchain1. split.
        -- rewrite lookup_app_r by lia. by rewrite Nat.sub_diag.
        -- unfold offset_of in *. geometry. lia.
      * right. split; [done|]. split; [done|]. split.
        -- rewrite Hchain1, length_app. cbn [length].
           rewrite lookup_app_r by lia.
           by replace (length (file_blocks st n) + 1 - 1 - length (file_blocks st n))%nat
             with 0%nat by lia.
        -- rewrite Hnews in Hil, Hilast. rewrite length_app in Hil, Hilast.
           unfold offset_of in Hoff. geometry. lia.
      * intros j b c Hj Hc Hin. rewrite Hchain1 in Hj.
        assert (j < length (file_blocks st n))%nat as Hjl
          by (unfold offset_of in *; geometry; lia).
        rewrite lookup_app_l in Hj by done.
        rewrite Hbd1 by (by eapply list_elem_of_lookup_2).
        by apply (Hw j b c).
      * intros j b c Hj Hc Hout.
        rewrite Hbd1 by (eapply list_elem_of_lookup_2; by apply Hold).
        by apply (Hk j b c).
Qed.

End fwrite_grow.

Lemma grow_progress_start st n (i : nat) cb cc buf :
  file_grow_ok st n -> file_blocks st n !! i = Some cb -> 0 <= cc <= NUMBER_OF_BYTES_BLOCK ->
  grow_progress st n (offset_of i cc) buf st 0 cb cc 0.
Proof.
  intros Hg Hi Hcc. split; try done.
  - unfold bytes_past. lia.
  - exists []. by rewrite app_nil_r.
  - exists i. split; [done|lia].
  - by left.
  - intros j b c _ _ ?. lia.
Qed.

Lemma take_at_Z (l : list Z) r :
  0 <= r <= Z.of_nat (length l) ->
  (fun j => at_Z 0 l j) <$> seqZ 0 r = take (Z.to_nat r) l.
Proof.
  intros Hr. rewrite <- (fmap_seqZ_at_Z (take (Z.to_nat r) l)).
  rewrite length_take. replace (Z.of_nat (Z.to_nat r `min` length l)) with r by lia.
  apply fmap_seqZ_ext. intros j Hj. unfold at_Z. destruct (j <? 0); [done|].
  by rewrite lookup_take_lt by lia.
Qed.

(** What [ssfs_fwrite] does to a file that can grow. *)
Lemma ssfs_fwrite_bytes (st : sfs_state) (fileID : Z) (buf : list Z) (i : nat) :
  let f := fd_at (open_file_table st) fileID in
  let n := i_node_number (entry f) in
  let pos := offset_of i (c_ptr (write_pointer f)) in
  let L := Z.of_nat (length buf) in
  name (entry f) <> EmptyString ->
  file_grow_ok st n ->
  file_blocks st n !! i = Some (block (write_pointer f)) ->
  0 <= c_ptr (write_pointer f) <= NUMBER_OF_BYTES_BLOCK ->
  exists r st' news (i' : nat),
    let f' := fd_at (open_file_table st') fileID in
    ssfs_fwrite st fileID buf = Some (r, st')
    /\ 0 <= r <= L
    /\ file_blocks st' n = file_blocks st n ++ news
    /\ Forall (fun b => get_bit_map (free_bit_map (file_system st)) b = 1) news
    /\ file_bytes st' n pos r = take (Z.to_nat r) buf
    /\ (forall off,
          0 <= off < NUMBER_OF_BYTES_BLOCK * Z.of_nat (length (file_blocks st n)) ->
          ~ (pos <= off < pos + r) -> file_byte st' n off = file_byte st n off)
    /\ size (node_of (file_system st') n)
       = size (node_of (file_system st) n) + bytes_past pos (end_of_file st n) (pos + r)
    /\ entry f' = entry f /\ read_pointer f' = read_pointer f
    /\ file_blocks st' n !! i' = Some (block (write_pointer f'))
    /\ 0 <= c_ptr (write_pointer f') <= NUMBER_OF_BYTES_BLOCK
    /\ offset_of i' (c_ptr (write_pointer f')) = pos + r
    /\ (news <> [] -> S i' = length (file_blocks st' n))
    /\ (r < L ->
        c_ptr (write_pointer f') = NUMBER_OF_BYTES_BLOCK
        /\ S i' = length (file_blocks st' n))
    /\ file_grow_ok st' n.
Proof.
  intros f n pos L Hname Hgrow Hi Hcc.
  assert (0 <= pos) as Hpos0 by (unfold pos, offset_of; geometry; lia).
  destruct buf as [|x rest].
  { exists 0, st, [], i. cbv zeta. subst L. cbn [length]. change (Z.of_nat 0) with 0.
    rewrite Z.add_0_r, app_nil_r. split; [done|]. split; [done|]. split; [done|].
    split; [done|]. split; [done|]. split; [done|].
    split; [unfold bytes_past; lia|]. split; [done|]. split; [done|]. split; [done|].
    split; [done|]. split; [done|]. split; [done|]. split; [lia|done]. }
  set (buf := x :: rest) in *.
  pose proof (grow_progress_start st n i _ _ buf Hgrow Hi Hcc) as Hgp0. fold f pos in Hgp0.
  destruct (fwrite_fill_grows st fileID n eq_refl Hgrow buf pos (S (length buf)) buf st 0
              (block (write_pointer f)) (c_ptr (write_pointer f)) 0 Hgp0)
    as (st1 & nb' & cb' & cc' & bp' & Hres & Hgp1 & Hbp & Hshort); [done|done|lia|].
  fold L in Hbp, Hshort.
  unfold ssfs_fwrite. fold buf. cbv beta iota. fold f n. rewrite Hres.
  set (st2 := put_blocks st1 1 BLOCKS_I_NODE_FILE _).
  destruct Hgp1 as [Ht1 Hgrow1 Hcc1 Hbp1 Hsize1 Hfree1 (news & Hnews & Hnewsfree)
                      (i' & Hi' & Hoff') Hphase1 Hw1 Hk1].
  assert (fd_at (open_file_table st2) fileID = f) as Hf2.
  { unfold st2. by rewrite open_file_table_put_blocks, Ht1. }
  rewrite Hf2.
  set (st' := set_fd st2 fileID _).
  assert (file_system st' = file_system st1) as Hfs'.
  { unfold st', st2. by rewrite file_system_set_fd, file_system_put_blocks. }
  assert (forall b, FIRST_DATA_BLOCK <= b -> disk st' !! b = disk st1 !! b) as Hdisk'.
  { intros b Hb. unfold st', st2. rewrite disk_set_fd.
    apply disk_put_blocks_other. geometry. lia. }
  assert (fd_at (open_file_table st') fileID
          = mk_fd (entry f) (read_pointer f) (mk_file_pointer cb' cc')) as Hf'.
  { unfold st'. apply fd_at_set_fd_same. unfold st2.
    rewrite open_file_table_put_blocks, Ht1. by apply fd_at_in_range. }
  clearbody st'. clear Hf2. clearbody st2.
  pose proof Hgrow1 as [Hok1 Hdense1 Hused1 [Hrb1 Hri1] Hsized1].
  pose proof Hok1 as [Hchain1 Hrange1 Hlen1 Hind1 Hapart1 Hbit1].
  assert (disk_sized st') as Hsized'.
  { intros b Hb. unfold block_data, read_blocks. rewrite Hdisk' by lia. by apply Hsized1. }
  destruct (file_grow_ok_frame st1 st' n Hgrow1) as [Hchain' Hgrow']; rewrite ?Hfs'; try done.
  { apply (chain_size _ _ Hchain1). }
  { intros Hne. apply Hdisk'. specialize (Hri1 Hne). lia. }
  assert (forall b, b ∈ file_blocks st1 n -> block_data st' b = block_data st1 b) as Hbd.
  { intros b Hb. unfold block_data, read_blocks. rewrite Hdisk'; [done|].
    rewrite Forall_forall in Hrb1. specialize (Hrb1 b Hb). lia. }
  assert (i' < length (file_blocks st1 n))%nat as Hil' by (by eapply lookup_lt_Some).
  assert (forall off, 0 <= off < NUMBER_OF_BYTES_BLOCK * Z.of_nat (length (file_blocks st1 n)) ->
            exists (j : nat) b c,
              off = offset_of j c /\ 0 <= c < NUMBER_OF_BYTES_BLOCK
              /\ file_blocks st1 n !! j = Some b
              /\ file_byte st' n off = at_Z 0 (block_data st1 b) c) as Hdecomp.
  { intros off Hoff. destruct (offset_of_div_mod off) as [Hdm Hm]; [lia|].
    set (j := Z.to_nat (off / NUMBER_OF_BYTES_BLOCK)) in *.
    set (c := off `mod` NUMBER_OF_BYTES_BLOCK) in *.
    assert (j < length (file_blocks st1 n))%nat as Hj by (unfold offset_of in Hdm; geometry; lia).
    destruct (lookup_lt_is_Some_2 _ _ Hj) as [b Hb].
    exists j, b, c. split; [done|]. split; [done|]. split; [done|].
    rewrite <- Hdm. rewrite (file_byte_in_block st' n j b c) by (by rewrite ?Hchain').
    f_equal. apply Hbd. by eapply list_elem_of_lookup_2. }
  assert (pos + bp' <= NUMBER_OF_BYTES_BLOCK * Z.of_nat (length (file_blocks st1 n))) as Hend.
  { unfold offset_of in Hoff'. geometry. lia. }
  exists bp', st', news, i'. cbv zeta.
  rewrite Hf'. cbn [entry read_pointer write_pointer block c_ptr]. rewrite Hchain'.
  split; [done|]. split; [lia|]. split; [done|]. split; [done|].
  split.
  { rewrite <- (take_at_Z buf bp') by (fold L; lia).
    unfold file_bytes. apply fmap_seqZ_ext. intros j Hj.
    destruct (Hdecomp (pos + j)) as (jj & b & c & Hjc & Hc & Hb & ->); [lia|].
    rewrite (Hw1 jj b c Hb Hc) by lia. f_equal. lia. }
  split.
  { intros off Hoff Hout.
    destruct (Hdecomp off) as (jj & b & c & Hjc & Hc & Hb & ->).
    { rewrite Hnews, length_app. geometry. lia. }
    assert (jj < length (file_blocks st n))%nat as Hjl
      by (subst off; unfold offset_of in Hoff; geometry; lia).
    rewrite Hnews, lookup_app_l in Hb by done.
    rewrite (Hk1 jj b c Hb Hc) by (rewrite <- Hjc; done).
    subst off. by rewrite (file_byte_in_block st n jj b c). }
  split; [by rewrite Hfs'|].
  split; [done|]. split; [done|]. split; [done|]. split; [done|]. split; [done|].
  assert (file_blocks st1 n !! (length (file_blocks st1 n) - 1)%nat = Some cb' ->
          S i' = length (file_blocks st1 n)) as Hlasti.
  { intros Hlast.
    assert (i' = (length (file_blocks st1 n) - 1)%nat)
      by (eapply NoDup_lookup; [apply (chain_NoDup _ _ Hchain1)|done..]).
    lia. }
  split.
  { intros Hne. destruct Hphase1 as [(_ & Hsame)|(_ & _ & Hlast & _)]; [|by apply Hlasti].
    rewrite Hnews in Hsame. rewrite <- (app_nil_r (file_blocks st n)) in Hsame at 2.
    apply app_inv_head in Hsame. done. }
  split; [|done].
  intros Hlt. destruct (Hshort Hlt) as [-> Hlast]. split; [done|]. by apply Hlasti.
Qed.

(** X19.  [ssfs_fwrite] on an open descriptor whose write cursor is at
    offset [pos] of a file that can grow returns the number [r] of bytes
    that it wrote, at most [length].  The blocks of the file are then
    those it had, followed by blocks that were free; the first [r] bytes
    of the buffer are at the offsets [pos .. pos + r - 1] of the file,
    and every other byte of the blocks that the file had is as it was.
    The size has grown by the number of bytes written past the end of
    file, the write cursor has advanced by [r] (and is on the last block
    when a block was appended), the read cursor has not moved, and the
    file can grow again.  Fewer than [length] bytes are written only when
    the cursor has come to the end of the last block of the file. *)
Theorem fwrite_stores_the_bytes (st : sfs_state) (fileID : Z) (buf : list Z) (i : nat) :
  let f := fd_at (open_file_table st) fileID in
  let n := i_node_number (entry f) in
  let pos := offset_of i (c_ptr (write_pointer f)) in
  let L := Z.of_nat (length buf) in
  name (entry f) <> EmptyString ->
  file_grow_ok st n ->
  file_blocks st n !! i = Some (block (write_pointer f)) ->
  0 <= c_ptr (write_pointer f) <= NUMBER_OF_BYTES_BLOCK ->
  exists r st' news (i' : nat),
    let f' := fd_at (open_file_table st') fileID in
    ssfs_fwrite st fileID buf = Some (r, st')
    /\ 0 <= r <= L
    /\ file_blocks st' n = file_blocks st n ++ news
    /\ Forall (fun b => get_bit_map (free_bit_map (file_system st)) b = 1) news
    /\ file_bytes st' n pos r = take (Z.to_nat r) buf
    /\ (forall off,
          0 <= off < NUMBER_OF_BYTES_BLOCK * Z.of_nat (length (file_blocks st n)) ->
          ~ (pos <= off < pos + r) -> file_byte st' n off = file_byte st n off)
    /\ size (node_of (file_system st') n)
       = size (node_of (file_system st) n) + bytes_past pos (end_of_file st n) (pos + r)
    /\ entry f' = entry f /\ read_pointer f' = read_pointer f
    /\ file_blocks st' n !! i' = Some (block (write_pointer f'))
    /\ 0 <= c_ptr (write_pointer f') <= NUMBER_OF_BYTES_BLOCK
    /\ offset_of i' (c_ptr (write_pointer f')) = pos + r
    /\ (news <> [] -> S i' = length (file_blocks st' n))
    /\ (r < L ->
        c_ptr (write_pointer f') = NUMBER_OF_BYTES_BLOCK
        /\ S i' = length (file_blocks st' n))
    /\ file_grow_ok st' n.
Proof. exact (ssfs_fwrite_bytes st fileID buf i). Qed.

Lemma length_file_blocks_le st n :
  node_ok (node_of (file_system st) n) ->
  Z.of_nat (length (file_blocks st n)) <= NUMBER_OF_POINTERS + POINTERS_IND_BLOCK.
Proof.
  intros Hnode. pose proof (file_blocks_cases st n) as H. cbv zeta in H.
  pose proof (length_nonzero_prefix (pointer (node_of (file_system st) n))).
  pose proof (length_nonzero_prefix
                (read_ind_node_block st (ind_pointer (node_of (file_system st) n)))).
  pose proof (length_read_ind_node_block st (ind_pointer (node_of (file_system st) n))) as Hl.
  unfold node_ok in Hnode.
  change (Z.to_nat POINTERS_IND_BLOCK) with 256%nat in Hl.
  change (Z.to_nat NUMBER_OF_POINTERS) with 14%nat in Hnode.
  destruct H as [[-> _]|[-> _]]; rewrite ?length_app; geometry; lia.
Qed.

Lemma file_chain_ok_set_fd st i x n : file_chain_ok st n -> file_chain_ok (set_fd st i x) n.
Proof. intros [H1 H2 H3 H4]. split; [exact H1|exact H2|exact H3|exact H4]. Qed.

(** X20.  What is written is read back, whether the file grows or not:
    for an open descriptor whose write cursor is at offset [pos], not past
    the end of file, of a file that can grow and whose size is the offset
    of its end of file, [ssfs_fwrite] returns the number [r] of bytes it
    wrote and leaves a file whose size is again the offset of its end of
    file, the larger of the old one and [pos + r]; then [ssfs_frseek] to
    [pos] succeeds, and [ssfs_fread] of [r] bytes returns the first [r]
    bytes of the buffer. *)
Theorem fwrite_frseek_fread_round_trip
    (st : sfs_state) (fileID : Z) (buf : list Z) (i : nat) :
  let f := fd_at (open_file_table st) fileID in
  let n := i_node_number (entry f) in
  let pos := offset_of i (c_ptr (write_pointer f)) in
  let L := Z.of_nat (length buf) in
  name (entry f) <> EmptyString ->
  file_grow_ok st n ->
  file_blocks st n !! i = Some (block (write_pointer f)) ->
  0 <= c_ptr (write_pointer f) <= NUMBER_OF_BYTES_BLOCK ->
  size (node_of (file_system st) n) = end_of_file st n ->
  pos <= end_of_file st n ->
  exists r st1,
    ssfs_fwrite st fileID buf = Some (r, st1)
    /\ 0 <= r <= L
    /\ size (node_of (file_system st1) n) = end_of_file st1 n
    /\ end_of_file st1 n = Z.max (end_of_file st n) (pos + r)
    /\ (0 < r ->
        exists st2 st3,
          ssfs_frseek st1 fileID pos = Some (0, st2)
          /\ ssfs_fread st2 fileID r = Some (r, take (Z.to_nat r) buf, st3)).
Proof.
  intros f n pos L Hname Hgrow Hi Hcc Hsz Hpos.
  destruct (ssfs_fwrite_bytes st fileID buf i Hname Hgrow Hi Hcc)
    as (r & st1 & news & i' & Hw).
  cbv zeta in Hw. fold f n pos L in Hw.
  destruct Hw as (Hres & Hr & Hblocks & _ & Hbytes & _ & Hsize & Hentry & Hrp & Hi' & Hcc'
                  & Hoff' & Hnewlast & _ & Hgrow1).
  set (f1 := fd_at (open_file_table st1) fileID) in *.
  pose proof Hgrow as [[Hchain _ _ _ _ _] _ _ _ _].
  pose proof Hgrow1 as [[Hchain1 _ _ _ _ _] Hdense1 _ _ _].
  pose proof (get_end_char_range st n (chain_size _ _ Hchain)) as Hlc.
  pose proof (lookup_lt_Some _ _ _ Hi) as Hil.
  pose proof (lookup_lt_Some _ _ _ Hi') as Hil'.
  assert (size (node_of (file_system st1) n) = Z.max (end_of_file st n) (pos + r)
          /\ NUMBER_OF_BYTES_BLOCK * (Z.of_nat (length (file_blocks st1 n)) - 1)
             <= size (node_of (file_system st1) n)
             <= NUMBER_OF_BYTES_BLOCK * Z.of_nat (length (file_blocks st1 n))) as [Hsz1 Hin1].
  { rewrite Hsize, Hsz. rewrite Hblocks, length_app in Hil' |- *.
    unfold bytes_past, end_of_file, offset_of in *.
    destruct news as [|y news].
    - cbn [length] in *. geometry. lia.
    - specialize (Hnewlast ltac:(done)). rewrite Hblocks, length_app in Hnewlast.
      cbn [length] in *. geometry. lia. }
  assert (end_of_file st1 n = size (node_of (file_system st1) n)) as Heof1.
  { apply end_of_file_size; cbv zeta; [done|]. pose proof (chain_size _ _ Hchain1). done. }
  exists r, st1. split; [done|]. split; [done|]. split; [done|].
  split; [by rewrite Heof1|].
  intros Hrpos.
  assert (0 <= pos) as Hpos0 by (unfold pos, offset_of; geometry; lia).
  assert (pos + r <= NUMBER_OF_BYTES_BLOCK * Z.of_nat (length (file_blocks st1 n))) as Hend.
  { unfold offset_of in Hoff'. geometry. lia. }
  pose proof (length_file_blocks_le st1 n (chain_node_ok _ _ Hchain1)) as Hcap.
  assert (i_node_number (entry f1) = n) as Hn1 by (by rewrite Hentry).
  destruct (seek_in_file st1 fileID pos) as [Hseek _].
  { fold f1. by rewrite Hn1. }
  { fold f1. by rewrite Hn1. }
  { geometry. lia. }
  cbv zeta in Hseek. fold f1 in Hseek. rewrite Hn1 in Hseek.
  destruct Hseek as (b & Hb & Hbpos & Hsb & Hsc); [split; lia|].
  destruct (offset_of_div_mod pos Hpos0) as [Hdm Hm].
  set (j := Z.to_nat (pos / NUMBER_OF_BYTES_BLOCK)) in *.
  set (c := pos `mod` NUMBER_OF_BYTES_BLOCK) in *.
  set (st2 := set_fd st1 fileID (mk_fd (entry f1) (mk_file_pointer b c) (write_pointer f1))).
  assert (ssfs_frseek st1 fileID pos = Some (0, st2)) as Hseek2.
  { unfold ssfs_frseek. rewrite Hsb, Hsc.
    destruct (Z.ltb_spec b 0) as [?|_]; [lia|].
    destruct (Z.ltb_spec c 0) as [?|_]; [lia|]. done. }
  assert (name (entry f1) <> EmptyString) as Hname1 by (by rewrite Hentry).
  assert (fd_at (open_file_table st2) fileID
          = mk_fd (entry f1) (mk_file_pointer b c) (write_pointer f1)) as Hf2.
  { unfold st2. apply fd_at_set_fd_same. by apply fd_at_in_range. }
  destruct (ssfs_fread_bytes st2 fileID r j) as (st3 & _ & Hread & _).
  { rewrite Hf2. done. }
  { rewrite Hf2. cbn [entry]. rewrite Hn1. by apply file_chain_ok_set_fd. }
  { rewrite Hf2. cbn [entry read_pointer block]. rewrite Hn1. exact Hb. }
  { rewrite Hf2. cbn [read_pointer c_ptr]. lia. }
  rewrite Hf2 in Hread. cbn [entry read_pointer c_ptr] in Hread. rewrite Hn1, Hdm in Hread.
  change (end_of_file st2 n) with (end_of_file st1 n) in Hread.
  change (file_bytes st2 n pos) with (file_bytes st1 n pos) in Hread.
  rewrite Heof1, Hsz1 in Hread.
  replace (Z.max 0 (Z.min r (Z.max (end_of_file st n) (pos + r) - pos))) with r in Hread by lia.
  rewrite Hbytes in Hread.
  exists st2, st3. done.
Qed.

Lemma file_grow_ok_st_created : file_grow_ok st_created 5.
Proof.
  split.
  - exact file_write_ok_st_created.
  - split.
    + decide_by_computation.
    + intros H. exfalso. apply H. vm_compute. reflexivity.
    + intros H. exfalso. apply H. vm_compute. reflexivity.
  - decide_by_computation.
  - split; [decide_by_computation|].
    intros H. exfalso. apply H. vm_compute. reflexivity.
  - unfold disk_sized. for_all_in 14 1003.
Qed.

Lemma fwrite_stores_the_bytes_witness :
  exists st',
    ssfs_fwrite st_created 0 (pattern 3000) = Some (3000, st')
    /\ file_bytes st' 5 0 3000 = pattern 3000.
Proof.
  destruct (fwrite_stores_the_bytes st_created 0 (pattern 3000) 0)
    as (r & st' & news & i' & H1 & _ & _ & _ & H2 & _).
  - vm_compute. discriminate.
  - exact file_grow_ok_st_created.
  - vm_compute. reflexivity.
  - vm_compute. split; discriminate.
  - assert (fst <$> ssfs_fwrite st_created 0 (pattern 3000) = Some 3000) as Hr
      by (vm_compute; reflexivity).
    rewrite H1 in Hr. injection Hr as ->.
    exists st'. split; [exact H1|exact H2].
Defined.

Lemma fwrite_frseek_fread_round_trip_witness :
  exists st1 st2 st3,
    ssfs_fwrite st_created 0 (pattern 3000) = Some (3000, st1)
    /\ ssfs_frseek st1 0 0 = Some (0, st2)
    /\ ssfs_fread st2 0 3000 = Some (3000, pattern 3000, st3).
Proof.
  destruct (fwrite_frseek_fread_round_trip st_created 0 (pattern 3000) 0)
    as (r & st1 & H1 & _ & _ & _ & H2).
  - vm_compute. discriminate.
  - exact file_grow_ok_st_created.
  - vm_compute. reflexivity.
  - vm_compute. split; discriminate.
  - vm_compute. reflexivity.
  - vm_compute. discriminate.
  - assert (fst <$> ssfs_fwrite st_created 0 (pattern 3000) = Some 3000) as Hr
      by (vm_compute; reflexivity).
    rewrite H1 in Hr. injection Hr as ->.
    destruct (H2 ltac:(lia)) as (st2 & st3 & H3 & H4).
    exists st1, st2, st3. split; [exact H1|]. split; [exact H3|exact H4].
Defined.

(** ** The image of the file system on the device *)

(** *** The structures from their images *)

Lemma length_encode_u32 x : length (encode_u32 x) = 4%nat.
Proof. done. Qed.

Lemma decode_encode_i32 x rest :
  -2147483648 <= x < 2147483648 -> decode_i32 (take 4 (encode_u32 x ++ rest)) = x.
Proof.
  intros Hx. unfold decode_i32. rewrite decode_encode_u32. cbv zeta.
  destruct (Z.ltb_spec (x `mod` 4294967296) 2147483648) as [Hlt|Hge].
  - destruct (decide (0 <= x)) as [H0|H0]; [apply Z.mod_small; lia|].
    exfalso. rewrite <- (Z.mod_add x 1) in Hlt by lia. rewrite Z.mod_small in Hlt; lia.
  - destruct (decide (0 <= x)) as [H0|H0].
    + rewrite Z.mod_small in Hge; lia.
    + rewrite <- (Z.mod_add x 1) by lia. rewrite Z.mod_small; lia.
Qed.

Lemma decode_pointers_app l rest :
  Forall u32_ok l ->
  decode_pointers (length l) (flat_map encode_u32 l ++ rest) = l.
Proof.
  induction l as [|x l IH]; intros Hl; [done|].
  apply Forall_cons in Hl as [Hx Hl].
  cbn [length decode_pointers flat_map]. rewrite <- app_assoc.
  rewrite decode_encode_u32. rewrite Z.mod_small by exact Hx. f_equal.
  rewrite drop_app_length' by done. by apply IH.
Qed.

Lemma length_encode_node nd :
  length (pointer nd) = Z.to_nat NUMBER_OF_POINTERS -> length (encode_node nd) = 64%nat.
Proof.
  intros H. unfold encode_node. rewrite !length_app, length_encode_pointers, H. done.
Qed.

Lemma decode_encode_node nd : node_on_disk nd -> decode_node (encode_node nd) = nd.
Proof.
  intros [Hs Hl Hp Hi]. unfold decode_node, encode_node. destruct nd as [sz p ind].
  cbn [size pointer ind_pointer] in *. f_equal.
  - by apply decode_encode_i32.
  - rewrite drop_app_length' by done. rewrite <- Hl. by apply decode_pointers_app.
  - rewrite app_assoc. rewrite drop_app_length'.
    + rewrite <- (app_nil_r (encode_u32 ind)). rewrite decode_encode_u32.
      by apply Z.mod_small.
    + rewrite length_app, length_encode_pointers, Hl. done.
Qed.

Lemma decode_nodes_app l rest :
  Forall node_on_disk l ->
  decode_nodes (length l) (flat_map encode_node l ++ rest) = l.
Proof.
  induction l as [|nd l IH]; intros Hl; [done|].
  apply Forall_cons in Hl as [Hnd Hl].
  pose proof (length_encode_node nd (nd_pointers _ Hnd)) as Hlen.
  cbn [length decode_nodes flat_map]. rewrite <- app_assoc.
  change (Z.to_nat sizeof_s_node) with 64%nat.
  rewrite take_app_length', drop_app_length' by done.
  rewrite decode_encode_node by done. f_equal. by apply IH.
Qed.

Lemma length_flat_map_const {A} (g : A -> list Z) (k : nat) (l : list A) :
  Forall (fun x => length (g x) = k) l -> length (flat_map g l) = (k * length l)%nat.
Proof.
  induction 1 as [|x l Hx Hl IH]; [cbn; lia|].
  cbn [flat_map length]. rewrite length_app, Hx, IH. lia.
Qed.

Lemma pad_block_short (l : list Z) :
  (length l <= 1024)%nat -> pad_block l = l ++ replicate (1024 - length l) 0.
Proof.
  intros H. unfold pad_block, init_data_block.
  change (Z.to_nat NUMBER_OF_BYTES_BLOCK) with 1024%nat.
  rewrite take_app_ge by done. f_equal. rewrite take_replicate. f_equal. lia.
Qed.

Lemma length_pad_block l : length (pad_block l) = 1024%nat.
Proof.
  unfold pad_block, init_data_block. change (Z.to_nat NUMBER_OF_BYTES_BLOCK) with 1024%nat.
  rewrite length_take, length_app, length_replicate. lia.
Qed.

Lemma decode_encode_super_block sb :
  u32_ok (magic sb) -> u32_ok (block_size sb) -> u32_ok (num_blocks sb) ->
  u32_ok (num_i_nodes sb) ->
  length (j_node sb) = Z.to_nat NUMBER_OF_J_NODES -> Forall node_on_disk (j_node sb) ->
  decode_super_block (encode_super_block sb) = sb.
Proof.
  intros H1 H2 H3 H4 Hl Hj. destruct sb as [m bs nb ni js]. cbn [magic block_size num_blocks
    num_i_nodes j_node] in *.
  unfold encode_super_block. cbn [magic block_size num_blocks num_i_nodes j_node].
  assert (length (flat_map encode_node js) = (64 * length js)%nat) as Hlen.
  { apply length_flat_map_const. eapply Forall_impl; [exact Hj|].
    intros nd Hnd. apply length_encode_node, (nd_pointers _ Hnd). }
  change (Z.to_nat NUMBER_OF_J_NODES) with 15%nat in Hl.
  rewrite pad_block_short by (rewrite !length_app, !length_encode_u32, Hlen, Hl; lia).
  unfold decode_super_block. rewrite <- !app_assoc. f_equal.
  - rewrite decode_encode_u32. by apply Z.mod_small.
  - rewrite drop_app_length' by done. rewrite decode_encode_u32. by apply Z.mod_small.
  - rewrite (app_assoc (encode_u32 m)). rewrite drop_app_length' by done.
    rewrite decode_encode_u32. by apply Z.mod_small.
  - rewrite (app_assoc (encode_u32 m)), (app_assoc (encode_u32 m ++ encode_u32 bs)).
    rewrite drop_app_length' by done.
    rewrite decode_encode_u32. by apply Z.mod_small.
  - rewrite (app_assoc (encode_u32 m)), (app_assoc (encode_u32 m ++ encode_u32 bs)),
      (app_assoc ((encode_u32 m ++ encode_u32 bs) ++ encode_u32 nb)).
    rewrite drop_app_length' by done.
    change (Z.to_nat NUMBER_OF_J_NODES) with 15%nat. rewrite <- Hl.
    by apply decode_nodes_app.
Qed.

Lemma decode_encode_node_block b :
  length b = Z.to_nat MAX_NODE_IN_BLOCK -> Forall node_on_disk b ->
  decode_node_block (encode_node_block b) = b.
Proof.
  intros Hl Hb. unfold decode_node_block, encode_node_block.
  assert (length (flat_map encode_node b) = (64 * length b)%nat) as Hlen.
  { apply length_flat_map_const. eapply Forall_impl; [exact Hb|].
    intros nd Hnd. apply length_encode_node, (nd_pointers _ Hnd). }
  rewrite pad_block_short by (rewrite Hlen, Hl; done).
  rewrite <- Hl. by apply decode_nodes_app.
Qed.

(** The [i]-th block of a sequence of images of one block each. *)
Lemma block_of_flat_map {A} (g : A -> list Z) (l : list A) (i : nat) x :
  Forall (fun y => length (g y) = 1024%nat) l -> l !! i = Some x ->
  block_of (flat_map g l) (Z.of_nat i) = g x.
Proof.
  intros Hl. revert i. induction Hl as [|y l Hy Hl IH]; intros i Hi; [done|].
  unfold block_of in *. change (Z.to_nat NUMBER_OF_BYTES_BLOCK) with 1024%nat in *.
  cbn [flat_map]. destruct i as [|i].
  - injection Hi as ->. change (Z.to_nat (NUMBER_OF_BYTES_BLOCK * Z.of_nat 0)) with 0%nat.
    rewrite drop_0. by apply take_app_length'.
  - cbn [lookup list_lookup] in Hi. specialize (IH i Hi). rewrite <- IH.
    f_equal. replace (Z.to_nat (NUMBER_OF_BYTES_BLOCK * Z.of_nat (S i)))
      with (length (g y) + Z.to_nat (NUMBER_OF_BYTES_BLOCK * Z.of_nat i))%nat
      by (rewrite Hy; geometry; lia).
    by rewrite drop_app_add.
Qed.

Lemma fmap_seqZ_lookup {A} (g : Z -> A) (l : list A) :
  (forall (i : nat) x, l !! i = Some x -> g (Z.of_nat i) = x) ->
  g <$> seqZ 0 (Z.of_nat (length l)) = l.
Proof.
  intros H. apply list_eq. intros i. rewrite list_lookup_fmap.
  destruct (l !! i) as [x|] eqn:Hi.
  - pose proof (lookup_lt_Some _ _ _ Hi).
    rewrite (lookup_seqZ_lt 0 _ i) by lia. cbn. f_equal. rewrite Z.add_0_l. by apply H.
  - pose proof (lookup_ge_None_1 _ _ Hi).
    rewrite lookup_seqZ_ge by lia. done.
Qed.

Lemma decode_encode_node_file f :
  length f = Z.to_nat BLOCKS_I_NODE_FILE ->
  Forall (fun b => length b = Z.to_nat MAX_NODE_IN_BLOCK /\ Forall node_on_disk b) f ->
  decode_node_file (encode_node_file f) = f.
Proof.
  intros Hl Hf. unfold decode_node_file, encode_node_file.
  replace BLOCKS_I_NODE_FILE with (Z.of_nat (length f)) by (rewrite Hl; done).
  apply fmap_seqZ_lookup. intros i b Hi.
  rewrite (block_of_flat_map encode_node_block f i b).
  - rewrite Forall_lookup in Hf. destruct (Hf i b Hi). by apply decode_encode_node_block.
  - apply Forall_forall. intros y _. apply length_pad_block.
  - done.
Qed.

(** *** Names *)

Lemma char_code_ascii ch : Ascii.ascii_of_N (Z.to_N (char_code ch)) = ch.
Proof. unfold char_code. rewrite N2Z.id. apply Ascii.ascii_N_embedding. Qed.

Lemma char_code_nonzero ch : ch <> Ascii.zero -> char_code ch <> 0.
Proof.
  intros Hne H0. apply Hne. rewrite <- (char_code_ascii ch), H0. reflexivity.
Qed.

Lemma decode_chars_name s rest :
  Forall (fun ch => ch <> Ascii.zero) (String.list_ascii_of_string s) ->
  decode_chars ((char_code <$> String.list_ascii_of_string s) ++ 0 :: rest) = s.
Proof.
  induction s as [|ch s IH]; intros Hs; [done|].
  cbn [String.list_ascii_of_string] in Hs. apply Forall_cons in Hs as [Hch Hs].
  cbn [String.list_ascii_of_string fmap list_fmap app decode_chars].
  destruct (Z.eqb_spec (char_code ch) 0) as [E|_]; [by apply char_code_nonzero in E|].
  rewrite char_code_ascii. f_equal. by apply IH.
Qed.

Lemma length_list_ascii_of_string s :
  length (String.list_ascii_of_string s) = String.length s.
Proof. induction s as [|ch s IH]; [done|]. cbn. by rewrite IH. Qed.

Lemma encode_name_short s :
  (String.length s <= 20)%nat ->
  encode_name s
  = (char_code <$> String.list_ascii_of_string s) ++ replicate (21 - String.length s) 0.
Proof.
  intros Hs. unfold encode_name. change (Z.to_nat (MAX_NAME_LENGTH + 1)) with 21%nat.
  rewrite take_app_ge by (rewrite length_fmap, length_list_ascii_of_string; lia).
  rewrite length_fmap, length_list_ascii_of_string. f_equal.
  rewrite take_replicate. f_equal. lia.
Qed.

Lemma length_encode_name s : length (encode_name s) = 21%nat.
Proof.
  unfold encode_name. change (Z.to_nat (MAX_NAME_LENGTH + 1)) with 21%nat.
  rewrite length_take, length_app, length_replicate. lia.
Qed.

Lemma length_encode_dir_entry e : length (encode_dir_entry e) = 28%nat.
Proof. unfold encode_dir_entry. rewrite !length_app, length_encode_name. done. Qed.

Lemma decode_encode_dir_entry e :
  entry_on_disk e -> decode_dir_entry (encode_dir_entry e) = e.
Proof.
  intros [Hl Hc Hi]. destruct e as [s inn]. cbn [name i_node_number] in *.
  change (Z.to_nat MAX_NAME_LENGTH) with 20%nat in Hl.
  unfold decode_dir_entry, encode_dir_entry. cbn [name i_node_number]. f_equal.
  - unfold decode_name. change (Z.to_nat (MAX_NAME_LENGTH + 1)) with 21%nat.
    rewrite take_app_length' by (by rewrite length_encode_name).
    rewrite encode_name_short by done.
    destruct (21 - String.length s)%nat as [|k] eqn:Hk; [lia|].
    cbn [replicate]. by apply decode_chars_name.
  - change (Z.to_nat (MAX_NAME_LENGTH + 1) + 3)%nat with 24%nat.
    rewrite app_assoc. rewrite drop_app_length'.
    + rewrite <- (app_nil_r (encode_u32 inn)). rewrite decode_encode_u32.
      by apply Z.mod_small.
    + rewrite length_app, length_encode_name. done.
Qed.

Lemma decode_dir_entries_app l rest :
  Forall entry_on_disk l ->
  decode_dir_entries (length l) (flat_map encode_dir_entry l ++ rest) = l.
Proof.
  induction l as [|e l IH]; intros Hl; [done|].
  apply Forall_cons in Hl as [He Hl].
  cbn [length decode_dir_entries flat_map]. rewrite <- app_assoc.
  change (Z.to_nat sizeof_s_dir_entry) with 28%nat.
  rewrite take_app_length', drop_app_length' by (by rewrite length_encode_dir_entry).
  rewrite decode_encode_dir_entry by done. f_equal. by apply IH.
Qed.

Lemma decode_encode_dir d :
  length d = Z.to_nat MAX_FILES -> Forall entry_on_disk d ->
  decode_dir (encode_dir d) = d.
Proof.
  intros Hl Hd. unfold decode_dir, encode_dir.
  assert (length (flat_map encode_dir_entry d) = (28 * length d)%nat) as Hlen.
  { apply length_flat_map_const. apply Forall_forall. intros e _.
    apply length_encode_dir_entry. }
  change (Z.to_nat MAX_FILES) with 36%nat in *.
  rewrite pad_block_short by (rewrite Hlen, Hl; lia).
  rewrite <- Hl. by apply decode_dir_entries_app.
Qed.

Lemma decode_encode_bit_map m :
  length m = Z.to_nat sizeof_block_group -> decode_bit_map (encode_bit_map m) = m.
Proof.
  intros Hl. unfold decode_bit_map, encode_bit_map.
  change (Z.to_nat sizeof_block_group) with 128%nat in *.
  rewrite pad_block_short by lia. by apply take_app_length'.
Qed.

(** *** What the device holds after a dump *)

Lemma foldl_insert_lookup (a : Z) (buf : list Z) (l : list Z) :
  forall (d : gmap Z (list Z)) i,
    foldl (fun d' j => <[a + j := block_of buf j]> d') d l !! (a + i)
    = if decide (i ∈ l) then Some (block_of buf i) else d !! (a + i).
Proof.
  induction l as [|x l IH]; intros d i; cbn [foldl].
  - rewrite decide_False; [done|]. apply not_elem_of_nil.
  - rewrite IH. destruct (decide (i ∈ l)) as [Hin|Hnin].
    + rewrite decide_True; [done|]. by right.
    + destruct (decide (i = x)) as [->|Hne].
      * rewrite lookup_insert_eq. rewrite decide_True; [done|]. by left.
      * rewrite lookup_insert_ne by lia. rewrite decide_False; [done|].
        intros [?|?]%elem_of_cons; done.
Qed.

Lemma disk_put_blocks_lookup st a n buf i :
  0 <= a -> a + n <= NUMBER_OF_BLOCKS -> 0 <= i < n ->
  disk (put_blocks st a n buf) !! (a + i) = Some (block_of buf i).
Proof.
  intros Ha Hn Hi. unfold put_blocks, write_blocks. cbn [disk with_disk].
  destruct (Z.leb_spec 0 a); [|lia]. destruct (Z.leb_spec (a + n) NUMBER_OF_BLOCKS); [|lia].
  cbn [andb snd]. rewrite foldl_insert_lookup. rewrite decide_True; [done|].
  apply elem_of_seqZ. lia.
Qed.

Lemma disk_put_blocks_at st a buf :
  0 <= a < NUMBER_OF_BLOCKS -> disk (put_blocks st a 1 buf) !! a = Some (block_of buf 0).
Proof.
  intros Ha. rewrite disk_put_blocks_1, decide_True by done. apply lookup_insert_eq.
Qed.

Lemma block_of_0 (l : list Z) : length l = 1024%nat -> block_of l 0 = l.
Proof.
  intros Hl. unfold block_of. change (Z.to_nat (NUMBER_OF_BYTES_BLOCK * 0)) with 0%nat.
  rewrite drop_0. apply take_ge. rewrite Hl. done.
Qed.

Lemma disk_dump st :
  let fs := file_system st in
  let d := disk (dump_file_system_to_disk st) in
  d !! 0 = Some (encode_super_block (super_block fs))
  /\ d !! (NUMBER_OF_BLOCKS - 1) = Some (encode_bit_map (write_mask fs))
  /\ d !! (NUMBER_OF_BLOCKS - 2) = Some (encode_bit_map (free_bit_map fs))
  /\ (forall i, 0 <= i < BLOCKS_I_NODE_FILE ->
        d !! (1 + i) = Some (block_of (encode_node_file (i_node_file fs)) i))
  /\ (forall i, 0 <= i < MAX_DIRS_INCL_SHAD ->
        d !! (NUMBER_OF_BLOCKS - 2 - (i + 1)) = Some (encode_dir (at_Z [] (directory fs) i))).
Proof.
  intros fs d. subst d. unfold dump_file_system_to_disk. fold fs.
  change (seqZ 0 MAX_DIRS_INCL_SHAD) with [0; 1; 2; 3; 4]. cbn [foldl].
  split; [|split; [|split; [|split]]].
  - rewrite !disk_put_blocks_other by (geometry; lia).
    rewrite disk_put_blocks_at by (geometry; lia).
    by rewrite block_of_0 by apply length_pad_block.
  - rewrite !disk_put_blocks_other by (geometry; lia).
    rewrite disk_put_blocks_at by (geometry; lia).
    by rewrite block_of_0 by apply length_pad_block.
  - rewrite !disk_put_blocks_other by (geometry; lia).
    rewrite disk_put_blocks_at by (geometry; lia).
    by rewrite block_of_0 by apply length_pad_block.
  - intros i Hi. rewrite !disk_put_blocks_other by (geometry; lia).
    apply disk_put_blocks_lookup; geometry; lia.
  - intros i Hi.
    assert (i = 0 \/ i = 1 \/ i = 2 \/ i = 3 \/ i = 4) as Hcases by (geometry; lia).
    destruct Hcases as [->|[->|[->|[->| ->]]]];
      rewrite ?disk_put_blocks_other by (geometry; lia);
      rewrite disk_put_blocks_at by (geometry; lia);
      by rewrite block_of_0 by apply length_pad_block.
Qed.

(** *** Loading what was dumped *)

Lemma decode_node_file_read (d : gmap Z (list Z)) f :
  length f = Z.to_nat BLOCKS_I_NODE_FILE ->
  Forall (fun b => length b = Z.to_nat MAX_NODE_IN_BLOCK /\ Forall node_on_disk b) f ->
  (forall i, 0 <= i < BLOCKS_I_NODE_FILE ->
     d !! (1 + i) = Some (block_of (encode_node_file f) i)) ->
  decode_node_file
    (flat_map (fun i => default init_data_block (d !! (1 + i))) (seqZ 0 BLOCKS_I_NODE_FILE))
  = f.
Proof.
  intros Hl Hf Hd. unfold decode_node_file.
  change (Z.to_nat BLOCKS_I_NODE_FILE) with 13%nat in Hl.
  assert (forall (i : nat) b, f !! i = Some b ->
            default init_data_block (d !! (1 + Z.of_nat i)) = encode_node_block b) as Hblock.
  { intros i b Hi. pose proof (lookup_lt_Some _ _ _ Hi).
    rewrite Hd by (geometry; lia). cbn [default from_option id].
    apply (block_of_flat_map encode_node_block f i b); [|done].
    apply Forall_forall. intros y _. apply length_pad_block. }
  set (X := flat_map _ (seqZ 0 BLOCKS_I_NODE_FILE)).
  pose proof (fmap_seqZ_lookup (fun i => decode_node_block (block_of X i)) f) as Hgen.
  rewrite Hl in Hgen. apply Hgen. clear Hgen. subst X. intros i b Hi. pose proof (lookup_lt_Some _ _ _ Hi) as Hil.
  rewrite (block_of_flat_map _ (seqZ 0 BLOCKS_I_NODE_FILE) i (Z.of_nat i)).
  - rewrite (Hblock i b Hi). rewrite Forall_lookup in Hf. destruct (Hf i b Hi).
    by apply decode_encode_node_block.
  - apply Forall_forall. intros y [Hy1 Hy2]%elem_of_seqZ.
    destruct (lookup_lt_is_Some_2 f (Z.to_nat y)) as [b' Hb']; [geometry; lia|].
    rewrite <- (Z2Nat.id y) by lia. rewrite (Hblock _ b' Hb'). apply length_pad_block.
  - by rewrite lookup_seqZ_lt by (geometry; lia).
Qed.

(** A state whose device holds, in the blocks of the image, what a dump of
    [st] wrote there: [load_file_system_from_disk] gives the file system
    of [st]. *)
Lemma load_after_dump st st2 :
  fs_on_disk (file_system st) ->
  (forall b, meta_block b -> disk st2 !! b = disk (dump_file_system_to_disk st) !! b) ->
  file_system (load_file_system_from_disk st2) = file_system st.
Proof.
  intros [H1 H2 H3 H4 Hjl Hj Hil Hi Hdl Hd Hfl Hwl] Hdisk.
  destruct (disk_dump st) as (D0 & D1 & D2 & D3 & D4).
  unfold load_file_system_from_disk. rewrite file_system_with_fs.
  destruct (file_system st) as [sb inf dirs fbm wm].
  cbn [super_block i_node_file directory free_bit_map write_mask] in *.
  f_equal.
  - rewrite read_blocks_in_range by (geometry; lia).
    rewrite Hdisk by (by left). rewrite D0. cbn [snd default from_option id].
    by apply decode_encode_super_block.
  - unfold read_blocks_n.
    destruct (Z.leb_spec 0 1); [|lia].
    destruct (Z.leb_spec (1 + BLOCKS_I_NODE_FILE) NUMBER_OF_BLOCKS); [|geometry; lia].
    cbn [andb snd]. apply decode_node_file_read; [done|done|].
    intros i Hi'. rewrite Hdisk by (right; left; geometry; lia). by apply D3.
  - change (Z.to_nat MAX_DIRS_INCL_SHAD) with 5%nat in Hdl.
    replace MAX_DIRS_INCL_SHAD with (Z.of_nat (length dirs)) by (rewrite Hdl; done).
    apply fmap_seqZ_lookup. intros i d Hid. pose proof (lookup_lt_Some _ _ _ Hid) as Hil'.
    rewrite read_blocks_in_range by (geometry; lia).
    rewrite Hdisk by (right; right; geometry; lia).
    rewrite D4 by (geometry; lia). cbn [snd default from_option id].
    rewrite at_Z_nat, Hid. cbn [default from_option id].
    rewrite Forall_lookup in Hd. destruct (Hd i d Hid). by apply decode_encode_dir.
  - rewrite read_blocks_in_range by (geometry; lia).
    rewrite Hdisk by (right; right; geometry; lia). rewrite D2.
    cbn [snd default from_option id]. by apply decode_encode_bit_map.
  - rewrite read_blocks_in_range by (geometry; lia).
    rewrite Hdisk by (right; right; geometry; lia). rewrite D1.
    cbn [snd default from_option id]. by apply decode_encode_bit_map.
Qed.

(** X21.  What [dump_file_system_to_disk] writes, [mkssfs(0)] reads back:
    when the values of [file_system] fit their C types and the blocks of
    the image of the file system (block 0, the blocks of the i-node file,
    the directories and the two maps) hold what the dump wrote, whatever
    has become of the rest of the state, [mkssfs(0)] sets [file_system] to
    what it was at the dump, closes every descriptor and leaves the device
    as it is. *)
Theorem mkssfs_loads_what_was_dumped (st st2 : sfs_state) :
  fs_on_disk (file_system st) ->
  (forall b, meta_block b -> disk st2 !! b = disk (dump_file_system_to_disk st) !! b) ->
  file_system (mkssfs_existing st2) = file_system st
  /\ open_file_table (mkssfs_existing st2) = init_open_file_table
  /\ disk (mkssfs_existing st2) = disk st2.
Proof.
  intros Hfs Hdisk. split; [|done].
  exact (load_after_dump st st2 Hfs Hdisk).
Qed.

Lemma u32_ok_b_correct x : u32_ok_b x = true -> u32_ok x.
Proof. unfold u32_ok_b, u32_ok. intros [H1 H2]%andb_prop. lia. Qed.

Lemma forallb_Forall {A} (p : A -> bool) (P : A -> Prop) (l : list A) :
  (forall x, p x = true -> P x) -> forallb p l = true -> Forall P l.
Proof.
  intros Hp. induction l as [|x l IH]; [constructor|].
  cbn [forallb]. intros [Hx Hl]%andb_prop. constructor; auto.
Qed.

Lemma node_on_disk_b_correct nd : node_on_disk_b nd = true -> node_on_disk nd.
Proof.
  unfold node_on_disk_b.
  intros [[[[H1 H2]%andb_prop H3]%andb_prop H4]%andb_prop H5]%andb_prop.
  split.
  - lia.
  - by apply Nat.eqb_eq.
  - eapply forallb_Forall; [apply u32_ok_b_correct|done].
  - by apply u32_ok_b_correct.
Qed.

Lemma entry_on_disk_b_correct e : entry_on_disk_b e = true -> entry_on_disk e.
Proof.
  unfold entry_on_disk_b. intros [[H1 H2]%andb_prop H3]%andb_prop. split.
  - by apply Nat.leb_le.
  - eapply forallb_Forall; [|exact H2]. intros ch Hch ->. by rewrite Ascii.eqb_refl in Hch.
  - by apply u32_ok_b_correct.
Qed.

Lemma fs_on_disk_b_correct fs : fs_on_disk_b fs = true -> fs_on_disk fs.
Proof.
  unfold fs_on_disk_b.
  intros [[[[[[[[[[[H1 H2]%andb_prop H3]%andb_prop H4]%andb_prop H5]%andb_prop H6]%andb_prop
    H7]%andb_prop H8]%andb_prop H9]%andb_prop H10]%andb_prop H11]%andb_prop H12]%andb_prop.
  split; try (by apply u32_ok_b_correct); try (by apply Nat.eqb_eq).
  - eapply forallb_Forall; [apply node_on_disk_b_correct|done].
  - eapply forallb_Forall; [|exact H8]. intros b [Hb1 Hb2]%andb_prop. split.
    + by apply Nat.eqb_eq.
    + eapply forallb_Forall; [apply node_on_disk_b_correct|done].
  - eapply forallb_Forall; [|exact H10]. intros d [Hd1 Hd2]%andb_prop. split.
    + by apply Nat.eqb_eq.
    + eapply forallb_Forall; [apply entry_on_disk_b_correct|done].
Qed.

Lemma disk_restarted st : disk (restarted st) = disk st.
Proof. done. Qed.

Lemma mkssfs_loads_what_was_dumped_witness :
  file_system (mkssfs_existing (restarted (dump_file_system_to_disk st_two_blocks)))
  = file_system st_two_blocks.
Proof.
  refine (proj1 (mkssfs_loads_what_was_dumped st_two_blocks
                   (restarted (dump_file_system_to_disk st_two_blocks)) _ _)).
  - apply fs_on_disk_b_correct. vm_compute. reflexivity.
  - intros b _. by rewrite disk_restarted.
Defined.

(** ** The walkers of a file *)

Lemma walk_drop st n :
  file_chain_ok st n ->
  forall fuel (i : nat) b,
    file_blocks st n !! i = Some b -> (length (file_blocks st n) - i <= fuel)%nat ->
    walk fuel st n b = drop i (file_blocks st n).
Proof.
  intros Hchain. induction fuel as [|fuel IH]; intros i b Hi Hfuel.
  { apply lookup_lt_Some in Hi. lia. }
  cbn [walk].
  rewrite (get_next_file_block_spec st n b i (chain_node_ok _ _ Hchain)
             (chain_NoDup _ _ Hchain) Hi).
  rewrite (drop_S _ _ _ Hi). f_equal.
  destruct (file_blocks st n !! S i) as [b'|] eqn:Hb'; cbn [default from_option id].
  - pose proof (block_positive st n Hchain _ _ Hb') as Hpos.
    destruct (Z.ltb_spec b' 0) as [?|_]; [lia|]. apply IH; [done|lia].
  - cbn [Z.ltb Z.compare]. symmetry. apply drop_ge. by apply lookup_ge_None_1.
Qed.

Lemma file_blocks_first st n :
  at_Z 0 (pointer (node_of (file_system st) n)) 0 <> 0 ->
  file_blocks st n !! 0%nat = Some (at_Z 0 (pointer (node_of (file_system st) n)) 0).
Proof.
  intros Hne. unfold file_blocks.
  destruct (pointer (node_of (file_system st) n)) as [|x r]; [done|].
  change (at_Z 0 (x :: r) 0) with x in *. cbn [nonzero_prefix].
  destruct (Z.eqb_spec x 0) as [?|_]; [done|].
  by destruct (_ && _).
Qed.

(** X22.  The walkers of a file agree: following [get_next_file_block]
    from the first pointer of the i-node until it returns -1 leads
    through the blocks of the file, [get_num_file_blocks] of them, and
    the last of them is [get_last_file_block]; [get_next_file_block]
    of the last block is -1. *)
Theorem walkers_agree (st : sfs_state) (n : Z) :
  let first := at_Z 0 (pointer (node_of (file_system st) n)) 0 in
  let blocks := walk (Z.to_nat (NUMBER_OF_POINTERS + POINTERS_IND_BLOCK)) st n first in
  file_chain_ok st n -> first <> 0 ->
  blocks = file_blocks st n
  /\ get_num_file_blocks st n = Z.of_nat (length blocks)
  /\ get_last_file_block st n = List.last blocks (-1)
  /\ get_next_file_block st n (get_last_file_block st n) = Some (-1)
  /\ 0 <= get_end_char st n <= NUMBER_OF_BYTES_BLOCK.
Proof.
  intros first blocks Hchain Hfirst.
  pose proof (file_blocks_first st n Hfirst) as H0. fold first in H0.
  assert (blocks = file_blocks st n) as Hb.
  { unfold blocks. rewrite (walk_drop st n Hchain _ 0%nat first H0); [done|].
    pose proof (length_file_blocks_le st n (chain_node_ok _ _ Hchain)). lia. }
  rewrite Hb. split; [done|]. split; [apply get_num_file_blocks_spec|].
  split; [apply get_last_file_block_spec|].
  split; [|apply get_end_char_range, (chain_size _ _ Hchain)].
  assert (file_blocks st n <> []) as Hne by (intros E; by rewrite E in H0).
  pose proof (last_lookup_default (file_blocks st n) (-1) Hne) as Hlast.
  rewrite <- get_last_file_block_spec in Hlast.
  rewrite (get_next_file_block_spec st n _ _ (chain_node_ok _ _ Hchain)
             (chain_NoDup _ _ Hchain) Hlast).
  rewrite lookup_ge_None_2; [done|].
  destruct (file_blocks st n); [done|]. cbn [length]. lia.
Qed.

Lemma walkers_agree_witness :
  walk 270 st_reopened 5 14 = file_blocks st_reopened 5
  /\ get_num_file_blocks st_reopened 5 = 2.
Proof.
  destruct (walkers_agree st_reopened 5 file_chain_ok_st_reopened) as (H1 & H2 & _).
  - vm_compute. discriminate.
  - split; [exact H1|]. rewrite H2, H1. vm_compute. reflexivity.
Defined.

(** ** The empty name *)

Lemma same_name_empty_r s : same_name s EmptyString = name_empty s.
Proof. by destruct s. Qed.

(** X23.  The empty name is not refused by [ssfs_get_file_size] and
    [ssfs_remove]: it names the first unused entry of the live directory.
    When that entry holds the i-node number 0, as the entries that were
    never used or were removed do, [ssfs_get_file_size] returns the size of
    i-node 0 and [ssfs_remove] returns 0 and initialises i-node 0, which
    [get_free_i_node] hands out next. *)
Theorem the_empty_name_names_i_node_0 (st : sfs_state) (i : Z) :
  let fs := file_system st in
  first_index (fun i => name_empty (name (dir_entry fs 0 i))) 0 (Z.to_nat MAX_FILES) = Some i ->
  i_node_number (dir_entry fs 0 i) = 0 ->
  arrays_ok st ->
  ssfs_get_file_size st EmptyString = size (node_of fs 0)
  /\ exists st',
       ssfs_remove st EmptyString = (0, st')
       /\ node_of (file_system st') 0 = init_node
       /\ forall i_block, get_free_i_node (file_system st') i_block = (0, 0).
Proof.
  intros fs Hi Hinn Hok.
  assert (first_index (fun i => same_name (name (dir_entry fs 0 i)) EmptyString)
            0 (Z.to_nat MAX_FILES) = Some i) as Hfi.
  { rewrite <- Hi. apply first_index_ext. intros j _. apply same_name_empty_r. }
  split.
  { unfold ssfs_get_file_size. fold fs. by rewrite Hfi, Hinn. }
  rewrite (ssfs_remove_found st EmptyString i Hfi).
  eexists. split; [reflexivity|].
  destruct (rm_fd_spec st EmptyString) as (Hfs & _).
  pose proof (rm_file_from_disk_spec 0 i (rm_fd st EmptyString)) as Hspec.
  cbv zeta in Hspec. rewrite Hfs in Hspec. fold fs in Hspec. rewrite Hinn in Hspec.
  destruct Hspec as (_ & _ & _ & Hnode & _).
  destruct (arrays_ok_in_range st 0 0 Hok) as (Hr1 & Hr2 & _); [geometry; lia..|].
  specialize (Hnode (conj Hr1 Hr2)).
  rewrite file_system_dump, file_system_with_fs.
  set (fs' := file_system (snd (rm_file_from_disk 0 i (rm_fd st EmptyString)))) in *.
  assert (node_of (set_dir_entry fs' 0 i init_dir_entry) 0 = init_node) as Hnode' by exact Hnode.
  split; [done|]. intros i_block.
  set (fs'' := set_dir_entry fs' 0 i init_dir_entry) in *.
  destruct (get_free_i_node_spec fs'' i_block) as (Hnone & _ & Hsome).
  assert (i_node_free fs'' 0 0) as Hfree.
  { unfold i_node_free. change (get_i_node fs'' 0 0) with (node_of fs'' 0). by rewrite Hnode'. }
  destruct (get_free_i_node fs'' i_block) as [r b] eqn:Hr. cbn [fst snd] in *.
  assert (r <> -1) as Hr1'.
  { intros ->. destruct Hnone as [Hnone _]. apply (Hnone eq_refl 0 0); [geometry; lia..|done]. }
  destruct (Hsome Hr1') as (Hb & Hrr & _ & Hmin).
  destruct (decide (b = 0 /\ r = 0)) as [[-> ->]|Hne]; [done|].
  exfalso. apply (Hmin 0 0); [geometry; lia..| |done]. lia.
Qed.

Lemma the_empty_name_names_i_node_0_witness :
  ssfs_get_file_size mkssfs_fresh EmptyString = 0
  /\ exists st', ssfs_remove mkssfs_fresh EmptyString = (0, st')
                 /\ node_of (file_system st') 0 = init_node.
Proof.
  destruct (the_empty_name_names_i_node_0 mkssfs_fresh 0) as (H1 & st' & H2 & H3 & _).
  - vm_compute. reflexivity.
  - vm_compute. reflexivity.
  - exact arrays_ok_mkssfs_fresh.
  - split; [exact H1|]. exists st'. split; [exact H2|exact H3].
Defined.

(** ** Writing on a descriptor that is not open *)

Lemma file_blocks_nonzero st n : Forall (fun x => x <> 0) (file_blocks st n).
Proof.
  pose proof (file_blocks_cases st n) as H. cbv zeta in H.
  destruct H as [[-> _]|[-> [Hd _]]].
  - apply nonzero_prefix_nonzero.
  - apply Forall_app. split; [|apply nonzero_prefix_nonzero].
    rewrite <- Hd. apply nonzero_prefix_nonzero.
Qed.

Lemma get_last_file_block_nonzero st n : get_last_file_block st n <> 0.
Proof.
  rewrite get_last_file_block_spec. pose proof (file_blocks_nonzero st n) as H.
  induction (file_blocks st n) as [|x l IH]; [done|].
  apply Forall_cons in H as [Hx Hl]. destruct l as [|y l]; [done|]. by apply IH.
Qed.

(** X24.  [ssfs_fwrite] does not look whether the descriptor is open.  On
    a descriptor of the table that is not open (its i-node number and its
    cursors are zero) a write of up to a block returns its length and
    stores the buffer at the start of block 0 of the device, over the
    image of the super block; the file system in memory is unchanged, the
    descriptor keeps its empty name, with the write cursor advanced, and
    [ssfs_fread] on it still returns -1. *)
Theorem fwrite_on_a_closed_descriptor (st : sfs_state) (fileID : Z) (buf : list Z) :
  let L := Z.of_nat (length buf) in
  0 <= fileID < Z.of_nat (length (open_file_table st)) ->
  fd_at (open_file_table st) fileID = init_fd ->
  0 < L <= NUMBER_OF_BYTES_BLOCK ->
  length (block_data st 0) = Z.to_nat NUMBER_OF_BYTES_BLOCK ->
  exists st',
    ssfs_fwrite st fileID buf = Some (L, st')
    /\ (forall c, 0 <= c < NUMBER_OF_BYTES_BLOCK ->
          at_Z 0 (block_data st' 0) c
          = if decide (c < L) then at_Z 0 buf c else at_Z 0 (block_data st 0) c)
    /\ file_system st' = file_system st
    /\ fd_at (open_file_table st') fileID
       = mk_fd init_dir_entry init_file_pointer (mk_file_pointer 0 L)
    /\ (forall b, BLOCKS_I_NODE_FILE < b -> disk st' !! b = disk st !! b)
    /\ forall len, ssfs_fread st' fileID len = Some (-1, [], st').
Proof.
  intros L Hid Hfd HL Hlen0.
  destruct buf as [|x rest]; [unfold L in HL; cbn in HL; lia|].
  set (buf := x :: rest) in *.
  unfold ssfs_fwrite. fold buf. cbv beta iota. rewrite Hfd.
  cbn [entry i_node_number write_pointer block c_ptr init_fd init_dir_entry init_file_pointer].
  set (lb := get_last_file_block st 0). set (lc := get_end_char st 0).
  cbn [fwrite_fill]. rewrite Hfd.
  cbn [entry i_node_number init_fd init_dir_entry].
  destruct (Z.leb_spec NUMBER_OF_BYTES_BLOCK 0) as [?|_]; [geometry; lia|].
  set (data := snd (read_blocks (disk st) 0 local_buffer)).
  destruct (fwrite_chars_spec buf st 0 0 0 lb lc data 0 0 L 0) as (data' & Hchars).
  { geometry. lia. }
  { fold L. lia. }
  { destruct (Z.eqb_spec 0 lb) as [E|_]; [|done].
    exfalso. by apply (get_last_file_block_nonzero st 0). }
  pose proof (fwrite_chars_content buf st 0 0 0 lb lc data 0 0 ltac:(lia)) as Hcontent.
  cbv zeta in Hcontent. rewrite Hchars in Hcontent. cbn [fst snd] in Hcontent.
  destruct Hcontent as (Hldata & _ & Hdata).
  assert (length data = Z.to_nat NUMBER_OF_BYTES_BLOCK) as Hld by exact Hlen0.
  rewrite Hld in Hldata, Hdata.
  rewrite Hchars. rewrite inc_file_size_0.
  rewrite drop_ge by (unfold L; lia). rewrite !Z.add_0_l.
  set (st1 := put_blocks st 0 1 data').
  set (st2 := put_blocks st1 1 BLOCKS_I_NODE_FILE _).
  assert (fd_at (open_file_table st2) fileID = init_fd) as Hf2 by exact Hfd.
  rewrite Hf2. cbn [entry read_pointer init_fd].
  set (st' := set_fd st2 fileID _).
  assert (fd_at (open_file_table st') fileID
          = mk_fd init_dir_entry init_file_pointer (mk_file_pointer 0 L)) as Hf'.
  { unfold st'. by apply fd_at_set_fd_same. }
  assert (forall b, BLOCKS_I_NODE_FILE < b \/ b = 0 -> disk st' !! b = disk st1 !! b) as Hdisk'.
  { intros b Hb. unfold st', st2. rewrite disk_set_fd.
    apply disk_put_blocks_other. geometry. lia. }
  assert (block_data st' 0 = data') as Hbd.
  { unfold block_data, read_blocks. rewrite Hdisk' by (by right).
    fold (read_blocks (disk st1) 0 local_buffer). fold (block_data st1 0).
    unfold st1. rewrite block_data_put_blocks by (done || geometry; lia).
    by rewrite decide_True. }
  assert (file_system st' = file_system st) as Hfs' by done.
  clearbody st'. clearbody st2.
  exists st'. split; [done|]. split.
  { intros c Hc. rewrite Hbd, Hdata. rewrite Z.sub_0_r.
    destruct (decide (0 <= c < 0 + L /\ _)) as [H1|H1].
    - by rewrite decide_True by lia.
    - rewrite decide_False; [done|]. geometry. lia. }
  split; [done|]. split; [done|]. split.
  { intros b Hb. rewrite Hdisk' by (by left). unfold st1.
    apply disk_put_blocks_1_other. geometry. lia. }
  intros len. unfold ssfs_fread. by rewrite Hf'.
Qed.

Lemma fwrite_on_a_closed_descriptor_witness :
  exists st',
    ssfs_fwrite mkssfs_fresh 3 (pattern 100) = Some (100, st')
    /\ at_Z 0 (block_data st' 0) 1 = 1.
Proof.
  destruct (fwrite_on_a_closed_descriptor mkssfs_fresh 3 (pattern 100))
    as (st' & H1 & H2 & _).
  - vm_compute. split; [discriminate|reflexivity].
  - vm_compute. reflexivity.
  - vm_compute. split; [reflexivity|discriminate].
  - vm_compute. reflexivity.
  - exists st'. split; [exact H1|]. rewrite H2 by (geometry; lia). vm_compute. reflexivity.
Defined.
